(** * Schema 1 converters: HTML to BlockNote blocks, HTML to Markdown,
      and the folder/document tree walk.

    Shallow embedding of [scripts/schema1_to_schema2.py] and
    [scripts/schema1_to_zip.py].

    Conventions of the embedding.
    - A Python [str] is a [string]; characters are the 7-bit ASCII code
      points, and the character classes below ([\s], [\w], [\d],
      [str.lower]) are the ASCII ones (codes above 127 belong to no class
      and have no case).
    - A Python [dict] used as a record (one fixed set of keys) is a Rocq
      record.  In the input records a key that may be absent is an [option]
      field, read with [get].  In the output records every key is always
      written and an [option] field is the value of its key, [None] being
      Python's [None]; [project_dict] and its like list the keys.
      [documentsById] is a [gmap]; the two trash sets are [gset]s; the
      [current_styles] dict, whose key order is observable through
      [json.dumps], is an association list in insertion order.
    - An exception is a value of the result: [Raised] for the tokenizer,
      [None] for [int] on a digit string longer than the interpreter
      converts, and for the functions that let that [ValueError] pass:
      [natural_sort_key_result], [convert_folder_result],
      [convert_schema1_to_schema2_result].  The functions that carry the
      source's names are what these calls return when they return;
      [sort_returns] and [conversion_returns] say when that is.
    - [uuid.uuid4()] is an oracle [uuid : nat -> string] read through a
      counter that is threaded through every function that draws ids.
    - [HTMLParser.feed] is a parameter of the converters: it yields the
      handler events delivered and tells whether it raised. *)

From Stdlib Require Import String Ascii List Bool Arith NArith ZArith Lia.
From Stdlib Require Import Sorting.Sorted Sorting.Permutation.
From stdpp Require Import base strings gmap.
Import ListNotations.
Local Open Scope string_scope.
Local Open Scope list_scope.
Local Open Scope nat_scope.
Set Warnings "-register-all".

(** ** Python string primitives *)

Module Py.

Definition code (c : ascii) : N := N_of_ascii c.

Definition between (lo hi : N) (c : ascii) : bool :=
  (lo <=? code c)%N && (code c <=? hi)%N.

Definition is_char (x c : ascii) : bool := Ascii.eqb x c.

(** The double quote. *)
Definition dquote : ascii := ascii_of_nat 34.

(** [str.isspace] / regex [\s] on ASCII: TAB LF VT FF CR, FS GS RS US, SPACE. *)
Definition isspace (c : ascii) : bool :=
  between 9 13 c || between 28 32 c.

Definition isupper (c : ascii) : bool := between 65 90 c.
Definition islower (c : ascii) : bool := between 97 122 c.
Definition isalpha (c : ascii) : bool := isupper c || islower c.
(** regex [\d] and [str.isdigit] on ASCII. *)
Definition isdigit_char (c : ascii) : bool := between 48 57 c.
(** regex [\w] on ASCII. *)
Definition isword (c : ascii) : bool :=
  isalpha c || isdigit_char c || is_char "_" c.

Definition lower_char (c : ascii) : ascii :=
  if isupper c then ascii_of_N (code c + 32) else c.

Definition chars (s : string) : list ascii := list_ascii_of_string s.
Definition str (l : list ascii) : string := string_of_list_ascii l.

(** [s.lower()] *)
Definition lower (s : string) : string := str (List.map lower_char (chars s)).

(** [bool(s)] for a string *)
Definition truthy (s : string) : bool :=
  match s with EmptyString => false | _ => true end.

Fixpoint lstrip_by (p : ascii -> bool) (l : list ascii) : list ascii :=
  match l with
  | c :: l' => if p c then lstrip_by p l' else l
  | [] => []
  end.

Definition strip_by (p : ascii -> bool) (l : list ascii) : list ascii :=
  rev (lstrip_by p (rev (lstrip_by p l))).

(** [s.strip()] *)
Definition strip (s : string) : string := str (strip_by isspace (chars s)).

(** [s.strip('-')] *)
Definition strip_char (x : ascii) (s : string) : string :=
  str (strip_by (is_char x) (chars s)).

(** [sep.join(parts)] *)
Fixpoint join (sep : string) (parts : list string) : string :=
  match parts with
  | [] => EmptyString
  | [p] => p
  | p :: ps => p +:+ sep +:+ join sep ps
  end.

(** [''.join(parts)] *)
Definition concat (parts : list string) : string := String.concat EmptyString parts.

(** [s.split()] : the maximal runs of non-whitespace characters. *)
Fixpoint split_ws_go (cur : list ascii) (l : list ascii) : list string :=
  match l with
  | [] => match cur with [] => [] | _ => [str (rev cur)] end
  | c :: l' =>
      if isspace c
      then match cur with
           | [] => split_ws_go [] l'
           | _ => str (rev cur) :: split_ws_go [] l'
           end
      else split_ws_go (c :: cur) l'
  end.

Definition split_ws (s : string) : list string := split_ws_go [] (chars s).

(** [s.endswith(suffix)] *)
Definition endswith (s suffix : string) : bool :=
  let n := String.length s in
  let k := String.length suffix in
  (k <=? n) && String.eqb (substring (n - k) k s) suffix.

(** [s[:-k]] *)
Definition drop_last (k : nat) (s : string) : string :=
  substring 0 (String.length s - k) s.

(** [s.replace(a, b)] for single characters *)
Definition replace_char (a b : ascii) (s : string) : string :=
  str (List.map (fun c => if Ascii.eqb c a then b else c) (chars s)).

(** [x in s] for a single character *)
Definition contains (x : ascii) (s : string) : bool :=
  existsb (is_char x) (chars s).

(** [s.isdigit()] : non-empty and made of digits only. *)
Definition isdigit (s : string) : bool :=
  truthy s && forallb isdigit_char (chars s).

(** The number a string of decimal digits denotes. *)
Definition int_of_digits (s : string) : N :=
  fold_left (fun acc c => (acc * 10 + (code c - 48))%N) (chars s) 0%N.

(** [sys.int_info.default_max_str_digits] : the longest digit string that
    [int] converts. *)
Definition max_str_digits : nat := 4300.

(** [int(s)] for a string of decimal digits: the number it denotes, or
    [None] for the [ValueError] that [int] raises when the string has more
    than [max_str_digits] digits, leading zeros included. *)
Definition int (s : string) : option N :=
  if String.length s <=? max_str_digits then Some (int_of_digits s) else None.

(** [str(n)] for a non-negative integer. *)
Definition digit_char (d : nat) : ascii := ascii_of_nat (48 + d).

Fixpoint str_of_nat_go (fuel n : nat) (acc : list ascii) : list ascii :=
  match fuel with
  | 0 => acc
  | S fuel' =>
      let acc' := digit_char (n mod 10) :: acc in
      if n <? 10 then acc' else str_of_nat_go fuel' (n / 10) acc'
  end.

Definition str_of_nat (n : nat) : string := str (str_of_nat_go (S n) n []).

(** ['#' * n] *)
Fixpoint repeat_char (c : ascii) (n : nat) : string :=
  match n with 0 => EmptyString | S n' => String c (repeat_char c n') end.

End Py.

(** ** The fragment of Python's [re] that the scripts use

    Backtracking matcher in continuation-passing style: alternatives are
    tried left to right and repetition is greedy, as in [re].  A position
    remembers the character before it, for the one-character lookbehinds. *)

Module Re.

Inductive regex : Type :=
| Eps
| Cls (p : ascii -> bool)
| Seq (a b : regex)
| Alt (a b : regex)
| Star (a : regex)
| NotAhead (a : regex)
| Behind (p : ascii -> bool).

Definition Plus (a : regex) : regex := Seq a (Star a).
Definition Opt (a : regex) : regex := Alt a Eps.
Definition Lit (c : ascii) : regex := Cls (Py.is_char c).
Definition Not (p : ascii -> bool) : regex := Cls (fun c => negb (p c)).

Fixpoint Word (l : list ascii) : regex :=
  match l with
  | [] => Eps
  | c :: l' => Seq (Lit c) (Word l')
  end.

(** Case-insensitive literal (flag [re.I]). *)
Fixpoint WordI (l : list ascii) : regex :=
  match l with
  | [] => Eps
  | c :: l' =>
      Seq (Cls (fun x => Ascii.eqb (Py.lower_char x) (Py.lower_char c))) (WordI l')
  end.

Record pos : Type := Pos { before : option ascii; rest : list ascii }.

Definition start (l : list ascii) : pos := Pos None l.

Definition advance (p : pos) : pos :=
  match rest p with
  | [] => p
  | c :: l => Pos (Some c) l
  end.

Definition shorter (p q : pos) : bool :=
  length (rest p) <? length (rest q).

(** Text consumed between position [p] and a later position [q]. *)
Definition taken (p q : pos) : list ascii :=
  firstn (length (rest p) - length (rest q)) (rest p).

Fixpoint run (A : Type) (r : regex) (p : pos) (k : pos -> option A) {struct r}
  : option A :=
  match r with
  | Eps => k p
  | Cls c =>
      match rest p with
      | x :: l => if c x then k (Pos (Some x) l) else None
      | [] => None
      end
  | Seq a b => run A a p (fun q => run A b q k)
  | Alt a b =>
      match run A a p k with
      | Some v => Some v
      | None => run A b p k
      end
  | Star a =>
      (fix loop (fuel : nat) (p : pos) {struct fuel} : option A :=
         match fuel with
         | 0 => k p
         | S fuel' =>
             match run A a p (fun q => if shorter q p then loop fuel' q else None) with
             | Some v => Some v
             | None => k p
             end
         end) (length (rest p)) p
  | NotAhead a =>
      match run unit a p (fun _ => Some tt) with
      | Some _ => None
      | None => k p
      end
  | Behind c =>
      match before p with
      | Some x => if c x then k p else None
      | None => None
      end
  end.
Arguments run {A} r p k.

(** [pattern.match(s, pos)] : the position after the match. *)
Definition match_at (r : regex) (p : pos) : option pos := run r p Some.

(** [pattern.search(s, pos)] : where the leftmost match starts and ends. *)
Fixpoint search_go (fuel : nat) (r : regex) (p : pos) : option (pos * pos) :=
  match match_at r p with
  | Some q => Some (p, q)
  | None =>
      match fuel, rest p with
      | S fuel', _ :: _ => search_go fuel' r (advance p)
      | _, _ => None
      end
  end.

Definition search (r : regex) (p : pos) : option (pos * pos) :=
  search_go (length (rest p)) r p.

(** [re.sub(pattern, repl, s)] with a constant replacement. *)
Fixpoint sub_go (fuel : nat) (r : regex) (repl : list ascii) (p : pos)
  : list ascii :=
  match fuel with
  | 0 => []
  | S fuel' =>
      match match_at r p with
      | Some q =>
          if shorter q p then repl ++ sub_go fuel' r repl q
          else match rest p with
               | [] => repl
               | c :: _ => repl ++ c :: sub_go fuel' r repl (advance p)
               end
      | None =>
          match rest p with
          | [] => []
          | c :: _ => c :: sub_go fuel' r repl (advance p)
          end
      end
  end.

Definition sub (r : regex) (repl : string) (s : string) : string :=
  let l := Py.chars s in
  Py.str (sub_go (S (length l)) r (Py.chars repl) (start l)).

(** [re.split('(pattern)', s)] : the pieces between matches, interleaved
    with the matched texts (the pattern is one capturing group). *)
Fixpoint split_go (fuel : nat) (r : regex) (cur : list ascii) (p : pos)
  : list string :=
  match fuel with
  | 0 => [Py.str (rev cur)]
  | S fuel' =>
      match rest p with
      | [] => [Py.str (rev cur)]
      | c :: _ =>
          match match_at r p with
          | Some q =>
              if shorter q p
              then Py.str (rev cur) :: Py.str (taken p q) :: split_go fuel' r [] q
              else split_go fuel' r (c :: cur) (advance p)
          | None => split_go fuel' r (c :: cur) (advance p)
          end
      end
  end.

Definition split (r : regex) (s : string) : list string :=
  let l := Py.chars s in
  split_go (S (length l)) r [] (start l).

(** The position read through a renaming of the characters. *)
Definition rename (f : ascii -> ascii) (p : pos) : pos :=
  Pos (option_map f (before p)) (List.map f (rest p)).

(** Every character class of the expression is blind to the renaming. *)
Fixpoint blind (f : ascii -> ascii) (r : regex) : Prop :=
  match r with
  | Eps => True
  | Cls c => forall x, c (f x) = c x
  | Behind c => forall x, c (f x) = c x
  | Seq a b => blind f a /\ blind f b
  | Alt a b => blind f a /\ blind f b
  | Star a => blind f a
  | NotAhead a => blind f a
  end.

End Re.

(** ** Regular expressions of the two scripts *)

Definition hyphen : ascii := "-"%char.
Definition newline : ascii := ascii_of_nat 10.
Definition nl : string := String newline EmptyString.

(** [r'<[^>]+>'] *)
Definition re_tag : Re.regex :=
  Re.Seq (Re.Lit "<") (Re.Seq (Re.Plus (Re.Not (Py.is_char ">"))) (Re.Lit ">")).

(** [r'\n{3,}'] *)
Definition re_newlines3 : Re.regex :=
  Re.Seq (Re.Lit newline) (Re.Seq (Re.Lit newline) (Re.Plus (Re.Lit newline))).

(** [r'(\d+)'] *)
Definition re_digits : Re.regex := Re.Plus (Re.Cls Py.isdigit_char).

(** [r'[^\w\s-]'] *)
Definition re_special : Re.regex :=
  Re.Not (fun c => Py.isword c || Py.isspace c || Py.is_char hyphen c).

(** [r'\s+'] *)
Definition re_spaces : Re.regex := Re.Plus (Re.Cls Py.isspace).

(** [r'-+'] *)
Definition re_hyphens : Re.regex := Re.Plus (Re.Lit hyphen).

(** ** JSON values and [json.dumps] (default separators, [ensure_ascii]) *)

Inductive json : Type :=
| JNull
| JBool (b : bool)
| JInt (n : nat)
| JStr (s : string)
| JList (l : list json)
| JDict (d : list (string * json)).

Definition hex_digit (n : N) : ascii :=
  if (n <? 10)%N then ascii_of_N (48 + n) else ascii_of_N (87 + n).

(** One character of a JSON string literal: the short escapes, [\u00XX]
    for every other character outside [' '..'~']. *)
Definition json_escape_char (c : ascii) : list ascii :=
  let n := Py.code c in
  if Py.is_char Py.dquote c then ["\"%char; Py.dquote]
  else if Py.is_char "\" c then ["\"; "\"]%char
  else if (n =? 10)%N then ["\"; "n"]%char
  else if (n =? 13)%N then ["\"; "r"]%char
  else if (n =? 9)%N then ["\"; "t"]%char
  else if (n =? 8)%N then ["\"; "b"]%char
  else if (n =? 12)%N then ["\"; "f"]%char
  else if Py.between 32 126 c then [c]
  else ["\"; "u"; "0"; "0"; hex_digit (n / 16); hex_digit (n mod 16)]%char.

Definition json_string (s : string) : string :=
  String Py.dquote (Py.str (flat_map json_escape_char (Py.chars s)))
    +:+ String Py.dquote EmptyString.

Fixpoint json_dumps (j : json) : string :=
  match j with
  | JNull => "null"
  | JBool true => "true"
  | JBool false => "false"
  | JInt n => Py.str_of_nat n
  | JStr s => json_string s
  | JList l => "[" +:+ Py.join ", " (List.map json_dumps l) +:+ "]"
  | JDict d =>
      "{" +:+ Py.join ", "
                (List.map (fun kv => let (k, v) := kv : string * json in
                                     json_string k +:+ ": " +:+ json_dumps v) d)
          +:+ "}"
  end.

(** ** Dictionaries whose key order matters *)

Section Dict.
Context {V : Type}.

(** [d[k] = v] : an existing key keeps its place, a new key goes last. *)
Fixpoint dict_set (k : string) (v : V) (d : list (string * V)) : list (string * V) :=
  match d with
  | [] => [(k, v)]
  | (k', v') :: d' =>
      if String.eqb k k' then (k, v) :: d' else (k', v') :: dict_set k v d'
  end.

(** [d.pop(k, None)] *)
Definition dict_pop (k : string) (d : list (string * V)) : list (string * V) :=
  List.filter (fun kv => negb (String.eqb k (fst kv))) d.

(** [d.get(k)] *)
Fixpoint dict_get (k : string) (d : list (string * V)) : option V :=
  match d with
  | [] => None
  | (k', v) :: d' => if String.eqb k k' then Some v else dict_get k d'
  end.

(** [dict(pairs)] : a later pair overrides an earlier one with the same key. *)
Definition dict_of_pairs (pairs : list (string * V)) : list (string * V) :=
  fold_left (fun d kv => dict_set (fst kv) (snd kv) d) pairs [].
End Dict.

(** [x == 'literal'] for a value that may be [None]. *)
Definition is_value (x : option string) (v : string) : bool :=
  match x with Some s => String.eqb s v | None => false end.

(** [tag in (t1, ..., tn)] *)
Definition tag_in (tag : string) (tags : list string) : bool :=
  existsb (String.eqb tag) tags.

Definition heading_tags : list string := ["h1"; "h2"; "h3"; "h4"; "h5"; "h6"].

(** [int(tag[1])] : one digit, which [int] always converts. *)
Definition heading_level (tag : string) : nat :=
  N.to_nat (Py.int_of_digits (substring 1 1 tag)).

(** ** Tokenizer events *)

(** The handler calls [HTMLParser.feed] makes.  An attribute written
    without a value carries [None]. *)
Inductive Event : Type :=
| StartTag (tag : string) (attrs : list (string * option string))
| EndTag (tag : string)
| Data (data : string).

(** Outcome of [converter.feed(html)]: the events delivered to the handlers,
    and whether the call returned ([Fed]) or raised after them ([Raised]). *)
Inductive FeedResult : Type :=
| Fed (events : list Event)
| Raised (events : list Event).

Definition delivered (r : FeedResult) : list Event :=
  match r with Fed evs => evs | Raised evs => evs end.

(** [dict(attrs).get('href', '')] *)
Definition href_of (attrs : list (string * option string)) : option string :=
  match dict_get "href" (dict_of_pairs attrs) with
  | Some v => v
  | None => Some EmptyString
  end.

(** ** BlockNote content model *)

(** Values of the [current_styles] dict: [True], an href string, or the
    [None] of an [href] attribute without value. *)
Inductive StyleValue : Type :=
| SBool (b : bool)
| SStr (s : string)
| SNone.

Definition Styles : Type := list (string * StyleValue).

Definition style_of_href (h : option string) : StyleValue :=
  match h with Some s => SStr s | None => SNone end.

Record TextNode : Type := mkTextNode {
  node_type : string;
  node_text : string;
  node_styles : Styles
}.

Record Props : Type := mkProps {
  textColor : string;
  backgroundColor : string;
  textAlignment : string;
  level : option nat
}.

Record Block : Type := mkBlock {
  block_id : string;
  block_type : string;
  block_props : Props;
  block_content : list TextNode;
  block_children : list json
}.

Definition default_props : Props :=
  {| textColor := "default"; backgroundColor := "default";
     textAlignment := "left"; level := None |}.

Definition set_content (b : Block) (c : list TextNode) : Block :=
  {| block_id := block_id b; block_type := block_type b;
     block_props := block_props b; block_content := c;
     block_children := block_children b |}.

Definition set_level (b : Block) (l : nat) : Block :=
  {| block_id := block_id b; block_type := block_type b;
     block_props := {| textColor := textColor (block_props b);
                       backgroundColor := backgroundColor (block_props b);
                       textAlignment := textAlignment (block_props b);
                       level := Some l |};
     block_content := block_content b;
     block_children := block_children b |}.

Definition json_of_style (v : StyleValue) : json :=
  match v with SBool b => JBool b | SStr s => JStr s | SNone => JNull end.

Definition json_of_text_node (t : TextNode) : json :=
  JDict [("type", JStr (node_type t)); ("text", JStr (node_text t));
         ("styles", JDict (List.map (fun kv => (fst kv, json_of_style (snd kv)))
                                    (node_styles t)))].

Definition json_of_props (p : Props) : json :=
  JDict ([("textColor", JStr (textColor p));
          ("backgroundColor", JStr (backgroundColor p));
          ("textAlignment", JStr (textAlignment p))]
         ++ match level p with Some l => [("level", JInt l)] | None => [] end).

Definition json_of_block (b : Block) : json :=
  JDict [("id", JStr (block_id b)); ("type", JStr (block_type b));
         ("props", json_of_props (block_props b));
         ("content", JList (List.map json_of_text_node (block_content b)));
         ("children", JList (block_children b))].

Definition json_of_blocks (bs : list Block) : json :=
  JList (List.map json_of_block bs).

(** ** [class HTMLToBlockNoteConverter] *)

Module HTMLToBlockNoteConverter.

Record BlockNoteConverter : Type := mkConverter {
blocks : list Block;
current_block : option Block;
current_content : list TextNode;
current_styles : Styles;
pending_text : list string
}.

(** [HTMLToBlockNoteConverter()] *)
Definition new_converter : BlockNoteConverter :=
{| blocks := []; current_block := None; current_content := [];
   current_styles := []; pending_text := [] |}.

Definition set_styles (c : BlockNoteConverter) (s : Styles) : BlockNoteConverter :=
{| blocks := blocks c; current_block := current_block c;
   current_content := current_content c; current_styles := s;
   pending_text := pending_text c |}.

Section Handlers.

(** The values [uuid.uuid4()] returns, in the order of the calls. *)
Variable uuid : nat -> string.

(** [_generate_id]: the argument and the second result count the ids
    drawn so far. *)
Definition _generate_id (n : nat) : string * nat := (uuid n, S n).

Definition _create_block (block_type : string) (n : nat) : Block * nat :=
  let (i, n1) := _generate_id n in
  ({| block_id := i; block_type := block_type; block_props := default_props;
      block_content := []; block_children := [] |}, n1).

Definition _flush_text (c : BlockNoteConverter) : BlockNoteConverter :=
  match pending_text c with
  | [] => c
  | _ :: _ =>
      let text := Py.concat (pending_text c) in
      {| blocks := blocks c;
         current_block := current_block c;
         current_content :=
           if Py.truthy text
           then current_content c
                  ++ [{| node_type := "text"; node_text := text;
                         node_styles := current_styles c |}]
           else current_content c;
         current_styles := current_styles c;
         pending_text := [] |}
  end.

Definition _flush_block (c : BlockNoteConverter) (n : nat)
  : BlockNoteConverter * nat :=
  let c1 := _flush_text c in
  match current_content c1 with
  | [] => (c1, n)
  | _ :: _ =>
      let (block, n1) := _create_block "paragraph" n in
      ({| blocks := blocks c1 ++ [set_content block (current_content c1)];
          current_block := current_block c1;
          current_content := [];
          current_styles := current_styles c1;
          pending_text := pending_text c1 |}, n1)
  end.

Definition open_style (k : string) (v : StyleValue) (c : BlockNoteConverter)
  : BlockNoteConverter :=
  let c1 := _flush_text c in
  set_styles c1 (dict_set k v (current_styles c1)).

Definition close_style (k : string) (c : BlockNoteConverter)
  : BlockNoteConverter :=
  let c1 := _flush_text c in
  set_styles c1 (dict_pop k (current_styles c1)).

Definition handle_starttag (tag : string) (attrs : list (string * option string))
           (c : BlockNoteConverter) (n : nat) : BlockNoteConverter * nat :=
  let tag := Py.lower tag in
  if String.eqb tag "p" then _flush_block c n
  else if String.eqb tag "br" then _flush_block c n
  else if tag_in tag ["strong"; "b"] then (open_style "bold" (SBool true) c, n)
  else if tag_in tag ["em"; "i"] then (open_style "italic" (SBool true) c, n)
  else if String.eqb tag "u" then (open_style "underline" (SBool true) c, n)
  else if tag_in tag heading_tags then
    let (c1, n1) := _flush_block c n in
    let lvl := heading_level tag in
    let (block, n2) := _create_block "heading" n1 in
    ({| blocks := blocks c1;
        current_block := Some (set_level block lvl);
        current_content := current_content c1;
        current_styles := current_styles c1;
        pending_text := pending_text c1 |}, n2)
  else if String.eqb tag "a" then
    (open_style "link" (style_of_href (href_of attrs)) c, n)
  else (c, n).

Definition handle_endtag (tag : string) (c : BlockNoteConverter) (n : nat)
  : BlockNoteConverter * nat :=
  let tag := Py.lower tag in
  if String.eqb tag "p" then _flush_block c n
  else if tag_in tag ["strong"; "b"] then (close_style "bold" c, n)
  else if tag_in tag ["em"; "i"] then (close_style "italic" c, n)
  else if String.eqb tag "u" then (close_style "underline" c, n)
  else if tag_in tag heading_tags then
    let c1 := _flush_text c in
    match current_block c1 with
    | Some block =>
        ({| blocks := blocks c1 ++ [set_content block (current_content c1)];
            current_block := None;
            current_content := [];
            current_styles := current_styles c1;
            pending_text := pending_text c1 |}, n)
    | None => (c1, n)
    end
  else if String.eqb tag "a" then (close_style "link" c, n)
  else (c, n).

Definition handle_data (data : string) (c : BlockNoteConverter)
  : BlockNoteConverter :=
  {| blocks := blocks c; current_block := current_block c;
     current_content := current_content c;
     current_styles := current_styles c;
     pending_text := pending_text c ++ [data] |}.

(** One handler call. *)
Definition handle (e : Event) (c : BlockNoteConverter) (n : nat)
  : BlockNoteConverter * nat :=
  match e with
  | StartTag tag attrs => handle_starttag tag attrs c n
  | EndTag tag => handle_endtag tag c n
  | Data data => (handle_data data c, n)
  end.

(** The handler calls of one [feed], in order. *)
Fixpoint handle_all (evs : list Event) (c : BlockNoteConverter) (n : nat)
  : BlockNoteConverter * nat :=
  match evs with
  | [] => (c, n)
  | e :: evs' => let (c1, n1) := handle e c n in handle_all evs' c1 n1
  end.

(** [get_blocknote_json]: the returned list is [blocks] of the result. *)
Definition get_blocknote_json (c : BlockNoteConverter) (n : nat)
  : BlockNoteConverter * nat := _flush_block c n.

End Handlers.

End HTMLToBlockNoteConverter.

(** ** [html_to_blocknote] *)

Section BlockNote.

Import HTMLToBlockNoteConverter.

(** The values [uuid.uuid4()] returns, in the order of the calls. *)
Variable uuid : nat -> string.

(** [converter.feed(html)] on a fresh converter. *)
Variable feed : string -> FeedResult.

(** [bool(b.get("content"))] *)
Definition has_content (b : Block) : bool :=
  match block_content b with [] => false | _ :: _ => true end.

Definition html_to_blocknote (html : string) (n : nat) : list Block * nat :=
  if negb (Py.truthy html) then ([], n)
  else
    match feed html with
    | Fed evs =>
        let (c1, n1) := handle_all uuid evs new_converter n in
        let (c2, n2) := get_blocknote_json uuid c1 n1 in
        (List.filter has_content (blocks c2), n2)
    | Raised evs =>
        (* the handlers that ran before the exception drew their ids *)
        let (_, n1) := handle_all uuid evs new_converter n in
        let text := Re.sub re_tag EmptyString html in
        if Py.truthy (Py.strip text)
        then
          let (i, n2) := _generate_id uuid n1 in
          ([{| block_id := i; block_type := "paragraph";
               block_props := default_props;
               block_content := [{| node_type := "text";
                                    node_text := Py.strip text;
                                    node_styles := [] |}];
               block_children := [] |}], n2)
        else ([], n1)
    end.

End BlockNote.

(** [count_words] *)
Definition count_words (blocknote_content : list Block) : nat :=
  let text_parts :=
    flat_map (fun block =>
                List.map node_text
                  (List.filter (fun item => String.eqb (node_type item) "text")
                               (block_content block)))
             blocknote_content in
  let full_text := Py.join " " text_parts in
  length (Py.split_ws full_text).


(** [natural_sort_key]: the tuple [(0, part.lower())] is [KText], the tuple
    [(1, int(part))] is [KNum]. *)
Inductive KeyPart : Type :=
| KText (s : string)
| KNum (n : N).

(** The call [int(part)] raises [ValueError] on a run of more than
    [Py.max_str_digits] digits, and the call of [natural_sort_key] with it.
    [convert_result] and [natural_sort_key_result] are the two functions
    with that exception, [None]; [convert] and [natural_sort_key] are the
    key itself, which is the result whenever the call returns. *)
Definition convert_result (part : string) : option KeyPart :=
  if Py.isdigit part then option_map KNum (Py.int part)
  else Some (KText (Py.lower part)).

(** A list comprehension whose element expression may raise. *)
Fixpoint all_results {A : Type} (l : list (option A)) : option (list A) :=
  match l with
  | [] => Some []
  | None :: _ => None
  | Some x :: l' =>
      match all_results l' with Some xs => Some (x :: xs) | None => None end
  end.

Definition natural_sort_key_result (text : string) : option (list KeyPart) :=
  let parts := Re.split re_digits text in
  all_results (List.map convert_result (List.filter Py.truthy parts)).

Definition convert (part : string) : KeyPart :=
  if Py.isdigit part then KNum (Py.int_of_digits part) else KText (Py.lower part).

Definition natural_sort_key (text : string) : list KeyPart :=
  let parts := Re.split re_digits text in
  List.map convert (List.filter Py.truthy parts).

(** Python's [<] on the key tuples: the tags 0 and 1 first, then the
    strings by code point or the integers by value. *)
Definition part_compare (a b : KeyPart) : comparison :=
  match a, b with
  | KText s, KText t => String.compare s t
  | KText _, KNum _ => Lt
  | KNum _, KText _ => Gt
  | KNum m, KNum n => N.compare m n
  end.

(** Python's [<] on lists: the first position that differs decides, a
    proper prefix is smaller. *)
Fixpoint key_compare (k1 k2 : list KeyPart) : comparison :=
  match k1, k2 with
  | [], [] => Eq
  | [], _ :: _ => Lt
  | _ :: _, [] => Gt
  | a :: k1', b :: k2' =>
      match part_compare a b with
      | Eq => key_compare k1' k2'
      | c => c
      end
  end.

Definition key_lt (k1 k2 : list KeyPart) : bool :=
  match key_compare k1 k2 with Lt => true | _ => false end.

(** ** [sorted(xs, key=...)] and [list.sort(key=...)]

    A stable sort that only asks whether one key is smaller than another. *)
Section Sorted.
Context {A K : Type} (key : A -> K) (lt : K -> K -> bool).

Fixpoint insert_sorted (x : A) (l : list A) : list A :=
  match l with
  | [] => [x]
  | y :: l' =>
      if lt (key y) (key x) then y :: insert_sorted x l' else x :: y :: l'
  end.

Fixpoint sorted (l : list A) : list A :=
  match l with
  | [] => []
  | x :: l' => insert_sorted x (sorted l')
  end.

(** [x] may stand before [y]: the key of [y] is not smaller than that of [x]. *)
Definition not_after (x y : A) : Prop := lt (key y) (key x) = false.
End Sorted.

(** [slugify_folder_name] (structured target) and [slugify_folder]
    (archive target) have the same body. *)
Definition slugify_folder_name (title : string) : string :=
  let slug := Py.lower (Py.strip title) in
  let slug := Re.sub re_special EmptyString slug in
  let slug := Re.sub re_spaces "-" slug in
  let slug := Re.sub re_hyphens "-" slug in
  Py.strip_char hyphen slug.

Definition slugify_folder (title : string) : string :=
  let slug := Py.lower (Py.strip title) in
  let slug := Re.sub re_special EmptyString slug in
  let slug := Re.sub re_spaces "-" slug in
  let slug := Re.sub re_hyphens "-" slug in
  Py.strip_char hyphen slug.

Definition slugify_filename (title : string) : string :=
  let filename := Py.strip title in
  let filename :=
    if Py.endswith (Py.lower filename) ".md" then Py.drop_last 3 filename
    else filename in
  let filename := Re.sub re_special EmptyString filename in
  let filename := Re.sub re_spaces "_" filename in
  filename +:+ ".md".

(** ** [class HTMLToMarkdownConverter] *)

Module HTMLToMarkdownConverter.

Record MarkdownConverter : Type := mkConverter {
  result : list string;
  current_text : list (string * option string);
  in_list : bool;
  list_type : option string;
  list_item_count : nat
}.

(** [HTMLToMarkdownConverter()] *)
Definition new_converter : MarkdownConverter :=
  {| result := []; current_text := []; in_list := false; list_type := None;
     list_item_count := 0 |}.

(** [self.result.append(s)] *)
Definition emit (s : string) (c : MarkdownConverter) : MarkdownConverter :=
  {| result := result c ++ [s]; current_text := current_text c;
     in_list := in_list c; list_type := list_type c;
     list_item_count := list_item_count c |}.

(** [f'{href}'] *)
Definition format_href (href : option string) : string :=
  match href with Some s => s | None => "None" end.

Definition handle_starttag (tag : string) (attrs : list (string * option string))
           (c : MarkdownConverter) : MarkdownConverter :=
  let tag := Py.lower tag in
  if String.eqb tag "p" then c
  else if String.eqb tag "br" then emit (nl +:+ nl) c
  else if tag_in tag ["strong"; "b"] then emit "**" c
  else if tag_in tag ["em"; "i"] then emit "*" c
  else if String.eqb tag "u" then c
  else if tag_in tag heading_tags then
    let lvl := heading_level tag in
    emit (Py.repeat_char "#" lvl +:+ " ") c
  else if String.eqb tag "a" then
    let href := href_of attrs in
    let c1 := emit "[" c in
    {| result := result c1; current_text := current_text c1 ++ [("link", href)];
       in_list := in_list c1; list_type := list_type c1;
       list_item_count := list_item_count c1 |}
  else if String.eqb tag "ul" then
    {| result := result c; current_text := current_text c;
       in_list := true; list_type := Some "ul";
       list_item_count := list_item_count c |}
  else if String.eqb tag "ol" then
    {| result := result c; current_text := current_text c;
       in_list := true; list_type := Some "ol";
       list_item_count := 0 |}
  else if String.eqb tag "li" then
    if is_value (list_type c) "ul" then emit "- " c
    else
      let count := list_item_count c + 1 in
      emit (Py.str_of_nat count +:+ ". ")
           {| result := result c; current_text := current_text c;
              in_list := in_list c; list_type := list_type c;
              list_item_count := count |}
  else if String.eqb tag "blockquote" then emit "> " c
  else if String.eqb tag "code" then emit "`" c
  else if String.eqb tag "pre" then emit ("```" +:+ nl) c
  else c.

Definition handle_endtag (tag : string) (c : MarkdownConverter)
  : MarkdownConverter :=
  let tag := Py.lower tag in
  if String.eqb tag "p" then emit (nl +:+ nl) c
  else if tag_in tag ["strong"; "b"] then emit "**" c
  else if tag_in tag ["em"; "i"] then emit "*" c
  else if tag_in tag heading_tags then emit (nl +:+ nl) c
  else if String.eqb tag "a" then
    match rev (current_text c) with
    | (kind, href) :: below =>
        if String.eqb kind "link"
        then emit ("](" +:+ format_href href +:+ ")")
               {| result := result c; current_text := rev below;
                  in_list := in_list c; list_type := list_type c;
                  list_item_count := list_item_count c |}
        else c
    | [] => c
    end
  else if tag_in tag ["ul"; "ol"] then
    emit nl {| result := result c; current_text := current_text c;
               in_list := false; list_type := None;
               list_item_count := list_item_count c |}
  else if String.eqb tag "li" then emit nl c
  else if String.eqb tag "blockquote" then emit nl c
  else if String.eqb tag "code" then emit "`" c
  else if String.eqb tag "pre" then emit (nl +:+ "```" +:+ nl) c
  else c.

Definition handle_data (data : string) (c : MarkdownConverter)
  : MarkdownConverter := emit data c.

Definition handle (e : Event) (c : MarkdownConverter) : MarkdownConverter :=
  match e with
  | StartTag tag attrs => handle_starttag tag attrs c
  | EndTag tag => handle_endtag tag c
  | Data data => handle_data data c
  end.

(** The handler calls of one [feed], in order. *)
Definition handle_all (evs : list Event) (c : MarkdownConverter)
  : MarkdownConverter := fold_left (fun c e => handle e c) evs c.

Definition get_markdown (c : MarkdownConverter) : string :=
  Py.strip (Py.concat (result c)).

End HTMLToMarkdownConverter.

(** ** [html_to_markdown] *)

Section Markdown.

Import HTMLToMarkdownConverter.

(** [converter.feed(html)] on a fresh converter. *)
Variable feed : string -> FeedResult.

Definition html_to_markdown (html : string) : string :=
  if negb (Py.truthy html) then EmptyString
  else
    match feed html with
    | Fed evs =>
        let converter := handle_all evs new_converter in
        let result := get_markdown converter in
        Re.sub re_newlines3 (nl +:+ nl) result
    | Raised _ => Re.sub re_tag EmptyString html
    end.

End Markdown.

(** ** Schema 1 input tree *)

Record Document : Type := mkDocument {
  doc_id : option string;
  doc_title : option string;
  doc_content : option string;
  doc_status : option string;
  doc_summary : option string
}.

(** The key [documentIds] is read with the default [[]]: an absent key is
    the empty list. *)
Record Folder : Type := mkFolder {
  folder_id : option string;
  folder_title : option string;
  folder_sort : option Z;
  folder_status : option string;
  folder_documentIds : list string
}.

(** [data.get('trash', {})], each key read with the default [[]]. *)
Record Trash : Type := mkTrash {
  trash_documentIds : list string;
  trash_folderIds : list string
}.

Record Schema1 : Type := mkSchema1 {
  s1_title : option string;
  documentsById : gmap string Document;
  folders : list Folder;
  trash : Trash
}.

(** [d.get(key, default)] on an optional field. *)
Definition get {A : Type} (field : option A) (default : A) : A :=
  match field with Some v => v | None => default end.

(** [bool(doc)] : a dict is false exactly when it has no key. *)
Definition doc_truthy (doc : Document) : bool :=
  match doc_id doc, doc_title doc, doc_content doc, doc_status doc, doc_summary doc with
  | None, None, None, None, None => false
  | _, _, _, _, _ => true
  end.

(** [x.get('status') not in (None, 'active')] *)
Definition inactive (status : option string) : bool :=
  match status with
  | None => false
  | Some s => negb (String.eqb s "active")
  end.

(** [set(ids)] *)
Definition set_of (ids : list string) : gset string := list_to_set ids.

(** [x in ids] for a set *)
Definition mem (x : string) (ids : gset string) : bool := bool_decide (x ∈ ids).

(** ** Schema 2 output tree

    The three dict literals the structured target returns.  Every key of
    them is written on every path, so a field of option type is the value
    its key holds, [None] being Python's [None] (the JSON [null]), never a
    key that is absent; [document_dict], [folder_dict] and [project_dict]
    below are the dicts themselves. *)

Record Document2 : Type := mkDocument2 {
  d2_type : string;
  d2_title : string;
  d2_label_color : option string;
  d2_card_color : option string;
  d2_icon : option string;
  d2_content : string;
  d2_synopsis : option string;
  d2_notes : option string;
  d2_label : option string;
  d2_status : string;
  d2_order : nat;
  d2_word_count : nat;
  d2_target_word_count : option nat;
  d2_keywords : option string
}.

Record Folder2 : Type := mkFolder2 {
  f2_name : string;
  f2_type : string;
  f2_description : option string;
  f2_parent_id : option string;
  f2_label_color : option string;
  f2_icon : option string;
  f2_order : nat;
  f2_is_default : bool;
  f2_documents : list Document2
}.

Record Project : Type := mkProject {
  p_title : string;
  p_author : option string;
  p_author_pen_name : option string;
  p_description : option string;
  p_genre : option string;
  number_of_chapters : option nat;
  p_story_hook : option string;
  p_story_pitch : option string;
  p_status : string;
  p_folders : list Folder2
}.

(** A value that may be [None], as [json] value. *)
Definition json_of_option {A : Type} (f : A -> json) (v : option A) : json :=
  match v with Some x => f x | None => JNull end.

(** The dict literal [convert_document] returns, key by key. *)
Definition document_dict (d : Document2) : list (string * json) :=
  [("type", JStr (d2_type d));
   ("title", JStr (d2_title d));
   ("label_color", json_of_option JStr (d2_label_color d));
   ("card_color", json_of_option JStr (d2_card_color d));
   ("icon", json_of_option JStr (d2_icon d));
   ("content", JStr (d2_content d));
   ("synopsis", json_of_option JStr (d2_synopsis d));
   ("notes", json_of_option JStr (d2_notes d));
   ("label", json_of_option JStr (d2_label d));
   ("status", JStr (d2_status d));
   ("order", JInt (d2_order d));
   ("word_count", JInt (d2_word_count d));
   ("target_word_count", json_of_option JInt (d2_target_word_count d));
   ("keywords", json_of_option JStr (d2_keywords d))].

(** The dict literal [convert_folder] returns. *)
Definition folder_dict (f : Folder2) : list (string * json) :=
  [("name", JStr (f2_name f));
   ("type", JStr (f2_type f));
   ("description", json_of_option JStr (f2_description f));
   ("parent_id", json_of_option JStr (f2_parent_id f));
   ("label_color", json_of_option JStr (f2_label_color f));
   ("icon", json_of_option JStr (f2_icon f));
   ("order", JInt (f2_order f));
   ("is_default", JBool (f2_is_default f));
   ("documents", JList (List.map (fun d => JDict (document_dict d))
                                 (f2_documents f)))].

(** The dict literal [convert_schema1_to_schema2] returns. *)
Definition project_dict (p : Project) : list (string * json) :=
  [("title", JStr (p_title p));
   ("author", json_of_option JStr (p_author p));
   ("author_pen_name", json_of_option JStr (p_author_pen_name p));
   ("description", json_of_option JStr (p_description p));
   ("genre", json_of_option JStr (p_genre p));
   ("number_of_chapters", json_of_option JInt (number_of_chapters p));
   ("story_hook", json_of_option JStr (p_story_hook p));
   ("story_pitch", json_of_option JStr (p_story_pitch p));
   ("status", JStr (p_status p));
   ("folders", JList (List.map (fun f => JDict (folder_dict f)) (p_folders p)))].

(** [doc['order'] = idx] *)
Definition set_order (idx : nat) (d : Document2) : Document2 :=
  {| d2_type := d2_type d; d2_title := d2_title d;
     d2_label_color := d2_label_color d; d2_card_color := d2_card_color d;
     d2_icon := d2_icon d; d2_content := d2_content d;
     d2_synopsis := d2_synopsis d; d2_notes := d2_notes d;
     d2_label := d2_label d; d2_status := d2_status d;
     d2_order := idx; d2_word_count := d2_word_count d;
     d2_target_word_count := d2_target_word_count d;
     d2_keywords := d2_keywords d |}.

(** [for idx, doc in enumerate(documents): doc['order'] = idx], counting
    from [idx]. *)
Fixpoint reassign_order (idx : nat) (documents : list Document2) : list Document2 :=
  match documents with
  | [] => []
  | d :: ds => set_order idx d :: reassign_order (S idx) ds
  end.

(** ** The structured target: [schema1_to_schema2.py] *)

Section Schema2.

Variable uuid : nat -> string.
Variable feed : string -> FeedResult.

Definition convert_document (doc : Document) (order : nat) (n : nat)
  : Document2 * nat :=
  let html_content := get (doc_content doc) EmptyString in
  let (blocknote_content, n1) := html_to_blocknote uuid feed html_content n in
  let word_count := count_words blocknote_content in
  let status := get (doc_status doc) "active" in
  let status := if String.eqb status "active" then "draft" else status in
  let title := get (doc_title doc) "Untitled" in
  let title := if Py.endswith (Py.lower title) ".md" then Py.drop_last 3 title
               else title in
  ({| d2_type := "manuscript";
      d2_title := title;
      d2_label_color := None;
      d2_card_color := None;
      d2_icon := None;
      d2_content := json_dumps (json_of_blocks blocknote_content);
      d2_synopsis := match doc_summary doc with
                     | Some s => if Py.truthy s then Some s else None
                     | None => None
                     end;
      d2_notes := None;
      d2_label := None;
      d2_status := status;
      d2_order := order;
      d2_word_count := word_count;
      d2_target_word_count := None;
      d2_keywords := None |}, n1).

(** The [for doc_id in folder.get('documentIds', [])] loop of
    [convert_folder]: the converted documents, in the order of the ids. *)
Fixpoint convert_documents (doc_ids : list string)
         (docs_by_id : gmap string Document) (trash_doc_ids : gset string)
         (n : nat) : list Document2 * nat :=
  match doc_ids with
  | [] => ([], n)
  | doc_id :: doc_ids' =>
      if mem doc_id trash_doc_ids
      then convert_documents doc_ids' docs_by_id trash_doc_ids n
      else
        match docs_by_id !! doc_id with
        | None => convert_documents doc_ids' docs_by_id trash_doc_ids n
        | Some doc =>
            if negb (doc_truthy doc)
            then convert_documents doc_ids' docs_by_id trash_doc_ids n
            else if inactive (doc_status doc)
            then convert_documents doc_ids' docs_by_id trash_doc_ids n
            else
              let (converted_doc, n1) := convert_document doc 0 n in
              let (documents, n2) :=
                convert_documents doc_ids' docs_by_id trash_doc_ids n1 in
              (converted_doc :: documents, n2)
        end
  end.

Definition convert_folder (folder : Folder) (docs_by_id : gmap string Document)
           (trash_doc_ids : gset string) (order : nat) (n : nat)
  : option Folder2 * nat :=
  let (documents, n1) :=
    convert_documents (folder_documentIds folder) docs_by_id trash_doc_ids n in
  match documents with
  | [] => (None, n1)
  | _ :: _ =>
      let documents :=
        sorted (fun d => natural_sort_key (d2_title d)) key_lt documents in
      let documents := reassign_order 0 documents in
      (Some {| f2_name := slugify_folder_name (get (folder_title folder) "untitled");
               f2_type := "manuscript";
               f2_description := None;
               f2_parent_id := None;
               f2_label_color := None;
               f2_icon := None;
               f2_order := order;
               f2_is_default := false;
               f2_documents := documents |}, n1)
  end.

(** [convert_folder] with the exception of its sort.  [list.sort(key=...)]
    computes the key of every document before it compares any;
    [natural_sort_key] raises [ValueError] on a title with a run of more
    than [Py.max_str_digits] digits, and [convert_folder] with it: the
    result is [None] then.  [convert_folder] above is what the call
    returns otherwise. *)
Definition convert_folder_result (folder : Folder)
           (docs_by_id : gmap string Document) (trash_doc_ids : gset string)
           (order : nat) (n : nat) : option (option Folder2 * nat) :=
  let (documents, n1) :=
    convert_documents (folder_documentIds folder) docs_by_id trash_doc_ids n in
  match documents with
  | [] => Some (None, n1)
  | _ :: _ =>
      match all_results
              (List.map (fun d => natural_sort_key_result (d2_title d))
                        documents) with
      | None => None
      | Some _ =>
          let documents :=
            sorted (fun d => natural_sort_key (d2_title d)) key_lt documents in
          let documents := reassign_order 0 documents in
          Some (Some {| f2_name := slugify_folder_name
                                     (get (folder_title folder) "untitled");
                        f2_type := "manuscript";
                        f2_description := None;
                        f2_parent_id := None;
                        f2_label_color := None;
                        f2_icon := None;
                        f2_order := order;
                        f2_is_default := false;
                        f2_documents := documents |}, n1)
      end
  end.

(** The [for folder in sorted_folders] loop of [convert_schema1_to_schema2]. *)
Fixpoint convert_folders (sorted_folders : list Folder)
         (docs_by_id : gmap string Document)
         (trash_doc_ids trash_folder_ids : gset string)
         (folder_order : nat) (n : nat) : list Folder2 * nat :=
  match sorted_folders with
  | [] => ([], n)
  | folder :: rest =>
      let folder_id := get (folder_id folder) EmptyString in
      if mem folder_id trash_folder_ids
      then convert_folders rest docs_by_id trash_doc_ids trash_folder_ids folder_order n
      else if inactive (folder_status folder)
      then convert_folders rest docs_by_id trash_doc_ids trash_folder_ids folder_order n
      else
        match convert_folder folder docs_by_id trash_doc_ids folder_order n with
        | (None, n1) =>
            convert_folders rest docs_by_id trash_doc_ids trash_folder_ids folder_order n1
        | (Some converted_folder, n1) =>
            let (converted_folders, n2) :=
              convert_folders rest docs_by_id trash_doc_ids trash_folder_ids
                              (S folder_order) n1 in
            (converted_folder :: converted_folders, n2)
        end
  end.

(** [sorted(folders, key=lambda f: f.get('sort', 0))] *)
Definition sort_folders (fs : list Folder) : list Folder :=
  sorted (fun f => get (folder_sort f) 0%Z) Z.ltb fs.

Definition convert_schema1_to_schema2 (schema1_data : Schema1) (n : nat)
  : Project * nat :=
  let docs_by_id := documentsById schema1_data in
  let trash_doc_ids := set_of (trash_documentIds (trash schema1_data)) in
  let trash_folder_ids := set_of (trash_folderIds (trash schema1_data)) in
  let sorted_folders := sort_folders (folders schema1_data) in
  let (converted_folders, n1) :=
    convert_folders sorted_folders docs_by_id trash_doc_ids trash_folder_ids 0 n in
  let title := get (s1_title schema1_data) "Untitled" in
  let title := Py.replace_char " " "_" title in
  let total_docs :=
    list_sum (List.map (fun f => length (f2_documents f)) converted_folders) in
  ({| p_title := title;
      p_author := None;
      p_author_pen_name := None;
      p_description := None;
      p_genre := None;
      number_of_chapters := if 0 <? total_docs then Some total_docs else None;
      p_story_hook := None;
      p_story_pitch := None;
      p_status := "draft";
      p_folders := converted_folders |}, n1).

(** The loop and the function with the exception of [convert_folder]:
    [None] when the sort of a folder raises. *)
Fixpoint convert_folders_result (sorted_folders : list Folder)
         (docs_by_id : gmap string Document)
         (trash_doc_ids trash_folder_ids : gset string)
         (folder_order : nat) (n : nat) : option (list Folder2 * nat) :=
  match sorted_folders with
  | [] => Some ([], n)
  | folder :: rest =>
      let folder_id := get (folder_id folder) EmptyString in
      if mem folder_id trash_folder_ids
      then convert_folders_result rest docs_by_id trash_doc_ids trash_folder_ids
                                  folder_order n
      else if inactive (folder_status folder)
      then convert_folders_result rest docs_by_id trash_doc_ids trash_folder_ids
                                  folder_order n
      else
        match convert_folder_result folder docs_by_id trash_doc_ids
                                    folder_order n with
        | None => None
        | Some (None, n1) =>
            convert_folders_result rest docs_by_id trash_doc_ids trash_folder_ids
                                   folder_order n1
        | Some (Some converted_folder, n1) =>
            match convert_folders_result rest docs_by_id trash_doc_ids
                                         trash_folder_ids (S folder_order) n1 with
            | None => None
            | Some (converted_folders, n2) =>
                Some (converted_folder :: converted_folders, n2)
            end
        end
  end.

Definition convert_schema1_to_schema2_result (schema1_data : Schema1) (n : nat)
  : option (Project * nat) :=
  let docs_by_id := documentsById schema1_data in
  let trash_doc_ids := set_of (trash_documentIds (trash schema1_data)) in
  let trash_folder_ids := set_of (trash_folderIds (trash schema1_data)) in
  let sorted_folders := sort_folders (folders schema1_data) in
  match convert_folders_result sorted_folders docs_by_id trash_doc_ids
                               trash_folder_ids 0 n with
  | None => None
  | Some (converted_folders, n1) =>
      let title := get (s1_title schema1_data) "Untitled" in
      let title := Py.replace_char " " "_" title in
      let total_docs :=
        list_sum (List.map (fun f => length (f2_documents f)) converted_folders) in
      Some ({| p_title := title;
               p_author := None;
               p_author_pen_name := None;
               p_description := None;
               p_genre := None;
               number_of_chapters :=
                 if 0 <? total_docs then Some total_docs else None;
               p_story_hook := None;
               p_story_pitch := None;
               p_status := "draft";
               p_folders := converted_folders |}, n1)
  end.

End Schema2.

(** ** The archive target: [schema1_to_zip.py]

    [convert_schema1_to_zip] is modelled from the parsed JSON on: its result
    is the sequence of [zf.writestr(name, data)] calls together with the
    [stats] dict it returns. *)

Record Stats : Type := mkStats {
  folders_processed : nat;
  documents_processed : nat;
  documents_skipped_trash : nat;
  documents_skipped_missing : nat
}.

Definition ZipEntry : Type := (string * string)%type.

(** [s.encode('utf-8')] : ASCII text is its own encoding. *)
Definition encode_utf8 (s : string) : string := s.

Definition count_trash (st : Stats) : Stats :=
  {| folders_processed := folders_processed st;
     documents_processed := documents_processed st;
     documents_skipped_trash := documents_skipped_trash st + 1;
     documents_skipped_missing := documents_skipped_missing st |}.

Definition count_missing (st : Stats) : Stats :=
  {| folders_processed := folders_processed st;
     documents_processed := documents_processed st;
     documents_skipped_trash := documents_skipped_trash st;
     documents_skipped_missing := documents_skipped_missing st + 1 |}.

Definition count_folder (st : Stats) : Stats :=
  {| folders_processed := folders_processed st + 1;
     documents_processed := documents_processed st;
     documents_skipped_trash := documents_skipped_trash st;
     documents_skipped_missing := documents_skipped_missing st |}.

Definition count_document (st : Stats) : Stats :=
  {| folders_processed := folders_processed st;
     documents_processed := documents_processed st + 1;
     documents_skipped_trash := documents_skipped_trash st;
     documents_skipped_missing := documents_skipped_missing st |}.

(** The loop that collects [folder_docs]. *)
Fixpoint collect_folder_docs (doc_ids : list string)
         (docs_by_id : gmap string Document) (trash_doc_ids : gset string)
         (stats : Stats) : list Document * Stats :=
  match doc_ids with
  | [] => ([], stats)
  | doc_id :: doc_ids' =>
      if mem doc_id trash_doc_ids
      then collect_folder_docs doc_ids' docs_by_id trash_doc_ids (count_trash stats)
      else
        match docs_by_id !! doc_id with
        | None =>
            collect_folder_docs doc_ids' docs_by_id trash_doc_ids (count_missing stats)
        | Some doc =>
            if negb (doc_truthy doc)
            then collect_folder_docs doc_ids' docs_by_id trash_doc_ids
                                     (count_missing stats)
            else if inactive (doc_status doc)
            then collect_folder_docs doc_ids' docs_by_id trash_doc_ids stats
            else
              let (folder_docs, stats1) :=
                collect_folder_docs doc_ids' docs_by_id trash_doc_ids stats in
              (doc :: folder_docs, stats1)
        end
  end.

Section Zip.

Variable feed : string -> FeedResult.

(** The [for doc in folder_docs] loop: one file entry per document. *)
Fixpoint write_documents (folder_slug : string) (folder_docs : list Document)
         (stats : Stats) : list ZipEntry * Stats :=
  match folder_docs with
  | [] => ([], stats)
  | doc :: folder_docs' =>
      let doc_title := get (doc_title doc) "untitled" in
      let filename := slugify_filename doc_title in
      let html_content := get (doc_content doc) EmptyString in
      let markdown_content := html_to_markdown feed html_content in
      let file_path := folder_slug +:+ "/" +:+ filename in
      let (entries, stats1) :=
        write_documents folder_slug folder_docs' (count_document stats) in
      ((file_path, encode_utf8 markdown_content) :: entries, stats1)
  end.

(** The [for folder in sorted_folders] loop. *)
Fixpoint write_folders (sorted_folders : list Folder)
         (docs_by_id : gmap string Document)
         (trash_doc_ids trash_folder_ids : gset string)
         (stats : Stats) : list ZipEntry * Stats :=
  match sorted_folders with
  | [] => ([], stats)
  | folder :: rest =>
      let folder_id := get (folder_id folder) EmptyString in
      if mem folder_id trash_folder_ids
      then write_folders rest docs_by_id trash_doc_ids trash_folder_ids stats
      else if inactive (folder_status folder)
      then write_folders rest docs_by_id trash_doc_ids trash_folder_ids stats
      else
        let folder_title := get (folder_title folder) "untitled" in
        let folder_slug := slugify_folder folder_title in
        let (folder_docs, stats1) :=
          collect_folder_docs (folder_documentIds folder) docs_by_id
                              trash_doc_ids stats in
        match folder_docs with
        | [] => write_folders rest docs_by_id trash_doc_ids trash_folder_ids stats1
        | _ :: _ =>
            let (files, stats2) :=
              write_documents folder_slug folder_docs (count_folder stats1) in
            let (entries, stats3) :=
              write_folders rest docs_by_id trash_doc_ids trash_folder_ids stats2 in
            ((folder_slug +:+ "/", EmptyString) :: files ++ entries, stats3)
        end
  end.

Definition convert_schema1_to_zip (data : Schema1) : list ZipEntry * Stats :=
  let docs_by_id := documentsById data in
  let trash_doc_ids := set_of (trash_documentIds (trash data)) in
  let trash_folder_ids := set_of (trash_folderIds (trash data)) in
  let stats := {| folders_processed := 0; documents_processed := 0;
                  documents_skipped_trash := 0;
                  documents_skipped_missing := 0 |} in
  let sorted_folders := sort_folders (folders data) in
  write_folders sorted_folders docs_by_id trash_doc_ids trash_folder_ids stats.

End Zip.

(** ** The tokenizer behind [converter.feed] *)

(** Modelled from the spec: the Markup Tokenizer of section 4.1 is Python's
    [html.parser.HTMLParser], which the two converter classes inherit and
    which is not part of the scripts.  The model below follows the scanner of
    that class for the one [feed] call the scripts make on a fresh parser
    ([convert_charrefs] on, [close] never called): text runs, start tags with
    attributes, end tags, comments, processing instructions, declarations and
    marked sections, and the raw-text mode of [script] and [style].  The
    replacement of character references needs the table of named references
    and is a parameter. *)

Module HTMLParser.

Import Re.

Definition quote1 : ascii := "'"%char.
Definition quote2 : ascii := Py.dquote.
Definition is_quote (c : ascii) : bool := Py.is_char quote1 c || Py.is_char quote2 c.
Definition one_of (s : string) (c : ascii) : bool := Py.contains c s.
Definition ws : regex := Cls Py.isspace.

(** [[^\t\n\r\f />\x00]] *)
Definition name_char (c : ascii) : bool :=
  negb (Py.between 9 10 c || Py.between 12 13 c || one_of " />" c
        || Py.between 0 0 c).

(** [[a-zA-Z][^\t\n\r\f />\x00]*] *)
Definition tag_name : regex := Seq (Cls Py.isalpha) (Star (Cls name_char)).

(** [(?:\s|/(?!>))*] *)
Definition trail : regex :=
  Star (Alt ws (Seq (Lit "/") (NotAhead (Lit ">")))).

(** [(?<=[QUOTES\s/])[^\s/>][^\s/=>]*], where QUOTES are the single and
    the double quote. *)
Definition attr_name : regex :=
  Seq (Behind (fun c => is_quote c || Py.isspace c || Py.is_char "/" c))
      (Seq (Not (fun c => Py.isspace c || one_of "/>" c))
           (Star (Not (fun c => Py.isspace c || one_of "/=>" c)))).

(** A value in single quotes, a value in double quotes, or
    [(?![QUOTES])[^>\s]*]. *)
Definition attr_value : regex :=
  Alt (Seq (Lit quote1) (Seq (Star (Not (Py.is_char quote1))) (Lit quote1)))
      (Alt (Seq (Lit quote2) (Seq (Star (Not (Py.is_char quote2))) (Lit quote2)))
           (Seq (NotAhead (Cls is_quote))
                (Star (Not (fun c => Py.is_char ">" c || Py.isspace c))))).

(** [\s*=+\s*] *)
Definition value_indicator : regex :=
  Seq (Star ws) (Seq (Plus (Lit "=")) (Star ws)).

(** [starttagopen = '<[a-zA-Z]'] *)
Definition starttagopen : regex := Seq (Lit "<") (Cls Py.isalpha).

(** [locatestarttagend_tolerant] *)
Definition locatestarttagend_tolerant : regex :=
  Seq (Lit "<")
   (Seq tag_name
    (Seq (Opt (Seq (Star (Cls (fun c => Py.isspace c || Py.is_char "/" c)))
                   (Star (Seq attr_name
                          (Seq (Opt (Seq value_indicator (Seq attr_value (Star ws))))
                               trail)))))
         (Star ws))).

(** [[a-zA-Z][-.a-zA-Z0-9:_]*] *)
Definition endtag_name : regex :=
  Seq (Cls Py.isalpha)
      (Star (Cls (fun c => Py.isalpha c || Py.isdigit_char c || one_of "-.:_" c))).

(** [commentclose = '--\s*>'] *)
Definition commentclose : regex :=
  Seq (Lit "-") (Seq (Lit "-") (Seq (Star ws) (Lit ">"))).

(** [_markedsectionclose = ']\s*]\s*>'] *)
Definition markedsectionclose : regex :=
  Seq (Lit "]") (Seq (Star ws) (Seq (Lit "]") (Seq (Star ws) (Lit ">")))).

(** [_msmarkedsectionclose = ']\s*>'] *)
Definition msmarkedsectionclose : regex :=
  Seq (Lit "]") (Seq (Star ws) (Lit ">")).

(** [_declname_match = '[a-zA-Z][-_.a-zA-Z0-9]*\s*'] *)
Definition declname : regex :=
  Seq (Cls Py.isalpha)
      (Seq (Star (Cls (fun c => Py.isalpha c || Py.isdigit_char c || one_of "-_." c)))
           (Star ws)).

(** [rawdata.startswith(w, i)] *)
Definition startswith (w : string) (p : pos) : bool :=
  match match_at (Word (Py.chars w)) p with Some _ => true | None => false end.

(** The position [k] characters further. *)
Fixpoint skip (k : nat) (p : pos) : pos :=
  match k with 0 => p | S k' => skip k' (advance p) end.

(** [rawdata.find('>', i)] : the position of the next ['>'], if any. *)
Definition find_gt (p : pos) : option pos :=
  option_map fst (search (Lit ">") p).

Definition text (p q : pos) : string := Py.str (taken p q).

(** Result of one [parse_...] call at a ['<']: the handler calls it made,
    where it stopped and the raw-text element in force afterwards; [-1]; or
    an exception. *)
Inductive Parse : Type :=
| Parsed (evs : list Event) (k : pos) (cdata_elem : option string)
| Incomplete
| Fault.

Section Scanner.

(** [_charref.sub(_replace_charref, s)] *)
Variable replace_charrefs : string -> string.

(** [html.unescape] *)
Definition unescape (s : string) : string :=
  if Py.contains "&" s then replace_charrefs s else s.

(** [tagfind_tolerant.match] : the tag name and the end of the match. *)
Definition tagfind_tolerant (p : pos) : option (string * pos) :=
  run tag_name p (fun q => run trail q (fun k => Some (text p q, k))).

(** [attrfind_tolerant.match] : groups 1 and 3 ([None] when group 2 did not
    take part) and the end of the match. *)
Definition attrfind_tolerant (p : pos)
  : option (string * option string * pos) :=
  run attr_name p (fun q =>
    match run value_indicator q (fun v =>
            run attr_value v (fun w =>
              run trail w (fun k => Some (text p q, Some (text v w), k)))) with
    | Some m => Some m
    | None => run trail q (fun k => Some (text p q, None, k))
    end).

Definition quoted_by (c : ascii) (v : string) : bool :=
  match Py.chars v, rev (Py.chars v) with
  | a :: _, b :: _ => Py.is_char c a && Py.is_char c b
  | _, _ => false
  end.

(** The attribute value as [parse_starttag] stores it. *)
Definition attr_value_of (group3 : option string) : option string :=
  match group3 with
  | None => None
  | Some v =>
      let v := if quoted_by quote1 v || quoted_by quote2 v
               then substring 1 (String.length v - 2) v else v in
      Some (if Py.truthy v then unescape v else v)
  end.

(** The [while k < endpos] loop of [parse_starttag]. *)
Fixpoint parse_attrs (fuel : nat) (k endpos : pos)
         (attrs : list (string * option string))
  : list (string * option string) * pos :=
  match fuel with
  | 0 => (attrs, k)
  | S fuel' =>
      if shorter endpos k then
        match attrfind_tolerant k with
        | None => (attrs, k)
        | Some (attrname, group3, k') =>
            parse_attrs fuel' k' endpos
                        (attrs ++ [(Py.lower attrname, attr_value_of group3)])
        end
      else (attrs, k)
  end.

Definition check_for_whole_start_tag (i : pos) : option pos :=
  match match_at locatestarttagend_tolerant i with
  | None => None
  | Some j =>
      match rest j with
      | [] => None
      | next :: _ =>
          if Py.is_char ">" next then Some (skip 1 j)
          else if Py.is_char "/" next then
            if startswith "/>" j then Some (skip 2 j) else None
          else if Py.isalpha next || Py.is_char "=" next then None
          else Some j
      end
  end.

Definition CDATA_CONTENT_ELEMENTS : list string := ["script"; "style"].

Definition parse_starttag (i : pos) (cdata_elem : option string) : Parse :=
  match check_for_whole_start_tag i with
  | None => Incomplete
  | Some endpos =>
      match tagfind_tolerant (skip 1 i) with
      | None => Fault
      | Some (name, k) =>
          let tag := Py.lower name in
          let (attrs, k) := parse_attrs (length (rest k)) k endpos [] in
          let end_ := Py.strip (text k endpos) in
          if negb (String.eqb end_ ">" || String.eqb end_ "/>")
          then Parsed [Data (text i endpos)] endpos cdata_elem
          else if Py.endswith end_ "/>"
          then Parsed [StartTag tag attrs; EndTag tag] endpos cdata_elem
          else Parsed [StartTag tag attrs] endpos
                      (if tag_in tag CDATA_CONTENT_ELEMENTS then Some tag
                       else cdata_elem)
      end
  end.

Definition parse_bogus_comment (i : pos) (cdata_elem : option string) : Parse :=
  match find_gt (skip 2 i) with
  | None => Incomplete
  | Some pos => Parsed [] (skip 1 pos) cdata_elem
  end.

Definition parse_endtag (i : pos) (cdata_elem : option string) : Parse :=
  match find_gt (skip 1 i) with
  | None => Incomplete
  | Some gt =>
      let gtpos := skip 1 gt in
      match run (Seq (Word (Py.chars "</")) (Star ws)) i (fun a =>
              run endtag_name a (fun b =>
                run (Seq (Star ws) (Lit ">")) b (fun _ => Some (text a b)))) with
      | None =>
          match cdata_elem with
          | Some _ => Parsed [Data (text i gtpos)] gtpos cdata_elem
          | None =>
              match tagfind_tolerant (skip 2 i) with
              | None =>
                  if startswith "</>" i then Parsed [] (skip 3 i) cdata_elem
                  else parse_bogus_comment i cdata_elem
              | Some (name, k) =>
                  match find_gt k with
                  | None => Fault
                  | Some gt' => Parsed [EndTag (Py.lower name)] (skip 1 gt') cdata_elem
                  end
              end
          end
      | Some name =>
          let elem := Py.lower name in
          match cdata_elem with
          | Some c =>
              if negb (String.eqb elem c)
              then Parsed [Data (text i gtpos)] gtpos cdata_elem
              else Parsed [EndTag elem] gtpos None
          | None => Parsed [EndTag elem] gtpos None
          end
      end
  end.

Definition parse_comment (i : pos) (cdata_elem : option string) : Parse :=
  match search commentclose (skip 4 i) with
  | None => Incomplete
  | Some (_, k) => Parsed [] k cdata_elem
  end.

Definition parse_pi (i : pos) (cdata_elem : option string) : Parse :=
  match find_gt (skip 2 i) with
  | None => Incomplete
  | Some pos => Parsed [] (skip 1 pos) cdata_elem
  end.

(** [parse_marked_section] with [_scan_name]: an unknown keyword and a
    missing name raise [AssertionError]. *)
Definition parse_marked_section (i : pos) (cdata_elem : option string) : Parse :=
  let j := skip 3 i in
  match rest j with
  | [] => Incomplete
  | _ :: _ =>
      match match_at declname j with
      | None => Fault
      | Some k =>
          match rest k with
          | [] => Incomplete
          | _ :: _ =>
              let sectName := Py.lower (Py.strip (text j k)) in
              if tag_in sectName ["temp"; "cdata"; "ignore"; "include"; "rcdata"]
              then match search markedsectionclose j with
                   | None => Incomplete
                   | Some (_, e) => Parsed [] e cdata_elem
                   end
              else if tag_in sectName ["if"; "else"; "endif"]
              then match search msmarkedsectionclose j with
                   | None => Incomplete
                   | Some (_, e) => Parsed [] e cdata_elem
                   end
              else Fault
          end
      end
  end.

Definition parse_html_declaration (i : pos) (cdata_elem : option string) : Parse :=
  if startswith "<!--" i then parse_comment i cdata_elem
  else if startswith "<![" i then parse_marked_section i cdata_elem
  else if String.eqb (Py.lower (Py.str (firstn 9 (rest i)))) "<!doctype"
  then match find_gt (skip 9 i) with
       | None => Incomplete
       | Some gtpos => Parsed [] (skip 1 gtpos) cdata_elem
       end
  else parse_bogus_comment i cdata_elem.

(** The dispatch of [goahead] at a ['<']. *)
Definition parse_markup (i : pos) (cdata_elem : option string) : Parse :=
  if startswith "<" i then
    match match_at starttagopen i with
    | Some _ => parse_starttag i cdata_elem
    | None =>
        if startswith "</" i then parse_endtag i cdata_elem
        else if startswith "<!--" i then parse_comment i cdata_elem
        else if startswith "<?" i then parse_pi i cdata_elem
        else if startswith "<!" i then parse_html_declaration i cdata_elem
        else if 1 <? length (rest i) then Parsed [Data "<"] (skip 1 i) cdata_elem
        else Incomplete
    end
  else Fault.

(** The test on a trailing ['&'], with [rawdata[i:]] at [p]:
    [amppos = rawdata.rfind('&', max(i, n-34))], and the text is held back
    when [amppos >= 0] and [[\s;]] is not found from [amppos] on.  So text
    without ['<'] is held back when one of its last 34 characters is an
    ['&'] and neither whitespace nor [';'] comes after the last such
    ['&']. *)
Definition holds_back (p : pos) : bool :=
  let tail := skipn (length (rest p) - 34) (rest p) in
  let upto_amp := Py.lstrip_by (fun c => negb (Py.is_char "&" c)) (rev tail) in
  match upto_amp with
  | [] => false
  | _ :: after =>
      let from_amp := skipn (length after) tail in
      negb (existsb (fun c => Py.isspace c || Py.is_char ";" c) from_amp)
  end.

(** Where the text run that starts at [i] ends: the next ['<'], the end of
    the input, or (in raw-text mode) the closing tag of the element.  [None]
    when [goahead] stops instead. *)
Definition end_of_text (i : pos) (cdata_elem : option string) : option pos :=
  match cdata_elem with
  | None =>
      match search (Lit "<") i with
      | Some (j, _) => Some j
      | None => if holds_back i then None else Some (skip (length (rest i)) i)
      end
  | Some elem =>
      match search (Seq (Word (Py.chars "</"))
                     (Seq (Star ws) (Seq (WordI (Py.chars elem))
                                         (Seq (Star ws) (Lit ">"))))) i with
      | Some (j, _) => Some j
      | None => None
      end
  end.

(** The [while i < n] loop of [goahead(0)]. *)
Fixpoint goahead (fuel : nat) (i : pos) (cdata_elem : option string)
         (delivered : list Event) : FeedResult :=
  match fuel, rest i with
  | 0, _ => Fed delivered
  | _, [] => Fed delivered
  | S fuel', _ :: _ =>
      match end_of_text i cdata_elem with
      | None => Fed delivered
      | Some j =>
          let delivered :=
            if shorter j i
            then delivered ++ [Data (match cdata_elem with
                                     | None => unescape (text i j)
                                     | Some _ => text i j
                                     end)]
            else delivered in
          match rest j with
          | [] => Fed delivered
          | _ :: _ =>
              match parse_markup j cdata_elem with
              | Parsed evs k cdata_elem' =>
                  goahead fuel' k cdata_elem' (delivered ++ evs)
              | Incomplete => Fed delivered
              | Fault => Raised delivered
              end
          end
      end
  end.

(** Modelled from the spec: the tokenizer call [converter.feed(data)] of
    section 4.1, on a fresh parser; the events it delivers to the handlers
    and whether it raised. *)
Definition feed (data : string) : FeedResult :=
  let rawdata := Py.chars data in
  goahead (S (length rawdata)) (start rawdata) None [].

End Scanner.

End HTMLParser.

(** ** Vocabulary of the statements *)

(** The block of the fallback path of [html_to_blocknote]. *)
Definition fallback_block (i : string) (text : string) : Block :=
  {| block_id := i; block_type := "paragraph"; block_props := default_props;
     block_content := [{| node_type := "text"; node_text := text;
                          node_styles := [] |}];
     block_children := [] |}.

(** A paragraph block holding the given text runs. *)
Definition paragraph (i : string) (runs : list TextNode) : Block :=
  {| block_id := i; block_type := "paragraph"; block_props := default_props;
     block_content := runs; block_children := [] |}.

Definition text_run (text : string) (styles : Styles) : TextNode :=
  {| node_type := "text"; node_text := text; node_styles := styles |}.

(** Every text run the converter has created so far, in order of creation:
    the runs of the finished blocks, then those of the block being built. *)
Definition runs (c : HTMLToBlockNoteConverter.BlockNoteConverter) : list TextNode :=
  flat_map block_content (HTMLToBlockNoteConverter.blocks c)
    ++ HTMLToBlockNoteConverter.current_content c.

Definition has_style (k : string) (t : TextNode) : bool :=
  match dict_get k (node_styles t) with Some _ => true | None => false end.

(** The event is a start tag named [t1] or [t2] (in any letter case). *)
Definition opens (tags : list string) (e : Event) : bool :=
  match e with
  | StartTag tag _ => tag_in (Py.lower tag) tags
  | _ => false
  end.

(** The event is a start or an end tag with one of the names. *)
Definition is_tag (tags : list string) (e : Event) : bool :=
  match e with
  | StartTag tag _ => tag_in (Py.lower tag) tags
  | EndTag tag => tag_in (Py.lower tag) tags
  | Data _ => false
  end.

(** The start tag carries no [href] attribute. *)
Definition no_href (attrs : list (string * option string)) : bool :=
  forallb (fun kv => negb (String.eqb "href" (fst kv))) attrs.

(** One flat list item: [<li>], a body without list tags, [</li>]. *)
Definition list_item (body : list Event) : list Event :=
  StartTag "li" [] :: body ++ [EndTag "li"].

Definition flat_body (body : list Event) : bool :=
  forallb (fun e => negb (is_tag ["ul"; "ol"; "li"] e)) body.

(** The events of list items that hold plain text. *)
Definition plain_items (texts : list string) : list Event :=
  flat_map (fun t => list_item [Data t]) texts.

(** What the emitter appends for plain items numbered from [k] on. *)
Fixpoint numbered (k : nat) (texts : list string) : list string :=
  match texts with
  | [] => []
  | t :: ts => (Py.str_of_nat k +:+ ". ") :: t :: nl :: numbered (S k) ts
  end.

(** What the emitter appends for plain items behind a hyphen. *)
Definition bulleted (texts : list string) : list string :=
  flat_map (fun t => ["- "; t; nl]) texts.

(** The new runs all carry the style set [s]. *)
Definition stamped (s : Styles) (new : list TextNode) : Prop :=
  Forall (fun t => node_styles t = s) new.

(** The style attributes and the tags that open and close them. *)
Definition style_tags : list (string * list string) :=
  [("bold", ["strong"; "b"]); ("italic", ["em"; "i"]); ("underline", ["u"]);
   ("link", ["a"])].

(** A document reference survives the filter of both targets: its id is not
    in the trash set, the lookup table has a non-empty record for it, and
    the record's status is absent or ["active"]. *)
Definition eligible (docs_by_id : gmap string Document)
           (trash_doc_ids : gset string) (doc_id : string) : bool :=
  negb (mem doc_id trash_doc_ids)
  && match docs_by_id !! doc_id with
     | Some doc => doc_truthy doc && negb (inactive (doc_status doc))
     | None => false
     end.

(** The records of the surviving references of a folder, in the order of
    its [documentIds]. *)
Definition surviving_docs (docs_by_id : gmap string Document)
           (trash_doc_ids : gset string) (doc_ids : list string) : list Document :=
  flat_map (fun doc_id =>
              if eligible docs_by_id trash_doc_ids doc_id
              then match docs_by_id !! doc_id with
                   | Some doc => [doc]
                   | None => []
                   end
              else [])
           doc_ids.

(** The folder is not in the trash set. *)
Definition not_trashed (trash_folder_ids : gset string) (folder : Folder) : bool :=
  negb (mem (get (folder_id folder) EmptyString) trash_folder_ids).

(** The folder passes the folder filter: not in the trash set and of status
    absent or ["active"]. *)
Definition folder_kept (trash_folder_ids : gset string) (folder : Folder) : bool :=
  not_trashed trash_folder_ids folder && negb (inactive (folder_status folder)).

(** At least one document reference of the folder survives. *)
Definition has_survivor (docs_by_id : gmap string Document)
           (trash_doc_ids : gset string) (folder : Folder) : bool :=
  existsb (eligible docs_by_id trash_doc_ids) (folder_documentIds folder).

Definition with_folders (data : Schema1) (fs : list Folder) : Schema1 :=
  {| s1_title := s1_title data; documentsById := documentsById data;
     folders := fs; trash := trash data |}.

Definition with_documentIds (folder : Folder) (ids : list string) : Folder :=
  {| folder_id := folder_id folder; folder_title := folder_title folder;
     folder_sort := folder_sort folder; folder_status := folder_status folder;
     folder_documentIds := ids |}.

(** The folder without its references to trashed documents. *)
Definition without_trashed_docs (trash_doc_ids : gset string) (folder : Folder)
  : Folder :=
  with_documentIds folder
    (List.filter (fun doc_id => negb (mem doc_id trash_doc_ids))
                 (folder_documentIds folder)).

(** The title of a converted document: a trailing [.md] in any letter case
    is removed. *)
Definition clean_title (doc : Document) : string :=
  let title := get (doc_title doc) "Untitled" in
  if Py.endswith (Py.lower title) ".md" then Py.drop_last 3 title else title.

(** The archive entries of one folder: the directory entry, then one file
    per surviving document in the order of [documentIds]; nothing when no
    document survives. *)
Definition folder_entries (feed : string -> FeedResult)
           (docs_by_id : gmap string Document) (trash_doc_ids : gset string)
           (folder : Folder) : list ZipEntry :=
  let slug := slugify_folder (get (folder_title folder) "untitled") in
  match surviving_docs docs_by_id trash_doc_ids (folder_documentIds folder) with
  | [] => []
  | docs =>
      (slug +:+ "/", EmptyString)
        :: List.map (fun doc =>
                       (slug +:+ "/" +:+ slugify_filename (get (doc_title doc) "untitled"),
                        encode_utf8 (html_to_markdown feed (get (doc_content doc) EmptyString))))
                    docs
  end.

(** The block with its id blanked. *)
Definition erase_id (b : Block) : Block :=
  {| block_id := EmptyString; block_type := block_type b;
     block_props := block_props b; block_content := block_content b;
     block_children := block_children b |}.

(** Two block lists that differ at most in the ids. *)
Definition same_blocks (bs1 bs2 : list Block) : Prop :=
  List.map erase_id bs1 = List.map erase_id bs2.

Definition with_content (d : Document2) (content : string) : Document2 :=
  {| d2_type := d2_type d; d2_title := d2_title d;
     d2_label_color := d2_label_color d; d2_card_color := d2_card_color d;
     d2_icon := d2_icon d; d2_content := content;
     d2_synopsis := d2_synopsis d; d2_notes := d2_notes d;
     d2_label := d2_label d; d2_status := d2_status d;
     d2_order := d2_order d; d2_word_count := d2_word_count d;
     d2_target_word_count := d2_target_word_count d;
     d2_keywords := d2_keywords d |}.

(** Two output documents that differ at most in the block ids inside
    their serialized content. *)
Definition same_document (d1 d2 : Document2) : Prop :=
  with_content d1 EmptyString = with_content d2 EmptyString
  /\ exists bs1 bs2,
       d2_content d1 = json_dumps (json_of_blocks bs1)
       /\ d2_content d2 = json_dumps (json_of_blocks bs2)
       /\ same_blocks bs1 bs2.

Definition with_documents (f : Folder2) (ds : list Document2) : Folder2 :=
  {| f2_name := f2_name f; f2_type := f2_type f;
     f2_description := f2_description f; f2_parent_id := f2_parent_id f;
     f2_label_color := f2_label_color f; f2_icon := f2_icon f;
     f2_order := f2_order f; f2_is_default := f2_is_default f;
     f2_documents := ds |}.

Definition same_folder (f1 f2 : Folder2) : Prop :=
  with_documents f1 [] = with_documents f2 []
  /\ Forall2 same_document (f2_documents f1) (f2_documents f2).

Definition with_p_folders (p : Project) (fs : list Folder2) : Project :=
  {| p_title := p_title p; p_author := p_author p;
     p_author_pen_name := p_author_pen_name p;
     p_description := p_description p; p_genre := p_genre p;
     number_of_chapters := number_of_chapters p;
     p_story_hook := p_story_hook p; p_story_pitch := p_story_pitch p;
     p_status := p_status p; p_folders := fs |}.

(** Two output trees that differ at most in block ids. *)
Definition same_project (p1 p2 : Project) : Prop :=
  with_p_folders p1 [] = with_p_folders p2 []
  /\ Forall2 same_folder (p_folders p1) (p_folders p2).

(** The converter state with the ids of its blocks blanked. *)
Definition erase_state (c : HTMLToBlockNoteConverter.BlockNoteConverter)
  : HTMLToBlockNoteConverter.BlockNoteConverter :=
  {| HTMLToBlockNoteConverter.blocks :=
       List.map erase_id (HTMLToBlockNoteConverter.blocks c);
     HTMLToBlockNoteConverter.current_block :=
       option_map erase_id (HTMLToBlockNoteConverter.current_block c);
     HTMLToBlockNoteConverter.current_content :=
       HTMLToBlockNoteConverter.current_content c;
     HTMLToBlockNoteConverter.current_styles :=
       HTMLToBlockNoteConverter.current_styles c;
     HTMLToBlockNoteConverter.pending_text :=
       HTMLToBlockNoteConverter.pending_text c |}.

(** The id supply that always answers the empty string. *)
Definition no_ids : nat -> string := fun _ => EmptyString.

(** The number of newlines the text starts with. *)
Fixpoint leading_newlines (l : list ascii) : nat :=
  match l with
  | c :: l' => if Py.is_char newline c then S (leading_newlines l') else 0
  | [] => 0
  end.

(** No newline of the text is followed by two more newlines. *)
Fixpoint no_triple_newline (l : list ascii) : bool :=
  match l with
  | [] => true
  | c :: l' =>
      (negb (Py.is_char newline c) || (leading_newlines l' <? 2))
      && no_triple_newline l'
  end.

(** ** Vocabulary of the further properties *)

(** What [re.sub] does with a pattern [c+] over a character class [c]:
    every maximal run of [c] characters becomes one copy of [repl].
    [inrun] tells that the character before belongs to a run. *)
Fixpoint squeeze_go (c : ascii -> bool) (repl : list ascii) (inrun : bool)
         (l : list ascii) : list ascii :=
  match l with
  | [] => []
  | x :: l' =>
      if c x then (if inrun then [] else repl) ++ squeeze_go c repl true l'
      else x :: squeeze_go c repl false l'
  end.

Definition squeeze (c : ascii -> bool) (repl : list ascii) (l : list ascii)
  : list ascii := squeeze_go c repl false l.

(** The first character is a hyphen. *)
Definition starts_with_hyphen (l : list ascii) : bool :=
  match l with c :: _ => Py.is_char hyphen c | [] => false end.

(** No hyphen is followed by a hyphen. *)
Fixpoint single_hyphens (l : list ascii) : bool :=
  match l with
  | [] => true
  | a :: l' =>
      negb (Py.is_char hyphen a && starts_with_hyphen l') && single_hyphens l'
  end.

(** A character of a folder slug: a lower-case letter, a digit, an
    underscore or a hyphen. *)
Definition slug_char (c : ascii) : bool :=
  (Py.isword c && negb (Py.isupper c)) || Py.is_char hyphen c.

(** The shape of a folder slug: slug characters only, hyphens single and
    neither first nor last. *)
Definition is_slug (s : string) : bool :=
  let l := Py.chars s in
  forallb slug_char l && single_hyphens l
  && negb (starts_with_hyphen l) && negb (starts_with_hyphen (rev l)).

(** A character of a file name stem: a letter, a digit, an underscore or a
    hyphen. *)
Definition stem_char (c : ascii) : bool := Py.isword c || Py.is_char hyphen c.

Definition is_stem (s : string) : bool := forallb stem_char (Py.chars s).

Definition md_suffix : list ascii := ["."; "m"; "d"]%char.

(** How often the character occurs in the string. *)
Definition count_char (x : ascii) (s : string) : nat :=
  length (List.filter (Py.is_char x) (Py.chars s)).

(** The shape of an archive entry name: a folder slug and a slash, alone
    (directory entry) or followed by a stem and [.md] (file entry). *)
Definition directory_name (slug : string) : string := slug +:+ "/".

Definition file_name (slug stem : string) : string :=
  slug +:+ "/" +:+ stem +:+ ".md".

Definition entry_name_ok (name : string) : Prop :=
  exists slug,
    is_slug slug = true
    /\ (name = directory_name slug
        \/ exists stem, is_stem stem = true /\ name = file_name slug stem).

(** The references of a folder to documents in the trash set. *)
Definition trashed_refs (trash_doc_ids : gset string) (doc_ids : list string)
  : nat :=
  length (List.filter (fun doc_id => mem doc_id trash_doc_ids) doc_ids).

(** The references outside the trash set for which the lookup table has no
    record, or an empty one. *)
Definition missing_refs (docs_by_id : gmap string Document)
           (trash_doc_ids : gset string) (doc_ids : list string) : nat :=
  length (List.filter
            (fun doc_id =>
               negb (mem doc_id trash_doc_ids)
               && match docs_by_id !! doc_id with
                  | Some doc => negb (doc_truthy doc)
                  | None => true
                  end)
            doc_ids).

(** The references outside the trash set whose record has a status other
    than ["active"]. *)
Definition inactive_refs (docs_by_id : gmap string Document)
           (trash_doc_ids : gset string) (doc_ids : list string) : nat :=
  length (List.filter
            (fun doc_id =>
               negb (mem doc_id trash_doc_ids)
               && match docs_by_id !! doc_id with
                  | Some doc => doc_truthy doc && inactive (doc_status doc)
                  | None => false
                  end)
            doc_ids).

(** The folder reaches the output: it passes the folder filter and one of
    its references survives. *)
Definition exported (docs_by_id : gmap string Document)
           (trash_doc_ids trash_folder_ids : gset string) (folder : Folder)
  : bool :=
  folder_kept trash_folder_ids folder
  && has_survivor docs_by_id trash_doc_ids folder.

(** The sum of a count over the folders that pass the folder filter. *)
Definition over_kept_folders (trash_folder_ids : gset string)
           (count : list string -> nat) (fs : list Folder) : nat :=
  list_sum (List.map (fun f => count (folder_documentIds f))
                     (List.filter (folder_kept trash_folder_ids) fs)).

(** A character of an archive entry name. *)
Definition path_char (c : ascii) : bool :=
  stem_char c || Py.is_char "/" c || Py.is_char "." c.

(** The slug both targets derive from the title of a folder. *)
Definition folder_slug (f : Folder) : string :=
  slugify_folder (get (folder_title f) "untitled").

(** The value the folders are sorted by. *)
Definition sort_value (f : Folder) : Z := get (folder_sort f) 0%Z.

(** Two titles have the same sort key. *)
Definition same_key (k : list KeyPart) (title : string) : bool :=
  match key_compare (natural_sort_key title) k with Eq => true | _ => false end.

(** The number of words of a text, as [len(text.split())]. *)
Definition words (text : string) : nat := length (Py.split_ws text).

(** The text runs of a block list, in order. *)
Definition text_runs (bs : list Block) : list TextNode :=
  List.filter (fun item => String.eqb (node_type item) "text")
              (flat_map block_content bs).

(** What every document of the structured output has in common: the fixed
    fields, the status, a synopsis that is not the empty string, and a
    word count taken from the blocks the content serializes. *)
Definition exported_document (d : Document2) : Prop :=
  d2_type d = "manuscript" /\ d2_status d = "draft"
  /\ d2_synopsis d <> Some EmptyString
  /\ d2_label_color d = None /\ d2_card_color d = None /\ d2_icon d = None
  /\ d2_notes d = None /\ d2_label d = None
  /\ d2_target_word_count d = None /\ d2_keywords d = None
  /\ exists bs,
       d2_content d = json_dumps (json_of_blocks bs)
       /\ d2_word_count d = count_words bs
       /\ Forall (fun b => block_content b <> []) bs.

(** The text the tokenizer delivered, in order. *)
Definition data_of (evs : list Event) : list string :=
  flat_map (fun e => match e with Data d => [d] | _ => [] end) evs.

(** The text of a list of runs, and of a list of blocks. *)
Definition text_of_runs (rs : list TextNode) : string :=
  Py.concat (List.map node_text rs).

Definition text_of_blocks (bs : list Block) : string :=
  text_of_runs (flat_map block_content bs).

(** The text a converter state holds: that of its runs, then the pending
    pieces. *)
Definition state_text (c : HTMLToBlockNoteConverter.BlockNoteConverter)
  : string :=
  text_of_runs (runs c)
    +:+ Py.concat (HTMLToBlockNoteConverter.pending_text c).

(** An entry of the style dict as the handlers write it: [True] under
    [bold], [italic] or [underline], an href (or the [None] of an [href]
    without value) under [link]. *)
Definition style_entry_ok (kv : string * StyleValue) : bool :=
  match snd kv with
  | SBool true => tag_in (fst kv) ["bold"; "italic"; "underline"]
  | SBool false => false
  | SStr _ | SNone => String.eqb (fst kv) "link"
  end.

(** No string occurs twice. *)
Fixpoint distinct (l : list string) : bool :=
  match l with
  | [] => true
  | x :: l' => negb (existsb (String.eqb x) l') && distinct l'
  end.

Definition styles_ok (s : Styles) : bool :=
  forallb style_entry_ok s && distinct (List.map fst s).

(** A run as [_flush_text] makes it: of type [text], with some text, and
    with a well-formed style dict. *)
Definition run_ok (t : TextNode) : bool :=
  String.eqb (node_type t) "text" && Py.truthy (node_text t)
  && styles_ok (node_styles t).

(** A block as the converter makes it: the three default properties, no
    children, and either a paragraph without level or a heading of level
    1 to 6. *)
Definition block_ok (b : Block) : bool :=
  match block_children b with [] => true | _ :: _ => false end
  && String.eqb (textColor (block_props b)) "default"
  && String.eqb (backgroundColor (block_props b)) "default"
  && String.eqb (textAlignment (block_props b)) "left"
  && match level (block_props b) with
     | None => String.eqb (block_type b) "paragraph"
     | Some l => String.eqb (block_type b) "heading" && (1 <=? l) && (l <=? 6)
     end.

(** The tags [HTMLToBlockNoteConverter] reacts to. *)
Definition blocknote_tags : list string :=
  ["p"; "br"; "strong"; "b"; "em"; "i"; "u";
   "h1"; "h2"; "h3"; "h4"; "h5"; "h6"; "a"].

(** The tags for which [HTMLToMarkdownConverter] emits text or changes its
    list state: all it names but [u]. *)
Definition markdown_tags : list string :=
  ["p"; "br"; "strong"; "b"; "em"; "i";
   "h1"; "h2"; "h3"; "h4"; "h5"; "h6"; "a";
   "ul"; "ol"; "li"; "blockquote"; "code"; "pre"].

(** ** The block assembler as a transition system

    Every tag handler of [HTMLToBlockNoteConverter] is a sequence of the
    six steps below. *)

Section Steps.

Import HTMLToBlockNoteConverter.

Variable uuid : nat -> string.

Definition State : Type := (BlockNoteConverter * nat)%type.

(** The second half of [_flush_block]: the runs collected become a new
    paragraph. *)
Definition new_paragraph (c : BlockNoteConverter) (n : nat) : State :=
  let (block, n1) := _create_block uuid "paragraph" n in
  ({| blocks := blocks c ++ [set_content block (current_content c)];
      current_block := current_block c;
      current_content := [];
      current_styles := current_styles c;
      pending_text := pending_text c |}, n1).

(** A heading start tag, after its [_flush_block]. *)
Definition open_heading (lvl : nat) (c : BlockNoteConverter) (n : nat) : State :=
  let (block, n1) := _create_block uuid "heading" n in
  ({| blocks := blocks c;
      current_block := Some (set_level block lvl);
      current_content := current_content c;
      current_styles := current_styles c;
      pending_text := pending_text c |}, n1).

(** A heading end tag, after its [_flush_text], when a heading is open. *)
Definition close_heading (block : Block) (c : BlockNoteConverter)
  : BlockNoteConverter :=
  {| blocks := blocks c ++ [set_content block (current_content c)];
     current_block := None;
     current_content := [];
     current_styles := current_styles c;
     pending_text := pending_text c |}.

Inductive tag_step : State -> State -> Prop :=
| step_flush_text (c : BlockNoteConverter) (n : nat) :
    tag_step (c, n) (_flush_text c, n)
| step_new_paragraph (c : BlockNoteConverter) (n : nat) :
    current_content c <> [] -> pending_text c = [] ->
    tag_step (c, n) (new_paragraph c n)
| step_open_style (c : BlockNoteConverter) (n : nat) (k : string)
                  (v : StyleValue) :
    style_entry_ok (k, v) = true ->
    tag_step (c, n) (set_styles c (dict_set k v (current_styles c)), n)
| step_close_style (c : BlockNoteConverter) (n : nat) (k : string) :
    tag_step (c, n) (set_styles c (dict_pop k (current_styles c)), n)
| step_open_heading (c : BlockNoteConverter) (n : nat) (tag : string) :
    tag_in tag heading_tags = true ->
    tag_step (c, n) (open_heading (heading_level tag) c n)
| step_close_heading (c : BlockNoteConverter) (n : nat) (block : Block) :
    current_block c = Some block ->
    tag_step (c, n) (close_heading block c, n).

Inductive tag_steps : State -> State -> Prop :=
| steps_done (s : State) : tag_steps s s
| steps_next (s1 s2 s3 : State) :
    tag_step s1 s2 -> tag_steps s2 s3 -> tag_steps s1 s3.

End Steps.

(** The ids of the blocks a state holds are distinct values of the id
    supply, drawn at positions from [n0] up to the counter. *)
Definition ids_fresh (uuid : nat -> string) (n0 : nat)
           (s : HTMLToBlockNoteConverter.BlockNoteConverter * nat) : Prop :=
  n0 <= snd s
  /\ exists ks kc,
       Forall2 (fun b k => block_id b = uuid k)
               (HTMLToBlockNoteConverter.blocks (fst s)) ks
       /\ match HTMLToBlockNoteConverter.current_block (fst s), kc with
          | Some b, Some k => block_id b = uuid k
          | None, None => True
          | _, _ => False
          end
       /\ List.NoDup (ks ++ match kc with Some k => [k] | None => [] end)
       /\ Forall (fun k => n0 <= k < snd s)
                 (ks ++ match kc with Some k => [k] | None => [] end).

(** The finished blocks and the open heading are as the converter makes
    them. *)
Definition blocks_ok (s : HTMLToBlockNoteConverter.BlockNoteConverter * nat)
  : Prop :=
  forallb block_ok (HTMLToBlockNoteConverter.blocks (fst s)) = true
  /\ match HTMLToBlockNoteConverter.current_block (fst s) with
     | Some b => block_ok b = true
     | None => True
     end.

(** The value of the last [href] pair of an attribute list, if there is
    one; the value is [None] for an attribute written without value. *)
Definition last_href (attrs : list (string * option string))
  : option (option string) :=
  fold_left (fun acc kv => if String.eqb "href" (fst kv) then Some (snd kv) else acc)
            attrs None.

(** The text has no digit. *)
Definition digit_free (s : string) : bool :=
  forallb (fun c => negb (Py.isdigit_char c)) (Py.chars s).

(** The text does not start with a digit. *)
Definition no_leading_digit (s : string) : bool :=
  match Py.chars s with c :: _ => negb (Py.isdigit_char c) | [] => true end.

(** The key part of a stretch of text without digits. *)
Definition text_part (p : string) : list KeyPart :=
  if Py.truthy p then [KText (Py.lower p)] else [].

(** The call [natural_sort_key(title)] returns: no run of digits of the
    title is longer than [int] converts. *)
Definition key_returns (title : string) : bool :=
  match natural_sort_key_result title with Some _ => true | None => false end.

(** The sort of [convert_folder] returns for the folder: the key function
    returns on the title of every document it is to sort. *)
Definition sort_returns (docs_by_id : gmap string Document)
           (trash_doc_ids : gset string) (folder : Folder) : bool :=
  forallb (fun doc => key_returns (clean_title doc))
          (surviving_docs docs_by_id trash_doc_ids (folder_documentIds folder)).

(** The structured conversion returns for the input: the sort returns for
    every folder that passes the folder filter. *)
Definition conversion_returns (data : Schema1) : bool :=
  forallb (sort_returns (documentsById data)
                        (set_of (trash_documentIds (trash data))))
          (List.filter (folder_kept (set_of (trash_folderIds (trash data))))
                       (folders data)).

(** The document is the conversion of the record, whatever ids its blocks
    drew. *)
Definition converted_from (uuid : nat -> string) (feed : string -> FeedResult)
           (d : Document2) (doc : Document) : Prop :=
  exists n, d = fst (convert_document uuid feed doc 0 n).

(** The documents whose title has the sort key [k]. *)
Definition with_key (k : list KeyPart) (ds : list Document2) : list Document2 :=
  List.filter (fun d => same_key k (d2_title d)) ds.

(** The text is made of whitespace only. *)
Definition blank (s : string) : bool := forallb Py.isspace (Py.chars s).

(** The text is not empty and neither starts nor ends with whitespace. *)
Definition no_space_at_ends (s : string) : bool :=
  match Py.chars s, rev (Py.chars s) with
  | a :: _, b :: _ => negb (Py.isspace a) && negb (Py.isspace b)
  | _, _ => false
  end.

(** [t] is [s] without the whitespace at its two ends. *)
Definition trimmed_to (s t : string) : Prop :=
  exists before after,
    s = before +:+ t +:+ after
    /\ blank before = true /\ blank after = true /\ no_space_at_ends t = true.

(** The entry is a directory entry: its name ends with a slash. *)
Definition is_directory (e : ZipEntry) : bool := Py.endswith (fst e) "/".

(** A heading block holding the given text runs. *)
Definition heading (i : string) (lvl : nat) (runs : list TextNode) : Block :=
  set_content
    (set_level {| block_id := i; block_type := "heading";
                  block_props := default_props; block_content := [];
                  block_children := [] |} lvl)
    runs.

(** A simple element of a document: a paragraph or a heading around plain
    text. *)
Inductive Element : Type :=
| Para (text : string)
| Head (lvl : nat) (text : string).

(** The tag [h1] .. [h6] of a level. *)
Definition heading_tag (lvl : nat) : string := "h" +:+ Py.str_of_nat lvl.

(** The events the tokenizer delivers for the element. *)
Definition element_events (el : Element) : list Event :=
  match el with
  | Para text => [StartTag "p" []; Data text; EndTag "p"]
  | Head lvl text =>
      [StartTag (heading_tag lvl) []; Data text; EndTag (heading_tag lvl)]
  end.

(** The element has some text, and a level from 1 to 6 if it is a
    heading. *)
Definition element_ok (el : Element) : bool :=
  match el with
  | Para text => Py.truthy text
  | Head lvl text => Py.truthy text && (1 <=? lvl) && (lvl <=? 6)
  end.

(** The block of the element, under the given id. *)
Definition element_block (i : string) (el : Element) : Block :=
  match el with
  | Para text => paragraph i [text_run text []]
  | Head lvl text => heading i lvl [text_run text []]
  end.

(** The blocks of the elements, with the ids drawn from position [n] on. *)
Fixpoint element_blocks (uuid : nat -> string) (n : nat) (els : list Element)
  : list Block :=
  match els with
  | [] => []
  | el :: els' => element_block (uuid n) el :: element_blocks uuid (S n) els'
  end.

(** The converter between two elements: the blocks made so far, and
    nothing open. *)
Definition between_elements (bs : list Block)
  : HTMLToBlockNoteConverter.BlockNoteConverter :=
  {| HTMLToBlockNoteConverter.blocks := bs;
     HTMLToBlockNoteConverter.current_block := None;
     HTMLToBlockNoteConverter.current_content := [];
     HTMLToBlockNoteConverter.current_styles := [];
     HTMLToBlockNoteConverter.pending_text := [] |}.

(** * Properties *)

(** Case analysis on every test of an [if] chain. *)
Ltac branches :=
  repeat match goal with
         | |- context [if ?b then _ else _] => destruct b eqn:?
         end.

(** The four entries of [style_tags]. *)
Ltac style_cases H :=
  unfold style_tags in H; simpl in H;
  repeat match goal with
         | H : _ \/ _ |- _ => destruct H
         | H : False |- _ => destruct H
         | H : (_, _) = (_, _) |- _ => inversion H; clear H; subst
         end.

(** The tags of a [tag_in] test that holds. *)
Ltac tag_cases H :=
  unfold tag_in in H; cbn [existsb] in H;
  repeat match type of H with
         | (_ || _) = true => apply orb_prop in H; destruct H as [H | H]
         end;
  try discriminate H; apply String.eqb_eq in H.

(** ** Strings *)

Lemma chars_str (l : list ascii) : Py.chars (Py.str l) = l.
Proof. apply list_ascii_of_string_of_list_ascii. Qed.

Lemma str_chars (s : string) : Py.str (Py.chars s) = s.
Proof. apply string_of_list_ascii_of_string. Qed.



(** ** Malformed markup and the fallback path *)

Section Fallback.

Variable uuid : nat -> string.
Variable feed : string -> FeedResult.

Lemma not_truthy_empty (s : string) : Py.truthy s = false -> s = EmptyString.
Proof. destruct s; [reflexivity | discriminate]. Qed.

Lemma html_to_blocknote_raised (html : string) (n : nat) (evs : list Event) :
  feed html = Raised evs ->
  exists i n',
    html_to_blocknote uuid feed html n =
      (if Py.truthy (Py.strip (Re.sub re_tag EmptyString html))
       then [fallback_block i (Py.strip (Re.sub re_tag EmptyString html))]
       else [], n').
Proof.
  intros Hfeed. unfold html_to_blocknote.
  destruct (Py.truthy html) eqn:Hhtml; simpl.
  - rewrite Hfeed.
    destruct (HTMLToBlockNoteConverter.handle_all uuid evs _ n) as [c n1].
    destruct (Py.truthy (Py.strip (Re.sub re_tag EmptyString html))).
    + exists (uuid n1), (S n1). reflexivity.
    + exists EmptyString, n1. reflexivity.
  - apply not_truthy_empty in Hhtml. subst html.
    exists EmptyString, n. reflexivity.
Qed.

Lemma html_to_markdown_raised (html : string) (evs : list Event) :
  feed html = Raised evs ->
  html_to_markdown feed html = Re.sub re_tag EmptyString html.
Proof.
  intros Hfeed. unfold html_to_markdown.
  destruct (Py.truthy html) eqn:Hhtml; simpl.
  - rewrite Hfeed. reflexivity.
  - apply not_truthy_empty in Hhtml. subst html. reflexivity.
Qed.

End Fallback.


(** Markup that stops inside a tag is no fault for the tokenizer: it keeps
    the unfinished tag in its buffer and delivers what came before. *)
Lemma unfinished_tag_is_held_back (replace_charrefs : string -> string) :
  HTMLParser.feed replace_charrefs "intro<p text" = Fed [Data "intro"]
  /\ html_to_markdown (HTMLParser.feed replace_charrefs) "intro<p text" = "intro".
Proof. split; vm_compute; reflexivity. Qed.


(** ** The newline collapse of [html_to_markdown] *)

Section NewlineCollapse.

Import Re.

Lemma star_newlines (l : list ascii) (b : option ascii) :
  exists b',
    run (Star (Lit newline)) (Pos b l) Some
    = Some (Pos b' (Py.lstrip_by (Py.is_char newline) l)).
Proof.
  revert b. induction l as [| c l IH]; intros b.
  - exists b. reflexivity.
  - cbn. destruct (Py.is_char newline c) eqn:E.
    + rewrite Nat.leb_refl.
      destruct (IH (Some c)) as [b' Hb']. cbn in Hb'. rewrite Hb'.
      exists b'. reflexivity.
    + exists b. reflexivity.
Qed.

Lemma lstrip_newlines_length (l : list ascii) :
  length (Py.lstrip_by (Py.is_char newline) l) + leading_newlines l = length l.
Proof.
  induction l as [| c l IH]; [reflexivity |].
  cbn. destruct (Py.is_char newline c); cbn; lia.
Qed.

Lemma lstrip_newlines_leading (l : list ascii) :
  leading_newlines (Py.lstrip_by (Py.is_char newline) l) = 0.
Proof.
  induction l as [| c l IH]; [reflexivity |].
  cbn. destruct (Py.is_char newline c) eqn:E; [exact IH |].
  cbn. rewrite E. reflexivity.
Qed.

(** [\n{3,}] matches exactly at three or more newlines and takes them all. *)
Lemma match_newlines3 (p : pos) :
  (leading_newlines (rest p) < 3 -> match_at re_newlines3 p = None)
  /\ (3 <= leading_newlines (rest p) ->
      exists b',
        match_at re_newlines3 p
        = Some (Pos b' (Py.lstrip_by (Py.is_char newline) (rest p)))).
Proof.
  destruct p as [b l]. cbn [rest]. unfold match_at, re_newlines3, Plus.
  destruct l as [| c1 l]; [cbn; split; [reflexivity | lia] |].
  cbn [run rest Lit]. cbn [leading_newlines Py.lstrip_by].
  destruct (Py.is_char newline c1); [| cbn; split; [reflexivity | lia]].
  destruct l as [| c2 l]; [cbn; split; [reflexivity | lia] |].
  cbn [run rest Lit]. cbn [leading_newlines Py.lstrip_by].
  destruct (Py.is_char newline c2); [| cbn; split; [reflexivity | lia]].
  destruct l as [| c3 l]; [cbn; split; [reflexivity | lia] |].
  cbn [run rest Lit]. cbn [leading_newlines Py.lstrip_by].
  destruct (Py.is_char newline c3); [| cbn; split; [reflexivity | lia]].
  split; [lia | intros _].
  apply (star_newlines l (Some c3)).
Qed.

(** The output of the collapse starts with as many newlines as the input,
    but at most two, and has no run of three. *)
Lemma sub_go_collapse (fuel : nat) (p : pos) :
  length (rest p) < fuel ->
  no_triple_newline (sub_go fuel re_newlines3 [newline; newline] p) = true
  /\ leading_newlines (sub_go fuel re_newlines3 [newline; newline] p)
     = Nat.min (leading_newlines (rest p)) 2.
Proof.
  revert p. induction fuel as [| fuel IH]; intros p Hfuel; [lia |].
  cbn [sub_go]. destruct (match_newlines3 p) as [Hnone Hsome].
  destruct (le_lt_dec 3 (leading_newlines (rest p))) as [H3 | H3].
  - destruct (Hsome H3) as [b' E]. rewrite E.
    pose proof (lstrip_newlines_length (rest p)) as L.
    assert (S : shorter (Pos b' (Py.lstrip_by (Py.is_char newline) (rest p))) p = true)
      by (unfold shorter; cbn [rest]; apply Nat.ltb_lt; lia).
    rewrite S.
    destruct (IH (Pos b' (Py.lstrip_by (Py.is_char newline) (rest p))))
      as [T N]; [cbn [rest]; lia |].
    cbn [rest] in N. rewrite lstrip_newlines_leading in N. cbn in N.
    cbn [app no_triple_newline leading_newlines].
    change (Py.is_char newline newline) with true. cbn [negb orb andb].
    rewrite N, T. split; [reflexivity | lia].
  - rewrite (Hnone H3).
    destruct (rest p) as [| c l] eqn:E; [split; reflexivity |].
    assert (A : advance p = Pos (Some c) l) by (unfold advance; rewrite E; reflexivity).
    rewrite A. destruct (IH (Pos (Some c) l)) as [T N]; [cbn in *; lia |].
    cbn [rest] in N. cbn [no_triple_newline leading_newlines] in *.
    destruct (Py.is_char newline c); cbn [negb orb andb].
    + rewrite N, T. split; [| lia].
      rewrite andb_true_r. apply Nat.ltb_lt. lia.
    + rewrite T. split; reflexivity.
Qed.

(** After the collapse no newline is followed by two more. *)
Lemma collapse_leaves_no_triple (s : string) :
  no_triple_newline (Py.chars (Re.sub re_newlines3 (nl +:+ nl) s)) = true.
Proof.
  unfold Re.sub. rewrite chars_str.
  apply (sub_go_collapse _ (start (Py.chars s))). cbn. lia.
Qed.

End NewlineCollapse.

(** ** The trim *)

Lemma lstrip_by_suffix (p : ascii -> bool) (l : list ascii) :
  exists pre, l = pre ++ Py.lstrip_by p l.
Proof.
  induction l as [| c l [pre IH]]; [exists []; reflexivity |].
  cbn. destruct (p c).
  - exists (c :: pre). cbn. rewrite <- IH. reflexivity.
  - exists []. reflexivity.
Qed.

Lemma lstrip_by_head (p : ascii -> bool) (l : list ascii) (c : ascii)
      (t : list ascii) :
  Py.lstrip_by p l = c :: t -> p c = false.
Proof.
  induction l as [| x l IH]; cbn; [discriminate |].
  destruct (p x) eqn:E; [exact IH |]. intros [= <- _]. exact E.
Qed.

(** What [strip] returns neither starts nor ends with a stripped
    character. *)
Lemma strip_by_trimmed (p : ascii -> bool) (l : list ascii) :
  (forall c t, Py.strip_by p l = c :: t -> p c = false)
  /\ (forall c t, rev (Py.strip_by p l) = c :: t -> p c = false).
Proof.
  unfold Py.strip_by. split; intros c t H.
  - destruct (lstrip_by_suffix p (rev (Py.lstrip_by p l))) as [pre E].
    apply (f_equal (@rev ascii)) in E.
    rewrite rev_involutive, rev_app_distr, H in E. cbn in E.
    apply (lstrip_by_head p l c _ E).
  - rewrite rev_involutive in H. apply (lstrip_by_head p _ c t H).
Qed.


(** ** The Markdown emitter *)

Section MarkdownEmitter.

Import HTMLToMarkdownConverter.

Lemma tag_in_cons (t a : string) (l : list string) :
  tag_in t (a :: l) = String.eqb t a || tag_in t l.
Proof. reflexivity. Qed.

Lemma md_handle_all_app (evs1 evs2 : list Event) (c : MarkdownConverter) :
  handle_all (evs1 ++ evs2) c = handle_all evs2 (handle_all evs1 c).
Proof. unfold handle_all. apply fold_left_app. Qed.

Lemma md_handle_all_cons (e : Event) (evs : list Event) (c : MarkdownConverter) :
  handle_all (e :: evs) c = handle_all evs (handle e c).
Proof. reflexivity. Qed.

Lemma not_list_tag (t : string) :
  tag_in t ["ul"; "ol"; "li"] = false ->
  String.eqb t "ul" = false /\ String.eqb t "ol" = false
  /\ String.eqb t "li" = false.
Proof.
  unfold tag_in. cbn [existsb]. intros H.
  apply orb_false_elim in H as [H1 H]. apply orb_false_elim in H as [H2 H].
  apply orb_false_elim in H as [H3 _]. auto.
Qed.

(** Only the list tags touch the list state. *)
Lemma list_state_kept (e : Event) (c : MarkdownConverter) :
  is_tag ["ul"; "ol"; "li"] e = false ->
  list_type (handle e c) = list_type c
  /\ list_item_count (handle e c) = list_item_count c.
Proof.
  destruct e as [tag attrs | tag | data]; cbn [is_tag handle]; intros H.
  - apply not_list_tag in H as (H1 & H2 & H3).
    unfold handle_starttag. rewrite H1, H2, H3. branches; simpl; auto.
  - apply not_list_tag in H as (H1 & H2 & H3).
    unfold handle_endtag.
    rewrite (tag_in_cons _ "ul"), (tag_in_cons _ "ol"), H1, H2, H3.
    simpl. destruct (rev (current_text c)) as [| [kind href] below];
      branches; simpl; auto.
  - auto.
Qed.

Lemma list_state_kept_all (evs : list Event) (c : MarkdownConverter) :
  forallb (fun e => negb (is_tag ["ul"; "ol"; "li"] e)) evs = true ->
  list_type (handle_all evs c) = list_type c
  /\ list_item_count (handle_all evs c) = list_item_count c.
Proof.
  revert c. induction evs as [| e evs IH]; intros c H; [auto |].
  simpl in H. apply andb_prop in H as [He H].
  apply negb_true_iff in He. rewrite md_handle_all_cons.
  destruct (IH (handle e c) H) as [E1 E2].
  destruct (list_state_kept e c He) as [E3 E4].
  split; congruence.
Qed.

(** The handlers at the list tags. *)
Lemma starttag_ol (attrs : list (string * option string)) (c : MarkdownConverter) :
  handle_starttag "ol" attrs c =
    {| result := result c; current_text := current_text c; in_list := true;
       list_type := Some "ol"; list_item_count := 0 |}.
Proof. reflexivity. Qed.

Lemma starttag_ul (attrs : list (string * option string)) (c : MarkdownConverter) :
  handle_starttag "ul" attrs c =
    {| result := result c; current_text := current_text c; in_list := true;
       list_type := Some "ul"; list_item_count := list_item_count c |}.
Proof. reflexivity. Qed.

Lemma starttag_li (attrs : list (string * option string)) (c : MarkdownConverter) :
  handle_starttag "li" attrs c =
    if is_value (list_type c) "ul" then emit "- " c
    else emit (Py.str_of_nat (list_item_count c + 1) +:+ ". ")
              {| result := result c; current_text := current_text c;
                 in_list := in_list c; list_type := list_type c;
                 list_item_count := list_item_count c + 1 |}.
Proof. reflexivity. Qed.

Lemma endtag_list (tag : string) (c : MarkdownConverter) :
  tag = "ul" \/ tag = "ol" ->
  handle_endtag tag c =
    emit nl {| result := result c; current_text := current_text c;
               in_list := false; list_type := None;
               list_item_count := list_item_count c |}.
Proof. intros [-> | ->]; reflexivity. Qed.

End MarkdownEmitter.

Lemma md_handle_list_item (body : list Event) (rest : list Event)
      (c : HTMLToMarkdownConverter.MarkdownConverter) :
  HTMLToMarkdownConverter.handle_all (list_item body ++ rest) c =
    HTMLToMarkdownConverter.handle_all rest
      (HTMLToMarkdownConverter.emit nl
         (HTMLToMarkdownConverter.handle_all body
            (HTMLToMarkdownConverter.handle_starttag "li" [] c))).
Proof.
  unfold list_item.
  change ((StartTag "li" [] :: body ++ [EndTag "li"]) ++ rest)
    with (StartTag "li" [] :: (body ++ [EndTag "li"]) ++ rest).
  rewrite md_handle_all_cons, !md_handle_all_app. reflexivity.
Qed.

(** Flat items leave the list type alone and, unless it is [ul], count
    one per item. *)
Lemma list_items_counted (bodies : list (list Event))
      (c : HTMLToMarkdownConverter.MarkdownConverter) :
  forallb flat_body bodies = true ->
  HTMLToMarkdownConverter.list_type
    (HTMLToMarkdownConverter.handle_all (flat_map list_item bodies) c)
  = HTMLToMarkdownConverter.list_type c
  /\ (is_value (HTMLToMarkdownConverter.list_type c) "ul" = false ->
      HTMLToMarkdownConverter.list_item_count
        (HTMLToMarkdownConverter.handle_all (flat_map list_item bodies) c)
      = HTMLToMarkdownConverter.list_item_count c + length bodies).
Proof.
  revert c. induction bodies as [| body bodies IH]; intros c Hflat.
  - simpl. split; [reflexivity | intros _; lia].
  - simpl in Hflat. apply andb_prop in Hflat as [Hbody Hflat].
    cbn [flat_map]. rewrite md_handle_list_item, starttag_li.
    match goal with
    | |- context [HTMLToMarkdownConverter.handle_all body ?s] => set (c1 := s)
    end.
    destruct (list_state_kept_all body c1 Hbody) as [T2 N2].
    set (c2 := HTMLToMarkdownConverter.handle_all body c1) in *.
    destruct (IH (HTMLToMarkdownConverter.emit nl c2) Hflat) as [T4 N4].
    assert (T1 : HTMLToMarkdownConverter.list_type c1
                 = HTMLToMarkdownConverter.list_type c)
      by (subst c1; destruct (is_value _ "ul"); reflexivity).
    split.
    + rewrite T4. cbn. rewrite T2. exact T1.
    + intros Hul. rewrite N4.
      * cbn. rewrite N2. subst c1. rewrite Hul. cbn. lia.
      * cbn. rewrite T2, T1. exact Hul.
Qed.

(** C3. [html_to_markdown] maps the heading-and-paragraph sample to the
    heading marker, a blank line and the paragraph with its bold markers:
    the tokenizer delivers ten events, the emitter buffer ends in the
    paragraph separator, which the trim removes, and no run of three
    newlines is left to collapse.  In general, when the tokenizer returns,
    the result has no run of three newlines, and the trimmed buffer neither
    starts nor ends with whitespace. *)
Theorem markdown_heading_paragraph_sample :
  (forall replace_charrefs : string -> string,
     HTMLParser.feed replace_charrefs
         "<h2>Title</h2><p>A <strong>bold</strong> word.</p>"
       = Fed [StartTag "h2" []; Data "Title"; EndTag "h2"; StartTag "p" [];
              Data "A "; StartTag "strong" []; Data "bold"; EndTag "strong";
              Data " word."; EndTag "p"]
     /\ html_to_markdown (HTMLParser.feed replace_charrefs)
          "<h2>Title</h2><p>A <strong>bold</strong> word.</p>"
        = "## Title" +:+ nl +:+ nl +:+ "A **bold** word.")
  /\ HTMLToMarkdownConverter.result
       (HTMLToMarkdownConverter.handle_all
          [StartTag "h2" []; Data "Title"; EndTag "h2"; StartTag "p" [];
           Data "A "; StartTag "strong" []; Data "bold"; EndTag "strong";
           Data " word."; EndTag "p"]
          HTMLToMarkdownConverter.new_converter)
     = ["## "; "Title"; nl +:+ nl; "A "; "**"; "bold"; "**"; " word."; nl +:+ nl]
  /\ (forall feed : string -> FeedResult,
        feed "<h2>Title</h2><p>A <strong>bold</strong> word.</p>"
          = Fed [StartTag "h2" []; Data "Title"; EndTag "h2"; StartTag "p" [];
                 Data "A "; StartTag "strong" []; Data "bold"; EndTag "strong";
                 Data " word."; EndTag "p"] ->
        html_to_markdown feed "<h2>Title</h2><p>A <strong>bold</strong> word.</p>"
          = "## Title" +:+ nl +:+ nl +:+ "A **bold** word.")
  /\ (forall (feed : string -> FeedResult) html evs,
        feed html = Fed evs ->
        no_triple_newline (Py.chars (html_to_markdown feed html)) = true)
  /\ (forall c ch t,
        Py.chars (HTMLToMarkdownConverter.get_markdown c) = ch :: t
        \/ rev (Py.chars (HTMLToMarkdownConverter.get_markdown c)) = ch :: t ->
        Py.isspace ch = false)
  /\ Re.sub re_newlines3 (nl +:+ nl)
       ("a" +:+ nl +:+ nl +:+ nl +:+ nl +:+ nl +:+ "b" +:+ nl +:+ nl +:+ "c" +:+ nl)
     = "a" +:+ nl +:+ nl +:+ "b" +:+ nl +:+ nl +:+ "c" +:+ nl.
Proof.
  split; [| split; [| split; [| split; [| split]]]].
  - intros replace_charrefs. split; vm_compute; reflexivity.
  - vm_compute. reflexivity.
  - intros feed Hfeed. unfold html_to_markdown. rewrite Hfeed.
    vm_compute. reflexivity.
  - intros feed html evs Hfeed. unfold html_to_markdown.
    destruct (Py.truthy html); cbn [negb]; [| reflexivity].
    rewrite Hfeed. apply collapse_leaves_no_triple.
  - intros c ch t. unfold HTMLToMarkdownConverter.get_markdown, Py.strip.
    rewrite chars_str.
    destruct (strip_by_trimmed Py.isspace
                (Py.chars (Py.concat (HTMLToMarkdownConverter.result c))))
      as [Hfirst Hlast].
    intros [H | H]; [eapply Hfirst | eapply Hlast]; exact H.
  - vm_compute. reflexivity.
Qed.

(** Two paragraphs with two line breaks between them: eight newlines in the
    buffer, two in the result. *)
Lemma markdown_heading_paragraph_sample_witness :
  html_to_markdown (HTMLParser.feed (fun s => s)) "<p>a</p><br><br><p>b</p>"
    = "a" +:+ nl +:+ nl +:+ "b"
  /\ no_triple_newline
       (Py.chars (html_to_markdown (HTMLParser.feed (fun s => s))
                                   "<p>a</p><br><br><p>b</p>")) = true.
Proof.
  split; [vm_compute; reflexivity |].
  exact (proj1 (proj2 (proj2 (proj2 markdown_heading_paragraph_sample)))
               (HTMLParser.feed (fun s => s)) "<p>a</p><br><br><p>b</p>"
               [StartTag "p" []; Data "a"; EndTag "p"; StartTag "br" [];
                StartTag "br" []; StartTag "p" []; Data "b"; EndTag "p"]
               eq_refl).
Defined.



(** ** Dictionaries *)

Section DictFacts.

Context {V : Type}.

Lemma dict_get_set (k k' : string) (v : V) (d : list (string * V)) :
  dict_get k (dict_set k' v d) =
    if String.eqb k k' then Some v else dict_get k d.
Proof.
  induction d as [| [k0 v0] d IH]; simpl.
  - reflexivity.
  - destruct (String.eqb k' k0) eqn:E0; simpl.
    + apply String.eqb_eq in E0. subst k0.
      destruct (String.eqb k k'); reflexivity.
    + rewrite IH. destruct (String.eqb k k0) eqn:E1; [| reflexivity].
      apply String.eqb_eq in E1. subst k0.
      rewrite String.eqb_sym, E0. reflexivity.
Qed.

Lemma dict_get_pop (k k' : string) (d : list (string * V)) :
  dict_get k (dict_pop k' d) =
    if String.eqb k k' then None else dict_get k d.
Proof.
  unfold dict_pop. induction d as [| [k0 v0] d IH]; simpl.
  - destruct (String.eqb k k'); reflexivity.
  - destruct (String.eqb k' k0) eqn:E0; simpl.
    + rewrite IH. apply String.eqb_eq in E0. subst k0.
      destruct (String.eqb k k'); reflexivity.
    + rewrite IH. destruct (String.eqb k k0) eqn:E1; [| reflexivity].
      apply String.eqb_eq in E1. subst k0.
      rewrite String.eqb_sym, E0. reflexivity.
Qed.

Lemma dict_get_fold_set (k : string) (pairs d : list (string * V)) :
  forallb (fun kv => negb (String.eqb k (fst kv))) pairs = true ->
  dict_get k (fold_left (fun d kv => dict_set (fst kv) (snd kv) d) pairs d)
  = dict_get k d.
Proof.
  revert d. induction pairs as [| [k0 v0] pairs IH]; intros d H; simpl in *.
  - reflexivity.
  - apply andb_prop in H as [H0 H]. rewrite (IH _ H), dict_get_set.
    apply negb_true_iff in H0. rewrite H0. reflexivity.
Qed.

End DictFacts.

(** A start tag without [href] attribute gets the default, the empty
    string. *)
Lemma href_default (attrs : list (string * option string)) :
  no_href attrs = true -> href_of attrs = Some EmptyString.
Proof.
  intros H. unfold href_of, dict_of_pairs.
  rewrite (dict_get_fold_set "href" attrs [] H). reflexivity.
Qed.

(** ** The block assembler *)

Section BlockAssembler.

Import HTMLToBlockNoteConverter.

Variable uuid : nat -> string.

Lemma flush_text_runs (c : BlockNoteConverter) :
  exists new,
    runs (_flush_text c) = runs c ++ new
    /\ stamped (current_styles c) new.
Proof.
  unfold _flush_text, runs. destruct (pending_text c) as [| p ps].
  - exists []. rewrite app_nil_r. split; [reflexivity | constructor].
  - simpl. destruct (Py.truthy (Py.concat (p :: ps))).
    + eexists. rewrite app_assoc. split; [reflexivity |].
      repeat constructor.
    + exists []. rewrite app_nil_r. split; [reflexivity | constructor].
Qed.

Lemma flush_text_styles (c : BlockNoteConverter) :
  current_styles (_flush_text c) = current_styles c.
Proof. unfold _flush_text. destruct (pending_text c); reflexivity. Qed.

Lemma flush_text_blocks (c : BlockNoteConverter) :
  blocks (_flush_text c) = blocks c /\ current_block (_flush_text c) = current_block c.
Proof. unfold _flush_text. destruct (pending_text c); split; reflexivity. Qed.

Lemma flat_map_snoc {A B : Type} (f : A -> list B) (l : list A) (x : A) :
  flat_map f (l ++ [x]) = flat_map f l ++ f x.
Proof. rewrite flat_map_app. simpl. rewrite app_nil_r. reflexivity. Qed.

Lemma flush_block_runs (c : BlockNoteConverter) (n : nat) :
  runs (fst (_flush_block uuid c n)) = runs (_flush_text c)
  /\ current_styles (fst (_flush_block uuid c n)) = current_styles c.
Proof.
  unfold _flush_block. rewrite <- (flush_text_styles c).
  destruct (current_content (_flush_text c)) as [| t ts] eqn:E.
  - split; reflexivity.
  - simpl. split; [| reflexivity].
    unfold runs. simpl. rewrite flat_map_snoc, E. simpl.
    rewrite app_nil_r. reflexivity.
Qed.

(** Every handler call appends runs stamped with the styles that were in
    force before the call, and nothing else changes the runs. *)
Lemma handle_runs (e : Event) (c : BlockNoteConverter) (n : nat) :
  exists new,
    runs (fst (handle uuid e c n)) = runs c ++ new
    /\ stamped (current_styles c) new.
Proof.
  destruct (flush_text_runs c) as (new & Hruns & Hnew).
  destruct (flush_block_runs c n) as [Hb _].
  assert (Hsame : exists new, runs c = runs c ++ new /\ stamped (current_styles c) new).
  { exists []. rewrite app_nil_r. split; [reflexivity | constructor]. }
  destruct e as [tag attrs | tag | data]; cbn [handle].
  - unfold handle_starttag, open_style.
    branches; cbn [fst]; try (exists new; rewrite ?Hb; split; assumption);
      try exact Hsame.
    destruct (_flush_block uuid c n) as [c1 n1] eqn:E1. cbn.
    exists new. split; [| assumption].
    rewrite <- Hruns. change c1 with (fst (c1, n1)). rewrite <- E1, <- Hb.
    rewrite E1. reflexivity.
  - unfold handle_endtag, close_style.
    branches; cbn [fst]; try (exists new; rewrite ?Hb; split; assumption);
      try exact Hsame.
    destruct (current_block (_flush_text c)) as [block |] eqn:Eb; cbn [fst].
    + exists new. split; [| assumption]. rewrite <- Hruns.
      unfold runs. cbn. rewrite flat_map_snoc. cbn.
      rewrite app_nil_r. reflexivity.
    + exists new. split; assumption.
  - exact Hsame.
Qed.

End BlockAssembler.

Section StyleTracking.

Import HTMLToBlockNoteConverter.

Variable uuid : nat -> string.

Lemma flush_block_styles (c : BlockNoteConverter) (n : nat) :
  current_styles (fst (_flush_block uuid c n)) = current_styles c.
Proof. apply flush_block_runs. Qed.

(** The style set after a handler call: unchanged, or one key set, or one
    key removed, according to the tag. *)
Lemma handle_styles (e : Event) (c : BlockNoteConverter) (n : nat) :
  current_styles (fst (handle uuid e c n)) = current_styles c
  \/ (exists k tags v, In (k, tags) style_tags /\ opens tags e = true
        /\ current_styles (fst (handle uuid e c n))
           = dict_set k v (current_styles c))
  \/ (exists k tags, In (k, tags) style_tags /\ is_tag tags e = true
        /\ current_styles (fst (handle uuid e c n))
           = dict_pop k (current_styles c)).
Proof.
  destruct e as [tag attrs | tag | data]; cbn [handle].
  - unfold handle_starttag, open_style. branches; cbn [fst].
    + left. apply flush_block_styles.
    + left. apply flush_block_styles.
    + right. left. exists "bold", ["strong"; "b"], (SBool true).
      cbn [opens set_styles current_styles]. rewrite flush_text_styles.
      repeat split; [simpl; tauto | assumption].
    + right. left. exists "italic", ["em"; "i"], (SBool true).
      cbn [opens set_styles current_styles]. rewrite flush_text_styles.
      repeat split; [simpl; tauto | assumption].
    + right. left. exists "underline", ["u"], (SBool true).
      cbn [opens set_styles current_styles]. rewrite flush_text_styles.
      repeat split; [simpl; tauto |].
      unfold tag_in. cbn [existsb]. rewrite Heqb3. reflexivity.
    + left. rewrite <- (flush_block_styles c n).
      destruct (_flush_block uuid c n) as [c1 n1]. reflexivity.
    + right. left. exists "link", ["a"], (style_of_href (href_of attrs)).
      cbn [opens set_styles current_styles]. rewrite flush_text_styles.
      repeat split; [simpl; tauto |].
      unfold tag_in. cbn [existsb]. rewrite Heqb5. reflexivity.
    + left. reflexivity.
  - unfold handle_endtag, close_style. branches; cbn [fst].
    + left. apply flush_block_styles.
    + right. right. exists "bold", ["strong"; "b"].
      cbn [is_tag set_styles current_styles]. rewrite flush_text_styles.
      repeat split; [simpl; tauto | assumption].
    + right. right. exists "italic", ["em"; "i"].
      cbn [is_tag set_styles current_styles]. rewrite flush_text_styles.
      repeat split; [simpl; tauto | assumption].
    + right. right. exists "underline", ["u"].
      cbn [is_tag set_styles current_styles]. rewrite flush_text_styles.
      repeat split; [simpl; tauto |].
      unfold tag_in. cbn [existsb]. rewrite Heqb2. reflexivity.
    + left. rewrite <- (flush_text_styles c).
      destruct (current_block (_flush_text c)); reflexivity.
    + right. right. exists "link", ["a"].
      cbn [is_tag set_styles current_styles]. rewrite flush_text_styles.
      repeat split; [simpl; tauto |].
      unfold tag_in. cbn [existsb]. rewrite Heqb4. reflexivity.
    + left. reflexivity.
  - left. reflexivity.
Qed.

End StyleTracking.


Section StyleInvariants.

Import HTMLToBlockNoteConverter.

Variable uuid : nat -> string.

Lemma style_tags_functional (k : string) (tags tags' : list string) :
  In (k, tags) style_tags -> In (k, tags') style_tags -> tags = tags'.
Proof.
  unfold style_tags. simpl. intros H H'.
  repeat match goal with
         | H : _ \/ _ |- _ => destruct H
         | H : False |- _ => destruct H
         | H : (_, _) = (_, _) |- _ => inversion H; clear H; subst
         end; try reflexivity; discriminate.
Qed.

Lemma opens_is_tag (tags : list string) (e : Event) :
  opens tags e = true -> is_tag tags e = true.
Proof. destruct e; simpl; auto; discriminate. Qed.

(** An attribute that is off stays off until one of its tags opens it. *)
Lemma style_stays_off (k : string) (tags : list string) (e : Event)
      (c : BlockNoteConverter) (n : nat) :
  In (k, tags) style_tags ->
  opens tags e = false ->
  dict_get k (current_styles c) = None ->
  dict_get k (current_styles (fst (handle uuid e c n))) = None.
Proof.
  intros Hk He Hoff.
  destruct (handle_styles uuid e c n)
    as [-> | [(k' & tags' & v & Hk' & He' & ->) | (k' & tags' & Hk' & He' & ->)]].
  - exact Hoff.
  - rewrite dict_get_set. destruct (String.eqb k k') eqn:E; [| exact Hoff].
    apply String.eqb_eq in E. subst k'.
    rewrite (style_tags_functional k tags tags' Hk Hk') in He. congruence.
  - rewrite dict_get_pop. destruct (String.eqb k k'); [reflexivity | exact Hoff].
Qed.

(** An attribute keeps its value until one of its tags is met. *)
Lemma style_stays_on (k : string) (tags : list string) (v : StyleValue)
      (e : Event) (c : BlockNoteConverter) (n : nat) :
  In (k, tags) style_tags ->
  is_tag tags e = false ->
  dict_get k (current_styles c) = Some v ->
  dict_get k (current_styles (fst (handle uuid e c n))) = Some v.
Proof.
  intros Hk He Hon.
  destruct (handle_styles uuid e c n)
    as [-> | [(k' & tags' & v' & Hk' & He' & ->) | (k' & tags' & Hk' & He' & ->)]].
  - exact Hon.
  - rewrite dict_get_set. destruct (String.eqb k k') eqn:E; [| exact Hon].
    apply String.eqb_eq in E. subst k'.
    rewrite (style_tags_functional k tags tags' Hk Hk') in He.
    apply opens_is_tag in He'. congruence.
  - rewrite dict_get_pop. destruct (String.eqb k k') eqn:E; [| exact Hon].
    apply String.eqb_eq in E. subst k'.
    rewrite (style_tags_functional k tags tags' Hk Hk') in He. congruence.
Qed.

(** Runs created while a property of the style set is maintained all
    satisfy it. *)
Lemma runs_under_invariant (I : Styles -> Prop) (ok : Event -> bool) :
  (forall e c n, ok e = true -> I (current_styles c) ->
                 I (current_styles (fst (handle uuid e c n)))) ->
  forall evs c n,
    forallb ok evs = true ->
    I (current_styles c) ->
    I (current_styles (fst (handle_all uuid evs c n)))
    /\ exists new,
         runs (fst (handle_all uuid evs c n)) = runs c ++ new
         /\ Forall (fun t => I (node_styles t)) new.
Proof.
  intros Hstep. induction evs as [| e evs IH]; intros c n Hok HI.
  - split; [exact HI |]. exists []. rewrite app_nil_r. split; [reflexivity | constructor].
  - simpl in Hok. apply andb_prop in Hok as [He Hok]. simpl.
    pose proof (Hstep e c n He HI) as HI1.
    destruct (handle_runs uuid e c n) as (new1 & R1 & S1).
    destruct (handle uuid e c n) as [c1 n1]. cbn [fst] in *.
    destruct (IH c1 n1 Hok HI1) as (HI2 & new2 & R2 & S2).
    split; [exact HI2 |]. exists (new1 ++ new2).
    rewrite R2, R1, app_assoc. split; [reflexivity |].
    apply Forall_app. split; [| exact S2].
    unfold stamped in S1. rewrite Forall_forall in *.
    intros t Ht. rewrite (S1 t Ht). exact HI.
Qed.

(** One more handler call, whatever the event: its runs carry the styles
    that were in force before it. *)
Lemma runs_then_one (I : Styles -> Prop) (e : Event)
      (c : BlockNoteConverter) (n : nat) :
  I (current_styles c) ->
  exists new,
    runs (fst (handle uuid e c n)) = runs c ++ new
    /\ Forall (fun t => I (node_styles t)) new.
Proof.
  intros HI. destruct (handle_runs uuid e c n) as (new & R & S).
  exists new. split; [exact R |].
  unfold stamped in S. rewrite Forall_forall in *.
  intros t Ht. rewrite (S t Ht). exact HI.
Qed.

Lemma runs_then_end (I : Styles -> Prop) (c : BlockNoteConverter) (n : nat) :
  I (current_styles c) ->
  exists new,
    runs (fst (get_blocknote_json uuid c n)) = runs c ++ new
    /\ Forall (fun t => I (node_styles t)) new.
Proof.
  intros HI. unfold get_blocknote_json.
  destruct (flush_block_runs uuid c n) as [-> _].
  destruct (flush_text_runs c) as (new & R & S).
  exists new. split; [exact R |].
  unfold stamped in S. rewrite Forall_forall in *.
  intros t Ht. rewrite (S t Ht). exact HI.
Qed.

(** The end tag of a style attribute runs [close_style] on its key. *)
Lemma endtag_style (k : string) (tags : list string) (tag : string)
      (c : BlockNoteConverter) (n : nat) :
  In (k, tags) style_tags ->
  tag_in (Py.lower tag) tags = true ->
  handle_endtag uuid tag c n = (close_style k c, n).
Proof.
  intros Hk Htag. unfold handle_endtag.
  style_cases Hk; tag_cases Htag; rewrite Htag; reflexivity.
Qed.

(** Closing an attribute removes its key, whatever the state. *)
Lemma endtag_clears (k : string) (tags : list string) (tag : string)
      (c : BlockNoteConverter) (n : nat) :
  In (k, tags) style_tags ->
  tag_in (Py.lower tag) tags = true ->
  dict_get k (current_styles (fst (handle_endtag uuid tag c n))) = None.
Proof.
  intros Hk Htag. rewrite (endtag_style k tags tag c n Hk Htag).
  unfold close_style. cbn. rewrite dict_get_pop, String.eqb_refl. reflexivity.
Qed.

(** The start tag [a] runs [open_style] on the key [link]. *)
Lemma starttag_link (tag : string) (attrs : list (string * option string))
      (c : BlockNoteConverter) (n : nat) :
  Py.lower tag = "a" ->
  handle_starttag uuid tag attrs c n =
    (open_style "link" (style_of_href (href_of attrs)) c, n).
Proof. intros Htag. unfold handle_starttag. rewrite Htag. reflexivity. Qed.

End StyleInvariants.


Section MarkdownLinks.

Import HTMLToMarkdownConverter.

(** Only the [a] tags touch the stack of pending hrefs; every handler call
    appends to the buffer. *)
Lemma md_handle_appends (e : Event) (c : MarkdownConverter) :
  exists out, result (handle e c) = result c ++ out.
Proof.
  assert (Hsame : exists out, result c = result c ++ out)
    by (exists []; rewrite app_nil_r; reflexivity).
  destruct e as [tag attrs | tag | data]; cbn [handle].
  - unfold handle_starttag. branches; cbn; try exact Hsame; eexists; reflexivity.
  - unfold handle_endtag.
    destruct (rev (current_text c)) as [| [kind href] below];
      branches; cbn; try exact Hsame; eexists; reflexivity.
  - eexists. reflexivity.
Qed.

Lemma md_pending_kept (e : Event) (c : MarkdownConverter) :
  is_tag ["a"] e = false -> current_text (handle e c) = current_text c.
Proof.
  destruct e as [tag attrs | tag | data]; cbn [is_tag handle];
    unfold tag_in; cbn [existsb]; rewrite ?orb_false_r; intros H.
  - unfold handle_starttag. rewrite H. branches; reflexivity.
  - unfold handle_endtag. rewrite H. branches; reflexivity.
  - reflexivity.
Qed.

Lemma md_body_between (evs : list Event) (c : MarkdownConverter) :
  forallb (fun e => negb (is_tag ["a"] e)) evs = true ->
  current_text (handle_all evs c) = current_text c
  /\ exists out, result (handle_all evs c) = result c ++ out.
Proof.
  revert c. induction evs as [| e evs IH]; intros c H.
  - split; [reflexivity |]. exists []. rewrite app_nil_r. reflexivity.
  - simpl in H. apply andb_prop in H as [He H]. apply negb_true_iff in He.
    rewrite md_handle_all_cons.
    destruct (IH (handle e c) H) as (T & out2 & R2).
    destruct (md_handle_appends e c) as (out1 & R1).
    split; [rewrite T; apply md_pending_kept; exact He |].
    exists (out1 ++ out2). rewrite R2, R1, app_assoc. reflexivity.
Qed.

Lemma md_starttag_a (tag : string) (attrs : list (string * option string))
      (c : MarkdownConverter) :
  Py.lower tag = "a" ->
  handle_starttag tag attrs c =
    {| result := result c ++ ["["];
       current_text := current_text c ++ [("link", href_of attrs)];
       in_list := in_list c; list_type := list_type c;
       list_item_count := list_item_count c |}.
Proof. intros H. unfold handle_starttag. rewrite H. reflexivity. Qed.

Lemma md_endtag_a (tag : string) (href : option string)
      (pending : list (string * option string)) (c : MarkdownConverter) :
  Py.lower tag = "a" ->
  current_text c = pending ++ [("link", href)] ->
  handle_endtag tag c =
    {| result := result c ++ ["](" +:+ format_href href +:+ ")"];
       current_text := pending;
       in_list := in_list c; list_type := list_type c;
       list_item_count := list_item_count c |}.
Proof.
  intros H Hp. unfold handle_endtag. rewrite H. cbn.
  rewrite Hp, rev_app_distr. cbn. rewrite rev_involutive. reflexivity.
Qed.

End MarkdownLinks.

(** C2. In the style tracking of the structured target the end tag of a
    style attribute removes the attribute's key from the active style set,
    whatever the state (however many start tags of it were read before).
    Every text run created after that end tag, up to and including the flush
    made by the next event that opens the attribute again or by the end of
    the input, lacks the attribute.  Sample: the run after the first
    [</strong>] of two nested [<strong>] is not bold. *)
Theorem end_tag_clears_style :
  forall (uuid : nat -> string) (k : string) (tags : list string) (tag : string)
         (c : HTMLToBlockNoteConverter.BlockNoteConverter) (n : nat)
         (evs : list Event) (last : Event),
    In (k, tags) style_tags ->
    tag_in (Py.lower tag) tags = true ->
    forallb (fun e => negb (opens tags e)) evs = true ->
    let c1 := fst (HTMLToBlockNoteConverter.handle_endtag uuid tag c n) in
    let n1 := snd (HTMLToBlockNoteConverter.handle_endtag uuid tag c n) in
    let c2 := fst (HTMLToBlockNoteConverter.handle_all uuid evs c1 n1) in
    let n2 := snd (HTMLToBlockNoteConverter.handle_all uuid evs c1 n1) in
    dict_get k (HTMLToBlockNoteConverter.current_styles c1) = None
    /\ (exists new,
          runs (fst (HTMLToBlockNoteConverter.handle uuid last c2 n2))
            = runs c1 ++ new
          /\ Forall (fun t => has_style k t = false) new)
    /\ (exists new,
          runs (fst (HTMLToBlockNoteConverter.get_blocknote_json uuid c2 n2))
            = runs c1 ++ new
          /\ Forall (fun t => has_style k t = false) new)
    /\ (forall replace_charrefs m,
          html_to_blocknote uuid (HTMLParser.feed replace_charrefs)
                            "<strong><strong>a</strong>b</strong>" m
          = ([paragraph (uuid m) [text_run "a" [("bold", SBool true)];
                                  text_run "b" []]], S m)).
Proof.
  intros uuid k tags tag c n evs last Hk Htag Hevs c1 n1 c2 n2.
  pose proof (endtag_clears uuid k tags tag c n Hk Htag) as Hoff.
  fold c1 in Hoff.
  destruct (runs_under_invariant uuid
              (fun s => dict_get k s = None) (fun e => negb (opens tags e))) with
    (evs := evs) (c := c1) (n := n1) as (Hoff2 & new & R & S); auto.
  { intros e c0 n0 He. apply negb_true_iff in He.
    apply style_stays_off with (tags := tags); assumption. }
  fold c2 in Hoff2, R.
  assert (Hflag : forall l : list TextNode,
             Forall (fun t => dict_get k (node_styles t) = None) l ->
             Forall (fun t => has_style k t = false) l).
  { intros l Hl. eapply List.Forall_impl; [| exact Hl].
    intros t Ht. unfold has_style. rewrite Ht. reflexivity. }
  split; [exact Hoff |]. split; [| split].
  - destruct (runs_then_one uuid (fun s => dict_get k s = None) last c2 n2 Hoff2)
      as (new' & R' & S').
    exists (new ++ new'). rewrite R', R, app_assoc. split; [reflexivity |].
    apply Forall_app. split; apply Hflag; assumption.
  - destruct (runs_then_end uuid (fun s => dict_get k s = None) c2 n2 Hoff2)
      as (new' & R' & S').
    exists (new ++ new'). rewrite R', R, app_assoc. split; [reflexivity |].
    apply Forall_app. split; apply Hflag; assumption.
  - intros replace_charrefs m. vm_compute. reflexivity.
Qed.

(** Two [<strong>] opened, one closed, then text and a third [<strong>]. *)
Lemma end_tag_clears_style_witness :
  dict_get "bold"
    (HTMLToBlockNoteConverter.current_styles
       (fst (HTMLToBlockNoteConverter.handle_endtag Py.str_of_nat "strong"
               (fst (HTMLToBlockNoteConverter.handle_all Py.str_of_nat
                       [StartTag "strong" []; StartTag "strong" []; Data "a"]
                       HTMLToBlockNoteConverter.new_converter 0)) 0)))
  = None.
Proof.
  exact (proj1 (end_tag_clears_style Py.str_of_nat "bold" ["strong"; "b"] "strong"
                  (fst (HTMLToBlockNoteConverter.handle_all Py.str_of_nat
                          [StartTag "strong" []; StartTag "strong" []; Data "a"]
                          HTMLToBlockNoteConverter.new_converter 0)) 0
                  [Data "b"] (StartTag "strong" [])
                  (or_introl eq_refl) eq_refl eq_refl)).
Defined.

(** C10. An [<a>] start tag without [href] attribute takes the empty
    string as link target in both converters.  Structured target: the
    [link] style is the empty string, and every run created up to and
    including the flush of the next [a] tag carries it.  Markdown target:
    the open bracket is emitted and the empty target is pushed; when the
    matching end tag is read, after any events that are not [a] tags, the
    emitter appends ["]()"] and pops it. *)
Theorem link_without_href_is_empty :
  forall (uuid : nat -> string) (tag tag' : string)
         (attrs : list (string * option string)) (evs : list Event) (last : Event),
    Py.lower tag = "a" -> Py.lower tag' = "a" ->
    no_href attrs = true ->
    forallb (fun e => negb (is_tag ["a"] e)) evs = true ->
    (forall c n,
       let c1 := fst (HTMLToBlockNoteConverter.handle_starttag uuid tag attrs c n) in
       let n1 := snd (HTMLToBlockNoteConverter.handle_starttag uuid tag attrs c n) in
       let c2 := fst (HTMLToBlockNoteConverter.handle_all uuid evs c1 n1) in
       let n2 := snd (HTMLToBlockNoteConverter.handle_all uuid evs c1 n1) in
       dict_get "link" (HTMLToBlockNoteConverter.current_styles c1)
         = Some (SStr EmptyString)
       /\ exists new,
            runs (fst (HTMLToBlockNoteConverter.handle uuid last c2 n2))
              = runs c1 ++ new
            /\ Forall (fun t => dict_get "link" (node_styles t)
                                = Some (SStr EmptyString)) new)
    /\ (forall c,
          let c1 := HTMLToMarkdownConverter.handle_starttag tag attrs c in
          let c2 := HTMLToMarkdownConverter.handle_all evs c1 in
          let c3 := HTMLToMarkdownConverter.handle_endtag tag' c2 in
          HTMLToMarkdownConverter.result c1
            = HTMLToMarkdownConverter.result c ++ ["["]
          /\ HTMLToMarkdownConverter.current_text c1
             = HTMLToMarkdownConverter.current_text c ++ [("link", Some EmptyString)]
          /\ (exists out,
                HTMLToMarkdownConverter.result c3
                  = HTMLToMarkdownConverter.result c ++ ["["] ++ out ++ ["]()"])
          /\ HTMLToMarkdownConverter.current_text c3
             = HTMLToMarkdownConverter.current_text c)
    /\ (forall replace_charrefs n,
          html_to_blocknote uuid (HTMLParser.feed replace_charrefs) "<a>x</a>" n
            = ([paragraph (uuid n) [text_run "x" [("link", SStr EmptyString)]]], S n)
          /\ html_to_markdown (HTMLParser.feed replace_charrefs) "<a>x</a>" = "[x]()").
Proof.
  intros uuid tag tag' attrs evs last Htag Htag' Hattrs Hevs.
  split; [| split].
  - intros c n c1 n1 c2 n2.
    assert (Hon : dict_get "link" (HTMLToBlockNoteConverter.current_styles c1)
                  = Some (SStr EmptyString)).
    { subst c1. rewrite (starttag_link uuid tag attrs c n Htag).
      unfold HTMLToBlockNoteConverter.open_style. cbn.
      rewrite dict_get_set, (href_default attrs Hattrs). reflexivity. }
    split; [exact Hon |].
    destruct (runs_under_invariant uuid
                (fun s => dict_get "link" s = Some (SStr EmptyString))
                (fun e => negb (is_tag ["a"] e))) with
      (evs := evs) (c := c1) (n := n1) as (Hon2 & new & R & S); auto.
    { intros e c0 n0 He. apply negb_true_iff in He.
      apply style_stays_on with (tags := ["a"]); [simpl; tauto | assumption]. }
    fold c2 in Hon2, R.
    destruct (runs_then_one uuid
                (fun s => dict_get "link" s = Some (SStr EmptyString))
                last c2 n2 Hon2) as (new' & R' & S').
    exists (new ++ new'). rewrite R', R, app_assoc. split; [reflexivity |].
    apply Forall_app. split; assumption.
  - intros c c1 c2 c3.
    assert (E1 : c1 = {| HTMLToMarkdownConverter.result :=
                           HTMLToMarkdownConverter.result c ++ ["["];
                         HTMLToMarkdownConverter.current_text :=
                           HTMLToMarkdownConverter.current_text c
                             ++ [("link", Some EmptyString)];
                         HTMLToMarkdownConverter.in_list :=
                           HTMLToMarkdownConverter.in_list c;
                         HTMLToMarkdownConverter.list_type :=
                           HTMLToMarkdownConverter.list_type c;
                         HTMLToMarkdownConverter.list_item_count :=
                           HTMLToMarkdownConverter.list_item_count c |}).
    { subst c1. rewrite (md_starttag_a tag attrs c Htag), (href_default attrs Hattrs).
      reflexivity. }
    destruct (md_body_between evs c1 Hevs) as (T & out & R). fold c2 in T, R.
    assert (E3 : c3 = {| HTMLToMarkdownConverter.result :=
                           HTMLToMarkdownConverter.result c2 ++ ["]()"];
                         HTMLToMarkdownConverter.current_text :=
                           HTMLToMarkdownConverter.current_text c;
                         HTMLToMarkdownConverter.in_list :=
                           HTMLToMarkdownConverter.in_list c2;
                         HTMLToMarkdownConverter.list_type :=
                           HTMLToMarkdownConverter.list_type c2;
                         HTMLToMarkdownConverter.list_item_count :=
                           HTMLToMarkdownConverter.list_item_count c2 |}).
    { subst c3.
      rewrite (md_endtag_a tag' (Some EmptyString)
                 (HTMLToMarkdownConverter.current_text c) c2 Htag').
      - reflexivity.
      - rewrite T, E1. reflexivity. }
    rewrite E1 in R. cbn in R.
    repeat split.
    + rewrite E1. reflexivity.
    + rewrite E1. reflexivity.
    + exists out. rewrite E3. cbn. rewrite R, <- !app_assoc. reflexivity.
    + rewrite E3. reflexivity.
  - intros replace_charrefs n. split; vm_compute; reflexivity.
Qed.

Lemma link_without_href_is_empty_witness :
  exists out,
    HTMLToMarkdownConverter.result
      (HTMLToMarkdownConverter.handle_endtag "A"
         (HTMLToMarkdownConverter.handle_all [StartTag "b" []; Data "x"; EndTag "b"]
            (HTMLToMarkdownConverter.handle_starttag "a" [("class", Some "c")]
               HTMLToMarkdownConverter.new_converter)))
    = [] ++ ["["] ++ out ++ ["]()"].
Proof.
  exact (proj1 (proj2 (proj2
           (proj1 (proj2
              (link_without_href_is_empty Py.str_of_nat "a" "A" [("class", Some "c")]
                 [StartTag "b" []; Data "x"; EndTag "b"] (Data "y")
                 eq_refl eq_refl eq_refl eq_refl))
              HTMLToMarkdownConverter.new_converter)))).
Defined.


(** ** Blocks without content *)

Section EmptyBlocks.

Import HTMLToBlockNoteConverter.

Variable uuid : nat -> string.

(** A heading end tag appends the heading being built, with whatever runs
    have been collected. *)
Lemma endtag_heading (tag : string) (block : Block) (c : BlockNoteConverter)
      (n : nat) :
  tag_in (Py.lower tag) heading_tags = true ->
  current_block c = Some block ->
  handle_endtag uuid tag c n =
    ({| blocks := blocks c ++ [set_content block (current_content (_flush_text c))];
        current_block := None;
        current_content := [];
        current_styles := current_styles c;
        pending_text := pending_text (_flush_text c) |}, n).
Proof.
  intros Htag Hblock. unfold handle_endtag, heading_tags in *.
  destruct (flush_text_blocks c) as [Eb Ec].
  pose proof (flush_text_styles c) as Es.
  tag_cases Htag; rewrite Htag; cbn; rewrite Ec, Hblock, Eb, Es; reflexivity.
Qed.

Lemma has_content_nonempty (b : Block) :
  has_content b = true -> block_content b <> [].
Proof. unfold has_content. destruct (block_content b); [discriminate | discriminate]. Qed.

End EmptyBlocks.

(** C4. No block of the list [html_to_blocknote] returns has an empty
    content sequence, on the success path as on the fallback path.  Inside
    the converter a heading end tag appends the heading being built whether
    or not it has runs, so an empty heading does enter the internal block
    list (unlike an empty paragraph), and it is the final filter that
    removes it. *)
Theorem returned_blocks_have_content :
  forall (uuid : nat -> string) (feed : string -> FeedResult),
    (forall html n,
       Forall (fun b => block_content b <> [])
              (fst (html_to_blocknote uuid feed html n)))
    /\ (forall tag block c n,
          tag_in (Py.lower tag) heading_tags = true ->
          HTMLToBlockNoteConverter.current_block c = Some block ->
          HTMLToBlockNoteConverter.blocks
            (fst (HTMLToBlockNoteConverter.handle_endtag uuid tag c n))
          = HTMLToBlockNoteConverter.blocks c
              ++ [set_content block
                    (HTMLToBlockNoteConverter.current_content
                       (HTMLToBlockNoteConverter._flush_text c))])
    /\ (forall replace_charrefs n,
          HTMLToBlockNoteConverter.blocks
            (fst (HTMLToBlockNoteConverter.handle_all uuid
                    (delivered (HTMLParser.feed replace_charrefs "<h1></h1><p></p>"))
                    HTMLToBlockNoteConverter.new_converter n))
          = [set_level {| block_id := uuid n; block_type := "heading";
                          block_props := default_props; block_content := [];
                          block_children := [] |} 1]
          /\ html_to_blocknote uuid (HTMLParser.feed replace_charrefs)
                               "<h1></h1><p></p>" n = ([], S n)).
Proof.
  intros uuid feed. split; [| split].
  - intros html n. unfold html_to_blocknote.
    destruct (Py.truthy html); cbn [negb]; [| constructor].
    destruct (feed html) as [evs | evs].
    + destruct (HTMLToBlockNoteConverter.handle_all uuid evs _ n) as [c1 n1].
      destruct (HTMLToBlockNoteConverter.get_blocknote_json uuid c1 n1) as [c2 n2].
      cbn [fst]. apply List.Forall_forall. intros b Hb.
      apply filter_In in Hb as [_ Hb]. apply has_content_nonempty. exact Hb.
    + destruct (HTMLToBlockNoteConverter.handle_all uuid evs _ n) as [c1 n1].
      destruct (Py.truthy _); cbn [fst]; repeat constructor. discriminate.
  - intros tag block c n Htag Hblock.
    rewrite (endtag_heading uuid tag block c n Htag Hblock). reflexivity.
  - intros replace_charrefs n. split; vm_compute; reflexivity.
Qed.

(** A heading is open and nothing has been collected: its end tag appends
    it with an empty content sequence. *)
Lemma returned_blocks_have_content_witness :
  HTMLToBlockNoteConverter.blocks
    (fst (HTMLToBlockNoteConverter.handle_endtag Py.str_of_nat "H2"
            (fst (HTMLToBlockNoteConverter.handle_starttag Py.str_of_nat "h2" []
                    HTMLToBlockNoteConverter.new_converter 0)) 1))
  = [] ++ [set_content
             (set_level {| block_id := "0"; block_type := "heading";
                           block_props := default_props; block_content := [];
                           block_children := [] |} 2) []].
Proof.
  exact (proj1 (proj2 (returned_blocks_have_content Py.str_of_nat (fun _ => Fed [])))
               "H2"
               (set_level {| block_id := "0"; block_type := "heading";
                             block_props := default_props; block_content := [];
                             block_children := [] |} 2)
               (fst (HTMLToBlockNoteConverter.handle_starttag Py.str_of_nat "h2" []
                       HTMLToBlockNoteConverter.new_converter 0))
               1 eq_refl eq_refl).
Defined.


(** ** The stable sort *)

Section SortedFacts.

Context {A K : Type} (key : A -> K) (lt : K -> K -> bool).

Lemma insert_sorted_perm (x : A) (l : list A) :
  Permutation (insert_sorted key lt x l) (x :: l).
Proof.
  induction l as [| y l IH]; simpl.
  - apply Permutation_refl.
  - destruct (lt (key y) (key x)).
    + apply Permutation_trans with (y :: x :: l).
      * apply perm_skip. exact IH.
      * apply perm_swap.
    + apply Permutation_refl.
Qed.

Lemma sorted_perm (l : list A) : Permutation (sorted key lt l) l.
Proof.
  induction l as [| x l IH]; simpl.
  - apply perm_nil.
  - apply Permutation_trans with (x :: sorted key lt l).
    + apply insert_sorted_perm.
    + apply perm_skip. exact IH.
Qed.

Lemma sorted_length (l : list A) : length (sorted key lt l) = length l.
Proof. apply Permutation_length, sorted_perm. Qed.


Hypothesis lt_asym : forall a b : K, lt a b = true -> lt b a = false.
Hypothesis ge_trans :
  forall a b c : K, lt b a = false -> lt c b = false -> lt c a = false.

Lemma insert_sorted_sorted (x : A) (l : list A) :
  StronglySorted (not_after key lt) l -> StronglySorted (not_after key lt) (insert_sorted key lt x l).
Proof.
  induction 1 as [| y l Hl IH Hy]; simpl.
  - repeat constructor.
  - destruct (lt (key y) (key x)) eqn:E.
    + constructor; [exact IH |].
      apply List.Forall_forall. intros z Hz.
      apply (Permutation_in _ (insert_sorted_perm x l)) in Hz.
      destruct Hz as [<- | Hz].
      * apply lt_asym. exact E.
      * rewrite List.Forall_forall in Hy. apply Hy. exact Hz.
    + constructor; [constructor; assumption |].
      constructor; [exact E |].
      eapply List.Forall_impl; [| exact Hy].
      intros z Hz. unfold not_after in *. eapply ge_trans; eassumption.
Qed.

Lemma sorted_sorted (l : list A) : StronglySorted (not_after key lt) (sorted key lt l).
Proof.
  induction l as [| x l IH]; simpl.
  - constructor.
  - apply insert_sorted_sorted. exact IH.
Qed.

(** Inserting before a list none of whose elements is smaller. *)
Lemma insert_sorted_front (x : A) (l : list A) :
  Forall ((not_after key lt) x) l -> insert_sorted key lt x l = x :: l.
Proof.
  destruct l as [| y l]; simpl; [reflexivity |].
  intros H. inversion H as [| ? ? Hy _]; subst.
  unfold not_after in Hy. rewrite Hy. reflexivity.
Qed.

Lemma filter_insert_sorted (p : A -> bool) (x : A) (l : list A) :
  StronglySorted (not_after key lt) l ->
  List.filter p (insert_sorted key lt x l) =
    if p x then insert_sorted key lt x (List.filter p l) else List.filter p l.
Proof.
  induction 1 as [| y l Hl IH Hy]; simpl.
  - destruct (p x); reflexivity.
  - destruct (lt (key y) (key x)) eqn:E; simpl.
    + rewrite IH. destruct (p y), (p x); simpl; rewrite ?E; reflexivity.
    + destruct (p x) eqn:Px, (p y) eqn:Py; simpl; rewrite ?E; try reflexivity.
      symmetry. apply insert_sorted_front.
      apply List.Forall_forall. intros z Hz. apply filter_In in Hz as [Hz _].
      rewrite List.Forall_forall in Hy. unfold not_after.
      eapply ge_trans; [exact E | apply Hy; exact Hz].
Qed.

(** Sorting and filtering commute: the sort is stable. *)
Lemma filter_sorted (p : A -> bool) (l : list A) :
  List.filter p (sorted key lt l) = sorted key lt (List.filter p l).
Proof.
  induction l as [| x l IH]; simpl.
  - reflexivity.
  - rewrite filter_insert_sorted by apply sorted_sorted.
    destruct (p x); simpl; rewrite IH; reflexivity.
Qed.

End SortedFacts.

(** Two lists sorted by keys that agree position by position are permuted
    the same way. *)
Lemma sorted_Forall2 {A B K : Type} (R : A -> B -> Prop)
      (key1 : A -> K) (key2 : B -> K) (lt : K -> K -> bool) :
  (forall a b, R a b -> key1 a = key2 b) ->
  forall l1 l2, Forall2 R l1 l2 ->
                Forall2 R (sorted key1 lt l1) (sorted key2 lt l2).
Proof.
  intros Hkey. induction 1 as [| a b l1 l2 Hab Hl IH]; simpl.
  - constructor.
  - clear Hl. induction IH as [| a' b' s1 s2 Hab' Hs IHs]; simpl.
    + repeat constructor. exact Hab.
    + rewrite (Hkey a b Hab), (Hkey a' b' Hab').
      destruct (lt (key2 b') (key2 b)).
      * constructor; assumption.
      * repeat constructor; assumption.
Qed.

(** ** The orders used as sort keys *)

Lemma Z_ltb_asym (a b : Z) : Z.ltb a b = true -> Z.ltb b a = false.
Proof. intros H. apply Z.ltb_lt in H. apply Z.ltb_ge. lia. Qed.

Lemma Z_ge_trans (a b c : Z) :
  Z.ltb b a = false -> Z.ltb c b = false -> Z.ltb c a = false.
Proof. rewrite !Z.ltb_ge. lia. Qed.

Lemma string_compare_refl (s : string) : String.compare s s = Eq.
Proof.
  induction s as [| c s IH]; simpl; [reflexivity |].
  unfold Ascii.compare. rewrite N.compare_refl. exact IH.
Qed.

Lemma string_compare_trans (s1 s2 s3 : string) :
  String.compare s1 s2 = Lt -> String.compare s2 s3 = Lt ->
  String.compare s1 s3 = Lt.
Proof.
  revert s2 s3. induction s1 as [| c1 s1 IH]; intros [| c2 s2] [| c3 s3];
    simpl; try discriminate; try reflexivity.
  unfold Ascii.compare.
  destruct (N.compare_spec (N_of_ascii c1) (N_of_ascii c2)) as [E12 | L12 | G12];
    try discriminate;
    destruct (N.compare_spec (N_of_ascii c2) (N_of_ascii c3)) as [E23 | L23 | G23];
    try discriminate; intros H12 H23.
  - rewrite E12, E23, N.compare_refl. eapply IH; eassumption.
  - rewrite E12. apply N.compare_lt_iff in L23. rewrite L23. reflexivity.
  - rewrite <- E23. apply N.compare_lt_iff in L12. rewrite L12. reflexivity.
  - assert (L : (N_of_ascii c1 < N_of_ascii c3)%N) by lia.
    apply N.compare_lt_iff in L. rewrite L. reflexivity.
Qed.

Lemma part_compare_refl (a : KeyPart) : part_compare a a = Eq.
Proof. destruct a; simpl; [apply string_compare_refl | apply N.compare_refl]. Qed.

Lemma part_compare_antisym (a b : KeyPart) :
  part_compare a b = CompOpp (part_compare b a).
Proof.
  destruct a, b; simpl; try reflexivity.
  - apply String.compare_antisym.
  - apply N.compare_antisym.
Qed.

Lemma part_compare_eq (a b : KeyPart) : part_compare a b = Eq -> a = b.
Proof.
  destruct a, b; simpl; try discriminate; intros H.
  - f_equal. apply String.compare_eq_iff. exact H.
  - f_equal. apply N.compare_eq_iff. exact H.
Qed.

Lemma part_compare_trans (a b c : KeyPart) :
  part_compare a b = Lt -> part_compare b c = Lt -> part_compare a c = Lt.
Proof.
  destruct a, b, c; simpl; try discriminate; try reflexivity.
  - apply string_compare_trans.
  - rewrite !N.compare_lt_iff. lia.
Qed.

Lemma key_compare_refl (k : list KeyPart) : key_compare k k = Eq.
Proof.
  induction k as [| a k IH]; simpl; [reflexivity |].
  rewrite part_compare_refl. exact IH.
Qed.

Lemma key_compare_antisym (k1 k2 : list KeyPart) :
  key_compare k1 k2 = CompOpp (key_compare k2 k1).
Proof.
  revert k2. induction k1 as [| a k1 IH]; intros [| b k2]; simpl; try reflexivity.
  rewrite (part_compare_antisym a b).
  destruct (part_compare b a); simpl; [apply IH | reflexivity | reflexivity].
Qed.

Lemma key_compare_eq (k1 k2 : list KeyPart) : key_compare k1 k2 = Eq -> k1 = k2.
Proof.
  revert k2. induction k1 as [| a k1 IH]; intros [| b k2]; simpl;
    try discriminate; [reflexivity |].
  destruct (part_compare a b) eqn:E; try discriminate.
  intros H. apply part_compare_eq in E. apply IH in H. congruence.
Qed.

Lemma key_compare_trans (k1 k2 k3 : list KeyPart) :
  key_compare k1 k2 = Lt -> key_compare k2 k3 = Lt -> key_compare k1 k3 = Lt.
Proof.
  revert k2 k3. induction k1 as [| a k1 IH]; intros [| b k2] [| c k3]; simpl;
    try discriminate; try reflexivity.
  destruct (part_compare a b) eqn:Eab; try discriminate;
    destruct (part_compare b c) eqn:Ebc; try discriminate; intros H12 H23.
  - apply part_compare_eq in Eab, Ebc. subst b c.
    rewrite part_compare_refl. eapply IH; eassumption.
  - apply part_compare_eq in Eab. subst b. rewrite Ebc. reflexivity.
  - apply part_compare_eq in Ebc. subst c. rewrite Eab. reflexivity.
  - rewrite (part_compare_trans a b c Eab Ebc). reflexivity.
Qed.

Lemma key_lt_asym (a b : list KeyPart) : key_lt a b = true -> key_lt b a = false.
Proof.
  unfold key_lt. rewrite (key_compare_antisym b a).
  destruct (key_compare a b); simpl; congruence.
Qed.

Lemma key_ge_trans (a b c : list KeyPart) :
  key_lt b a = false -> key_lt c b = false -> key_lt c a = false.
Proof.
  unfold key_lt.
  destruct (key_compare b a) eqn:Eba; try discriminate; intros _;
    destruct (key_compare c b) eqn:Ecb; try discriminate; intros _.
  - apply key_compare_eq in Eba, Ecb. subst. rewrite key_compare_refl. reflexivity.
  - apply key_compare_eq in Eba. subst. rewrite Ecb. reflexivity.
  - apply key_compare_eq in Ecb. subst. rewrite Eba. reflexivity.
  - destruct (key_compare c a) eqn:Eca; try reflexivity.
    exfalso.
    (* a < b < c < a *)
    assert (Eab : key_compare a b = Lt)
      by (rewrite key_compare_antisym, Eba; reflexivity).
    assert (Ebc : key_compare b c = Lt)
      by (rewrite key_compare_antisym, Ecb; reflexivity).
    pose proof (key_compare_trans _ _ _ Eab Ebc) as Eac.
    rewrite key_compare_antisym, Eca in Eac. discriminate.
Qed.


(** ** Letter case and the sort key *)

Lemma lower_char_idem (c : ascii) :
  Py.lower_char (Py.lower_char c) = Py.lower_char c.
Proof. destruct c as [[] [] [] [] [] [] [] []]; reflexivity. Qed.

Lemma lower_char_digit (c : ascii) :
  Py.isdigit_char (Py.lower_char c) = Py.isdigit_char c.
Proof. destruct c as [[] [] [] [] [] [] [] []]; reflexivity. Qed.

Lemma lower_digit_char (c : ascii) :
  Py.isdigit_char c = true -> Py.lower_char c = c.
Proof. destruct c as [[] [] [] [] [] [] [] []]; (reflexivity || discriminate). Qed.

Lemma lower_idem (s : string) : Py.lower (Py.lower s) = Py.lower s.
Proof.
  unfold Py.lower. rewrite chars_str, List.map_map. f_equal.
  apply map_ext. intros c. apply lower_char_idem.
Qed.

Section Equivariance.

Import Re.

Variable f : ascii -> ascii.

(** The matcher only depends on its continuation pointwise. *)
Lemma run_ext (r : regex) :
  forall (A : Type) (p : pos) (k1 k2 : pos -> option A),
    (forall q, k1 q = k2 q) -> run r p k1 = run r p k2.
Proof.
  induction r as [| c | a IHa b IHb | a IHa b IHb | a IHa | a IHa | c];
    intros A p k1 k2 H; simpl.
  - apply H.
  - destruct (rest p) as [| x l]; [reflexivity |].
    destruct (c x); [apply H | reflexivity].
  - apply IHa. intros q. apply IHb. exact H.
  - rewrite (IHa A p k1 k2 H), (IHb A p k1 k2 H). reflexivity.
  - generalize (length (rest p)). intros fuel. revert p.
    induction fuel as [| fuel IHf]; intros p; [apply H |].
    erewrite IHa; [rewrite H; reflexivity |].
    intros q. cbv beta. destruct (shorter q p); [apply IHf | reflexivity].
  - rewrite H. reflexivity.
  - destruct (before p) as [x |]; [| reflexivity].
    destruct (c x); [apply H | reflexivity].
Qed.

Lemma shorter_rename (p q : pos) :
  shorter (rename f q) (rename f p) = shorter q p.
Proof. unfold shorter, rename. cbn. rewrite !length_map. reflexivity. Qed.

(** Matching a renamed text with an expression that is blind to the
    renaming goes the way of the original match. *)
Lemma run_rename (r : regex) :
  blind f r ->
  forall (A : Type) (p : pos) (k : pos -> option A),
    run r (rename f p) k = run r p (fun q => k (rename f q)).
Proof.
  induction r as [| c | a IHa b IHb | a IHa b IHb | a IHa | a IHa | c];
    simpl; intros B A p k.
  - reflexivity.
  - destruct (rest p) as [| x l]; [reflexivity |]. cbn.
    rewrite B. reflexivity.
  - destruct B as [Ba Bb]. rewrite (IHa Ba). apply run_ext.
    intros q. apply (IHb Bb).
  - destruct B as [Ba Bb]. rewrite (IHa Ba), (IHb Bb). reflexivity.
  - rewrite length_map. generalize (length (rest p)). intros fuel. revert p.
    induction fuel as [| fuel IHf]; intros p; [reflexivity |].
    rewrite (IHa B).
    erewrite run_ext; [reflexivity |].
    intros q. cbv beta. rewrite shorter_rename.
    destruct (shorter q p); [apply IHf | reflexivity].
  - rewrite (IHa B). reflexivity.
  - destruct (before p) as [x |]; [| reflexivity]. cbn.
    rewrite B. reflexivity.
Qed.

(** Mapping the result of the continuation is mapping the result of the
    match. *)
Lemma run_map (r : regex) :
  forall (A B : Type) (g : A -> B) (p : pos) (k : pos -> option A),
    run r p (fun q => option_map g (k q)) = option_map g (run r p k).
Proof.
  induction r as [| c | a IHa b IHb | a IHa b IHb | a IHa | a IHa | c];
    intros A B g p k; simpl.
  - reflexivity.
  - destruct (rest p) as [| x l]; [reflexivity |]. destruct (c x); reflexivity.
  - rewrite <- IHa. apply run_ext. intros q. apply IHb.
  - rewrite IHa, IHb. destruct (run a p k); reflexivity.
  - generalize (length (rest p)). intros fuel. revert p.
    induction fuel as [| fuel IHf]; intros p; [reflexivity |].
    match goal with
    | |- ?lhs = option_map g ?rhs =>
        match lhs with
        | context [run a p ?KB] =>
            match rhs with
            | context [run a p ?KA] =>
                rewrite (run_ext a B p KB (fun q => option_map g (KA q)))
            end
        end
    end.
    + rewrite IHa. destruct (run a p _); reflexivity.
    + intros q. cbv beta. destruct (shorter q p); [apply IHf | reflexivity].
  - destruct (run a p (fun _ => Some tt)); reflexivity.
  - destruct (before p) as [x |]; [| reflexivity]. destruct (c x); reflexivity.
Qed.

Lemma match_at_rename (r : regex) (p : pos) :
  blind f r ->
  match_at r (rename f p) = option_map (rename f) (match_at r p).
Proof.
  intros B. unfold match_at. rewrite (run_rename r B).
  apply (run_map r pos pos (rename f) p Some).
Qed.

Lemma advance_rename (p : pos) : advance (rename f p) = rename f (advance p).
Proof.
  unfold advance, rename. cbn [rest before].
  destruct (rest p) as [| c l] eqn:E; cbn; rewrite ?E; reflexivity.
Qed.

Lemma taken_rename (p q : pos) :
  taken (rename f p) (rename f q) = List.map f (taken p q).
Proof.
  unfold taken, rename. cbn. rewrite !length_map, firstn_map. reflexivity.
Qed.

(** Splitting a renamed text gives the renamed pieces. *)
Lemma split_go_rename (r : regex) (fuel : nat) (cur : list ascii) (p : pos) :
  blind f r ->
  split_go fuel r (List.map f cur) (rename f p)
  = List.map (fun s => Py.str (List.map f (Py.chars s))) (split_go fuel r cur p).
Proof.
  intros B. revert cur p. induction fuel as [| fuel IH]; intros cur p.
  - cbn. rewrite chars_str, map_rev. reflexivity.
  - cbn [split_go]. destruct (rest p) as [| c l] eqn:E.
    + cbn. rewrite E. cbn. rewrite chars_str, map_rev. reflexivity.
    + assert (E' : rest (rename f p) = f c :: List.map f l)
        by (cbn; rewrite E; reflexivity).
      rewrite E', (match_at_rename r p B).
      destruct (match_at r p) as [q |]; cbn [option_map].
      * rewrite shorter_rename. destruct (shorter q p).
        -- cbn [List.map]. rewrite !chars_str, map_rev, taken_rename.
           change (@nil ascii) with (List.map f []) at 1. rewrite IH. reflexivity.
        -- rewrite advance_rename. apply (IH (c :: cur)).
      * rewrite advance_rename. apply (IH (c :: cur)).
Qed.

End Equivariance.

Lemma re_digits_blind : Re.blind Py.lower_char re_digits.
Proof. cbn. split; exact lower_char_digit. Qed.

Lemma split_lower (text : string) :
  Re.split re_digits (Py.lower text)
  = List.map Py.lower (Re.split re_digits text).
Proof.
  unfold Re.split, Py.lower. rewrite chars_str, length_map.
  apply (split_go_rename Py.lower_char re_digits _ [] (Re.start (Py.chars text))
                         re_digits_blind).
Qed.

Lemma truthy_lower (s : string) : Py.truthy (Py.lower s) = Py.truthy s.
Proof. destruct s; reflexivity. Qed.

Lemma isdigit_lower (s : string) : Py.isdigit (Py.lower s) = Py.isdigit s.
Proof.
  unfold Py.isdigit. rewrite truthy_lower. f_equal.
  unfold Py.lower. rewrite chars_str.
  induction (Py.chars s) as [| c l IH]; [reflexivity |].
  cbn. rewrite lower_char_digit, IH. reflexivity.
Qed.

Lemma lower_digits (s : string) : Py.isdigit s = true -> Py.lower s = s.
Proof.
  unfold Py.isdigit, Py.lower. intros H. apply andb_prop in H as [_ H].
  rewrite <- (str_chars s) at 2. f_equal.
  induction (Py.chars s) as [| c l IH]; [reflexivity |].
  cbn in *. apply andb_prop in H as [Hc H].
  rewrite (lower_digit_char c Hc), (IH H). reflexivity.
Qed.

Lemma convert_lower (part : string) : convert (Py.lower part) = convert part.
Proof.
  unfold convert. rewrite isdigit_lower.
  destruct (Py.isdigit part) eqn:D.
  - rewrite (lower_digits part D). reflexivity.
  - rewrite lower_idem. reflexivity.
Qed.

(** Titles that differ only in letter case have the same sort key. *)
Lemma natural_sort_key_lower (text : string) :
  natural_sort_key (Py.lower text) = natural_sort_key text.
Proof.
  unfold natural_sort_key. rewrite split_lower.
  induction (Re.split re_digits text) as [| part parts IH]; [reflexivity |].
  cbn [List.map List.filter]. rewrite truthy_lower.
  destruct (Py.truthy part); cbn [List.map]; rewrite IH; [| reflexivity].
  rewrite convert_lower. reflexivity.
Qed.


Lemma sorted_map {A B K : Type} (f : A -> B) (key : B -> K)
      (lt : K -> K -> bool) (l : list A) :
  sorted key lt (List.map f l) = List.map f (sorted (fun a => key (f a)) lt l).
Proof.
  induction l as [| x l IH]; simpl; [reflexivity |].
  rewrite IH. generalize (sorted (fun a => key (f a)) lt l). intros s.
  induction s as [| y s IHs]; simpl; [reflexivity |].
  destruct (lt (key (f y)) (key (f x))); simpl; [rewrite IHs |]; reflexivity.
Qed.

Lemma sorted_ext {A K : Type} (key key' : A -> K) (lt : K -> K -> bool)
      (l : list A) :
  (forall a, key a = key' a) -> sorted key lt l = sorted key' lt l.
Proof.
  intros H. induction l as [| x l IH]; simpl; [reflexivity |].
  rewrite IH. generalize (sorted key' lt l). intros s.
  induction s as [| y s IHs]; simpl; [reflexivity |].
  rewrite !H, IHs. reflexivity.
Qed.

Lemma list_sum_perm (l1 l2 : list nat) :
  Permutation l1 l2 -> list_sum l1 = list_sum l2.
Proof. induction 1; simpl; lia. Qed.

(** ** The tree walk *)

Lemma mem_set_of (x : string) (l : list string) :
  mem x (set_of l) = true <-> In x l.
Proof.
  unfold mem, set_of. rewrite bool_decide_eq_true, elem_of_list_to_set.
  apply list_elem_of_In.
Qed.

Section DocumentLoop.

Variable uuid : nat -> string.
Variable feed : string -> FeedResult.
Variable docs_by_id : gmap string Document.
Variable trash_doc_ids : gset string.

Lemma convert_document_title (doc : Document) (order n : nat) :
  d2_title (fst (convert_document uuid feed doc order n)) = clean_title doc.
Proof.
  unfold convert_document.
  destruct (html_to_blocknote uuid feed _ n) as [bs n1]. reflexivity.
Qed.

(** The loop over [documentIds] converts exactly the surviving references,
    in order. *)
Lemma convert_documents_titles (doc_ids : list string) (n : nat) :
  List.map d2_title
           (fst (convert_documents uuid feed doc_ids docs_by_id trash_doc_ids n))
  = List.map clean_title (surviving_docs docs_by_id trash_doc_ids doc_ids).
Proof.
  revert n. induction doc_ids as [| doc_id ids IH]; intros n; simpl.
  - reflexivity.
  - unfold eligible.
    destruct (mem doc_id trash_doc_ids); simpl; [apply IH |].
    destruct (docs_by_id !! doc_id) as [doc |]; simpl; [| apply IH].
    destruct (doc_truthy doc); simpl; [| apply IH].
    destruct (inactive (doc_status doc)); simpl; [apply IH |].
    pose proof (convert_document_title doc 0 n) as T.
    destruct (convert_document uuid feed doc 0 n) as [d n1].
    specialize (IH n1).
    destruct (convert_documents uuid feed ids docs_by_id trash_doc_ids n1)
      as [ds n2].
    simpl in *. rewrite T, IH. reflexivity.
Qed.

Lemma convert_documents_length (doc_ids : list string) (n : nat) :
  length (fst (convert_documents uuid feed doc_ids docs_by_id trash_doc_ids n))
  = length (surviving_docs docs_by_id trash_doc_ids doc_ids).
Proof.
  rewrite <- (length_map d2_title), convert_documents_titles, length_map.
  reflexivity.
Qed.

Lemma surviving_docs_nil (doc_ids : list string) :
  surviving_docs docs_by_id trash_doc_ids doc_ids = []
  <-> existsb (eligible docs_by_id trash_doc_ids) doc_ids = false.
Proof.
  induction doc_ids as [| doc_id ids IH]; simpl; [tauto |].
  destruct (eligible docs_by_id trash_doc_ids doc_id) eqn:E; simpl.
  - unfold eligible in E. apply andb_prop in E as [_ E].
    destruct (docs_by_id !! doc_id); [| discriminate].
    simpl. split; discriminate.
  - exact IH.
Qed.

(** Without a surviving reference the loop converts nothing and draws no
    id. *)
Lemma convert_documents_none (doc_ids : list string) (n : nat) :
  existsb (eligible docs_by_id trash_doc_ids) doc_ids = false ->
  convert_documents uuid feed doc_ids docs_by_id trash_doc_ids n = ([], n).
Proof.
  induction doc_ids as [| doc_id ids IH]; simpl; [reflexivity |].
  intros H. apply orb_false_elim in H as [E H]. unfold eligible in E.
  destruct (mem doc_id trash_doc_ids); simpl in *; [apply IH, H |].
  destruct (docs_by_id !! doc_id) as [doc |]; [| apply IH, H].
  destruct (doc_truthy doc); simpl in *; [| apply IH, H].
  destruct (inactive (doc_status doc)); simpl in *; [apply IH, H | discriminate].
Qed.

(** References to trashed documents can be dropped beforehand. *)
Lemma convert_documents_untrashed (doc_ids : list string) (n : nat) :
  convert_documents uuid feed
    (List.filter (fun doc_id => negb (mem doc_id trash_doc_ids)) doc_ids)
    docs_by_id trash_doc_ids n
  = convert_documents uuid feed doc_ids docs_by_id trash_doc_ids n.
Proof.
  revert n. induction doc_ids as [| doc_id ids IH]; intros n; simpl.
  - reflexivity.
  - destruct (mem doc_id trash_doc_ids) eqn:E; simpl; [apply IH |].
    rewrite E.
    destruct (docs_by_id !! doc_id) as [doc |]; [| apply IH].
    destruct (doc_truthy doc); simpl; [| apply IH].
    destruct (inactive (doc_status doc)); [apply IH |].
    destruct (convert_document uuid feed doc 0 n) as [d n1].
    rewrite IH. reflexivity.
Qed.

Lemma surviving_docs_untrashed (doc_ids : list string) :
  surviving_docs docs_by_id trash_doc_ids
    (List.filter (fun doc_id => negb (mem doc_id trash_doc_ids)) doc_ids)
  = surviving_docs docs_by_id trash_doc_ids doc_ids.
Proof.
  induction doc_ids as [| doc_id ids IH]; simpl; [reflexivity |].
  destruct (mem doc_id trash_doc_ids) eqn:E; simpl.
  - unfold eligible. rewrite E. simpl. exact IH.
  - rewrite IH. reflexivity.
Qed.

(** The archive target collects the records of the surviving references,
    in order, whatever the counters. *)
Lemma collect_folder_docs_survivors (doc_ids : list string) (stats : Stats) :
  fst (collect_folder_docs doc_ids docs_by_id trash_doc_ids stats)
  = surviving_docs docs_by_id trash_doc_ids doc_ids.
Proof.
  revert stats. induction doc_ids as [| doc_id ids IH]; intros stats; simpl.
  - reflexivity.
  - unfold eligible.
    destruct (mem doc_id trash_doc_ids); simpl; [apply IH |].
    destruct (docs_by_id !! doc_id) as [doc |]; simpl; [| apply IH].
    destruct (doc_truthy doc); simpl; [| apply IH].
    destruct (inactive (doc_status doc)); simpl; [apply IH |].
    specialize (IH stats).
    destruct (collect_folder_docs ids docs_by_id trash_doc_ids stats) as [ds st].
    simpl in *. rewrite IH. reflexivity.
Qed.

End DocumentLoop.


Lemma reassign_order_length (i : nat) (l : list Document2) :
  length (reassign_order i l) = length l.
Proof. revert i. induction l as [| d l IH]; intros i; simpl; [| rewrite IH]; reflexivity. Qed.

Lemma reassign_order_orders (i : nat) (l : list Document2) :
  List.map d2_order (reassign_order i l) = seq i (length l).
Proof. revert i. induction l as [| d l IH]; intros i; simpl; [| rewrite IH]; reflexivity. Qed.

Lemma reassign_order_titles (i : nat) (l : list Document2) :
  List.map d2_title (reassign_order i l) = List.map d2_title l.
Proof. revert i. induction l as [| d l IH]; intros i; simpl; [| rewrite IH]; reflexivity. Qed.

Lemma list_sum_cons (a : nat) (l : list nat) : list_sum (a :: l) = a + list_sum l.
Proof. reflexivity. Qed.

Section FolderLoop.

Variable uuid : nat -> string.
Variable feed : string -> FeedResult.
Variable docs_by_id : gmap string Document.
Variable trash_doc_ids : gset string.
Variable trash_folder_ids : gset string.

Lemma convert_folder_none (folder : Folder) (order n : nat) :
  has_survivor docs_by_id trash_doc_ids folder = false ->
  convert_folder uuid feed folder docs_by_id trash_doc_ids order n = (None, n).
Proof.
  intros H. unfold convert_folder, has_survivor in *.
  rewrite (convert_documents_none uuid feed docs_by_id trash_doc_ids _ n H).
  reflexivity.
Qed.

(** What [convert_folder] returns for a folder with a surviving document. *)
Lemma convert_folder_some (folder : Folder) (order n : nat) :
  has_survivor docs_by_id trash_doc_ids folder = true ->
  exists f2,
    convert_folder uuid feed folder docs_by_id trash_doc_ids order n
    = (Some f2,
       snd (convert_documents uuid feed (folder_documentIds folder)
                              docs_by_id trash_doc_ids n))
    /\ f2_documents f2
       = reassign_order 0
           (sorted (fun d => natural_sort_key (d2_title d)) key_lt
                   (fst (convert_documents uuid feed (folder_documentIds folder)
                                           docs_by_id trash_doc_ids n)))
    /\ f2_order f2 = order.
Proof.
  intros H. unfold convert_folder, has_survivor in *.
  pose proof (convert_documents_length uuid feed docs_by_id trash_doc_ids
                (folder_documentIds folder) n) as L.
  destruct (convert_documents uuid feed (folder_documentIds folder)
                              docs_by_id trash_doc_ids n) as [ds n1].
  simpl in *. destruct ds as [| d ds].
  - exfalso. symmetry in L. apply length_zero_iff_nil in L.
    apply surviving_docs_nil in L. congruence.
  - eexists. split; [reflexivity |]. split; reflexivity.
Qed.

Lemma convert_folder_cases (folder : Folder) (order n : nat) :
  (has_survivor docs_by_id trash_doc_ids folder = false
   /\ convert_folder uuid feed folder docs_by_id trash_doc_ids order n = (None, n))
  \/ (has_survivor docs_by_id trash_doc_ids folder = true
      /\ exists f2 n',
           convert_folder uuid feed folder docs_by_id trash_doc_ids order n
           = (Some f2, n')
           /\ f2_documents f2
              = reassign_order 0
                  (sorted (fun d => natural_sort_key (d2_title d)) key_lt
                     (fst (convert_documents uuid feed (folder_documentIds folder)
                                             docs_by_id trash_doc_ids n)))
           /\ f2_order f2 = order).
Proof.
  destruct (has_survivor docs_by_id trash_doc_ids folder) eqn:H.
  - right. split; [reflexivity |].
    destruct (convert_folder_some folder order n H) as (f2 & E & D & O).
    eauto.
  - left. split; [reflexivity | apply convert_folder_none; exact H].
Qed.

(** A folder that fails the folder filter or has no surviving document
    leaves no trace in the loop. *)
Lemma convert_folders_skip (folder : Folder) (rest : list Folder)
      (folder_order n : nat) :
  folder_kept trash_folder_ids folder
  && has_survivor docs_by_id trash_doc_ids folder = false ->
  convert_folders uuid feed (folder :: rest) docs_by_id trash_doc_ids
                  trash_folder_ids folder_order n
  = convert_folders uuid feed rest docs_by_id trash_doc_ids
                    trash_folder_ids folder_order n.
Proof.
  unfold folder_kept, not_trashed. simpl. intros H.
  destruct (mem _ trash_folder_ids); simpl in *; [reflexivity |].
  destruct (inactive (folder_status folder)); simpl in *; [reflexivity |].
  rewrite (convert_folder_none folder folder_order n H). reflexivity.
Qed.

Lemma convert_folders_filter (keep : Folder -> bool) (fs : list Folder)
      (folder_order n : nat) :
  (forall f, keep f = false ->
             folder_kept trash_folder_ids f
             && has_survivor docs_by_id trash_doc_ids f = false) ->
  convert_folders uuid feed (List.filter keep fs) docs_by_id trash_doc_ids
                  trash_folder_ids folder_order n
  = convert_folders uuid feed fs docs_by_id trash_doc_ids
                    trash_folder_ids folder_order n.
Proof.
  intros Hkeep. revert folder_order n.
  induction fs as [| f fs IH]; intros folder_order n; [reflexivity |].
  cbn [List.filter]. destruct (keep f) eqn:K.
  - cbn [convert_folders].
    destruct (mem _ trash_folder_ids); [apply IH |].
    destruct (inactive (folder_status f)); [apply IH |].
    destruct (convert_folder uuid feed f docs_by_id trash_doc_ids folder_order n)
      as [[f2 |] n1]; [| apply IH].
    rewrite IH. reflexivity.
  - rewrite (convert_folders_skip f fs folder_order n (Hkeep f K)). apply IH.
Qed.

Lemma convert_folder_untrashed (folder : Folder) (order n : nat) :
  convert_folder uuid feed (without_trashed_docs trash_doc_ids folder)
                 docs_by_id trash_doc_ids order n
  = convert_folder uuid feed folder docs_by_id trash_doc_ids order n.
Proof.
  unfold convert_folder, without_trashed_docs. cbn.
  rewrite convert_documents_untrashed. reflexivity.
Qed.

Lemma convert_folders_untrashed (fs : list Folder) (folder_order n : nat) :
  convert_folders uuid feed (List.map (without_trashed_docs trash_doc_ids) fs)
                  docs_by_id trash_doc_ids trash_folder_ids folder_order n
  = convert_folders uuid feed fs docs_by_id trash_doc_ids
                    trash_folder_ids folder_order n.
Proof.
  revert folder_order n.
  induction fs as [| f fs IH]; intros folder_order n; [reflexivity |].
  cbn [List.map convert_folders]. rewrite convert_folder_untrashed.
  cbn [without_trashed_docs with_documentIds folder_id folder_status].
  destruct (mem _ trash_folder_ids); [apply IH |].
  destruct (inactive (folder_status f)); [apply IH |].
  destruct (convert_folder uuid feed f docs_by_id trash_doc_ids folder_order n)
    as [[f2 |] n1]; [| apply IH].
  rewrite IH. reflexivity.
Qed.

(** Every output folder satisfies what [convert_folder] guarantees. *)
Lemma convert_folders_Forall (P : Folder2 -> Prop) (fs : list Folder)
      (folder_order n : nat) :
  (forall folder order m f2 m',
      convert_folder uuid feed folder docs_by_id trash_doc_ids order m
      = (Some f2, m') -> P f2) ->
  Forall P (fst (convert_folders uuid feed fs docs_by_id trash_doc_ids
                                 trash_folder_ids folder_order n)).
Proof.
  intros HP. revert folder_order n.
  induction fs as [| f fs IH]; intros folder_order n; [constructor |].
  cbn [convert_folders].
  destruct (mem _ trash_folder_ids); [apply IH |].
  destruct (inactive (folder_status f)); [apply IH |].
  destruct (convert_folder uuid feed f docs_by_id trash_doc_ids folder_order n)
    as [[f2 |] n1] eqn:E; [| apply IH].
  specialize (IH (S folder_order) n1).
  destruct (convert_folders uuid feed fs docs_by_id trash_doc_ids
                            trash_folder_ids (S folder_order) n1) as [cfs n2].
  cbn [fst] in *. constructor; [eapply HP; exact E | exact IH].
Qed.

(** The number of converted documents is the number of surviving
    references of the folders that pass the folder filter. *)
Lemma convert_folders_total (fs : list Folder) (folder_order n : nat) :
  list_sum (List.map (fun f => length (f2_documents f))
              (fst (convert_folders uuid feed fs docs_by_id trash_doc_ids
                                    trash_folder_ids folder_order n)))
  = list_sum (List.map
                (fun f => length (surviving_docs docs_by_id trash_doc_ids
                                                 (folder_documentIds f)))
                (List.filter (folder_kept trash_folder_ids) fs)).
Proof.
  revert folder_order n.
  induction fs as [| f fs IH]; intros folder_order n; [reflexivity |].
  cbn [convert_folders List.filter]. unfold folder_kept at 1, not_trashed.
  destruct (mem _ trash_folder_ids); cbn [negb andb]; [apply IH |].
  destruct (inactive (folder_status f)); cbn [negb]; [apply IH |].
  destruct (convert_folder_cases f folder_order n)
    as [[H E] | [H (f2 & n1 & E & D & O)]]; rewrite E.
  - rewrite List.map_cons, list_sum_cons, IH.
    apply surviving_docs_nil in H. rewrite H. reflexivity.
  - specialize (IH (S folder_order) n1).
    destruct (convert_folders uuid feed fs docs_by_id trash_doc_ids
                              trash_folder_ids (S folder_order) n1) as [cfs n2].
    cbn [fst] in *. rewrite !List.map_cons, !list_sum_cons, IH, D.
    rewrite reassign_order_length, sorted_length, convert_documents_length.
    reflexivity.
Qed.

(** The archive entries: per folder that passes the folder filter, the
    entries of its surviving documents. *)
Lemma write_documents_entries (folder_slug : string) (docs : list Document)
      (stats : Stats) :
  fst (write_documents feed folder_slug docs stats)
  = List.map (fun doc =>
                (folder_slug +:+ "/" +:+ slugify_filename (get (doc_title doc) "untitled"),
                 encode_utf8 (html_to_markdown feed (get (doc_content doc) EmptyString))))
             docs.
Proof.
  revert stats. induction docs as [| doc docs IH]; intros stats; [reflexivity |].
  cbn [write_documents List.map]. specialize (IH (count_document stats)).
  destruct (write_documents feed folder_slug docs (count_document stats)) as [es st].
  cbn [fst] in *. rewrite IH. reflexivity.
Qed.

Lemma write_folders_entries (fs : list Folder) (stats : Stats) :
  fst (write_folders feed fs docs_by_id trash_doc_ids trash_folder_ids stats)
  = flat_map (fun f => if folder_kept trash_folder_ids f
                       then folder_entries feed docs_by_id trash_doc_ids f
                       else [])
             fs.
Proof.
  revert stats. induction fs as [| f fs IH]; intros stats; [reflexivity |].
  cbn [write_folders flat_map]. unfold folder_kept at 1, not_trashed.
  destruct (mem _ trash_folder_ids); cbn [negb andb app]; [apply IH |].
  destruct (inactive (folder_status f)); cbn [negb app]; [apply IH |].
  unfold folder_entries.
  pose proof (collect_folder_docs_survivors docs_by_id trash_doc_ids
                (folder_documentIds f) stats) as C.
  destruct (collect_folder_docs (folder_documentIds f) docs_by_id
                                trash_doc_ids stats) as [ds st1].
  cbn [fst] in C. rewrite <- C.
  destruct ds as [| d ds]; [apply IH |].
  pose proof (write_documents_entries
                (slugify_folder (get (folder_title f) "untitled")) (d :: ds)
                (count_folder st1)) as W.
  destruct (write_documents feed _ (d :: ds) (count_folder st1)) as [files st2].
  specialize (IH st2).
  destruct (write_folders feed fs docs_by_id trash_doc_ids trash_folder_ids st2)
    as [entries st3].
  cbn [fst] in *. rewrite W, IH. reflexivity.
Qed.

End FolderLoop.


(** ** The two targets on a whole tree *)

Lemma sort_folders_filter (keep : Folder -> bool) (fs : list Folder) :
  sort_folders (List.filter keep fs) = List.filter keep (sort_folders fs).
Proof.
  unfold sort_folders. symmetry.
  apply filter_sorted; [exact Z_ltb_asym | exact Z_ge_trans].
Qed.

Lemma sort_folders_map (f : Folder -> Folder) (fs : list Folder) :
  (forall x, folder_sort (f x) = folder_sort x) ->
  sort_folders (List.map f fs) = List.map f (sort_folders fs).
Proof.
  intros H. unfold sort_folders. rewrite sorted_map. f_equal.
  apply sorted_ext. intros a. rewrite H. reflexivity.
Qed.

Lemma flat_map_filter_nil {A B : Type} (g : A -> list B) (keep : A -> bool)
      (l : list A) :
  (forall a, keep a = false -> g a = []) ->
  flat_map g (List.filter keep l) = flat_map g l.
Proof.
  intros H. induction l as [| a l IH]; simpl; [reflexivity |].
  destruct (keep a) eqn:K; simpl; rewrite IH; [reflexivity |].
  rewrite (H a K). reflexivity.
Qed.

Section Targets.

Variable uuid : nat -> string.
Variable feed : string -> FeedResult.

(** The structured target reads the folders only through the loop over the
    sorted list. *)
Lemma convert_with_folders (data : Schema1) (fs : list Folder) (n : nat) :
  convert_folders uuid feed (sort_folders fs) (documentsById data)
                  (set_of (trash_documentIds (trash data)))
                  (set_of (trash_folderIds (trash data))) 0 n
  = convert_folders uuid feed (sort_folders (folders data)) (documentsById data)
                    (set_of (trash_documentIds (trash data)))
                    (set_of (trash_folderIds (trash data))) 0 n ->
  convert_schema1_to_schema2 uuid feed (with_folders data fs) n
  = convert_schema1_to_schema2 uuid feed data n.
Proof.
  intros H. unfold convert_schema1_to_schema2. cbn [with_folders documentsById
    trash folders s1_title]. rewrite H. reflexivity.
Qed.

Lemma zip_entries (data : Schema1) :
  fst (convert_schema1_to_zip feed data)
  = flat_map (fun f => if folder_kept (set_of (trash_folderIds (trash data))) f
                       then folder_entries feed (documentsById data)
                              (set_of (trash_documentIds (trash data))) f
                       else [])
             (sort_folders (folders data)).
Proof. unfold convert_schema1_to_zip. apply write_folders_entries. Qed.

Lemma folder_entries_none (docs_by_id : gmap string Document)
      (trash_doc_ids : gset string) (folder : Folder) :
  has_survivor docs_by_id trash_doc_ids folder = false ->
  folder_entries feed docs_by_id trash_doc_ids folder = [].
Proof.
  intros H. unfold folder_entries, has_survivor in *.
  apply surviving_docs_nil in H. rewrite H. reflexivity.
Qed.

Lemma folder_entries_untrashed (docs_by_id : gmap string Document)
      (trash_doc_ids : gset string) (folder : Folder) :
  folder_entries feed docs_by_id trash_doc_ids
                 (without_trashed_docs trash_doc_ids folder)
  = folder_entries feed docs_by_id trash_doc_ids folder.
Proof.
  unfold folder_entries, without_trashed_docs.
  cbn [with_documentIds folder_documentIds folder_title].
  rewrite surviving_docs_untrashed. reflexivity.
Qed.

End Targets.



(** C5. Trashed entities never reach either output, whatever their other
    fields say: both outputs are the same when the folders whose id is in
    the trash-folder set are removed from the input beforehand, and when
    the references to documents whose id is in the trash-document set are
    removed from every folder beforehand.  A folder none of whose document
    references survives the filter yields no output folder and no archive
    entry: [convert_folder] returns [None] for it, it has no archive
    entries, and both outputs are the same when such folders are removed
    beforehand; a folder whose only reference is a trashed document is one
    of them. *)
Theorem trash_and_empty_folders_leave_no_trace :
  forall (uuid : nat -> string) (feed : string -> FeedResult)
         (data : Schema1) (n : nat),
    let docs_by_id := documentsById data in
    let trash_doc_ids := set_of (trash_documentIds (trash data)) in
    let trash_folder_ids := set_of (trash_folderIds (trash data)) in
    (let data' := with_folders data
                    (List.filter (not_trashed trash_folder_ids) (folders data)) in
     convert_schema1_to_schema2 uuid feed data' n
       = convert_schema1_to_schema2 uuid feed data n
     /\ fst (convert_schema1_to_zip feed data')
        = fst (convert_schema1_to_zip feed data))
    /\ (let data' := with_folders data
                       (List.map (without_trashed_docs trash_doc_ids)
                                 (folders data)) in
        convert_schema1_to_schema2 uuid feed data' n
          = convert_schema1_to_schema2 uuid feed data n
        /\ fst (convert_schema1_to_zip feed data')
           = fst (convert_schema1_to_zip feed data))
    /\ (let data' := with_folders data
                       (List.filter (has_survivor docs_by_id trash_doc_ids)
                                    (folders data)) in
        convert_schema1_to_schema2 uuid feed data' n
          = convert_schema1_to_schema2 uuid feed data n
        /\ fst (convert_schema1_to_zip feed data')
           = fst (convert_schema1_to_zip feed data))
    /\ (forall folder order m,
          has_survivor docs_by_id trash_doc_ids folder = false ->
          convert_folder uuid feed folder docs_by_id trash_doc_ids order m
            = (None, m)
          /\ folder_entries feed docs_by_id trash_doc_ids folder = [])
    /\ (forall folder doc_id,
          folder_documentIds folder = [doc_id] ->
          In doc_id (trash_documentIds (trash data)) ->
          has_survivor docs_by_id trash_doc_ids folder = false).
Proof.
  intros uuid feed data n docs_by_id trash_doc_ids trash_folder_ids.
  split; [| split; [| split; [| split]]].
  - split.
    + apply convert_with_folders. rewrite sort_folders_filter.
      apply convert_folders_filter. intros f K. unfold folder_kept.
      fold trash_folder_ids. rewrite K. reflexivity.
    + rewrite !zip_entries. cbn [with_folders folders trash documentsById].
      rewrite sort_folders_filter. apply flat_map_filter_nil.
      intros f K. unfold folder_kept. fold trash_folder_ids. rewrite K.
      reflexivity.
  - split.
    + apply convert_with_folders. rewrite sort_folders_map by reflexivity.
      apply convert_folders_untrashed.
    + rewrite !zip_entries. cbn [with_folders folders trash documentsById].
      rewrite sort_folders_map by reflexivity. rewrite flat_map_concat_map.
      rewrite List.map_map. rewrite <- flat_map_concat_map.
      apply flat_map_ext. intros f.
      fold trash_doc_ids. rewrite folder_entries_untrashed. reflexivity.
  - split.
    + apply convert_with_folders. rewrite sort_folders_filter.
      apply convert_folders_filter. intros f K.
      fold docs_by_id trash_doc_ids. rewrite K. apply andb_false_r.
    + rewrite !zip_entries. cbn [with_folders folders trash documentsById].
      rewrite sort_folders_filter. apply flat_map_filter_nil.
      intros f K. fold docs_by_id trash_doc_ids.
      rewrite (folder_entries_none feed _ _ f K). destruct (folder_kept _ f); reflexivity.
  - intros folder order m H. split.
    + apply convert_folder_none. exact H.
    + apply folder_entries_none. exact H.
  - intros folder doc_id Hids Hin. unfold has_survivor, eligible.
    rewrite Hids. cbn [existsb].
    apply (mem_set_of doc_id) in Hin. fold trash_doc_ids in Hin.
    rewrite Hin. reflexivity.
Qed.

(** A folder with a single reference, to a trashed document that is
    itself active. *)
Lemma trash_and_empty_folders_leave_no_trace_witness :
  let doc := {| doc_id := Some "d1"; doc_title := Some "One";
                doc_content := Some "<p>x</p>"; doc_status := Some "active";
                doc_summary := None |} in
  let folder := {| folder_id := Some "f1"; folder_title := Some "F";
                   folder_sort := Some 1%Z; folder_status := Some "active";
                   folder_documentIds := ["d1"] |} in
  let data := {| s1_title := Some "T";
                 documentsById := {["d1" := doc]};
                 folders := [folder];
                 trash := {| trash_documentIds := ["d1"];
                             trash_folderIds := [] |} |} in
  has_survivor (documentsById data) (set_of (trash_documentIds (trash data)))
               folder = false.
Proof.
  intros doc folder data.
  exact (proj2 (proj2 (proj2 (proj2
           (trash_and_empty_folders_leave_no_trace Py.str_of_nat
              (HTMLParser.feed (fun s => s)) data 0))))
           folder "d1" eq_refl (or_introl eq_refl)).
Defined.



(** ** Determinism up to block ids *)

Section IdErasure.

Import HTMLToBlockNoteConverter.

Variable uuid : nat -> string.

Lemma erase_flush_text (c : BlockNoteConverter) :
  erase_state (_flush_text c) = _flush_text (erase_state c).
Proof.
  unfold _flush_text. cbn [erase_state pending_text].
  destruct (pending_text c); reflexivity.
Qed.

Lemma erase_flush_block (c : BlockNoteConverter) (n m : nat) :
  erase_state (fst (_flush_block uuid c n))
  = fst (_flush_block no_ids (erase_state c) m).
Proof.
  unfold _flush_block. rewrite <- erase_flush_text.
  destruct (current_content (_flush_text c)) as [| t ts] eqn:E;
    cbn [erase_state current_content]; rewrite E; [reflexivity |].
  cbn. unfold erase_state. cbn. rewrite List.map_app. reflexivity.
Qed.

Lemma erase_set_styles (c : BlockNoteConverter) (s : Styles) :
  erase_state (set_styles c s) = set_styles (erase_state c) s.
Proof. reflexivity. Qed.

(** Blanking the ids after a handler call is the same as running the
    handler on the blanked state with the blank supply. *)
Lemma erase_handle (e : Event) (c : BlockNoteConverter) (n m : nat) :
  erase_state (fst (handle uuid e c n))
  = fst (handle no_ids e (erase_state c) m).
Proof.
  destruct e as [tag attrs | tag | data]; cbn [handle].
  - unfold handle_starttag, open_style. branches; cbn [fst];
      rewrite ?erase_set_styles, ?erase_flush_text;
      try apply erase_flush_block; try reflexivity;
      try (rewrite !flush_text_styles; reflexivity).
    pose proof (erase_flush_block c n m) as F.
    destruct (_flush_block uuid c n) as [c1 n1].
    destruct (_flush_block no_ids (erase_state c) m) as [c1' m1].
    cbn [fst] in *. rewrite <- F. reflexivity.
  - unfold handle_endtag, close_style. branches; cbn [fst];
      rewrite ?erase_set_styles, ?erase_flush_text;
      try apply erase_flush_block; try reflexivity;
      try (rewrite !flush_text_styles; reflexivity).
    rewrite <- erase_flush_text.
    destruct (current_block (_flush_text c)) as [block |] eqn:E;
      cbn [erase_state current_block option_map]; rewrite E; cbn [option_map fst].
    + unfold erase_state. cbn. rewrite List.map_app. reflexivity.
    + reflexivity.
  - reflexivity.
Qed.

Lemma erase_handle_all (evs : list Event) (c : BlockNoteConverter) (n m : nat) :
  erase_state (fst (handle_all uuid evs c n))
  = fst (handle_all no_ids evs (erase_state c) m).
Proof.
  revert c n m. induction evs as [| e evs IH]; intros c n m; [reflexivity |].
  cbn [handle_all]. pose proof (erase_handle e c n m) as H.
  destruct (handle uuid e c n) as [c1 n1].
  destruct (handle no_ids e (erase_state c) m) as [c1' m1].
  cbn [fst] in H. subst c1'. apply IH.
Qed.

Lemma has_content_erase (b : Block) : has_content (erase_id b) = has_content b.
Proof. reflexivity. Qed.

Lemma filter_has_content_erase (bs : list Block) :
  List.map erase_id (List.filter has_content bs)
  = List.filter has_content (List.map erase_id bs).
Proof.
  induction bs as [| b bs IH]; simpl; [reflexivity |].
  rewrite has_content_erase. destruct (has_content b); simpl; rewrite IH; reflexivity.
Qed.

End IdErasure.

Section Determinism.

Variable feed : string -> FeedResult.

(** The blocks of [html_to_blocknote], ids blanked, do not depend on the id
    supply or on how many ids were drawn before. *)
Lemma html_to_blocknote_erase (uuid : nat -> string) (html : string) (n : nat) :
  List.map erase_id (fst (html_to_blocknote uuid feed html n))
  = fst (html_to_blocknote no_ids feed html 0).
Proof.
  unfold html_to_blocknote.
  destruct (Py.truthy html); cbn [negb]; [| reflexivity].
  destruct (feed html) as [evs | evs].
  - pose proof (erase_handle_all uuid evs
                  HTMLToBlockNoteConverter.new_converter n 0) as H.
    change (erase_state HTMLToBlockNoteConverter.new_converter)
      with HTMLToBlockNoteConverter.new_converter in H.
    destruct (HTMLToBlockNoteConverter.handle_all uuid evs _ n) as [c1 n1].
    destruct (HTMLToBlockNoteConverter.handle_all no_ids evs _ 0) as [c1' m1].
    cbn [fst] in H. subst c1'.
    unfold HTMLToBlockNoteConverter.get_blocknote_json.
    pose proof (erase_flush_block uuid c1 n1 m1) as F.
    destruct (HTMLToBlockNoteConverter._flush_block uuid c1 n1) as [c2 n2].
    destruct (HTMLToBlockNoteConverter._flush_block no_ids (erase_state c1) m1)
      as [c2' m2].
    cbn [fst] in *. subst c2'. rewrite filter_has_content_erase. reflexivity.
  - destruct (HTMLToBlockNoteConverter.handle_all uuid evs _ n) as [c1 n1].
    destruct (HTMLToBlockNoteConverter.handle_all no_ids evs _ 0) as [c1' m1].
    destruct (Py.truthy _); reflexivity.
Qed.

Lemma html_to_blocknote_same (uuid1 uuid2 : nat -> string) (html : string)
      (n1 n2 : nat) :
  same_blocks (fst (html_to_blocknote uuid1 feed html n1))
              (fst (html_to_blocknote uuid2 feed html n2)).
Proof. unfold same_blocks. rewrite !html_to_blocknote_erase. reflexivity. Qed.

Lemma count_words_erase (bs : list Block) :
  count_words (List.map erase_id bs) = count_words bs.
Proof.
  unfold count_words. do 3 f_equal.
  induction bs as [| b bs IH]; simpl; [reflexivity |]. rewrite IH. reflexivity.
Qed.

Lemma count_words_same (bs1 bs2 : list Block) :
  same_blocks bs1 bs2 -> count_words bs1 = count_words bs2.
Proof.
  intros H. rewrite <- (count_words_erase bs1), <- (count_words_erase bs2), H.
  reflexivity.
Qed.

Lemma convert_document_same (uuid1 uuid2 : nat -> string) (doc : Document)
      (order n1 n2 : nat) :
  same_document (fst (convert_document uuid1 feed doc order n1))
                (fst (convert_document uuid2 feed doc order n2)).
Proof.
  unfold convert_document.
  pose proof (html_to_blocknote_same uuid1 uuid2
                (get (doc_content doc) EmptyString) n1 n2) as H.
  destruct (html_to_blocknote uuid1 feed _ n1) as [bs1 m1].
  destruct (html_to_blocknote uuid2 feed _ n2) as [bs2 m2].
  cbn [fst] in *. split.
  - unfold with_content. cbn. rewrite (count_words_same bs1 bs2 H). reflexivity.
  - exists bs1, bs2. cbn. auto.
Qed.

Lemma same_document_title (d1 d2 : Document2) :
  same_document d1 d2 -> d2_title d1 = d2_title d2.
Proof.
  intros [H _]. apply (f_equal d2_title) in H. exact H.
Qed.

Lemma same_document_set_order (i : nat) (d1 d2 : Document2) :
  same_document d1 d2 -> same_document (set_order i d1) (set_order i d2).
Proof.
  intros [H (bs1 & bs2 & E1 & E2 & S)]. split.
  - unfold with_content, set_order in *. cbn in *.
    injection H as H1 H2 H3 H4 H5 H6 H7 H8 H9 H10 H11 H12 H13.
    congruence.
  - exists bs1, bs2. cbn. auto.
Qed.

Lemma reassign_order_same (i : nat) (l1 l2 : list Document2) :
  Forall2 same_document l1 l2 ->
  Forall2 same_document (reassign_order i l1) (reassign_order i l2).
Proof.
  intros H. revert i. induction H as [| d1 d2 l1 l2 Hd Hl IH]; intros i; simpl.
  - constructor.
  - constructor; [apply same_document_set_order; exact Hd | apply IH].
Qed.

Variable docs_by_id : gmap string Document.
Variable trash_doc_ids : gset string.
Variable trash_folder_ids : gset string.

Lemma convert_documents_same (uuid1 uuid2 : nat -> string)
      (doc_ids : list string) (n1 n2 : nat) :
  Forall2 same_document
    (fst (convert_documents uuid1 feed doc_ids docs_by_id trash_doc_ids n1))
    (fst (convert_documents uuid2 feed doc_ids docs_by_id trash_doc_ids n2)).
Proof.
  revert n1 n2. induction doc_ids as [| doc_id ids IH]; intros n1 n2;
    cbn [convert_documents]; [constructor |].
  destruct (mem doc_id trash_doc_ids); [apply IH |].
  destruct (docs_by_id !! doc_id) as [doc |]; [| apply IH].
  destruct (negb (doc_truthy doc)); [apply IH |].
  destruct (inactive (doc_status doc)); [apply IH |].
  pose proof (convert_document_same uuid1 uuid2 doc 0 n1 n2) as D.
  destruct (convert_document uuid1 feed doc 0 n1) as [d1 m1].
  destruct (convert_document uuid2 feed doc 0 n2) as [d2 m2].
  specialize (IH m1 m2).
  destruct (convert_documents uuid1 feed ids docs_by_id trash_doc_ids m1) as [l1 k1].
  destruct (convert_documents uuid2 feed ids docs_by_id trash_doc_ids m2) as [l2 k2].
  cbn [fst] in *. constructor; assumption.
Qed.

(** [convert_folder] under two id supplies: both [None], or two folders
    that differ at most in block ids. *)
Lemma convert_folder_same (uuid1 uuid2 : nat -> string) (folder : Folder)
      (order n1 n2 : nat) :
  match fst (convert_folder uuid1 feed folder docs_by_id trash_doc_ids order n1),
        fst (convert_folder uuid2 feed folder docs_by_id trash_doc_ids order n2) with
  | Some f1, Some f2 => same_folder f1 f2
  | None, None => True
  | _, _ => False
  end.
Proof.
  unfold convert_folder.
  pose proof (convert_documents_same uuid1 uuid2 (folder_documentIds folder) n1 n2)
    as D.
  destruct (convert_documents uuid1 feed _ docs_by_id trash_doc_ids n1) as [l1 k1].
  destruct (convert_documents uuid2 feed _ docs_by_id trash_doc_ids n2) as [l2 k2].
  cbn [fst] in D. destruct D as [| d1 d2 l1 l2 Hd Hl]; cbn [fst]; [exact I |].
  split; [reflexivity |]. cbn [f2_documents].
  apply reassign_order_same.
  apply sorted_Forall2.
  - intros a b Hab. rewrite (same_document_title a b Hab). reflexivity.
  - constructor; assumption.
Qed.

Lemma convert_folders_same (uuid1 uuid2 : nat -> string) (fs : list Folder)
      (folder_order n1 n2 : nat) :
  Forall2 same_folder
    (fst (convert_folders uuid1 feed fs docs_by_id trash_doc_ids
                          trash_folder_ids folder_order n1))
    (fst (convert_folders uuid2 feed fs docs_by_id trash_doc_ids
                          trash_folder_ids folder_order n2)).
Proof.
  revert folder_order n1 n2.
  induction fs as [| f fs IH]; intros folder_order n1 n2;
    cbn [convert_folders]; [constructor |].
  destruct (mem _ trash_folder_ids); [apply IH |].
  destruct (inactive (folder_status f)); [apply IH |].
  pose proof (convert_folder_same uuid1 uuid2 f folder_order n1 n2) as F.
  destruct (convert_folder uuid1 feed f docs_by_id trash_doc_ids folder_order n1)
    as [[f1 |] m1];
    destruct (convert_folder uuid2 feed f docs_by_id trash_doc_ids folder_order n2)
    as [[f2 |] m2]; cbn [fst] in F; try contradiction; [| apply IH].
  specialize (IH (S folder_order) m1 m2).
  destruct (convert_folders uuid1 feed fs docs_by_id trash_doc_ids
                            trash_folder_ids (S folder_order) m1) as [l1 k1].
  destruct (convert_folders uuid2 feed fs docs_by_id trash_doc_ids
                            trash_folder_ids (S folder_order) m2) as [l2 k2].
  cbn [fst] in *. constructor; assumption.
Qed.

End Determinism.

Lemma same_folders_total (l1 l2 : list Folder2) :
  Forall2 same_folder l1 l2 ->
  list_sum (List.map (fun f => length (f2_documents f)) l1)
  = list_sum (List.map (fun f => length (f2_documents f)) l2).
Proof.
  induction 1 as [| f1 f2 l1 l2 [_ Hf] Hl IH]; [reflexivity |].
  rewrite !List.map_cons, !list_sum_cons, IH.
  rewrite (List.Forall2_length Hf). reflexivity.
Qed.

(** C9. The structured conversion is a function of the input tree and of
    the values drawn for the block ids, and of nothing else: under any two
    id supplies, started anywhere, the two output trees agree in every field
    except that the serialized contents of corresponding documents are the
    dumps of block lists that may differ in their ids.  The Markdown
    conversion and the archive entries take no id supply at all. *)
Theorem conversion_deterministic_up_to_block_ids :
  forall (feed : string -> FeedResult) (data : Schema1)
         (uuid1 uuid2 : nat -> string) (n1 n2 : nat),
    same_project (fst (convert_schema1_to_schema2 uuid1 feed data n1))
                 (fst (convert_schema1_to_schema2 uuid2 feed data n2))
    /\ (forall html,
          same_blocks (fst (html_to_blocknote uuid1 feed html n1))
                      (fst (html_to_blocknote uuid2 feed html n2)))
    /\ (forall html, exists markdown : string,
          forall (uuid : nat -> string) (n : nat),
            html_to_markdown feed html = markdown)
    /\ (exists entries : list ZipEntry,
          forall (uuid : nat -> string) (n : nat),
            fst (convert_schema1_to_zip feed data) = entries).
Proof.
  intros feed data uuid1 uuid2 n1 n2. split; [| split; [| split]].
  - unfold convert_schema1_to_schema2.
    pose proof (convert_folders_same feed (documentsById data)
                  (set_of (trash_documentIds (trash data)))
                  (set_of (trash_folderIds (trash data)))
                  uuid1 uuid2 (sort_folders (folders data)) 0 n1 n2) as F.
    destruct (convert_folders uuid1 feed _ _ _ _ 0 n1) as [l1 k1].
    destruct (convert_folders uuid2 feed _ _ _ _ 0 n2) as [l2 k2].
    cbn [fst] in *. split; [| exact F].
    unfold with_p_folders. cbn. rewrite (same_folders_total l1 l2 F). reflexivity.
  - intros html. apply html_to_blocknote_same.
  - intros html. eexists. intros _ _. reflexivity.
  - eexists. intros _ _. reflexivity.
Qed.

(** Two supplies that never give the same id, on a tree with one folder
    and one document. *)
Lemma conversion_deterministic_up_to_block_ids_witness :
  let doc := {| doc_id := Some "d1"; doc_title := Some "One";
                doc_content := Some "<h1>T</h1><p>x</p>";
                doc_status := None; doc_summary := None |} in
  let folder := {| folder_id := Some "f1"; folder_title := Some "F";
                   folder_sort := None; folder_status := None;
                   folder_documentIds := ["d1"] |} in
  let data := {| s1_title := Some "T";
                 documentsById := {["d1" := doc]};
                 folders := [folder];
                 trash := {| trash_documentIds := []; trash_folderIds := [] |} |} in
  let feed := HTMLParser.feed (fun s => s) in
  let uuid1 := fun n => "a" +:+ Py.str_of_nat n in
  let uuid2 := fun n => "b" +:+ Py.str_of_nat n in
  convert_schema1_to_schema2 uuid1 feed data 0
    <> convert_schema1_to_schema2 uuid2 feed data 0
  /\ same_project (fst (convert_schema1_to_schema2 uuid1 feed data 0))
                  (fst (convert_schema1_to_schema2 uuid2 feed data 0)).
Proof.
  intros doc folder data feed uuid1 uuid2. split.
  - vm_compute. discriminate.
  - exact (proj1 (conversion_deterministic_up_to_block_ids feed data uuid1 uuid2 0 0)).
Defined.


(** ** Substitution over a character class *)

Section ClassSubstitution.

Import Re.

Variable c : ascii -> bool.

Lemma star_cls (l : list ascii) (b : option ascii) :
  exists b',
    run (Star (Cls c)) (Pos b l) Some = Some (Pos b' (Py.lstrip_by c l)).
Proof.
  revert b. induction l as [| x l IH]; intros b.
  - exists b. reflexivity.
  - cbn. destruct (c x) eqn:E.
    + rewrite Nat.leb_refl.
      destruct (IH (Some x)) as [b' Hb']. cbn in Hb'. rewrite Hb'.
      exists b'. reflexivity.
    + exists b. reflexivity.
Qed.

Lemma match_plus_cls_none (b : option ascii) (l : list ascii) :
  match l with x :: _ => c x = false | [] => True end ->
  match_at (Plus (Cls c)) (Pos b l) = None.
Proof.
  destruct l as [| x l]; [reflexivity |]. intros E.
  unfold match_at, Plus. cbn [run rest]. rewrite E. reflexivity.
Qed.

Lemma match_plus_cls_some (b : option ascii) (x : ascii) (l : list ascii) :
  c x = true ->
  exists b',
    match_at (Plus (Cls c)) (Pos b (x :: l)) = Some (Pos b' (Py.lstrip_by c l)).
Proof.
  intros E. unfold match_at, Plus. cbn [run rest]. rewrite E.
  apply (star_cls l (Some x)).
Qed.

Lemma lstrip_by_length (l : list ascii) :
  length (Py.lstrip_by c l) <= length l.
Proof.
  induction l as [| x l IH]; [reflexivity |].
  cbn. destruct (c x); cbn; lia.
Qed.

Lemma squeeze_go_lstrip (repl l : list ascii) :
  squeeze_go c repl true l = squeeze_go c repl false (Py.lstrip_by c l).
Proof.
  induction l as [| x l IH]; [reflexivity |].
  cbn. destruct (c x) eqn:E; [exact IH |]. cbn. rewrite E. reflexivity.
Qed.

Lemma sub_go_plus_cls (repl : list ascii) (fuel : nat) :
  forall (b : option ascii) (l : list ascii),
    length l < fuel ->
    sub_go fuel (Plus (Cls c)) repl (Pos b l) = squeeze c repl l.
Proof.
  induction fuel as [| fuel IH]; intros b l Hf; [lia |].
  cbn [sub_go]. destruct l as [| x l].
  - rewrite match_plus_cls_none by exact I. reflexivity.
  - destruct (c x) eqn:E.
    + destruct (match_plus_cls_some b x l E) as [b' M]. rewrite M.
      pose proof (lstrip_by_length l) as L.
      assert (S : shorter (Pos b' (Py.lstrip_by c l)) (Pos b (x :: l)) = true)
        by (unfold shorter; cbn [rest length]; apply Nat.ltb_lt; lia).
      rewrite S, IH by (cbn in Hf; lia).
      unfold squeeze. cbn [squeeze_go]. rewrite E, squeeze_go_lstrip.
      reflexivity.
    + rewrite match_plus_cls_none by exact E. cbn [rest advance].
      unfold advance. cbn [rest]. rewrite IH by (cbn in Hf; lia).
      unfold squeeze. cbn [squeeze_go]. rewrite E. reflexivity.
Qed.

Lemma sub_go_cls (fuel : nat) :
  forall (b : option ascii) (l : list ascii),
    length l < fuel ->
    sub_go fuel (Cls c) [] (Pos b l) = List.filter (fun x => negb (c x)) l.
Proof.
  induction fuel as [| fuel IH]; intros b l Hf; [lia |].
  cbn [sub_go]. destruct l as [| x l]; [reflexivity |].
  unfold match_at. cbn [run rest List.filter]. destruct (c x) eqn:E.
  - assert (S : shorter (Pos (Some x) l) (Pos b (x :: l)) = true)
      by (unfold shorter; cbn [rest length]; apply Nat.ltb_lt; lia).
    rewrite S. cbn [app negb]. apply IH. cbn in Hf. lia.
  - unfold advance. cbn [rest negb]. rewrite IH by (cbn in Hf; lia).
    reflexivity.
Qed.

(** [re.sub(c+, repl, s)] replaces every maximal run of [c] characters. *)
Lemma sub_plus_cls (repl s : string) :
  Re.sub (Plus (Cls c)) repl s
  = Py.str (squeeze c (Py.chars repl) (Py.chars s)).
Proof.
  unfold Re.sub, start. rewrite sub_go_plus_cls by (cbn; lia). reflexivity.
Qed.

(** [re.sub(c, '', s)] removes the [c] characters. *)
Lemma sub_cls (s : string) :
  Re.sub (Cls c) EmptyString s
  = Py.str (List.filter (fun x => negb (c x)) (Py.chars s)).
Proof.
  unfold Re.sub, start. cbn [Py.chars list_ascii_of_string].
  rewrite sub_go_cls by (cbn; lia). reflexivity.
Qed.

End ClassSubstitution.

(** ** Character classes of the slugs *)

Lemma slug_char_not_space (c : ascii) :
  slug_char c = true -> Py.isspace c = false.
Proof. destruct c as [[] [] [] [] [] [] [] []]; (reflexivity || discriminate). Qed.

Lemma slug_char_kept (c : ascii) :
  slug_char c = true ->
  negb (negb (Py.isword c || Py.isspace c || Py.is_char hyphen c)) = true.
Proof. destruct c as [[] [] [] [] [] [] [] []]; (reflexivity || discriminate). Qed.

Lemma slug_char_lower (c : ascii) : slug_char c = true -> Py.lower_char c = c.
Proof. destruct c as [[] [] [] [] [] [] [] []]; (reflexivity || discriminate). Qed.

Lemma slug_char_stem (c : ascii) : slug_char c = true -> stem_char c = true.
Proof. destruct c as [[] [] [] [] [] [] [] []]; (reflexivity || discriminate). Qed.

Lemma stem_char_not_space (c : ascii) :
  stem_char c = true -> Py.isspace c = false.
Proof. destruct c as [[] [] [] [] [] [] [] []]; (reflexivity || discriminate). Qed.

Lemma stem_char_kept (c : ascii) :
  stem_char c = true ->
  negb (negb (Py.isword c || Py.isspace c || Py.is_char hyphen c)) = true.
Proof. destruct c as [[] [] [] [] [] [] [] []]; (reflexivity || discriminate). Qed.

Lemma kept_lower_slug (c : ascii) :
  negb (negb (Py.isword (Py.lower_char c) || Py.isspace (Py.lower_char c)
              || Py.is_char hyphen (Py.lower_char c))) = true ->
  Py.isspace (Py.lower_char c) || slug_char (Py.lower_char c) = true.
Proof. destruct c as [[] [] [] [] [] [] [] []]; (reflexivity || discriminate). Qed.

Lemma kept_stem (c : ascii) :
  negb (negb (Py.isword c || Py.isspace c || Py.is_char hyphen c)) = true ->
  Py.isspace c || stem_char c = true.
Proof. destruct c as [[] [] [] [] [] [] [] []]; (reflexivity || discriminate). Qed.

(** ** Runs squeezed to one character *)

Section Squeeze.

Variable c : ascii -> bool.

Lemma forallb_squeeze_go (Q : ascii -> bool) (repl : list ascii) (b : bool)
      (l : list ascii) :
  forallb Q repl = true ->
  forallb (fun x => c x || Q x) l = true ->
  forallb Q (squeeze_go c repl b l) = true.
Proof.
  intros R. revert b. induction l as [| x l IH]; intros b H; [reflexivity |].
  cbn in H. apply andb_prop in H as [Hx H]. cbn [squeeze_go].
  destruct (c x) eqn:E.
  - rewrite forallb_app, (IH true H), andb_true_r.
    destruct b; [reflexivity | exact R].
  - cbn in Hx. cbn [forallb]. rewrite Hx, (IH false H). reflexivity.
Qed.

Lemma squeeze_go_none (repl : list ascii) (b : bool) (l : list ascii) :
  forallb (fun x => negb (c x)) l = true -> squeeze_go c repl b l = l.
Proof.
  revert b. induction l as [| x l IH]; intros b H; [reflexivity |].
  cbn in H. apply andb_prop in H as [Hx H]. cbn [squeeze_go].
  apply negb_true_iff in Hx. rewrite Hx, (IH false H). reflexivity.
Qed.

End Squeeze.

Lemma is_hyphen (x : ascii) : Py.is_char hyphen x = true -> x = hyphen.
Proof. unfold Py.is_char. intros H. apply Ascii.eqb_eq in H. auto. Qed.

Lemma squeeze_hyphens_single (l : list ascii) :
  single_hyphens (squeeze_go (Py.is_char hyphen) [hyphen] false l) = true
  /\ single_hyphens (squeeze_go (Py.is_char hyphen) [hyphen] true l) = true
  /\ starts_with_hyphen (squeeze_go (Py.is_char hyphen) [hyphen] true l) = false.
Proof.
  induction l as [| x l (F & T & S)]; [repeat split |].
  cbn [squeeze_go]. destruct (Py.is_char hyphen x) eqn:E.
  - cbn [app single_hyphens]. rewrite S, T, andb_false_r. repeat split.
  - cbn [single_hyphens starts_with_hyphen]. rewrite E, F. repeat split.
Qed.

Lemma squeeze_hyphens_fixed (l : list ascii) :
  single_hyphens l = true ->
  squeeze_go (Py.is_char hyphen) [hyphen] false l = l
  /\ (starts_with_hyphen l = false ->
      squeeze_go (Py.is_char hyphen) [hyphen] true l = l).
Proof.
  induction l as [| x l IH]; intros H; [split; reflexivity |].
  cbn [single_hyphens] in H. apply andb_prop in H as [Hx H].
  destruct (IH H) as [F T]. cbn [squeeze_go starts_with_hyphen].
  destruct (Py.is_char hyphen x) eqn:E.
  - cbn in Hx. apply negb_true_iff in Hx. split; [| discriminate].
    rewrite (T Hx), (is_hyphen x E). reflexivity.
  - rewrite F. split; reflexivity.
Qed.

Lemma single_hyphens_app (a b : list ascii) :
  single_hyphens (a ++ b) = true ->
  single_hyphens a = true /\ single_hyphens b = true.
Proof.
  induction a as [| x a IH]; intros H; [split; [reflexivity | exact H] |].
  cbn [app single_hyphens] in *. apply andb_prop in H as [Hx H].
  destruct (IH H) as [A B]. split; [| exact B]. rewrite A, andb_true_r.
  destruct a; [| exact Hx]. cbn. rewrite andb_false_r. reflexivity.
Qed.

(** ** The trim keeps a middle part *)

Lemma strip_by_infix (p : ascii -> bool) (l : list ascii) :
  exists pre post, l = pre ++ Py.strip_by p l ++ post.
Proof.
  unfold Py.strip_by.
  destruct (lstrip_by_suffix p l) as [pre E].
  destruct (lstrip_by_suffix p (rev (Py.lstrip_by p l))) as [post' E'].
  exists pre, (rev post').
  rewrite <- rev_app_distr, <- E', rev_involutive. exact E.
Qed.

Lemma lstrip_by_fixed (p : ascii -> bool) (l : list ascii) :
  match l with x :: _ => p x = false | [] => True end -> Py.lstrip_by p l = l.
Proof. destruct l as [| x l]; [reflexivity |]. cbn. intros ->. reflexivity. Qed.

Lemma strip_by_fixed (p : ascii -> bool) (l : list ascii) :
  match l with x :: _ => p x = false | [] => True end ->
  match rev l with x :: _ => p x = false | [] => True end ->
  Py.strip_by p l = l.
Proof.
  intros H R. unfold Py.strip_by.
  rewrite (lstrip_by_fixed p l H), (lstrip_by_fixed p (rev l) R).
  apply rev_involutive.
Qed.

Lemma forallb_head (Q p : ascii -> bool) (l : list ascii) :
  (forall x, Q x = true -> p x = false) ->
  forallb Q l = true ->
  match l with x :: _ => p x = false | [] => True end.
Proof.
  intros I H. destruct l as [| x l]; [exact Logic.I |].
  cbn in H. apply andb_prop in H as [Hx _]. apply I, Hx.
Qed.

(** ** Folder slugs *)

(** [slugify_folder] on the characters of the title: trim, lower, drop
    the special characters, squeeze white space and hyphens to one hyphen,
    trim the hyphens. *)
Lemma slugify_folder_chars (title : string) :
  slugify_folder title
  = Py.str
      (Py.strip_by (Py.is_char hyphen)
         (squeeze (Py.is_char hyphen) [hyphen]
            (squeeze Py.isspace [hyphen]
               (List.filter
                  (fun x => negb (negb (Py.isword x || Py.isspace x
                                        || Py.is_char hyphen x)))
                  (List.map Py.lower_char
                            (Py.strip_by Py.isspace (Py.chars title))))))).
Proof.
  unfold slugify_folder, re_special, re_spaces, re_hyphens, Re.Not, Re.Lit.
  rewrite sub_cls, !sub_plus_cls.
  unfold Py.strip_char, Py.lower, Py.strip. rewrite !chars_str. reflexivity.
Qed.

Lemma slugify_folder_name_same (title : string) :
  slugify_folder_name title = slugify_folder title.
Proof. reflexivity. Qed.

Lemma slugify_folder_shape (title : string) :
  is_slug (slugify_folder title) = true.
Proof.
  rewrite slugify_folder_chars. unfold is_slug. rewrite chars_str.
  set (l1 := List.map Py.lower_char (Py.strip_by Py.isspace (Py.chars title))).
  set (l2 := List.filter _ l1).
  set (l3 := squeeze Py.isspace [hyphen] l2).
  set (l4 := squeeze (Py.is_char hyphen) [hyphen] l3).
  assert (H2 : forallb (fun x => Py.isspace x || slug_char x) l2 = true).
  { apply forallb_forall. intros x Hx. subst l2.
    apply filter_In in Hx as [Hx K]. subst l1.
    apply in_map_iff in Hx as (y & <- & _). apply kept_lower_slug, K. }
  assert (H3 : forallb slug_char l3 = true).
  { apply forallb_squeeze_go; [reflexivity | exact H2]. }
  assert (H4 : forallb slug_char l4 = true).
  { apply forallb_squeeze_go; [reflexivity |].
    apply forallb_forall. intros x Hx.
    rewrite forallb_forall in H3. rewrite (H3 x Hx). apply orb_true_r. }
  assert (S4 : single_hyphens l4 = true)
    by apply (squeeze_hyphens_single l3).
  destruct (strip_by_infix (Py.is_char hyphen) l4) as (pre & post & E).
  destruct (strip_by_trimmed (Py.is_char hyphen) l4) as [Hd Tl].
  repeat (apply andb_true_intro; split).
  - rewrite E, !forallb_app in H4.
    apply andb_prop in H4 as [_ H4]. apply andb_prop in H4 as [H4 _]. exact H4.
  - rewrite E in S4. apply single_hyphens_app in S4 as [_ S4].
    apply single_hyphens_app in S4 as [S4 _]. exact S4.
  - destruct (Py.strip_by (Py.is_char hyphen) l4) as [| x t] eqn:Es;
      [reflexivity |]. cbn [starts_with_hyphen negb].
    rewrite (Hd x t eq_refl). reflexivity.
  - destruct (rev (Py.strip_by (Py.is_char hyphen) l4)) as [| x t] eqn:Es;
      [reflexivity |]. cbn [starts_with_hyphen negb].
    rewrite (Tl x t eq_refl). reflexivity.
Qed.

Lemma forallb_map_fixed (Q : ascii -> bool) (f : ascii -> ascii)
      (l : list ascii) :
  (forall x, Q x = true -> f x = x) ->
  forallb Q l = true -> List.map f l = l.
Proof.
  intros I. induction l as [| x l IH]; intros H; [reflexivity |].
  cbn in *. apply andb_prop in H as [Hx H]. rewrite (I x Hx), (IH H).
  reflexivity.
Qed.

Lemma forallb_filter_fixed (Q k : ascii -> bool) (l : list ascii) :
  (forall x, Q x = true -> k x = true) ->
  forallb Q l = true -> List.filter k l = l.
Proof.
  intros I. induction l as [| x l IH]; intros H; [reflexivity |].
  cbn in *. apply andb_prop in H as [Hx H]. rewrite (I x Hx), (IH H).
  reflexivity.
Qed.

Lemma forallb_impl (Q R : ascii -> bool) (l : list ascii) :
  (forall x, Q x = true -> R x = true) ->
  forallb Q l = true -> forallb R l = true.
Proof.
  intros I H. apply forallb_forall. intros x Hx.
  rewrite forallb_forall in H. apply I, H, Hx.
Qed.

Lemma starts_with_hyphen_head (l : list ascii) :
  starts_with_hyphen l = false ->
  match l with x :: _ => Py.is_char hyphen x = false | [] => True end.
Proof. destruct l; [intros _; exact Logic.I | cbn; auto]. Qed.

Lemma slug_fixed (s : string) : is_slug s = true -> slugify_folder s = s.
Proof.
  unfold is_slug. intros H.
  apply andb_prop in H as [H Tl]. apply andb_prop in H as [H Hd].
  apply andb_prop in H as [Q S]. apply negb_true_iff in Hd, Tl.
  rewrite slugify_folder_chars.
  assert (Qr : forallb slug_char (rev (Py.chars s)) = true).
  { apply forallb_forall. intros x Hx. rewrite forallb_forall in Q.
    apply Q, in_rev, Hx. }
  rewrite (strip_by_fixed Py.isspace (Py.chars s))
    by (eapply forallb_head; [exact slug_char_not_space | assumption]).
  rewrite (forallb_map_fixed slug_char) by (exact slug_char_lower || exact Q).
  rewrite (forallb_filter_fixed slug_char) by (exact slug_char_kept || exact Q).
  unfold squeeze at 2.
  rewrite squeeze_go_none
    by (eapply forallb_impl; [| exact Q];
        intros x Hx; rewrite (slug_char_not_space x Hx); reflexivity).
  unfold squeeze. rewrite (proj1 (squeeze_hyphens_fixed _ S)).
  rewrite strip_by_fixed by (apply starts_with_hyphen_head; assumption).
  apply str_chars.
Qed.

(** ** Strings as character lists *)

Lemma append_cons (c : ascii) (a b : string) :
  String c a +:+ b = String c (a +:+ b).
Proof. reflexivity. Qed.

Lemma chars_app (a b : string) : Py.chars (a +:+ b) = Py.chars a ++ Py.chars b.
Proof.
  unfold Py.chars. induction a as [| c a IH]; [reflexivity |].
  rewrite append_cons. simpl. f_equal. exact IH.
Qed.

Lemma str_app (l1 l2 : list ascii) : Py.str (l1 ++ l2) = Py.str l1 +:+ Py.str l2.
Proof.
  unfold Py.str. induction l1 as [| c l1 IH]; [reflexivity |].
  simpl. rewrite append_cons. f_equal. exact IH.
Qed.

Lemma length_chars (s : string) : length (Py.chars s) = String.length s.
Proof.
  unfold Py.chars. induction s as [| c s IH]; [reflexivity |].
  simpl. f_equal. exact IH.
Qed.

Lemma substring_chars (s : string) :
  forall n m, Py.chars (substring n m s) = firstn m (skipn n (Py.chars s)).
Proof.
  induction s as [| c s IH]; intros n m.
  - destruct n, m; reflexivity.
  - destruct n as [| n].
    + destruct m as [| m]; [reflexivity |].
      cbn. f_equal. apply (IH 0 m).
    + cbn. apply IH.
Qed.

Lemma string_eqb_refl (s : string) : String.eqb s s = true.
Proof. apply String.eqb_eq. reflexivity. Qed.

(** [(l + x).endswith(x)] *)
Lemma endswith_app (l x : list ascii) :
  Py.endswith (Py.str (l ++ x)) (Py.str x) = true.
Proof.
  unfold Py.endswith. rewrite <- !length_chars, !chars_str, length_app.
  apply andb_true_intro. split; [apply Nat.leb_le; lia |].
  apply String.eqb_eq.
  rewrite <- (str_chars (substring _ _ _)), substring_chars, chars_str.
  replace (length l + length x - length x) with (length l) by lia.
  rewrite drop_app_length, firstn_all. reflexivity.
Qed.

(** [(l + x)[:-len(x)]] *)
Lemma drop_last_app (l x : list ascii) :
  Py.drop_last (length x) (Py.str (l ++ x)) = Py.str l.
Proof.
  unfold Py.drop_last. rewrite <- length_chars, chars_str, length_app.
  rewrite <- (str_chars (substring _ _ _)), substring_chars, chars_str.
  replace (length l + length x - length x) with (length l) by lia.
  change (skipn 0 (l ++ x)) with (l ++ x).
  rewrite take_app_length. reflexivity.
Qed.

(** ** File names *)


Lemma slugify_filename_chars (title : string) :
  slugify_filename title
  = Py.str
      (squeeze Py.isspace ["_"%char]
         (List.filter
            (fun x => negb (negb (Py.isword x || Py.isspace x
                                  || Py.is_char hyphen x)))
            (Py.chars
               (if Py.endswith (Py.lower (Py.strip title)) ".md"
                then Py.drop_last 3 (Py.strip title)
                else Py.strip title))))
    +:+ ".md".
Proof.
  unfold slugify_filename, re_special, re_spaces, Re.Not.
  rewrite sub_cls, sub_plus_cls. rewrite !chars_str. reflexivity.
Qed.

Lemma slugify_filename_shape (title : string) :
  exists stem,
    slugify_filename title = stem +:+ ".md" /\ is_stem stem = true.
Proof.
  rewrite slugify_filename_chars. eexists. split; [reflexivity |].
  unfold is_stem. rewrite chars_str.
  apply forallb_squeeze_go; [reflexivity |].
  apply forallb_forall. intros x Hx.
  apply filter_In in Hx as [_ K]. apply kept_stem, K.
Qed.

Lemma stem_fixed (stem : string) :
  is_stem stem = true -> slugify_filename (stem +:+ ".md") = stem +:+ ".md".
Proof.
  unfold is_stem. intros Q.
  assert (E : stem +:+ ".md" = Py.str (Py.chars stem ++ md_suffix))
    by (rewrite str_app, str_chars; reflexivity).
  assert (St : Py.strip (stem +:+ ".md") = stem +:+ ".md").
  { unfold Py.strip. rewrite E at 1. rewrite chars_str, strip_by_fixed.
    - symmetry. exact E.
    - destruct (Py.chars stem) as [| x l]; [reflexivity |].
      cbn in Q. apply andb_prop in Q as [Qx _].
      apply stem_char_not_space, Qx.
    - rewrite rev_app_distr. reflexivity. }
  rewrite slugify_filename_chars, St.
  assert (En : Py.endswith (Py.lower (stem +:+ ".md")) ".md" = true).
  { unfold Py.lower. rewrite E, chars_str, map_app.
    apply (endswith_app _ md_suffix). }
  assert (Dl : Py.drop_last 3 (stem +:+ ".md") = stem).
  { rewrite E. etransitivity;
      [exact (drop_last_app (Py.chars stem) md_suffix) | apply str_chars]. }
  rewrite En, Dl.
  rewrite (forallb_filter_fixed stem_char) by (exact stem_char_kept || exact Q).
  unfold squeeze. rewrite squeeze_go_none.
  - rewrite str_chars. reflexivity.
  - eapply forallb_impl; [| exact Q].
    intros x Hx. rewrite (stem_char_not_space x Hx). reflexivity.
Qed.

(** ** The counters of the archive target *)

Section Counters.

Variable feed : string -> FeedResult.
Variable docs_by_id : gmap string Document.
Variable trash_doc_ids : gset string.
Variable trash_folder_ids : gset string.

Lemma collect_folder_docs_stats (doc_ids : list string) (stats : Stats) :
  let st := snd (collect_folder_docs doc_ids docs_by_id trash_doc_ids stats) in
  folders_processed st = folders_processed stats
  /\ documents_processed st = documents_processed stats
  /\ documents_skipped_trash st
     = documents_skipped_trash stats + trashed_refs trash_doc_ids doc_ids
  /\ documents_skipped_missing st
     = documents_skipped_missing stats
       + missing_refs docs_by_id trash_doc_ids doc_ids.
Proof.
  unfold trashed_refs, missing_refs. revert stats.
  induction doc_ids as [| doc_id doc_ids IH]; intros stats.
  - cbn. repeat split; lia.
  - cbn [collect_folder_docs List.filter].
    destruct (mem doc_id trash_doc_ids); cbn [negb andb].
    + destruct (IH (count_trash stats)) as (F & D & T & M).
      cbn [length]. cbn in F, D, T, M |- *. repeat split; try assumption; lia.
    + destruct (docs_by_id !! doc_id) as [doc |].
      * destruct (doc_truthy doc); cbn [negb].
        -- destruct (inactive (doc_status doc)).
           ++ apply IH.
           ++ specialize (IH stats).
              destruct (collect_folder_docs doc_ids docs_by_id trash_doc_ids stats)
                as [ds st1]. exact IH.
        -- destruct (IH (count_missing stats)) as (F & D & T & M).
           cbn [length]. cbn in F, D, T, M |- *.
           repeat split; try assumption; lia.
      * destruct (IH (count_missing stats)) as (F & D & T & M).
        cbn [length]. cbn in F, D, T, M |- *.
        repeat split; try assumption; lia.
Qed.

Lemma write_documents_stats (folder_slug : string) (docs : list Document)
      (stats : Stats) :
  let st := snd (write_documents feed folder_slug docs stats) in
  folders_processed st = folders_processed stats
  /\ documents_processed st = documents_processed stats + length docs
  /\ documents_skipped_trash st = documents_skipped_trash stats
  /\ documents_skipped_missing st = documents_skipped_missing stats.
Proof.
  revert stats. induction docs as [| doc docs IH]; intros stats.
  - cbn. repeat split; lia.
  - cbn [write_documents]. specialize (IH (count_document stats)).
    destruct (write_documents feed folder_slug docs (count_document stats))
      as [es st]. cbn in IH |- *. destruct IH as (F & D & T & M).
    repeat split; try assumption; lia.
Qed.

Lemma write_folders_stats (fs : list Folder) (stats : Stats) :
  let st := snd (write_folders feed fs docs_by_id trash_doc_ids
                               trash_folder_ids stats) in
  folders_processed st
  = folders_processed stats
    + length (List.filter (exported docs_by_id trash_doc_ids trash_folder_ids) fs)
  /\ documents_processed st
     = documents_processed stats
       + over_kept_folders trash_folder_ids
           (fun ids => length (surviving_docs docs_by_id trash_doc_ids ids)) fs
  /\ documents_skipped_trash st
     = documents_skipped_trash stats
       + over_kept_folders trash_folder_ids (trashed_refs trash_doc_ids) fs
  /\ documents_skipped_missing st
     = documents_skipped_missing stats
       + over_kept_folders trash_folder_ids
           (missing_refs docs_by_id trash_doc_ids) fs.
Proof.
  unfold over_kept_folders, exported. revert stats.
  induction fs as [| f fs IH]; intros stats.
  - cbn. repeat split; lia.
  - cbn [write_folders List.filter].
    destruct (mem (get (folder_id f) EmptyString) trash_folder_ids) eqn:Em.
    { assert (K : folder_kept trash_folder_ids f = false)
        by (unfold folder_kept, not_trashed; rewrite Em; reflexivity).
      rewrite K. cbn [andb]. apply IH. }
    destruct (inactive (folder_status f)) eqn:Ei.
    { assert (K : folder_kept trash_folder_ids f = false)
        by (unfold folder_kept, not_trashed; rewrite Em, Ei; reflexivity).
      rewrite K. cbn [andb]. apply IH. }
    assert (K : folder_kept trash_folder_ids f = true)
      by (unfold folder_kept, not_trashed; rewrite Em, Ei; reflexivity).
    rewrite K. cbn [andb].
    pose proof (collect_folder_docs_survivors docs_by_id trash_doc_ids
                  (folder_documentIds f) stats) as C.
    pose proof (collect_folder_docs_stats (folder_documentIds f) stats) as S.
    destruct (collect_folder_docs (folder_documentIds f) docs_by_id
                                  trash_doc_ids stats) as [ds st1].
    cbn [fst snd] in C, S. destruct S as (F1 & D1 & T1 & M1).
    rewrite !List.map_cons, !list_sum_cons, <- C.
    assert (Hs : has_survivor docs_by_id trash_doc_ids f
                 = match ds with [] => false | _ :: _ => true end).
    { unfold has_survivor.
      destruct (existsb _ (folder_documentIds f)) eqn:E.
      - destruct ds; [| reflexivity]. symmetry in C.
        apply surviving_docs_nil in C. congruence.
      - apply surviving_docs_nil in E. rewrite E in C. subst ds. reflexivity. }
    rewrite Hs. destruct ds as [| d ds].
    + destruct (IH st1) as (F & D & T & M). cbn [length].
      repeat split; lia.
    + pose proof (write_documents_stats
                    (slugify_folder (get (folder_title f) "untitled")) (d :: ds)
                    (count_folder st1)) as W.
      destruct (write_documents feed _ (d :: ds) (count_folder st1))
        as [files st2].
      cbn [snd] in W. destruct W as (F2 & D2 & T2 & M2). cbn in F2, D2, T2, M2.
      destruct (IH st2) as (F & D & T & M).
      destruct (write_folders feed fs docs_by_id trash_doc_ids trash_folder_ids st2)
        as [entries st3]. cbn [snd] in *. cbn [length].
      repeat split; lia.
Qed.

End Counters.

Lemma filter_perm {A : Type} (p : A -> bool) (l1 l2 : list A) :
  Permutation l1 l2 -> Permutation (List.filter p l1) (List.filter p l2).
Proof.
  induction 1 as [| x l1 l2 P IH | x y l | l1 l2 l3 P1 IH1 P2 IH2]; cbn.
  - constructor.
  - destruct (p x); [constructor |]; exact IH.
  - destruct (p x), (p y); try reflexivity. constructor.
  - etransitivity; eassumption.
Qed.

Lemma over_kept_folders_perm (trash_folder_ids : gset string)
      (count : list string -> nat) (fs1 fs2 : list Folder) :
  Permutation fs1 fs2 ->
  over_kept_folders trash_folder_ids count fs1
  = over_kept_folders trash_folder_ids count fs2.
Proof.
  intros P. unfold over_kept_folders.
  apply list_sum_perm, Permutation_map, filter_perm, P.
Qed.

Lemma sort_folders_perm (fs : list Folder) : Permutation (sort_folders fs) fs.
Proof. apply sorted_perm. Qed.

(** ** Archive entry names *)

Lemma stem_char_path (c : ascii) :
  stem_char c = true ->
  path_char c = true /\ Py.is_char "/" c = false /\ Py.is_char "." c = false.
Proof.
  destruct c as [[] [] [] [] [] [] [] []]; intros H;
    (discriminate H || (repeat split; reflexivity)).
Qed.

Lemma count_char_app (x : ascii) (a b : string) :
  count_char x (a +:+ b) = count_char x a + count_char x b.
Proof.
  unfold count_char. rewrite chars_app, List.filter_app, List.length_app. reflexivity.
Qed.

Lemma count_char_none (Q : ascii -> bool) (x : ascii) (s : string) :
  (forall c, Q c = true -> Py.is_char x c = false) ->
  forallb Q (Py.chars s) = true -> count_char x s = 0.
Proof.
  intros I H. unfold count_char.
  induction (Py.chars s) as [| c l IH]; [reflexivity |].
  cbn in *. apply andb_prop in H as [Hc H]. rewrite (I c Hc). apply IH, H.
Qed.

Lemma is_slug_stem (slug : string) : is_slug slug = true -> is_stem slug = true.
Proof.
  unfold is_slug, is_stem. intros H.
  apply andb_prop in H as [H _]. apply andb_prop in H as [H _].
  apply andb_prop in H as [H _].
  eapply forallb_impl; [exact slug_char_stem | exact H].
Qed.

Lemma is_stem_counts (stem : string) :
  is_stem stem = true ->
  count_char "/" stem = 0 /\ count_char "." stem = 0
  /\ forallb path_char (Py.chars stem) = true.
Proof.
  intros H. repeat split.
  - apply (count_char_none stem_char); [| exact H].
    intros c Hc. apply (stem_char_path c Hc).
  - apply (count_char_none stem_char); [| exact H].
    intros c Hc. apply (stem_char_path c Hc).
  - eapply forallb_impl; [| exact H]. intros c Hc. apply (stem_char_path c Hc).
Qed.

(** A well-shaped entry name has one slash, at most the dot of [.md], and
    no character outside letters, digits, [_], [-], [/] and [.]. *)
Lemma entry_name_ok_chars (name : string) :
  entry_name_ok name ->
  count_char "/" name = 1 /\ count_char "." name <= 1
  /\ forallb path_char (Py.chars name) = true.
Proof.
  intros (slug & S & [-> | (stem & T & ->)]).
  - apply is_slug_stem, is_stem_counts in S as (S1 & S2 & S3).
    unfold directory_name. rewrite !count_char_app, chars_app, forallb_app.
    rewrite S1, S2, S3. repeat split; cbn; lia.
  - apply is_slug_stem, is_stem_counts in S as (S1 & S2 & S3).
    apply is_stem_counts in T as (T1 & T2 & T3).
    unfold file_name. rewrite !count_char_app, !chars_app, !forallb_app.
    rewrite S1, S2, S3, T1, T2, T3. repeat split; cbn; lia.
Qed.

Lemma folder_entries_names (feed : string -> FeedResult)
      (docs_by_id : gmap string Document) (trash_doc_ids : gset string)
      (f : Folder) :
  Forall (fun e => entry_name_ok (fst e))
         (folder_entries feed docs_by_id trash_doc_ids f).
Proof.
  unfold folder_entries.
  pose proof (slugify_folder_shape (get (folder_title f) "untitled")) as S.
  destruct (surviving_docs docs_by_id trash_doc_ids (folder_documentIds f))
    as [| d ds]; constructor.
  - exists (slugify_folder (get (folder_title f) "untitled")).
    split; [exact S | left; reflexivity].
  - apply List.Forall_forall. intros e He.
    apply in_map_iff in He as (doc & <- & _). cbn [fst].
    exists (slugify_folder (get (folder_title f) "untitled")).
    split; [exact S | right].
    destruct (slugify_filename_shape (get (doc_title doc) "untitled"))
      as (stem & E & T).
    exists stem. split; [exact T |]. rewrite E. reflexivity.
Qed.

Lemma zip_entry_names (feed : string -> FeedResult) (data : Schema1) :
  Forall (fun e => entry_name_ok (fst e))
         (fst (convert_schema1_to_zip feed data)).
Proof.
  rewrite zip_entries. apply List.Forall_forall. intros e He.
  apply in_flat_map in He as (f & _ & He).
  destruct (folder_kept _ f); [| destruct He].
  pose proof (folder_entries_names feed (documentsById data)
                (set_of (trash_documentIds (trash data))) f) as F.
  rewrite List.Forall_forall in F. apply F, He.
Qed.

(** ** References of a folder *)

Lemma refs_partition (docs_by_id : gmap string Document)
      (trash_doc_ids : gset string) (doc_ids : list string) :
  length doc_ids
  = length (surviving_docs docs_by_id trash_doc_ids doc_ids)
    + trashed_refs trash_doc_ids doc_ids
    + missing_refs docs_by_id trash_doc_ids doc_ids
    + inactive_refs docs_by_id trash_doc_ids doc_ids.
Proof.
  unfold trashed_refs, missing_refs, inactive_refs, surviving_docs, eligible.
  induction doc_ids as [| doc_id doc_ids IH]; [reflexivity |].
  cbn [flat_map List.filter length].
  destruct (mem doc_id trash_doc_ids); cbn [negb andb app length].
  - lia.
  - destruct (docs_by_id !! doc_id) as [doc |]; [| cbn [app length]; lia].
    destruct (doc_truthy doc); cbn [negb andb app length]; [| lia].
    destruct (inactive (doc_status doc)); cbn [negb app length];
      rewrite ?length_app; cbn [length]; lia.
Qed.

Lemma over_kept_folders_add (trash_folder_ids : gset string)
      (c1 c2 : list string -> nat) (fs : list Folder) :
  over_kept_folders trash_folder_ids (fun ids => c1 ids + c2 ids) fs
  = over_kept_folders trash_folder_ids c1 fs
    + over_kept_folders trash_folder_ids c2 fs.
Proof.
  unfold over_kept_folders.
  induction (List.filter (folder_kept trash_folder_ids) fs) as [| f l IH];
    [reflexivity |].
  rewrite !List.map_cons, !list_sum_cons, IH. lia.
Qed.

Lemma over_kept_folders_ext (trash_folder_ids : gset string)
      (c1 c2 : list string -> nat) (fs : list Folder) :
  (forall ids, c1 ids = c2 ids) ->
  over_kept_folders trash_folder_ids c1 fs
  = over_kept_folders trash_folder_ids c2 fs.
Proof.
  intros E. unfold over_kept_folders. f_equal. apply map_ext.
  intros f. apply E.
Qed.

(** ** Stability of the two sorts *)

Section Stability.

Context {A K : Type} (key : A -> K) (lt : K -> K -> bool).

(** A list no element of which has a smaller key than another is left as
    it is. *)
Lemma sorted_fixed (l : list A) :
  (forall x y, In x l -> In y l -> lt (key y) (key x) = false) ->
  sorted key lt l = l.
Proof.
  induction l as [| x l IH]; intros H; [reflexivity |].
  cbn [sorted]. rewrite IH by (intros a b Ha Hb; apply H; right; assumption).
  apply insert_sorted_front. apply List.Forall_forall. intros y Hy.
  unfold not_after. apply H; [left; reflexivity | right; exact Hy].
Qed.

Hypothesis lt_asym : forall a b : K, lt a b = true -> lt b a = false.
Hypothesis ge_trans :
  forall a b c : K, lt b a = false -> lt c b = false -> lt c a = false.

(** The elements picked by a test that allows no two different keys keep
    their order. *)
Lemma sorted_stable (p : A -> bool) (l : list A) :
  (forall x y, p x = true -> p y = true -> lt (key y) (key x) = false) ->
  List.filter p (sorted key lt l) = List.filter p l.
Proof.
  intros H. rewrite (filter_sorted key lt lt_asym ge_trans).
  apply sorted_fixed. intros x y Hx Hy.
  apply filter_In in Hx as [_ Hx]. apply filter_In in Hy as [_ Hy].
  apply H; assumption.
Qed.

End Stability.

Lemma sort_folders_sorted (fs : list Folder) :
  StronglySorted (fun a b => (sort_value a <= sort_value b)%Z) (sort_folders fs).
Proof.
  pose proof (sorted_sorted (fun f => get (folder_sort f) 0%Z) Z.ltb
                            Z_ltb_asym Z_ge_trans fs) as S.
  unfold sort_folders.
  induction S as [| a l S IH F]; constructor; [exact IH |].
  eapply List.Forall_impl; [| exact F].
  intros b Hb. unfold not_after in Hb. unfold sort_value.
  apply Z.ltb_ge in Hb. exact Hb.
Qed.

Lemma sort_folders_stable (z : Z) (fs : list Folder) :
  List.filter (fun f => Z.eqb (sort_value f) z) (sort_folders fs)
  = List.filter (fun f => Z.eqb (sort_value f) z) fs.
Proof.
  unfold sort_folders.
  apply (sorted_stable _ _ Z_ltb_asym Z_ge_trans).
  intros x y Hx Hy. apply Z.eqb_eq in Hx, Hy. unfold sort_value in *.
  rewrite Hx, Hy. apply Z.ltb_irrefl.
Qed.

Lemma key_lt_irrefl (k : list KeyPart) : key_lt k k = false.
Proof. unfold key_lt. rewrite key_compare_refl. reflexivity. Qed.

Lemma same_key_eq (k : list KeyPart) (title : string) :
  same_key k title = true -> natural_sort_key title = k.
Proof.
  unfold same_key. destruct (key_compare _ k) eqn:E; try discriminate.
  intros _. apply key_compare_eq, E.
Qed.

Lemma titles_sort_stable (k : list KeyPart) (titles : list string) :
  List.filter (same_key k) (sorted natural_sort_key key_lt titles)
  = List.filter (same_key k) titles.
Proof.
  apply (sorted_stable _ _ key_lt_asym key_ge_trans).
  intros x y Hx Hy. apply same_key_eq in Hx, Hy. rewrite Hx, Hy.
  apply key_lt_irrefl.
Qed.

(** ** The folders of the structured target *)

Section FolderHeads.

Variable uuid : nat -> string.
Variable feed : string -> FeedResult.
Variable docs_by_id : gmap string Document.
Variable trash_doc_ids : gset string.
Variable trash_folder_ids : gset string.

Lemma convert_folder_head (folder : Folder) (order n : nat) (f2 : Folder2)
      (n' : nat) :
  convert_folder uuid feed folder docs_by_id trash_doc_ids order n
  = (Some f2, n') ->
  with_documents f2 []
  = {| f2_name := folder_slug folder; f2_type := "manuscript";
       f2_description := None; f2_parent_id := None; f2_label_color := None;
       f2_icon := None; f2_order := order; f2_is_default := false;
       f2_documents := [] |}.
Proof.
  unfold convert_folder.
  destruct (convert_documents uuid feed (folder_documentIds folder) docs_by_id
                              trash_doc_ids n) as [[| d ds] n1];
    [discriminate |].
  intros [= <- _]. reflexivity.
Qed.

Lemma convert_folders_heads (fs : list Folder) (folder_order n : nat) :
  let out := fst (convert_folders uuid feed fs docs_by_id trash_doc_ids
                                  trash_folder_ids folder_order n) in
  List.map f2_name out
  = List.map folder_slug
             (List.filter (exported docs_by_id trash_doc_ids trash_folder_ids) fs)
  /\ List.map f2_order out = seq folder_order (length out).
Proof.
  unfold exported. revert folder_order n.
  induction fs as [| f fs IH]; intros folder_order n; [split; reflexivity |].
  cbn [convert_folders List.filter].
  destruct (mem (get (folder_id f) EmptyString) trash_folder_ids) eqn:Em.
  { assert (K : folder_kept trash_folder_ids f = false)
      by (unfold folder_kept, not_trashed; rewrite Em; reflexivity).
    rewrite K. cbn [andb]. apply IH. }
  destruct (inactive (folder_status f)) eqn:Ei.
  { assert (K : folder_kept trash_folder_ids f = false)
      by (unfold folder_kept, not_trashed; rewrite Em, Ei; reflexivity).
    rewrite K. cbn [andb]. apply IH. }
  assert (K : folder_kept trash_folder_ids f = true)
    by (unfold folder_kept, not_trashed; rewrite Em, Ei; reflexivity).
  rewrite K. cbn [andb].
  destruct (convert_folder_cases uuid feed docs_by_id trash_doc_ids f folder_order n)
    as [[H E] | [H (f2 & n1 & E & _ & _)]]; rewrite E, H.
  - apply IH.
  - pose proof (convert_folder_head f folder_order n f2 n1 E) as Hd.
    apply (f_equal f2_name) in Hd as Hn. apply (f_equal f2_order) in Hd as Ho.
    cbn in Hn, Ho.
    destruct (IH (S folder_order) n1) as [N O].
    destruct (convert_folders uuid feed fs docs_by_id trash_doc_ids
                              trash_folder_ids (S folder_order) n1) as [cfs n2].
    cbn [fst] in *. cbn [List.map length seq]. rewrite N, O, Hn, Ho.
    split; reflexivity.
Qed.

End FolderHeads.

(** ** Word counts *)

Lemma split_ws_go_space (cur : list ascii) (c : ascii) (l : list ascii) :
  Py.isspace c = true ->
  Py.split_ws_go cur (c :: l) = Py.split_ws_go cur [] ++ Py.split_ws_go [] l.
Proof. intros E. cbn. rewrite E. destruct cur; reflexivity. Qed.

Lemma split_ws_go_app (cur l1 : list ascii) (c : ascii) (l2 : list ascii) :
  Py.isspace c = true ->
  Py.split_ws_go cur (l1 ++ c :: l2)
  = Py.split_ws_go cur l1 ++ Py.split_ws_go [] l2.
Proof.
  intros E. revert cur. induction l1 as [| x l1 IH]; intros cur.
  - apply split_ws_go_space, E.
  - cbn [app Py.split_ws_go]. destruct (Py.isspace x).
    + destruct cur; rewrite IH; reflexivity.
    + apply IH.
Qed.

(** Splitting the joined parts gives the words of the parts. *)
Lemma split_ws_join (parts : list string) :
  Py.split_ws (Py.join " " parts) = flat_map Py.split_ws parts.
Proof.
  induction parts as [| p parts IH]; [reflexivity |].
  destruct parts as [| q parts].
  - cbn [Py.join flat_map]. rewrite app_nil_r. reflexivity.
  - change (Py.join " " (p :: q :: parts))
      with (p +:+ " " +:+ Py.join " " (q :: parts)).
    unfold Py.split_ws in *. rewrite !chars_app.
    change (Py.chars " ") with [" "%char]. cbn [app].
    rewrite split_ws_go_app by reflexivity.
    cbn [flat_map] in *. rewrite IH. reflexivity.
Qed.

Lemma length_flat_map {A B : Type} (f : A -> list B) (l : list A) :
  length (flat_map f l) = list_sum (List.map (fun x => length (f x)) l).
Proof.
  induction l as [| x l IH]; [reflexivity |].
  cbn [flat_map List.map]. rewrite List.length_app, list_sum_cons, IH.
  reflexivity.
Qed.

Lemma count_words_sum (bs : list Block) :
  count_words bs
  = list_sum (List.map (fun t => words (node_text t)) (text_runs bs)).
Proof.
  unfold count_words, text_runs. rewrite split_ws_join, length_flat_map.
  f_equal. induction bs as [| b bs IH]; [reflexivity |].
  cbn [flat_map]. rewrite List.filter_app, !List.map_app, IH, List.map_map.
  reflexivity.
Qed.

Lemma text_runs_app (bs1 bs2 : list Block) :
  text_runs (bs1 ++ bs2) = text_runs bs1 ++ text_runs bs2.
Proof. unfold text_runs. rewrite flat_map_app, List.filter_app. reflexivity. Qed.

Lemma list_sum_app' (l1 l2 : list nat) :
  list_sum (l1 ++ l2) = list_sum l1 + list_sum l2.
Proof.
  induction l1 as [| a l1 IH]; [reflexivity |].
  cbn [app]. rewrite !list_sum_cons, IH. lia.
Qed.

Lemma count_words_app (bs1 bs2 : list Block) :
  count_words (bs1 ++ bs2) = count_words bs1 + count_words bs2.
Proof.
  rewrite !count_words_sum, text_runs_app, List.map_app. apply list_sum_app'.
Qed.

(** The length of the word list does not depend on the letters of the word
    being read, only on whether one is being read. *)
Lemma split_ws_go_length (cur1 cur2 : list ascii) (l : list ascii) :
  cur1 <> [] -> cur2 <> [] ->
  length (Py.split_ws_go cur1 l) = length (Py.split_ws_go cur2 l).
Proof.
  revert cur1 cur2. induction l as [| x l IH]; intros cur1 cur2 H1 H2.
  - destruct cur1, cur2; try contradiction; reflexivity.
  - cbn [Py.split_ws_go]. destruct (Py.isspace x).
    + destruct cur1, cur2; try contradiction; reflexivity.
    + apply IH; discriminate.
Qed.

Lemma split_ws_go_cut (cur l1 l2 : list ascii) :
  length (Py.split_ws_go cur (l1 ++ l2))
  <= length (Py.split_ws_go cur l1) + length (Py.split_ws_go [] l2)
  /\ length (Py.split_ws_go cur l1) + length (Py.split_ws_go [] l2)
     <= length (Py.split_ws_go cur (l1 ++ l2)) + 1.
Proof.
  revert cur. induction l1 as [| x l1 IH]; intros cur.
  - cbn [app]. destruct cur as [| c cur]; [cbn; lia |].
    destruct l2 as [| y l2]; [cbn; lia |].
    cbn [Py.split_ws_go]. destruct (Py.isspace y); [cbn; lia |].
    rewrite (split_ws_go_length (y :: c :: cur) [y]) by discriminate.
    cbn [length]. lia.
  - cbn [app Py.split_ws_go]. destruct (Py.isspace x).
    + specialize (IH []). destruct cur; cbn [length]; lia.
    + apply IH.
Qed.

(** Cutting a text in two parts gives at least as many words, and at most
    one more. *)
Lemma words_cut (a b : string) :
  words (a +:+ b) <= words a + words b
  /\ words a + words b <= words (a +:+ b) + 1.
Proof.
  unfold words, Py.split_ws. rewrite chars_app. apply split_ws_go_cut.
Qed.

Lemma concat_cons (s : string) (l : list string) :
  Py.concat (s :: l) = s +:+ Py.concat l.
Proof.
  unfold Py.concat. destruct l as [| t l]; [| reflexivity].
  cbn. induction s as [| c s IH]; [reflexivity |].
  rewrite append_cons, <- IH. reflexivity.
Qed.

Lemma concat_app (l1 l2 : list string) :
  Py.concat (l1 ++ l2) = Py.concat l1 +:+ Py.concat l2.
Proof.
  induction l1 as [| s l1 IH]; [reflexivity |].
  cbn [app]. rewrite !concat_cons, IH.
  induction s as [| c s IHs]; [reflexivity |].
  rewrite !append_cons, IHs. reflexivity.
Qed.

Lemma words_concat (texts : list string) :
  words (Py.concat texts) <= list_sum (List.map words texts)
  /\ list_sum (List.map words texts) <= words (Py.concat texts) + length texts.
Proof.
  induction texts as [| t texts [IH1 IH2]]; [cbn; lia |].
  rewrite concat_cons, List.map_cons, list_sum_cons. cbn [length].
  destruct (words_cut t (Py.concat texts)). lia.
Qed.

(** ** The block assembler, step by step *)

Section AssemblerSteps.

Import HTMLToBlockNoteConverter.

Variable uuid : nat -> string.

Lemma tag_steps_one (s1 s2 : State) : tag_step uuid s1 s2 -> tag_steps uuid s1 s2.
Proof. intros H. eapply steps_next; [exact H | apply steps_done]. Qed.

Lemma tag_steps_trans (s1 s2 s3 : State) :
  tag_steps uuid s1 s2 -> tag_steps uuid s2 s3 -> tag_steps uuid s1 s3.
Proof.
  induction 1 as [| a b c S _ IH]; [auto |].
  intros H. eapply steps_next; [exact S | apply IH, H].
Qed.

Lemma flush_text_pending (c : BlockNoteConverter) :
  pending_text (_flush_text c) = [].
Proof.
  unfold _flush_text. destruct (pending_text c) eqn:E; [exact E | reflexivity].
Qed.

Lemma flush_block_steps (c : BlockNoteConverter) (n : nat) :
  tag_steps uuid (c, n) (_flush_block uuid c n).
Proof.
  eapply steps_next; [apply step_flush_text |].
  unfold _flush_block.
  destruct (current_content (_flush_text c)) as [| t ts] eqn:E;
    [apply steps_done |].
  apply tag_steps_one.
  pose proof (step_new_paragraph uuid (_flush_text c) n) as S.
  unfold new_paragraph in S. rewrite E in S.
  apply S; [discriminate | apply flush_text_pending].
Qed.

Lemma open_style_steps (k : string) (v : StyleValue) (c : BlockNoteConverter)
      (n : nat) :
  style_entry_ok (k, v) = true ->
  tag_steps uuid (c, n) (open_style k v c, n).
Proof.
  intros H. eapply steps_next; [apply step_flush_text |].
  apply tag_steps_one. exact (step_open_style uuid (_flush_text c) n k v H).
Qed.

Lemma close_style_steps (k : string) (c : BlockNoteConverter) (n : nat) :
  tag_steps uuid (c, n) (close_style k c, n).
Proof.
  eapply steps_next; [apply step_flush_text |].
  apply tag_steps_one. exact (step_close_style uuid (_flush_text c) n k).
Qed.

Lemma link_entry_ok (h : option string) :
  style_entry_ok ("link", style_of_href h) = true.
Proof. destruct h; reflexivity. Qed.

Lemma starttag_steps (tag : string) (attrs : list (string * option string))
      (c : BlockNoteConverter) (n : nat) :
  tag_steps uuid (c, n) (handle_starttag uuid tag attrs c n).
Proof.
  unfold handle_starttag.
  destruct (String.eqb (Py.lower tag) "p"); [apply flush_block_steps |].
  destruct (String.eqb (Py.lower tag) "br"); [apply flush_block_steps |].
  destruct (tag_in (Py.lower tag) ["strong"; "b"]);
    [apply open_style_steps; reflexivity |].
  destruct (tag_in (Py.lower tag) ["em"; "i"]);
    [apply open_style_steps; reflexivity |].
  destruct (String.eqb (Py.lower tag) "u");
    [apply open_style_steps; reflexivity |].
  destruct (tag_in (Py.lower tag) heading_tags) eqn:H.
  - eapply tag_steps_trans; [apply flush_block_steps |].
    destruct (_flush_block uuid c n) as [c1 n1].
    apply tag_steps_one.
    exact (step_open_heading uuid c1 n1 (Py.lower tag) H).
  - destruct (String.eqb (Py.lower tag) "a");
      [apply open_style_steps, link_entry_ok |].
    apply steps_done.
Qed.

Lemma endtag_steps (tag : string) (c : BlockNoteConverter) (n : nat) :
  tag_steps uuid (c, n) (handle_endtag uuid tag c n).
Proof.
  unfold handle_endtag.
  destruct (String.eqb (Py.lower tag) "p"); [apply flush_block_steps |].
  destruct (tag_in (Py.lower tag) ["strong"; "b"]); [apply close_style_steps |].
  destruct (tag_in (Py.lower tag) ["em"; "i"]); [apply close_style_steps |].
  destruct (String.eqb (Py.lower tag) "u"); [apply close_style_steps |].
  destruct (tag_in (Py.lower tag) heading_tags).
  - eapply steps_next; [apply step_flush_text |].
    destruct (current_block (_flush_text c)) as [block |] eqn:E;
      [| apply steps_done].
    apply tag_steps_one.
    exact (step_close_heading uuid (_flush_text c) n block E).
  - destruct (String.eqb (Py.lower tag) "a"); [apply close_style_steps |].
    apply steps_done.
Qed.

(** What the tag steps keep, the whole run keeps, if text arriving keeps
    it too. *)
Lemma assembler_invariant (I : State -> Prop) :
  (forall s s', tag_step uuid s s' -> I s -> I s') ->
  (forall d c n, I (c, n) -> I (handle_data d c, n)) ->
  forall evs c n,
    I (c, n) ->
    I (handle_all uuid evs c n)
    /\ I (get_blocknote_json uuid (fst (handle_all uuid evs c n))
                             (snd (handle_all uuid evs c n))).
Proof.
  intros Hstep Hdata.
  assert (Hsteps : forall s s', tag_steps uuid s s' -> I s -> I s').
  { induction 1 as [| a b c S _ IH]; [auto |].
    intros Ha. apply IH, (Hstep a b S Ha). }
  assert (Hall : forall evs c n, I (c, n) -> I (handle_all uuid evs c n)).
  { induction evs as [| e evs IH]; intros c n Hc; [exact Hc |].
    cbn [handle_all].
    assert (He : I (handle uuid e c n)).
    { destruct e as [tag attrs | tag | d]; cbn [handle].
      - exact (Hsteps _ _ (starttag_steps tag attrs c n) Hc).
      - exact (Hsteps _ _ (endtag_steps tag c n) Hc).
      - apply Hdata, Hc. }
    destruct (handle uuid e c n) as [c1 n1]. apply IH, He. }
  intros evs c n Hc. split; [apply Hall, Hc |].
  specialize (Hall evs c n Hc).
  destruct (handle_all uuid evs c n) as [c1 n1]. cbn [fst snd].
  exact (Hsteps _ _ (flush_block_steps c1 n1) Hall).
Qed.

End AssemblerSteps.

(** ** What the steps keep *)

Lemma append_nil_r (s : string) : s +:+ EmptyString = s.
Proof.
  induction s as [| c s IH]; [reflexivity |]. rewrite append_cons, IH.
  reflexivity.
Qed.

Lemma append_assoc (a b c : string) : (a +:+ b) +:+ c = a +:+ (b +:+ c).
Proof.
  induction a as [| x a IH]; [reflexivity |]. rewrite !append_cons, IH.
  reflexivity.
Qed.

Lemma forallb_filter_keeps {A : Type} (p q : A -> bool) (l : list A) :
  forallb p l = true -> forallb p (List.filter q l) = true.
Proof.
  intros H. apply forallb_forall. intros x Hx.
  apply filter_In in Hx as [Hx _]. rewrite forallb_forall in H. apply H, Hx.
Qed.

Lemma text_of_runs_app (r1 r2 : list TextNode) :
  text_of_runs (r1 ++ r2) = text_of_runs r1 +:+ text_of_runs r2.
Proof. unfold text_of_runs. rewrite List.map_app. apply concat_app. Qed.

Section StepInvariants.

Import HTMLToBlockNoteConverter.

Variable uuid : nat -> string.

Lemma runs_snoc_block (bs : list Block) (b : Block) (cc : list TextNode) :
  flat_map block_content (bs ++ [set_content b cc]) ++ []
  = flat_map block_content bs ++ cc.
Proof. rewrite flat_map_snoc, app_nil_r. reflexivity. Qed.

(** A step other than [_flush_text] leaves the runs and the pending text
    as they are. *)
Lemma tag_step_frame (s s' : State) :
  tag_step uuid s s' ->
  s' = (_flush_text (fst s), snd s)
  \/ (runs (fst s') = runs (fst s)
      /\ pending_text (fst s') = pending_text (fst s)).
Proof.
  intros [c n | c n _ _ | c n k v _ | c n k | c n tag _ | c n block _];
    cbn [fst snd].
  - left. reflexivity.
  - right. unfold new_paragraph, runs. cbn. split; [| reflexivity].
    apply runs_snoc_block.
  - right. split; reflexivity.
  - right. split; reflexivity.
  - right. split; reflexivity.
  - right. unfold close_heading, runs. cbn. split; [| reflexivity].
    apply runs_snoc_block.
Qed.

Lemma flush_text_new_run (c : BlockNoteConverter) :
  (runs (_flush_text c) = runs c
   /\ Py.concat (pending_text c) = EmptyString)
  \/ (runs (_flush_text c)
      = runs c ++ [text_run (Py.concat (pending_text c)) (current_styles c)]
      /\ Py.truthy (Py.concat (pending_text c)) = true).
Proof.
  unfold _flush_text. destruct (pending_text c) as [| p ps] eqn:E.
  - left. split; reflexivity.
  - destruct (Py.truthy (Py.concat (p :: ps))) eqn:T.
    + right. split; [| reflexivity]. unfold runs. cbn.
      rewrite app_assoc. reflexivity.
    + left. split; [reflexivity | apply not_truthy_empty, T].
Qed.

Lemma flush_text_state_text (c : BlockNoteConverter) :
  state_text (_flush_text c) = state_text c.
Proof.
  unfold state_text. rewrite flush_text_pending.
  destruct (flush_text_new_run c) as [[R E] | [R _]]; rewrite R.
  - rewrite E. reflexivity.
  - rewrite text_of_runs_app, append_assoc. f_equal.
    unfold text_of_runs, text_run. cbn [List.map node_text].
    rewrite concat_cons. change (Py.concat []) with EmptyString.
    rewrite !append_nil_r. reflexivity.
Qed.

Lemma tag_step_state_text (s s' : State) :
  tag_step uuid s s' -> state_text (fst s') = state_text (fst s).
Proof.
  intros H. destruct (tag_step_frame s s' H) as [-> | [R P]].
  - apply flush_text_state_text.
  - unfold state_text. rewrite R, P. reflexivity.
Qed.

Lemma tag_steps_state_text (s s' : State) :
  tag_steps uuid s s' -> state_text (fst s') = state_text (fst s).
Proof.
  induction 1 as [| a b c S _ IH]; [reflexivity |].
  rewrite IH. apply tag_step_state_text, S.
Qed.

Lemma handle_state_text (e : Event) (c : BlockNoteConverter) (n : nat) :
  state_text (fst (handle uuid e c n)) = state_text c +:+ Py.concat (data_of [e]).
Proof.
  destruct e as [tag attrs | tag | d]; cbn [handle data_of flat_map app].
  - rewrite (tag_steps_state_text _ _ (starttag_steps uuid tag attrs c n)).
    cbn [fst]. symmetry. apply append_nil_r.
  - rewrite (tag_steps_state_text _ _ (endtag_steps uuid tag c n)).
    cbn [fst]. symmetry. apply append_nil_r.
  - unfold state_text, handle_data, runs. cbn.
    rewrite concat_app, append_assoc. reflexivity.
Qed.

Lemma data_of_app (evs1 evs2 : list Event) :
  data_of (evs1 ++ evs2) = data_of evs1 ++ data_of evs2.
Proof. apply flat_map_app. Qed.

Lemma handle_all_state_text (evs : list Event) (c : BlockNoteConverter)
      (n : nat) :
  state_text (fst (handle_all uuid evs c n))
  = state_text c +:+ Py.concat (data_of evs).
Proof.
  revert c n. induction evs as [| e evs IH]; intros c n.
  - cbn. symmetry. apply append_nil_r.
  - cbn [handle_all]. pose proof (handle_state_text e c n) as H.
    destruct (handle uuid e c n) as [c1 n1]. cbn [fst] in H.
    rewrite IH, H, append_assoc, <- concat_app.
    change (e :: evs) with ([e] ++ evs). rewrite data_of_app. reflexivity.
Qed.

Lemma flush_block_content (c : BlockNoteConverter) (n : nat) :
  current_content (fst (_flush_block uuid c n)) = []
  /\ pending_text (fst (_flush_block uuid c n)) = [].
Proof.
  unfold _flush_block.
  destruct (current_content (_flush_text c)) as [| t ts] eqn:E; cbn.
  - split; [exact E | apply flush_text_pending].
  - split; [reflexivity | apply flush_text_pending].
Qed.

Lemma text_of_blocks_filter (bs : list Block) :
  text_of_blocks (List.filter has_content bs) = text_of_blocks bs.
Proof.
  unfold text_of_blocks. f_equal.
  induction bs as [| b bs IH]; [reflexivity |].
  cbn [List.filter flat_map]. unfold has_content at 1.
  destruct (block_content b) as [| t ts] eqn:E; cbn [flat_map];
    rewrite ?E, IH; reflexivity.
Qed.

(** The blocks returned hold the text delivered, in order. *)
Lemma blocks_hold_the_text (evs : list Event) (n : nat) :
  let s := handle_all uuid evs new_converter n in
  text_of_blocks
    (List.filter has_content
                 (blocks (fst (get_blocknote_json uuid (fst s) (snd s)))))
  = Py.concat (data_of evs).
Proof.
  intros s. rewrite text_of_blocks_filter.
  pose proof (handle_all_state_text evs new_converter n) as H.
  fold s in H. destruct s as [c1 n1]. cbn [fst snd] in *.
  pose proof (tag_steps_state_text _ _ (flush_block_steps uuid c1 n1)) as F.
  cbn [fst] in F. unfold get_blocknote_json.
  destruct (flush_block_content c1 n1) as [Cc Pt].
  assert (G : state_text (fst (_flush_block uuid c1 n1))
              = text_of_blocks (blocks (fst (_flush_block uuid c1 n1)))).
  { unfold state_text, runs. rewrite Cc, Pt, app_nil_r. apply append_nil_r. }
  rewrite <- G, F, H. reflexivity.
Qed.

(** *** Runs *)

Lemma existsb_keys_dict_set (x k : string) (v : StyleValue) (d : Styles) :
  existsb (String.eqb x) (List.map fst (dict_set k v d))
  = String.eqb x k || existsb (String.eqb x) (List.map fst d).
Proof.
  induction d as [| [k' v'] d IH]; cbn; [rewrite orb_false_r; reflexivity |].
  destruct (String.eqb k k') eqn:E; cbn.
  - apply String.eqb_eq in E. subst k'.
    destruct (String.eqb x k); reflexivity.
  - rewrite IH. destruct (String.eqb x k'), (String.eqb x k); reflexivity.
Qed.

Lemma distinct_dict_set (k : string) (v : StyleValue) (d : Styles) :
  distinct (List.map fst d) = true ->
  distinct (List.map fst (dict_set k v d)) = true.
Proof.
  induction d as [| [k' v'] d IH]; cbn; [reflexivity |]. intros H.
  apply andb_prop in H as [Hk H]. destruct (String.eqb k k') eqn:E; cbn.
  - apply String.eqb_eq in E. subst k'. rewrite Hk, H. reflexivity.
  - rewrite existsb_keys_dict_set, (IH H). apply negb_true_iff in Hk.
    rewrite Hk, String.eqb_sym, E. reflexivity.
Qed.

Lemma existsb_keys_filter (x : string) (p : string * StyleValue -> bool)
      (d : Styles) :
  existsb (String.eqb x) (List.map fst d) = false ->
  existsb (String.eqb x) (List.map fst (List.filter p d)) = false.
Proof.
  induction d as [| kv d IH]; cbn; [reflexivity |]. intros H.
  apply orb_false_elim in H as [Hx H].
  destruct (p kv); cbn; rewrite ?Hx; apply IH, H.
Qed.

Lemma distinct_filter (p : string * StyleValue -> bool) (d : Styles) :
  distinct (List.map fst d) = true ->
  distinct (List.map fst (List.filter p d)) = true.
Proof.
  induction d as [| kv d IH]; cbn; [reflexivity |]. intros H.
  apply andb_prop in H as [Hk H]. apply negb_true_iff in Hk.
  destruct (p kv); cbn; [| apply IH, H].
  rewrite (existsb_keys_filter _ p d Hk), (IH H). reflexivity.
Qed.

Lemma styles_ok_set (k : string) (v : StyleValue) (d : Styles) :
  style_entry_ok (k, v) = true -> styles_ok d = true ->
  styles_ok (dict_set k v d) = true.
Proof.
  unfold styles_ok. intros E H. apply andb_prop in H as [F D].
  rewrite (distinct_dict_set k v d D), andb_true_r. clear D.
  induction d as [| [k' v'] d IH]; cbn; [rewrite E; reflexivity |].
  cbn in F. apply andb_prop in F as [F1 F].
  destruct (String.eqb k k'); cbn; [rewrite E, F | rewrite F1, (IH F)];
    reflexivity.
Qed.

Lemma styles_ok_pop (k : string) (d : Styles) :
  styles_ok d = true -> styles_ok (dict_pop k d) = true.
Proof.
  unfold styles_ok, dict_pop. intros H. apply andb_prop in H as [F D].
  rewrite (distinct_filter _ d D), andb_true_r.
  apply forallb_filter_keeps, F.
Qed.

(** The style dict stays well formed, and every run is made of some text
    under a well-formed style dict. *)
Lemma tag_step_runs_ok (s s' : State) :
  tag_step uuid s s' ->
  styles_ok (current_styles (fst s)) = true
  /\ forallb run_ok (runs (fst s)) = true ->
  styles_ok (current_styles (fst s')) = true
  /\ forallb run_ok (runs (fst s')) = true.
Proof.
  intros H [St I]. split.
  - destruct H as [c n | c n _ _ | c n k v E | c n k | c n tag _ | c n block _];
      cbn [fst snd] in *.
    + rewrite flush_text_styles. exact St.
    + exact St.
    + apply styles_ok_set; assumption.
    + apply styles_ok_pop, St.
    + exact St.
    + exact St.
  - destruct (tag_step_frame s s' H) as [-> | [R _]]; [| rewrite R; exact I].
    cbn [fst]. destruct (flush_text_new_run (fst s)) as [[R _] | [R T]];
      rewrite R; [exact I |].
    rewrite forallb_app, I. cbn [forallb]. unfold run_ok, text_run.
    cbn [node_type node_text node_styles]. rewrite T, St. reflexivity.
Qed.

(** *** Blocks *)

Lemma heading_level_range (tag : string) :
  tag_in tag heading_tags = true ->
  (1 <=? heading_level tag) && (heading_level tag <=? 6) = true.
Proof.
  intros H. unfold heading_tags in H.
  tag_cases H; subst tag; reflexivity.
Qed.

Lemma block_ok_set_content (b : Block) (cc : list TextNode) :
  block_ok (set_content b cc) = block_ok b.
Proof. reflexivity. Qed.

Lemma tag_step_blocks_ok (s s' : State) :
  tag_step uuid s s' -> blocks_ok s -> blocks_ok s'.
Proof.
  unfold blocks_ok.
  intros [c n | c n _ _ | c n k v _ | c n k | c n tag H | c n block E];
    cbn [fst snd]; intros [B C].
  - destruct (flush_text_blocks c) as [-> ->]. split; assumption.
  - unfold new_paragraph. cbn. rewrite forallb_app, B. split; [reflexivity |].
    exact C.
  - split; assumption.
  - split; assumption.
  - unfold open_heading. cbn. split; [exact B |].
    unfold block_ok. cbn. apply heading_level_range, H.
  - unfold close_heading. cbn. rewrite E in C.
    rewrite forallb_app, B. cbn. rewrite block_ok_set_content, C.
    split; reflexivity.
Qed.

(** *** Ids *)

Lemma tag_step_ids_fresh (n0 : nat) (s s' : State) :
  tag_step uuid s s' -> ids_fresh uuid n0 s -> ids_fresh uuid n0 s'.
Proof.
  unfold ids_fresh.
  intros [c n | c n _ _ | c n k0 v _ | c n k0 | c n tag H | c n block E];
    cbn [fst snd]; intros (L & ks & kc & F & C & N & R).
  - destruct (flush_text_blocks c) as [-> ->]. split; [exact L |].
    exists ks, kc. auto.
  - unfold new_paragraph. cbn. split; [lia |].
    exists (ks ++ [n]), kc. split; [| split; [exact C | split]].
    + apply Forall2_app; [exact F | repeat constructor].
    + apply (Permutation_NoDup (l := n :: ks ++ match kc with Some k => [k] | None => [] end)).
      * rewrite <- app_assoc. apply Permutation_middle.
      * constructor; [| exact N]. intros In.
        rewrite List.Forall_forall in R. apply R in In. lia.
    + rewrite <- app_assoc. apply Forall_app. apply Forall_app in R as [R1 R2].
      split; [| apply Forall_app; split].
      * eapply List.Forall_impl; [| exact R1]. cbn. intros; lia.
      * repeat constructor; lia.
      * eapply List.Forall_impl; [| exact R2]. cbn. intros; lia.
  - split; [exact L |]. exists ks, kc. auto.
  - split; [exact L |]. exists ks, kc. auto.
  - unfold open_heading. cbn. split; [lia |].
    exists ks, (Some n). apply Forall_app in R as [R1 _].
    split; [exact F | split; [reflexivity | split]].
    + apply (Permutation_NoDup (l := n :: ks)).
      * apply Permutation_cons_append.
      * constructor; [| apply (List.NoDup_app_remove_r _ _ N)]. intros In.
        rewrite List.Forall_forall in R1. apply R1 in In. lia.
    + apply Forall_app. split.
      * eapply List.Forall_impl; [| exact R1]. cbn. intros; lia.
      * repeat constructor; lia.
  - unfold close_heading. cbn. split; [exact L |]. rewrite E in C.
    destruct kc as [k |]; [| destruct C].
    exists (ks ++ [k]), None. rewrite app_nil_r.
    split; [| split; [exact Logic.I | split; assumption]].
    apply Forall2_app; [exact F | repeat constructor; exact C].
Qed.

End StepInvariants.

(** ** What [html_to_blocknote] returns *)

Lemma forallb_flat_map {A B : Type} (p : B -> bool) (f : A -> list B)
      (l : list A) :
  forallb p (flat_map f l) = forallb (fun x => forallb p (f x)) l.
Proof.
  induction l as [| x l IH]; [reflexivity |].
  cbn [flat_map forallb]. rewrite forallb_app, IH. reflexivity.
Qed.

Lemma Forall2_filter {A B : Type} (R : A -> B -> Prop) (p : A -> bool)
      (l : list A) (ks : list B) :
  Forall2 R l ks ->
  exists ks',
    Forall2 R (List.filter p l) ks'
    /\ (forall k, In k ks' -> In k ks)
    /\ (List.NoDup ks -> List.NoDup ks').
Proof.
  induction 1 as [| a k l ks Hak _ (ks' & F & I & N)].
  - exists []. split; [constructor | split; auto].
  - cbn [List.filter]. destruct (p a).
    + exists (k :: ks'). split; [constructor; assumption | split].
      * intros x [-> | Hx]; [left; reflexivity | right; apply I, Hx].
      * intros D. inversion D as [| ? ? Hk D']; subst.
        constructor; [intros Hin; apply Hk, I, Hin | apply N, D'].
    + exists ks'. split; [exact F | split].
      * intros x Hx. right. apply I, Hx.
      * intros D. inversion D; subst. auto.
Qed.

Lemma Forall2_ids (uuid : nat -> string) (bs : list Block) (ks : list nat) :
  Forall2 (fun b k => block_id b = uuid k) bs ks ->
  List.map block_id bs = List.map uuid ks.
Proof. induction 1 as [| b k bs ks E _ IH]; cbn; congruence. Qed.

Lemma NoDup_map_on (uuid : nat -> string) (ks : list nat) :
  (forall i j, In i ks -> In j ks -> uuid i = uuid j -> i = j) ->
  List.NoDup ks -> List.NoDup (List.map uuid ks).
Proof.
  intros Inj. induction 1 as [| k ks Hk D IH]; cbn; constructor.
  - intros Hin. apply in_map_iff in Hin as (j & E & Hj). apply Hk.
    rewrite (Inj k j); [exact Hj | left; reflexivity | right; exact Hj |].
    symmetry. exact E.
  - apply IH. intros i j Hi Hj. apply Inj; right; assumption.
Qed.

Section BlockNoteResults.

Import HTMLToBlockNoteConverter.

Variable uuid : nat -> string.
Variable feed : string -> FeedResult.

Lemma assembled_ok (evs : list Event) (n : nat) :
  let s := handle_all uuid evs new_converter n in
  let c2 := fst (get_blocknote_json uuid (fst s) (snd s)) in
  forallb block_ok (blocks c2) = true
  /\ forallb (fun b => forallb run_ok (block_content b)) (blocks c2) = true.
Proof.
  intros s c2.
  destruct (assembler_invariant uuid
              (fun s => (styles_ok (current_styles (fst s)) = true
                         /\ forallb run_ok (runs (fst s)) = true)
                        /\ blocks_ok s))
    with (evs := evs) (c := new_converter) (n := n) as [_ [[_ R] [B _]]].
  - intros a b S [Ra Ba]. split;
      [exact (tag_step_runs_ok uuid a b S Ra)
      | exact (tag_step_blocks_ok uuid a b S Ba)].
  - intros d c m H. exact H.
  - split; [split; reflexivity | split; [reflexivity | exact Logic.I]].
  - fold s in R, B. fold c2 in R, B. split; [exact B |].
    unfold runs in R. rewrite forallb_app in R.
    apply andb_prop in R as [R _]. rewrite forallb_flat_map in R. exact R.
Qed.

Lemma html_to_blocknote_cases (html : string) (n : nat) :
  (Py.truthy html = false /\ html_to_blocknote uuid feed html n = ([], n))
  \/ (exists evs,
        Py.truthy html = true /\ feed html = Fed evs
        /\ html_to_blocknote uuid feed html n
           = (let s := handle_all uuid evs new_converter n in
              let s2 := get_blocknote_json uuid (fst s) (snd s) in
              (List.filter has_content (blocks (fst s2)), snd s2)))
  \/ (exists evs,
        Py.truthy html = true /\ feed html = Raised evs
        /\ html_to_blocknote uuid feed html n
           = (let n1 := snd (handle_all uuid evs new_converter n) in
              let text := Py.strip (Re.sub re_tag EmptyString html) in
              if Py.truthy text
              then ([fallback_block (uuid n1) text], S n1) else ([], n1))).
Proof.
  unfold html_to_blocknote. destruct (Py.truthy html); cbn [negb].
  - right. destruct (feed html) as [evs | evs].
    + left. exists evs. split; [reflexivity | split; [reflexivity |]].
      destruct (handle_all uuid evs new_converter n) as [c1 n1]. cbn [fst snd].
      destruct (get_blocknote_json uuid c1 n1) as [c2 n2]. reflexivity.
    + right. exists evs. split; [reflexivity | split; [reflexivity |]].
      destruct (handle_all uuid evs new_converter n) as [c1 n1]. cbn [fst snd].
      destruct (Py.truthy _); reflexivity.
  - left. split; reflexivity.
Qed.

Lemma html_to_blocknote_ok (html : string) (n : nat) :
  Forall (fun b => block_ok b = true /\ forallb run_ok (block_content b) = true)
         (fst (html_to_blocknote uuid feed html n)).
Proof.
  destruct (html_to_blocknote_cases html n)
    as [[_ E] | [(evs & _ & _ & E) | (evs & _ & _ & E)]]; rewrite E.
  - constructor.
  - cbn [fst]. destruct (assembled_ok evs n) as [B R].
    apply List.Forall_forall. intros b Hb. apply filter_In in Hb as [Hb _].
    rewrite forallb_forall in B, R. split; [apply B, Hb | apply R, Hb].
  - cbv zeta. destruct (Py.truthy _) eqn:T; cbn [fst]; constructor; [| constructor].
    split; [reflexivity |].
    unfold fallback_block. cbn [block_content forallb].
    unfold run_ok. cbn [node_type node_text]. rewrite T. reflexivity.
Qed.

Lemma assembled_ids (evs : list Event) (n : nat) :
  let s := handle_all uuid evs new_converter n in
  ids_fresh uuid n s
  /\ ids_fresh uuid n (get_blocknote_json uuid (fst s) (snd s)).
Proof.
  apply (assembler_invariant uuid (ids_fresh uuid n)).
  - intros a b S. apply tag_step_ids_fresh, S.
  - intros d c m H. exact H.
  - split; [cbn; lia |]. exists [], None. cbn.
    repeat split; constructor.
Qed.

Lemma html_to_blocknote_ids (html : string) (n : nat) :
  let r := html_to_blocknote uuid feed html n in
  n <= snd r
  /\ exists ks,
       List.map block_id (fst r) = List.map uuid ks
       /\ List.NoDup ks
       /\ Forall (fun k => n <= k < snd r) ks.
Proof.
  destruct (html_to_blocknote_cases html n)
    as [[_ E] | [(evs & _ & _ & E) | (evs & _ & _ & E)]]; rewrite E; cbv zeta.
  - cbn. split; [lia |]. exists []. repeat split; constructor.
  - destruct (assembled_ids evs n) as [_ (L & ks & kc & F & _ & N & R)].
    cbn [fst snd]. split; [exact L |].
    destruct (Forall2_filter _ has_content _ _ F) as (ks' & F' & I & N').
    exists ks'. split; [apply Forall2_ids, F' | split].
    + apply N', (List.NoDup_app_remove_r _ _ N).
    + apply List.Forall_forall. intros k Hk.
      rewrite List.Forall_forall in R. apply R, in_or_app. left. apply I, Hk.
  - destruct (assembled_ids evs n) as [(L & _) _].
    destruct (Py.truthy _); cbn [fst snd].
    + split; [lia |]. exists [snd (handle_all uuid evs new_converter n)].
      split; [reflexivity | split].
      * constructor; [intros [] | constructor].
      * repeat constructor; lia.
    + split; [exact L |]. exists []. repeat split; constructor.
Qed.

(** *** Tags the converter does not know *)

Lemma tag_not_blocknote (tag : string) :
  tag_in tag blocknote_tags = false ->
  String.eqb tag "p" = false /\ String.eqb tag "br" = false
  /\ tag_in tag ["strong"; "b"] = false /\ tag_in tag ["em"; "i"] = false
  /\ String.eqb tag "u" = false /\ tag_in tag heading_tags = false
  /\ String.eqb tag "a" = false.
Proof.
  unfold blocknote_tags, heading_tags, tag_in. cbn [existsb]. intros H.
  repeat (apply orb_false_elim in H as [? H]).
  repeat match goal with E : String.eqb tag _ = false |- _ => rewrite E; clear E end.
  repeat split.
Qed.

Lemma handle_transparent (e : Event) (c : BlockNoteConverter) (n : nat) :
  is_tag blocknote_tags e = false ->
  handle uuid e c n
  = (match e with Data d => handle_data d c | _ => c end, n).
Proof.
  destruct e as [tag attrs | tag | d]; cbn [is_tag handle]; intros H;
    [| | reflexivity].
  - destruct (tag_not_blocknote _ H) as (P & B & S & E & U & Hd & A).
    unfold handle_starttag. rewrite P, B, S, E, U, Hd, A. reflexivity.
  - destruct (tag_not_blocknote _ H) as (P & B & S & E & U & Hd & A).
    unfold handle_endtag. rewrite P, S, E, U, Hd, A. reflexivity.
Qed.

Lemma handle_all_transparent (evs : list Event) (c : BlockNoteConverter)
      (n : nat) :
  forallb (fun e => negb (is_tag blocknote_tags e)) evs = true ->
  handle_all uuid evs c n
  = ({| blocks := blocks c; current_block := current_block c;
        current_content := current_content c;
        current_styles := current_styles c;
        pending_text := pending_text c ++ data_of evs |}, n).
Proof.
  revert c. induction evs as [| e evs IH]; intros c H.
  - cbn. rewrite app_nil_r. destruct c; reflexivity.
  - cbn [forallb] in H. apply andb_prop in H as [He H].
    apply negb_true_iff in He. cbn [handle_all].
    rewrite (handle_transparent e c n He), (IH _ H).
    destruct e as [tag attrs | tag | d]; cbn [data_of flat_map app];
      [reflexivity | reflexivity |].
    unfold handle_data. cbn. rewrite <- app_assoc. reflexivity.
Qed.

Lemma html_to_blocknote_transparent (html : string) (evs : list Event)
      (n : nat) :
  Py.truthy html = true -> feed html = Fed evs ->
  forallb (fun e => negb (is_tag blocknote_tags e)) evs = true ->
  html_to_blocknote uuid feed html n
  = if Py.truthy (Py.concat (data_of evs))
    then ([paragraph (uuid n) [text_run (Py.concat (data_of evs)) []]], S n)
    else ([], n).
Proof.
  intros T F H. unfold html_to_blocknote. rewrite T, F. cbn [negb].
  rewrite (handle_all_transparent evs new_converter n H).
  unfold get_blocknote_json, _flush_block, _flush_text. cbn.
  destruct (data_of evs) as [| d ds] eqn:E; [reflexivity |].
  unfold Py.concat.
  destruct (Py.truthy (String.concat EmptyString (d :: ds))); reflexivity.
Qed.

End BlockNoteResults.

(** ** Link targets *)

Lemma dict_of_pairs_snoc {V : Type} (pairs : list (string * V)) (k : string)
      (v : V) :
  dict_of_pairs (pairs ++ [(k, v)]) = dict_set k v (dict_of_pairs pairs).
Proof. unfold dict_of_pairs. rewrite fold_left_app. reflexivity. Qed.

Lemma last_href_snoc (attrs : list (string * option string)) (k : string)
      (v : option string) :
  last_href (attrs ++ [(k, v)])
  = if String.eqb "href" k then Some v else last_href attrs.
Proof. unfold last_href. rewrite fold_left_app. reflexivity. Qed.

Lemma dict_get_href (attrs : list (string * option string)) :
  dict_get "href" (dict_of_pairs attrs) = last_href attrs.
Proof.
  induction attrs as [| [k v] attrs IH] using rev_ind; [reflexivity |].
  rewrite dict_of_pairs_snoc, last_href_snoc, dict_get_set, IH. reflexivity.
Qed.

Lemma href_of_last (attrs : list (string * option string)) :
  href_of attrs
  = match last_href attrs with Some v => v | None => Some EmptyString end.
Proof. unfold href_of. rewrite dict_get_href. reflexivity. Qed.

Section MarkdownTransparent.

Import HTMLToMarkdownConverter.

Lemma md_link (tag tag' : string) (attrs : list (string * option string))
      (body : list Event) (c : MarkdownConverter) :
  Py.lower tag = "a" -> Py.lower tag' = "a" ->
  forallb (fun e => negb (is_tag ["a"] e)) body = true ->
  let c3 := handle_all (StartTag tag attrs :: body ++ [EndTag tag']) c in
  (exists out,
     result c3
     = result c ++ ["["] ++ out ++ ["](" +:+ format_href (href_of attrs) +:+ ")"])
  /\ current_text c3 = current_text c.
Proof.
  intros Ht Ht' Hb c3. subst c3.
  rewrite md_handle_all_cons, md_handle_all_app. cbn [handle].
  rewrite (md_starttag_a tag attrs c Ht).
  set (c1 := {| result := result c ++ ["["]; current_text := _;
                in_list := _; list_type := _; list_item_count := _ |}).
  destruct (md_body_between body c1 Hb) as (T & out & R).
  change (handle_all [EndTag tag'] (handle_all body c1))
    with (handle_endtag tag' (handle_all body c1)).
  rewrite (md_endtag_a tag' (href_of attrs) (current_text c) _ Ht')
    by (rewrite T; reflexivity).
  cbn [result current_text]. split; [| reflexivity].
  exists out. rewrite R. subst c1. cbn [result].
  rewrite <- !app_assoc. reflexivity.
Qed.

Lemma md_stray_end (tag : string) (c : MarkdownConverter) :
  Py.lower tag = "a" -> current_text c = [] -> handle_endtag tag c = c.
Proof.
  intros H E. unfold handle_endtag. rewrite H, E. reflexivity.
Qed.

(** *** Tags the emitter does not know *)

Lemma tag_not_markdown (tag : string) :
  tag_in tag markdown_tags = false ->
  String.eqb tag "p" = false /\ String.eqb tag "br" = false
  /\ tag_in tag ["strong"; "b"] = false /\ tag_in tag ["em"; "i"] = false
  /\ tag_in tag heading_tags = false /\ String.eqb tag "a" = false
  /\ String.eqb tag "ul" = false /\ String.eqb tag "ol" = false
  /\ tag_in tag ["ul"; "ol"] = false
  /\ String.eqb tag "li" = false /\ String.eqb tag "blockquote" = false
  /\ String.eqb tag "code" = false /\ String.eqb tag "pre" = false.
Proof.
  unfold markdown_tags, heading_tags, tag_in. cbn [existsb]. intros H.
  repeat (apply orb_false_elim in H as [? H]).
  repeat match goal with E : String.eqb tag _ = false |- _ => rewrite E; clear E end.
  repeat split.
Qed.

Lemma md_handle_transparent (e : Event) (c : MarkdownConverter) :
  is_tag markdown_tags e = false ->
  handle e c = match e with Data d => emit d c | _ => c end.
Proof.
  destruct e as [tag attrs | tag | d]; cbn [is_tag handle]; intros H;
    [| | reflexivity].
  - destruct (tag_not_markdown _ H)
      as (P & B & S & E & Hd & A & Ul & Ol & _ & Li & Bq & Co & Pr).
    unfold handle_starttag.
    rewrite P, B, S, E, Hd, A, Ul, Ol, Li, Bq, Co, Pr.
    destruct (String.eqb (Py.lower tag) "u"); reflexivity.
  - destruct (tag_not_markdown _ H)
      as (P & B & S & E & Hd & A & _ & _ & L & Li & Bq & Co & Pr).
    unfold handle_endtag. rewrite P, S, E, Hd, A, L, Li, Bq, Co, Pr.
    reflexivity.
Qed.

Lemma md_handle_all_transparent (evs : list Event) (c : MarkdownConverter) :
  forallb (fun e => negb (is_tag markdown_tags e)) evs = true ->
  handle_all evs c
  = {| result := result c ++ data_of evs; current_text := current_text c;
       in_list := in_list c; list_type := list_type c;
       list_item_count := list_item_count c |}.
Proof.
  revert c. induction evs as [| e evs IH]; intros c H.
  - cbn. rewrite app_nil_r. destruct c; reflexivity.
  - cbn [forallb] in H. apply andb_prop in H as [He H].
    apply negb_true_iff in He.
    rewrite md_handle_all_cons, (md_handle_transparent e c He), (IH _ H).
    destruct e as [tag attrs | tag | d]; cbn [data_of flat_map app];
      [reflexivity | reflexivity |].
    unfold emit. cbn. rewrite <- app_assoc. reflexivity.
Qed.

Lemma html_to_markdown_transparent (feed : string -> FeedResult)
      (html : string) (evs : list Event) :
  Py.truthy html = true -> feed html = Fed evs ->
  forallb (fun e => negb (is_tag markdown_tags e)) evs = true ->
  html_to_markdown feed html
  = Re.sub re_newlines3 (nl +:+ nl) (Py.strip (Py.concat (data_of evs))).
Proof.
  intros T F H. unfold html_to_markdown. rewrite T, F. cbn [negb].
  rewrite (md_handle_all_transparent evs new_converter H). reflexivity.
Qed.

End MarkdownTransparent.

(** ** The sort key, piece by piece *)

Section DigitSplit.

Import Re.

Lemma split_go_fuel (r : regex) (fuel1 : nat) :
  forall (fuel2 : nat) (cur : list ascii) (p : pos),
    length (rest p) < fuel1 -> length (rest p) < fuel2 ->
    split_go fuel1 r cur p = split_go fuel2 r cur p.
Proof.
  induction fuel1 as [| fuel1 IH]; intros fuel2 cur p H1 H2; [lia |].
  destruct fuel2 as [| fuel2]; [lia |].
  cbn [split_go]. destruct (rest p) as [| c l] eqn:E; [reflexivity |].
  assert (A : length (rest (advance p)) = length l)
    by (unfold advance; rewrite E; reflexivity).
  cbn [length] in H1, H2.
  destruct (match_at r p) as [q |].
  - destruct (shorter q p) eqn:S.
    + unfold shorter in S. apply Nat.ltb_lt in S. rewrite E in S.
      cbn [length] in S. do 2 f_equal. apply IH; lia.
    + apply IH; lia.
  - apply IH; lia.
Qed.

Lemma split_go_before (fuel : nat) :
  forall (cur : list ascii) (b1 b2 : option ascii) (l : list ascii),
    split_go fuel re_digits cur (Pos b1 l)
    = split_go fuel re_digits cur (Pos b2 l).
Proof.
  induction fuel as [| fuel IH]; intros cur b1 b2 l; [reflexivity |].
  cbn [split_go rest]. destruct l as [| x l]; [reflexivity |].
  unfold re_digits. destruct (Py.isdigit_char x) eqn:D.
  - destruct (match_plus_cls_some Py.isdigit_char b1 x l D) as [b1' ->].
    destruct (match_plus_cls_some Py.isdigit_char b2 x l D) as [b2' ->].
    unfold shorter, taken. cbn [rest].
    destruct (_ <? _); [| apply IH]. do 2 f_equal. apply IH.
  - rewrite !match_plus_cls_none by exact D. apply IH.
Qed.

Lemma lstrip_by_run (c : ascii -> bool) (d r : list ascii) :
  forallb c d = true ->
  match r with x :: _ => c x = false | [] => True end ->
  Py.lstrip_by c (d ++ r) = r.
Proof.
  intros D R. induction d as [| x d IH]; [apply lstrip_by_fixed, R |].
  cbn in D. apply andb_prop in D as [Dx D].
  cbn. rewrite Dx. apply IH, D.
Qed.

(** A text without digits is one part. *)
Lemma split_go_text (fuel : nat) :
  forall (cur : list ascii) (b : option ascii) (p : list ascii),
    forallb (fun c => negb (Py.isdigit_char c)) p = true ->
    length p < fuel ->
    split_go fuel re_digits cur (Pos b p) = [Py.str (rev cur ++ p)].
Proof.
  induction fuel as [| fuel IH]; intros cur b p F H; [lia |].
  cbn [split_go rest]. destruct p as [| x p].
  - rewrite app_nil_r. reflexivity.
  - cbn in F. apply andb_prop in F as [Fx F]. apply negb_true_iff in Fx.
    unfold re_digits. rewrite match_plus_cls_none by exact Fx.
    unfold advance. cbn [rest]. rewrite IH by (assumption || (cbn in H; lia)).
    cbn [rev]. rewrite <- app_assoc. reflexivity.
Qed.

(** Text, then a run of digits, then the rest. *)
Lemma split_go_number (fuel : nat) :
  forall (cur : list ascii) (b : option ascii) (p d r : list ascii),
    forallb (fun c => negb (Py.isdigit_char c)) p = true ->
    d <> [] -> forallb Py.isdigit_char d = true ->
    match r with x :: _ => Py.isdigit_char x = false | [] => True end ->
    length (p ++ d ++ r) < fuel ->
    split_go fuel re_digits cur (Pos b (p ++ d ++ r))
    = Py.str (rev cur ++ p) :: Py.str d
        :: split_go (S (length r)) re_digits [] (Pos None r).
Proof.
  induction fuel as [| fuel IH]; intros cur b p d r F N D R H; [lia |].
  destruct p as [| x p].
  - destruct d as [| y d]; [contradiction |].
    cbn [app split_go rest]. cbn in D. apply andb_prop in D as [Dy D].
    unfold re_digits.
    destruct (match_plus_cls_some Py.isdigit_char b y (d ++ r) Dy) as [b' ->].
    rewrite (lstrip_by_run Py.isdigit_char d r D R).
    assert (S : shorter (Pos b' r) (Pos b (y :: d ++ r)) = true).
    { unfold shorter. cbn [rest length]. apply Nat.ltb_lt.
      rewrite List.length_app. lia. }
    rewrite S, app_nil_r. f_equal. f_equal.
    + unfold taken. cbn [rest length]. rewrite List.length_app.
      replace (Datatypes.S (length d + length r) - length r)
        with (Datatypes.S (length d)) by lia.
      cbn [firstn]. rewrite take_app_length. reflexivity.
    + fold re_digits. rewrite (split_go_before fuel [] b' None r).
      refine (split_go_fuel re_digits fuel (Datatypes.S (length r)) []
                            (Pos None r) _ _); cbn [rest].
      * cbn [app length] in H. rewrite List.length_app in H. lia.
      * lia.
  - cbn in F. apply andb_prop in F as [Fx F]. apply negb_true_iff in Fx.
    cbn [app split_go rest]. unfold re_digits.
    rewrite match_plus_cls_none by exact Fx.
    unfold advance. cbn [rest].
    fold re_digits. rewrite (IH (x :: cur) (Some x) p d r F N D R)
      by (cbn in H; lia).
    cbn [rev]. rewrite <- app_assoc. reflexivity.
Qed.

End DigitSplit.

Lemma split_text (p : string) :
  digit_free p = true -> Re.split re_digits p = [p].
Proof.
  intros F. unfold Re.split, Re.start.
  rewrite (split_go_text _ [] None (Py.chars p) F) by lia.
  cbn [rev app]. rewrite str_chars. reflexivity.
Qed.

Lemma isdigit_chars (d : string) :
  Py.isdigit d = true ->
  Py.chars d <> [] /\ forallb Py.isdigit_char (Py.chars d) = true.
Proof.
  unfold Py.isdigit. intros H. apply andb_prop in H as [T H].
  split; [| exact H]. destruct d; [discriminate T | discriminate].
Qed.

Lemma no_leading_digit_head (r : string) :
  no_leading_digit r = true ->
  match Py.chars r with x :: _ => Py.isdigit_char x = false | [] => True end.
Proof.
  unfold no_leading_digit. destruct (Py.chars r); [auto |].
  apply negb_true_iff.
Qed.

Lemma split_number (p d r : string) :
  digit_free p = true -> Py.isdigit d = true -> no_leading_digit r = true ->
  Re.split re_digits (p +:+ d +:+ r) = p :: d :: Re.split re_digits r.
Proof.
  intros F D R. destruct (isdigit_chars d D) as [N Dd].
  unfold Re.split, Re.start. rewrite !chars_app.
  rewrite (split_go_number _ [] None (Py.chars p) (Py.chars d) (Py.chars r)
             F N Dd (no_leading_digit_head r R)) by lia.
  cbn [rev app]. rewrite !str_chars. reflexivity.
Qed.

Lemma digit_free_not_isdigit (p : string) :
  digit_free p = true -> Py.isdigit p = false.
Proof.
  unfold digit_free, Py.isdigit. destruct p as [| c p]; [reflexivity |].
  cbn. intros H. apply andb_prop in H as [Hc _].
  apply negb_true_iff in Hc. rewrite Hc. reflexivity.
Qed.

Lemma convert_text (p : string) :
  digit_free p = true -> convert p = KText (Py.lower p).
Proof.
  intros F. unfold convert. rewrite (digit_free_not_isdigit p F). reflexivity.
Qed.

Lemma convert_number (d : string) :
  Py.isdigit d = true -> convert d = KNum (Py.int_of_digits d).
Proof. intros D. unfold convert. rewrite D. reflexivity. Qed.

Lemma natural_sort_key_text (p : string) :
  digit_free p = true -> natural_sort_key p = text_part p.
Proof.
  intros F. unfold natural_sort_key, text_part. rewrite (split_text p F).
  cbn [List.filter]. destruct (Py.truthy p); [| reflexivity].
  cbn [List.map]. rewrite (convert_text p F). reflexivity.
Qed.

Lemma natural_sort_key_number (p d r : string) :
  digit_free p = true -> Py.isdigit d = true -> no_leading_digit r = true ->
  natural_sort_key (p +:+ d +:+ r)
  = text_part p ++ KNum (Py.int_of_digits d) :: natural_sort_key r.
Proof.
  intros F D R. unfold natural_sort_key, text_part.
  rewrite (split_number p d r F D R). cbn [List.filter].
  assert (Td : Py.truthy d = true)
    by (unfold Py.isdigit in D; apply andb_prop in D as [T _]; exact T).
  rewrite Td.
  destruct (Py.truthy p); cbn [List.map app];
    rewrite ?(convert_text p F), (convert_number d D); reflexivity.
Qed.

Lemma key_compare_prefix (a k1 k2 : list KeyPart) :
  key_compare (a ++ k1) (a ++ k2) = key_compare k1 k2.
Proof.
  induction a as [| x a IH]; [reflexivity |].
  cbn. rewrite part_compare_refl. exact IH.
Qed.

Lemma int_of_digits_zero (d : string) :
  Py.int_of_digits (String "0" d) = Py.int_of_digits d.
Proof. reflexivity. Qed.

Lemma isdigit_zero (d : string) :
  Py.isdigit d = true -> Py.isdigit (String "0" d) = true.
Proof.
  unfold Py.isdigit. intros H. apply andb_prop in H as [_ H].
  cbn. exact H.
Qed.

(** ** The documents of the structured target *)

Section ExportedDocuments.

Variable uuid : nat -> string.
Variable feed : string -> FeedResult.
Variable docs_by_id : gmap string Document.
Variable trash_doc_ids : gset string.
Variable trash_folder_ids : gset string.

Lemma html_to_blocknote_content (html : string) (n : nat) :
  Forall (fun b => block_content b <> [])
         (fst (html_to_blocknote uuid feed html n)).
Proof.
  destruct (html_to_blocknote_cases uuid feed html n)
    as [[_ E] | [(evs & _ & _ & E) | (evs & _ & _ & E)]]; rewrite E.
  - constructor.
  - cbn [fst]. apply List.Forall_forall. intros b Hb.
    apply filter_In in Hb as [_ Hb]. apply has_content_nonempty, Hb.
  - cbv zeta. destruct (Py.truthy _); cbn [fst]; constructor;
      [discriminate | constructor].
Qed.

Lemma convert_document_exported (doc : Document) (order n : nat) :
  inactive (doc_status doc) = false ->
  exported_document (fst (convert_document uuid feed doc order n)).
Proof.
  intros A. unfold convert_document.
  pose proof (html_to_blocknote_content (get (doc_content doc) EmptyString) n) as C.
  destruct (html_to_blocknote uuid feed (get (doc_content doc) EmptyString) n)
    as [bs n1]. cbn [fst] in *.
  unfold exported_document. cbn.
  split; [reflexivity |]. split; [| split].
  - unfold inactive in A. destruct (doc_status doc) as [s |]; [| reflexivity].
    cbn. apply negb_false_iff in A. rewrite A. reflexivity.
  - destruct (doc_summary doc) as [s |]; [| discriminate].
    destruct s; [discriminate |]. cbn. intros [=].
  - repeat (split; [reflexivity |]). exists bs. auto.
Qed.

Lemma exported_document_set_order (i : nat) (d : Document2) :
  exported_document d -> exported_document (set_order i d).
Proof. intros H. exact H. Qed.

Lemma reassign_order_Forall (P : Document2 -> Prop) (i : nat)
      (l : list Document2) :
  (forall j d, P d -> P (set_order j d)) ->
  Forall P l -> Forall P (reassign_order i l).
Proof.
  intros S H. revert i. induction H as [| d l Hd _ IH]; intros i; cbn;
    constructor; [apply S, Hd | apply IH].
Qed.

Lemma convert_documents_Forall (P : Document2 -> Prop) (doc_ids : list string)
      (n : nat) :
  (forall doc m, inactive (doc_status doc) = false ->
                 P (fst (convert_document uuid feed doc 0 m))) ->
  Forall P (fst (convert_documents uuid feed doc_ids docs_by_id trash_doc_ids n)).
Proof.
  intros H. revert n. induction doc_ids as [| doc_id doc_ids IH]; intros n;
    [constructor |].
  cbn [convert_documents].
  destruct (mem doc_id trash_doc_ids); [apply IH |].
  destruct (docs_by_id !! doc_id) as [doc |]; [| apply IH].
  destruct (doc_truthy doc); cbn [negb]; [| apply IH].
  destruct (inactive (doc_status doc)) eqn:A; [apply IH |].
  pose proof (H doc n A) as Hd.
  destruct (convert_document uuid feed doc 0 n) as [d n1].
  specialize (IH n1).
  destruct (convert_documents uuid feed doc_ids docs_by_id trash_doc_ids n1)
    as [ds n2].
  cbn [fst] in *. constructor; assumption.
Qed.

Lemma convert_folder_documents (P : Document2 -> Prop) (folder : Folder)
      (order n : nat) (f2 : Folder2) (n' : nat) :
  (forall j d, P d -> P (set_order j d)) ->
  (forall doc m, inactive (doc_status doc) = false ->
                 P (fst (convert_document uuid feed doc 0 m))) ->
  convert_folder uuid feed folder docs_by_id trash_doc_ids order n = (Some f2, n') ->
  Forall P (f2_documents f2).
Proof.
  intros S H E.
  destruct (convert_folder_cases uuid feed docs_by_id trash_doc_ids folder order n)
    as [[_ E'] | [_ (f2' & n'' & E' & D & _)]]; rewrite E' in E;
    [discriminate |].
  injection E as <- <-. rewrite D.
  apply reassign_order_Forall; [exact S |].
  eapply Permutation_Forall; [apply Permutation_sym, sorted_perm |].
  apply convert_documents_Forall, H.
Qed.

Lemma convert_folders_documents (fs : list Folder) (folder_order n : nat) :
  Forall (fun f2 => Forall exported_document (f2_documents f2))
         (fst (convert_folders uuid feed fs docs_by_id trash_doc_ids
                               trash_folder_ids folder_order n)).
Proof.
  apply convert_folders_Forall. intros folder order m f2 m' E.
  apply (convert_folder_documents exported_document folder order m f2 m');
    [exact exported_document_set_order | | exact E].
  intros doc k A. apply convert_document_exported, A.
Qed.

End ExportedDocuments.

(** ** The two targets side by side *)

Lemma endswith_last (l : list ascii) (c x : ascii) :
  Py.endswith (Py.str (l ++ [c])) (String x EmptyString) = Ascii.eqb c x.
Proof.
  unfold Py.endswith. cbn [String.length].
  rewrite <- length_chars, chars_str, List.length_app.
  cbn [length].
  replace (1 <=? length l + 1) with true by (symmetry; apply Nat.leb_le; lia).
  cbn [andb]. rewrite <- (str_chars (substring _ _ _)), substring_chars, chars_str.
  replace (length l + 1 - 1) with (length l) by lia.
  rewrite drop_app_length. cbn.
  destruct (Ascii.eqb c x); reflexivity.
Qed.

Lemma directory_is_directory (slug : string) :
  is_directory (slug +:+ "/", EmptyString) = true.
Proof.
  unfold is_directory. cbn [fst].
  rewrite <- (str_chars slug), <- (str_chars "/"), <- str_app.
  apply endswith_app.
Qed.

Lemma file_is_no_directory (slug stem content : string) :
  is_directory (slug +:+ "/" +:+ stem +:+ ".md", content) = false.
Proof.
  unfold is_directory. cbn [fst].
  assert (E : slug +:+ "/" +:+ stem +:+ ".md"
              = Py.str ((Py.chars slug ++ Py.chars "/" ++ Py.chars stem
                         ++ ["."; "m"]%char) ++ ["d"%char])).
  { rewrite <- !app_assoc, !str_app, !str_chars. reflexivity. }
  rewrite E. apply endswith_last.
Qed.

Section SideBySide.

Variable uuid : nat -> string.
Variable feed : string -> FeedResult.
Variable docs_by_id : gmap string Document.
Variable trash_doc_ids : gset string.
Variable trash_folder_ids : gset string.

Lemma folder_entries_directories (f : Folder) :
  List.filter is_directory (folder_entries feed docs_by_id trash_doc_ids f)
  = if has_survivor docs_by_id trash_doc_ids f
    then [(folder_slug f +:+ "/", EmptyString)] else [].
Proof.
  destruct (has_survivor docs_by_id trash_doc_ids f) eqn:H.
  - unfold folder_entries, has_survivor in *.
    destruct (surviving_docs docs_by_id trash_doc_ids (folder_documentIds f))
      as [| d ds] eqn:E.
    + apply surviving_docs_nil in E. congruence.
    + cbn [List.filter]. fold (folder_slug f).
      rewrite directory_is_directory. f_equal. clear E.
      induction (d :: ds) as [| doc docs IH]; [reflexivity |].
      cbn [List.map List.filter].
      destruct (slugify_filename_shape (get (doc_title doc) "untitled"))
        as (stem & -> & _).
      rewrite file_is_no_directory. exact IH.
  - rewrite (folder_entries_none feed docs_by_id trash_doc_ids f H). reflexivity.
Qed.

Lemma write_folders_directories (fs : list Folder) (stats : Stats) :
  List.filter is_directory
              (fst (write_folders feed fs docs_by_id trash_doc_ids
                                  trash_folder_ids stats))
  = List.map (fun f => (folder_slug f +:+ "/", EmptyString))
             (List.filter (exported docs_by_id trash_doc_ids trash_folder_ids) fs).
Proof.
  rewrite write_folders_entries. unfold exported.
  induction fs as [| f fs IH]; [reflexivity |].
  cbn [flat_map List.filter]. rewrite List.filter_app, IH.
  destruct (folder_kept trash_folder_ids f); cbn [andb].
  - rewrite folder_entries_directories.
    destruct (has_survivor docs_by_id trash_doc_ids f); reflexivity.
  - reflexivity.
Qed.

End SideBySide.

Lemma sort_folders_exported_length (keep : Folder -> bool) (fs : list Folder) :
  length (List.filter keep (sort_folders fs)) = length (List.filter keep fs).
Proof.
  rewrite <- sort_folders_filter. unfold sort_folders. apply sorted_length.
Qed.

Lemma run_ok_text_runs (bs : list Block) :
  forallb (fun b => forallb run_ok (block_content b)) bs = true ->
  text_runs bs = flat_map block_content bs.
Proof.
  intros H. unfold text_runs. rewrite <- forallb_flat_map in H.
  induction (flat_map block_content bs) as [| t l IH]; [reflexivity |].
  cbn in H. apply andb_prop in H as [Ht H]. cbn [List.filter].
  unfold run_ok in Ht. apply andb_prop in Ht as [Ht _].
  apply andb_prop in Ht as [Ht _]. rewrite Ht, (IH H). reflexivity.
Qed.

(** ** Whole trees *)

Lemma schema2_folders (uuid : nat -> string) (feed : string -> FeedResult)
      (data : Schema1) (n : nat) :
  let p := fst (convert_schema1_to_schema2 uuid feed data n) in
  p_folders p
  = fst (convert_folders uuid feed (sort_folders (folders data))
                         (documentsById data)
                         (set_of (trash_documentIds (trash data)))
                         (set_of (trash_folderIds (trash data))) 0 n)
  /\ number_of_chapters p
     = (let total :=
          list_sum (List.map (fun f => length (f2_documents f)) (p_folders p)) in
        if 0 <? total then Some total else None).
Proof.
  unfold convert_schema1_to_schema2.
  destruct (convert_folders uuid feed _ _ _ _ 0 n) as [cfs n1].
  split; reflexivity.
Qed.

Lemma folder_entries_length (feed : string -> FeedResult)
      (docs_by_id : gmap string Document) (trash_doc_ids : gset string)
      (f : Folder) :
  length (folder_entries feed docs_by_id trash_doc_ids f)
  = (if has_survivor docs_by_id trash_doc_ids f then 1 else 0)
    + length (surviving_docs docs_by_id trash_doc_ids (folder_documentIds f)).
Proof.
  unfold folder_entries, has_survivor.
  destruct (existsb _ (folder_documentIds f)) eqn:H.
  - destruct (surviving_docs docs_by_id trash_doc_ids (folder_documentIds f))
      as [| d ds] eqn:E.
    + apply surviving_docs_nil in E. congruence.
    + cbn [length]. rewrite length_map. reflexivity.
  - apply surviving_docs_nil in H. rewrite H. reflexivity.
Qed.

Lemma write_folders_length (feed : string -> FeedResult)
      (docs_by_id : gmap string Document)
      (trash_doc_ids trash_folder_ids : gset string)
      (fs : list Folder) (stats : Stats) :
  length (fst (write_folders feed fs docs_by_id trash_doc_ids
                             trash_folder_ids stats))
  = length (List.filter (exported docs_by_id trash_doc_ids trash_folder_ids) fs)
    + over_kept_folders trash_folder_ids
        (fun ids => length (surviving_docs docs_by_id trash_doc_ids ids)) fs.
Proof.
  rewrite write_folders_entries. unfold exported, over_kept_folders.
  induction fs as [| f fs IH]; [reflexivity |].
  cbn [flat_map List.filter]. rewrite List.length_app, IH.
  destruct (folder_kept trash_folder_ids f); cbn [andb length].
  - rewrite folder_entries_length, List.map_cons, list_sum_cons.
    destruct (has_survivor docs_by_id trash_doc_ids f); cbn [length]; lia.
  - reflexivity.
Qed.

Lemma over_kept_folders_sorted (trash_folder_ids : gset string)
      (count : list string -> nat) (fs : list Folder) :
  over_kept_folders trash_folder_ids count (sort_folders fs)
  = over_kept_folders trash_folder_ids count fs.
Proof. apply over_kept_folders_perm, sort_folders_perm. Qed.

(** * Further properties of the two converters *)

(** X1. Structured target: the blocks [html_to_blocknote] returns on the
    normal path hold exactly the text the tokenizer delivered, in order:
    no handler drops, repeats or reorders text, whatever the tags are (an
    unclosed heading, a paragraph inside a heading, stray end tags). *)
Theorem blocknote_text_is_preserved :
  forall (uuid : nat -> string) (feed : string -> FeedResult)
         (html : string) (evs : list Event) (n : nat),
    Py.truthy html = true -> feed html = Fed evs ->
    text_of_blocks (fst (html_to_blocknote uuid feed html n))
    = Py.concat (data_of evs).
Proof.
  intros uuid feed html evs n T F.
  destruct (html_to_blocknote_cases uuid feed html n)
    as [[T' _] | [(evs' & _ & F' & E) | (evs' & _ & F' & _)]].
  - congruence.
  - rewrite F in F'. injection F' as <-. rewrite E. cbn [fst].
    apply blocks_hold_the_text.
  - congruence.
Qed.

Lemma blocknote_text_is_preserved_witness :
  text_of_blocks
    (fst (html_to_blocknote Py.str_of_nat (HTMLParser.feed (fun s => s))
                            "<h1>T<p>a <b>b</b></p>c</h1>d" 0))
  = "Ta bcd".
Proof.
  exact (blocknote_text_is_preserved
           Py.str_of_nat (HTMLParser.feed (fun s => s))
           "<h1>T<p>a <b>b</b></p>c</h1>d"
           [StartTag "h1" []; Data "T"; StartTag "p" []; Data "a ";
            StartTag "b" []; Data "b"; EndTag "b"; EndTag "p"; Data "c";
            EndTag "h1"; Data "d"]
           0 eq_refl eq_refl).
Defined.

(** X2. Structured target: every block [html_to_blocknote] returns, on
    either path, has the three default properties and no children, and is a
    paragraph without level or a heading whose level is between 1 and 6;
    every text run in it has type [text], a non-empty text, and a style
    dict whose keys are distinct and taken from [bold], [italic],
    [underline] (value [True]) and [link] (value an href or [None]). *)
Theorem blocknote_blocks_are_well_formed :
  forall (uuid : nat -> string) (feed : string -> FeedResult)
         (html : string) (n : nat),
    Forall (fun b => block_ok b = true
                     /\ forallb run_ok (block_content b) = true)
           (fst (html_to_blocknote uuid feed html n)).
Proof.
  intros uuid feed html n.
  pose proof (html_to_blocknote_ok uuid feed html n) as H.
  apply List.Forall_forall. intros b Hb.
  rewrite List.Forall_forall in H. exact (H b Hb).
Qed.

(** X3. Structured target: one call of [html_to_blocknote] that starts
    with [n] ids drawn ends with at least as many, and the ids of the
    blocks it returns are the values of distinct [uuid4] calls among those
    it made; so they are pairwise distinct whenever the values drawn by the
    call are. *)
Theorem blocknote_ids_are_distinct :
  forall (uuid : nat -> string) (feed : string -> FeedResult)
         (html : string) (n : nat),
    let r := html_to_blocknote uuid feed html n in
    n <= snd r
    /\ (exists ks,
          List.map block_id (fst r) = List.map uuid ks
          /\ List.NoDup ks
          /\ Forall (fun k => n <= k < snd r) ks)
    /\ ((forall i j, n <= i < snd r -> n <= j < snd r ->
                     uuid i = uuid j -> i = j) ->
        List.NoDup (List.map block_id (fst r))).
Proof.
  intros uuid feed html n r.
  destruct (html_to_blocknote_ids uuid feed html n) as (L & ks & E & N & R).
  fold r in L, E, R. split; [exact L |]. split; [exists ks; auto |].
  intros Inj. rewrite E. apply NoDup_map_on; [| exact N].
  intros i j Hi Hj. rewrite List.Forall_forall in R.
  apply Inj; apply R; assumption.
Qed.

Lemma blocknote_ids_are_distinct_witness :
  List.NoDup
    (List.map block_id
       (fst (html_to_blocknote (Py.repeat_char "x")
                               (fun _ => Fed [StartTag "h2" []; Data "T";
                                              StartTag "p" []; EndTag "h2";
                                              Data "a"; EndTag "p"])
                               "x" 0))).
Proof.
  apply (proj2 (proj2 (blocknote_ids_are_distinct
                         (Py.repeat_char "x")
                         (fun _ => Fed [StartTag "h2" []; Data "T";
                                        StartTag "p" []; EndTag "h2";
                                        Data "a"; EndTag "p"])
                         "x" 0))).
  intros i j _ _ E. apply (f_equal String.length) in E.
  assert (L : forall k, String.length (Py.repeat_char "x" k) = k)
    by (induction k as [| k IH]; [reflexivity | cbn; f_equal; exact IH]).
  rewrite !L in E. exact E.
Defined.

(** X4. Structured target: tags the converter does not react to (anything
    but [p], [br], [strong], [b], [em], [i], [u], [h1]..[h6], [a]) neither
    end a run nor a paragraph.  Markup made of such tags only becomes one
    paragraph with one unstyled run holding all the text, and nothing when
    there is no text; one id is drawn in the first case, none in the
    second. *)
Theorem blocknote_unknown_tags_are_transparent :
  forall (uuid : nat -> string) (feed : string -> FeedResult)
         (html : string) (evs : list Event) (n : nat),
    Py.truthy html = true -> feed html = Fed evs ->
    forallb (fun e => negb (is_tag blocknote_tags e)) evs = true ->
    html_to_blocknote uuid feed html n
    = if Py.truthy (Py.concat (data_of evs))
      then ([paragraph (uuid n) [text_run (Py.concat (data_of evs)) []]], S n)
      else ([], n).
Proof.
  intros uuid feed html evs n T F H.
  unfold html_to_blocknote. rewrite T, F. cbn [negb].
  rewrite (handle_all_transparent uuid evs
             HTMLToBlockNoteConverter.new_converter n H).
  unfold HTMLToBlockNoteConverter.get_blocknote_json,
    HTMLToBlockNoteConverter._flush_block,
    HTMLToBlockNoteConverter._flush_text. cbn.
  destruct (data_of evs) as [| d ds] eqn:E; [reflexivity |].
  unfold Py.concat.
  destruct (Py.truthy (String.concat EmptyString (d :: ds))); reflexivity.
Qed.

Lemma blocknote_unknown_tags_are_transparent_witness :
  html_to_blocknote Py.str_of_nat (HTMLParser.feed (fun s => s))
                    "<div>one <span>two</span></div><ul><li>three</li></ul>" 7
  = ([paragraph "7" [text_run "one twothree" []]], 8).
Proof.
  exact (blocknote_unknown_tags_are_transparent
           Py.str_of_nat (HTMLParser.feed (fun s => s))
           "<div>one <span>two</span></div><ul><li>three</li></ul>"
           [StartTag "div" []; Data "one "; StartTag "span" []; Data "two";
            EndTag "span"; EndTag "div"; StartTag "ul" []; StartTag "li" [];
            Data "three"; EndTag "li"; EndTag "ul"]
           7 eq_refl eq_refl eq_refl).
Defined.

(** X5. [count_words] is the sum, over the text runs of the blocks, of the
    number of words of each run (its maximal stretches without white
    space): joining the runs with a blank before the split never merges two
    runs into one word.  Hence it is additive over block lists, and zero
    for the empty list. *)
Theorem count_words_adds_up :
  (forall bs,
     count_words bs
     = list_sum (List.map (fun t => words (node_text t)) (text_runs bs)))
  /\ (forall bs1 bs2,
        count_words (bs1 ++ bs2) = count_words bs1 + count_words bs2)
  /\ count_words [] = 0.
Proof.
  split; [exact count_words_sum |]. split; [exact count_words_app |].
  rewrite count_words_sum. reflexivity.
Qed.

(** X6. The word count of what [html_to_blocknote] returns is at least the
    number of words of the text of the blocks read as one string, and
    exceeds it by at most the number of runs: a word that a tag cuts in two
    runs counts twice. *)
Theorem word_count_bounds :
  forall (uuid : nat -> string) (feed : string -> FeedResult)
         (html : string) (n : nat),
    let bs := fst (html_to_blocknote uuid feed html n) in
    words (text_of_blocks bs) <= count_words bs
    /\ count_words bs
       <= words (text_of_blocks bs) + length (flat_map block_content bs).
Proof.
  intros uuid feed html n bs.
  assert (R : forallb (fun b => forallb run_ok (block_content b)) bs = true).
  { apply forallb_forall. intros b Hb.
    pose proof (html_to_blocknote_ok uuid feed html n) as H.
    rewrite List.Forall_forall in H. apply (H b Hb). }
  rewrite count_words_sum, (run_ok_text_runs bs R).
  unfold text_of_blocks, text_of_runs.
  pose proof (words_concat (List.map node_text (flat_map block_content bs)))
    as [Lo Hi].
  rewrite List.map_map, length_map in *. split; assumption.
Qed.

(** X7. The slug of a folder title (ASCII text) is made of lower-case
    letters, digits, underscores and hyphens only; no hyphen follows a
    hyphen, and the slug neither starts nor ends with one.  The two
    scripts compute the same slug. *)
Theorem folder_slug_shape :
  forall title : string,
    is_slug (slugify_folder title) = true
    /\ slugify_folder_name title = slugify_folder title.
Proof.
  intros title. split; [apply slugify_folder_shape | reflexivity].
Qed.

(** X8. The slugs are exactly the strings [slugify_folder] leaves as they
    are, so slugifying twice is slugifying once. *)
Theorem folder_slug_is_idempotent :
  (forall s, is_slug s = true -> slugify_folder s = s)
  /\ (forall title,
        slugify_folder (slugify_folder title) = slugify_folder title)
  /\ (forall title,
        slugify_folder_name (slugify_folder_name title)
        = slugify_folder_name title).
Proof.
  split; [exact slug_fixed |].
  split; intros title; [| rewrite !slugify_folder_name_same];
    apply slug_fixed, slugify_folder_shape.
Qed.

Lemma folder_slug_is_idempotent_witness :
  slugify_folder "part-2_final" = "part-2_final".
Proof.
  exact (proj1 folder_slug_is_idempotent "part-2_final" eq_refl).
Defined.

(** X9. The file name [slugify_filename] makes of a title (ASCII text) is
    a stem of letters, digits, underscores and hyphens followed by [.md]:
    no blank, no slash, no other dot. *)
Theorem file_name_shape :
  forall title : string,
    exists stem,
      slugify_filename title = stem +:+ ".md" /\ is_stem stem = true.
Proof.
  intros title. rewrite slugify_filename_chars. eexists.
  split; [reflexivity |]. unfold is_stem. rewrite chars_str.
  apply forallb_squeeze_go; [reflexivity |].
  apply forallb_forall. intros x Hx.
  apply filter_In in Hx as [_ K]. apply kept_stem, K.
Qed.

(** X10. [slugify_filename] leaves a name of that shape as it is: a title
    that is already a file name gets no second extension, and converting a
    title twice is converting it once. *)
Theorem file_name_is_idempotent :
  (forall stem,
     is_stem stem = true ->
     slugify_filename (stem +:+ ".md") = stem +:+ ".md")
  /\ (forall title,
        slugify_filename (slugify_filename title) = slugify_filename title).
Proof.
  split; [exact stem_fixed |]. intros title.
  destruct (slugify_filename_shape title) as (stem & -> & S).
  apply stem_fixed, S.
Qed.

Lemma file_name_is_idempotent_witness :
  slugify_filename ("Chapter_8_Lucas" +:+ ".md") = "Chapter_8_Lucas" +:+ ".md".
Proof.
  exact (proj1 file_name_is_idempotent "Chapter_8_Lucas" eq_refl).
Defined.

(** X11. Archive target, titles being ASCII text: the name of every entry
    written is a folder slug and a slash, alone or followed by a file stem
    and [.md].  So every name has exactly one slash, at most one dot, and
    no character other than letters, digits, [_], [-], [/] and [.]. *)
Theorem archive_entry_names :
  forall (feed : string -> FeedResult) (data : Schema1),
    Forall (fun e =>
              entry_name_ok (fst e)
              /\ count_char "/" (fst e) = 1
              /\ count_char "." (fst e) <= 1
              /\ forallb path_char (Py.chars (fst e)) = true)
           (fst (convert_schema1_to_zip feed data)).
Proof.
  intros feed data. pose proof (zip_entry_names feed data) as H.
  apply List.Forall_forall. intros e He.
  rewrite List.Forall_forall in H. specialize (H e He).
  split; [exact H | apply entry_name_ok_chars, H].
Qed.

(** X12. Archive target, the [stats] returned.  [folders_processed] counts
    the folders that pass the folder filter and keep a document,
    [documents_processed] their surviving references; together they count
    the entries written.  The two skip counters range over every folder
    that passes the folder filter, exported or not:
    [documents_skipped_trash] counts the references to trashed ids,
    [documents_skipped_missing] the references outside the trash set with
    no record or an empty one.  References to inactive documents are
    counted nowhere: they make up the difference to the number of
    references. *)
Theorem archive_counters :
  forall (feed : string -> FeedResult) (data : Schema1),
    let docs_by_id := documentsById data in
    let trash_doc_ids := set_of (trash_documentIds (trash data)) in
    let trash_folder_ids := set_of (trash_folderIds (trash data)) in
    let entries := fst (convert_schema1_to_zip feed data) in
    let stats := snd (convert_schema1_to_zip feed data) in
    folders_processed stats
    = length (List.filter (exported docs_by_id trash_doc_ids trash_folder_ids)
                          (folders data))
    /\ documents_processed stats
       = over_kept_folders trash_folder_ids
           (fun ids => length (surviving_docs docs_by_id trash_doc_ids ids))
           (folders data)
    /\ documents_skipped_trash stats
       = over_kept_folders trash_folder_ids (trashed_refs trash_doc_ids)
                           (folders data)
    /\ documents_skipped_missing stats
       = over_kept_folders trash_folder_ids
           (missing_refs docs_by_id trash_doc_ids) (folders data)
    /\ length entries = folders_processed stats + documents_processed stats
    /\ over_kept_folders trash_folder_ids (@length string) (folders data)
       = documents_processed stats + documents_skipped_trash stats
         + documents_skipped_missing stats
         + over_kept_folders trash_folder_ids
             (inactive_refs docs_by_id trash_doc_ids) (folders data).
Proof.
  intros feed data docs_by_id trash_doc_ids trash_folder_ids entries stats.
  pose proof (write_folders_stats feed docs_by_id trash_doc_ids trash_folder_ids
                (sort_folders (folders data))
                {| folders_processed := 0; documents_processed := 0;
                   documents_skipped_trash := 0;
                   documents_skipped_missing := 0 |}) as W.
  pose proof (write_folders_length feed docs_by_id trash_doc_ids trash_folder_ids
                (sort_folders (folders data))
                {| folders_processed := 0; documents_processed := 0;
                   documents_skipped_trash := 0;
                   documents_skipped_missing := 0 |}) as L.
  change (write_folders feed (sort_folders (folders data)) docs_by_id
            trash_doc_ids trash_folder_ids _)
    with (convert_schema1_to_zip feed data) in W, L.
  fold entries in L. fold stats in W. cbn zeta in W.
  rewrite sort_folders_exported_length in W, L.
  cbn [folders_processed documents_processed documents_skipped_trash
       documents_skipped_missing] in W.
  destruct W as (F & D & T & M). cbn [Nat.add] in F, D, T, M.
  rewrite over_kept_folders_sorted in D, T, M, L.
  split; [exact F |]. split; [exact D |]. split; [exact T |].
  split; [exact M |]. split; [rewrite L, F, D; reflexivity |].
  rewrite D, T, M, <- !over_kept_folders_add.
  apply over_kept_folders_ext. intros ids.
  apply refs_partition.
Qed.

(** X13. The two targets agree on what is exported: the structured
    output has as many folders as the archive has directory entries, and as
    many documents as the archive has files; [number_of_chapters] is the
    archive's [documents_processed] when that is positive; and the
    directory entries are the names of the output folders, each with a
    slash, in the same order. *)
Theorem targets_agree :
  forall (uuid : nat -> string) (feed : string -> FeedResult)
         (data : Schema1) (n : nat),
    let p := fst (convert_schema1_to_schema2 uuid feed data n) in
    let entries := fst (convert_schema1_to_zip feed data) in
    let stats := snd (convert_schema1_to_zip feed data) in
    length (p_folders p) = folders_processed stats
    /\ list_sum (List.map (fun f => length (f2_documents f)) (p_folders p))
       = documents_processed stats
    /\ number_of_chapters p
       = (if 0 <? documents_processed stats
          then Some (documents_processed stats) else None)
    /\ List.map (fun f => (f2_name f +:+ "/", EmptyString)) (p_folders p)
       = List.filter is_directory entries.
Proof.
  intros uuid feed data n p entries stats.
  set (docs_by_id := documentsById data).
  set (trash_doc_ids := set_of (trash_documentIds (trash data))).
  set (trash_folder_ids := set_of (trash_folderIds (trash data))).
  destruct (schema2_folders uuid feed data n) as [P C]. fold p in P, C.
  fold docs_by_id trash_doc_ids trash_folder_ids in P.
  destruct (convert_folders_heads uuid feed docs_by_id trash_doc_ids
              trash_folder_ids (sort_folders (folders data)) 0 n) as [N _].
  rewrite <- P in N.
  pose proof (convert_folders_total uuid feed docs_by_id trash_doc_ids
                trash_folder_ids (sort_folders (folders data)) 0 n) as T.
  rewrite <- P in T.
  pose proof (write_folders_stats feed docs_by_id trash_doc_ids trash_folder_ids
                (sort_folders (folders data))
                {| folders_processed := 0; documents_processed := 0;
                   documents_skipped_trash := 0;
                   documents_skipped_missing := 0 |}) as (F & D & _ & _).
  change (write_folders feed (sort_folders (folders data)) docs_by_id
            trash_doc_ids trash_folder_ids _)
    with (convert_schema1_to_zip feed data) in F, D.
  fold stats in F, D. cbn [folders_processed documents_processed] in F, D.
  assert (Hdocs : list_sum (List.map (fun f => length (f2_documents f))
                                     (p_folders p))
                  = documents_processed stats).
  { rewrite T, D. reflexivity. }
  split; [| split; [exact Hdocs | split]].
  - rewrite F. rewrite <- (length_map f2_name), N, length_map. reflexivity.
  - rewrite C. cbv zeta. rewrite Hdocs. reflexivity.
  - unfold entries, convert_schema1_to_zip.
    fold docs_by_id trash_doc_ids trash_folder_ids.
    rewrite write_folders_directories.
    rewrite <- (List.map_map folder_slug (fun s => (s +:+ "/", EmptyString))).
    rewrite <- N, List.map_map. reflexivity.
Qed.

(** X14. Structured target: the output folders are the exported folders
    in the order of [sorted(folders, key=sort)], numbered 0, 1, 2, ...
    without gaps where a folder was skipped.  That order is a
    rearrangement of the input that is ascending in the sort value (0 when
    the key is absent) and keeps folders of equal sort value in their
    input order. *)
Theorem folders_follow_sort_order :
  forall (uuid : nat -> string) (feed : string -> FeedResult)
         (data : Schema1) (n : nat),
    let p := fst (convert_schema1_to_schema2 uuid feed data n) in
    let sorted_folders := sort_folders (folders data) in
    List.map f2_name (p_folders p)
    = List.map folder_slug
        (List.filter (exported (documentsById data)
                               (set_of (trash_documentIds (trash data)))
                               (set_of (trash_folderIds (trash data))))
                     sorted_folders)
    /\ List.map f2_order (p_folders p) = seq 0 (length (p_folders p))
    /\ Permutation sorted_folders (folders data)
    /\ StronglySorted (fun a b => (sort_value a <= sort_value b)%Z)
                      sorted_folders
    /\ (forall z,
          List.filter (fun f => Z.eqb (sort_value f) z) sorted_folders
          = List.filter (fun f => Z.eqb (sort_value f) z) (folders data)).
Proof.
  intros uuid feed data n p sorted_folders.
  destruct (schema2_folders uuid feed data n) as [P _]. fold p in P.
  destruct (convert_folders_heads uuid feed (documentsById data)
              (set_of (trash_documentIds (trash data)))
              (set_of (trash_folderIds (trash data)))
              (sort_folders (folders data)) 0 n) as [N O].
  rewrite <- P in N, O.
  split; [exact N |]. split; [exact O |].
  split; [apply sort_folders_perm |].
  split; [apply sort_folders_sorted |].
  intros z. apply sort_folders_stable.
Qed.


(** X16. Structured target: every document of the output is a manuscript
    in status [draft] (only records whose [status] key is absent or holds
    [active] are exported, and both become [draft]); its synopsis is never
    the empty string; the optional fields are unset; and its word count is
    [count_words] of the very block list its content serializes, every
    block of which has content. *)
Theorem exported_documents_are_drafts :
  forall (uuid : nat -> string) (feed : string -> FeedResult)
         (data : Schema1) (n : nat),
    Forall (fun f2 => Forall exported_document (f2_documents f2))
           (p_folders (fst (convert_schema1_to_schema2 uuid feed data n))).
Proof.
  intros uuid feed data n.
  destruct (schema2_folders uuid feed data n) as [P _].
  cbv zeta in P. rewrite P. apply convert_folders_documents.
Qed.


(** X20. Archive target: tags the emitter has no output for ([u] and
    every tag it does not name) leave no trace.  Markup made of such tags
    only becomes its text, trimmed, with runs of three or more newlines
    collapsed to two. *)
Theorem markdown_unknown_tags_are_transparent :
  forall (feed : string -> FeedResult) (html : string) (evs : list Event),
    Py.truthy html = true -> feed html = Fed evs ->
    forallb (fun e => negb (is_tag markdown_tags e)) evs = true ->
    html_to_markdown feed html
    = Re.sub re_newlines3 (nl +:+ nl) (Py.strip (Py.concat (data_of evs))).
Proof.
  intros feed html evs T F H.
  unfold html_to_markdown. rewrite T, F. cbn [negb].
  rewrite (md_handle_all_transparent evs
             HTMLToMarkdownConverter.new_converter H).
  reflexivity.
Qed.

Lemma markdown_unknown_tags_are_transparent_witness :
  html_to_markdown (HTMLParser.feed (fun s => s))
                   " <div>one <u>two</u></div><span>three</span> "
  = "one twothree".
Proof.
  exact (markdown_unknown_tags_are_transparent
           (HTMLParser.feed (fun s => s))
           " <div>one <u>two</u></div><span>three</span> "
           [Data " "; StartTag "div" []; Data "one "; StartTag "u" [];
            Data "two"; EndTag "u"; EndTag "div"; StartTag "span" [];
            Data "three"; EndTag "span"; Data " "]
           eq_refl eq_refl eq_refl).
Defined.

(** X21. Link targets.  The href of an [a] tag is the value of its last
    [href] attribute, the empty string when it has none, and [None] when
    that attribute is written without value.  In the archive target a link
    whose body holds no other [a] tag is emitted as an opening bracket, the
    body, and the target in parentheses, where a [None] target reads
    [None]; the stack of open links is as before.  An end tag with no link
    open emits nothing. *)
Theorem link_targets :
  (forall attrs,
     href_of attrs
     = match last_href attrs with Some v => v | None => Some EmptyString end)
  /\ (forall tag tag' attrs body c,
        Py.lower tag = "a" -> Py.lower tag' = "a" ->
        forallb (fun e => negb (is_tag ["a"] e)) body = true ->
        let c3 := HTMLToMarkdownConverter.handle_all
                    (StartTag tag attrs :: body ++ [EndTag tag']) c in
        (exists out,
           HTMLToMarkdownConverter.result c3
           = HTMLToMarkdownConverter.result c ++ ["["] ++ out
             ++ ["](" +:+ HTMLToMarkdownConverter.format_href (href_of attrs)
                 +:+ ")"])
        /\ HTMLToMarkdownConverter.current_text c3
           = HTMLToMarkdownConverter.current_text c)
  /\ (forall tag c,
        Py.lower tag = "a" -> HTMLToMarkdownConverter.current_text c = [] ->
        HTMLToMarkdownConverter.handle_endtag tag c = c)
  /\ HTMLToMarkdownConverter.format_href None = "None".
Proof.
  split; [exact href_of_last |]. split; [| split; [| reflexivity]].
  - intros tag tag' attrs body c Ht Ht' Hb. apply md_link; assumption.
  - intros tag c Ht E. apply md_stray_end; assumption.
Qed.

Lemma link_targets_witness :
  exists out,
    HTMLToMarkdownConverter.result
      (HTMLToMarkdownConverter.handle_all
         (StartTag "A" [("href", Some "x"); ("id", Some "i"); ("href", None)]
            :: [Data "t"; StartTag "em" []; Data "u"; EndTag "em"]
            ++ [EndTag "a"])
         HTMLToMarkdownConverter.new_converter)
    = [] ++ ["["] ++ out ++ ["](None)"].
Proof.
  exact (proj1 (proj1 (proj2 link_targets) "A" "a"
                      [("href", Some "x"); ("id", Some "i"); ("href", None)]
                      [Data "t"; StartTag "em" []; Data "u"; EndTag "em"]
                      HTMLToMarkdownConverter.new_converter
                      eq_refl eq_refl eq_refl)).
Defined.

(** ** Documents made of simple elements *)

Section SimpleElements.

Import HTMLToBlockNoteConverter.

Variable uuid : nat -> string.

Lemma concat_one (t : string) : Py.concat [t] = t.
Proof. reflexivity. Qed.

Lemma handle_para (text : string) (bs : list Block) (n : nat) :
  Py.truthy text = true ->
  handle_all uuid (element_events (Para text)) (between_elements bs) n
  = (between_elements (bs ++ [element_block (uuid n) (Para text)]), S n).
Proof.
  intros T. destruct text as [| a t]; [discriminate T |]. reflexivity.
Qed.

Lemma handle_head (lvl : nat) (text : string) (bs : list Block) (n : nat) :
  Py.truthy text = true -> (1 <=? lvl) && (lvl <=? 6) = true ->
  handle_all uuid (element_events (Head lvl text)) (between_elements bs) n
  = (between_elements (bs ++ [element_block (uuid n) (Head lvl text)]), S n).
Proof.
  intros T R. destruct text as [| a t]; [discriminate T |].
  apply andb_prop in R as [L U]. apply Nat.leb_le in L, U.
  destruct lvl as [| [| [| [| [| [| [| lvl]]]]]]]; try lia; reflexivity.
Qed.

Lemma handle_elements (els : list Element) :
  forall (bs : list Block) (n : nat),
    forallb element_ok els = true ->
    handle_all uuid (flat_map element_events els) (between_elements bs) n
    = (between_elements (bs ++ element_blocks uuid n els), n + length els).
Proof.
  induction els as [| el els IH]; intros bs n H.
  - cbn. rewrite app_nil_r, Nat.add_0_r. reflexivity.
  - cbn [forallb] in H. apply andb_prop in H as [He H].
    cbn [flat_map].
    assert (A : forall evs1 evs2 c m,
               handle_all uuid (evs1 ++ evs2) c m
               = handle_all uuid evs2 (fst (handle_all uuid evs1 c m))
                                      (snd (handle_all uuid evs1 c m))).
    { induction evs1 as [| e evs1 IH1]; intros evs2 c m; [reflexivity |].
      cbn [app handle_all]. destruct (handle uuid e c m) as [c1 m1].
      apply IH1. }
    rewrite A.
    assert (E : handle_all uuid (element_events el) (between_elements bs) n
                = (between_elements (bs ++ [element_block (uuid n) el]), S n)).
    { destruct el as [text | lvl text]; cbn [element_ok] in He.
      - apply handle_para, He.
      - apply andb_prop in He as [He U]. apply andb_prop in He as [T L].
        apply handle_head; [exact T |]. rewrite L, U. reflexivity. }
    rewrite E. cbn [fst snd]. rewrite (IH _ _ H).
    cbn [element_blocks length]. rewrite <- app_assoc.
    replace (Datatypes.S n + length els) with (n + Datatypes.S (length els))
      by lia.
    reflexivity.
Qed.

Lemma element_block_has_content (i : string) (el : Element) :
  has_content (element_block i el) = true.
Proof. destruct el; reflexivity. Qed.

Lemma element_blocks_kept (n : nat) (els : list Element) :
  List.filter has_content (element_blocks uuid n els)
  = element_blocks uuid n els.
Proof.
  revert n. induction els as [| el els IH]; intros n; [reflexivity |].
  cbn [element_blocks List.filter].
  rewrite element_block_has_content, IH. reflexivity.
Qed.

End SimpleElements.

(** ** The Markdown emitter keeps the text *)

Section MarkdownText.

Import HTMLToMarkdownConverter.

Lemma md_handle_keeps_text (e : Event) (c : MarkdownConverter) :
  exists out,
    result (handle e c) = result c ++ out /\ sublist (data_of [e]) out.
Proof.
  destruct e as [tag attrs | tag | d].
  - destruct (md_handle_appends (StartTag tag attrs) c) as [out E].
    exists out. split; [exact E | apply sublist_nil_l].
  - destruct (md_handle_appends (EndTag tag) c) as [out E].
    exists out. split; [exact E | apply sublist_nil_l].
  - exists [d]. split; reflexivity.
Qed.

End MarkdownText.

(** X22. Structured target: markup that is a sequence of paragraphs and
    headings around plain, non-empty text becomes one block per element,
    in order: a paragraph with one unstyled run, or a heading of the tag's
    level with one unstyled run.  The ids are the next values of the id
    supply, one per element. *)
Theorem simple_elements_become_blocks :
  forall (uuid : nat -> string) (feed : string -> FeedResult)
         (html : string) (els : list Element) (n : nat),
    Py.truthy html = true ->
    feed html = Fed (flat_map element_events els) ->
    forallb element_ok els = true ->
    html_to_blocknote uuid feed html n
    = (element_blocks uuid n els, n + length els).
Proof.
  intros uuid feed html els n T F H.
  unfold html_to_blocknote. rewrite T, F. cbn [negb].
  change HTMLToBlockNoteConverter.new_converter with (between_elements []).
  rewrite (handle_elements uuid els [] n H). cbn [app].
  unfold HTMLToBlockNoteConverter.get_blocknote_json,
    HTMLToBlockNoteConverter._flush_block,
    HTMLToBlockNoteConverter._flush_text.
  cbn [between_elements HTMLToBlockNoteConverter.pending_text
       HTMLToBlockNoteConverter.current_content
       HTMLToBlockNoteConverter.blocks].
  rewrite element_blocks_kept. reflexivity.
Qed.

Lemma simple_elements_become_blocks_witness :
  html_to_blocknote Py.str_of_nat (HTMLParser.feed (fun s => s))
                    "<h2>Title</h2><p>one</p><p>two</p>" 3
  = ([heading "3" 2 [text_run "Title" []];
      paragraph "4" [text_run "one" []];
      paragraph "5" [text_run "two" []]], 6).
Proof.
  exact (simple_elements_become_blocks
           Py.str_of_nat (HTMLParser.feed (fun s => s))
           "<h2>Title</h2><p>one</p><p>two</p>"
           [Head 2 "Title"; Para "one"; Para "two"] 3
           eq_refl eq_refl eq_refl).
Defined.

(** X23. Archive target: the emitter only ever appends to its buffer, and
    what it appends for a sequence of events holds the text pieces
    delivered, in order and unchanged; tags add pieces between them and
    remove none. *)
Theorem markdown_keeps_the_text :
  forall (evs : list Event) (c : HTMLToMarkdownConverter.MarkdownConverter),
    exists out,
      HTMLToMarkdownConverter.result (HTMLToMarkdownConverter.handle_all evs c)
      = HTMLToMarkdownConverter.result c ++ out
      /\ sublist (data_of evs) out.
Proof.
  intros evs. induction evs as [| e evs IH]; intros c.
  - exists []. split; [cbn; rewrite app_nil_r; reflexivity | constructor].
  - rewrite md_handle_all_cons.
    destruct (md_handle_keeps_text e c) as (out1 & E1 & S1).
    destruct (IH (HTMLToMarkdownConverter.handle e c)) as (out2 & E2 & S2).
    exists (out1 ++ out2). split.
    + rewrite E2, E1, <- app_assoc. reflexivity.
    + change (e :: evs) with ([e] ++ evs). rewrite data_of_app.
      apply sublist_app; assumption.
Qed.

(** ** What [strip] removes *)

Lemma lstrip_by_split (p : ascii -> bool) (l : list ascii) :
  exists pre, l = pre ++ Py.lstrip_by p l /\ forallb p pre = true.
Proof.
  induction l as [| c l (pre & E & P)]; [exists []; split; reflexivity |].
  cbn [Py.lstrip_by]. destruct (p c) eqn:Pc.
  - exists (c :: pre). split; [cbn; rewrite <- E; reflexivity |].
    cbn. rewrite Pc. exact P.
  - exists []. split; reflexivity.
Qed.

Lemma lstrip_by_all (p : ascii -> bool) (l : list ascii) :
  forallb p l = true -> Py.lstrip_by p l = [].
Proof.
  induction l as [| c l IH]; [reflexivity |].
  cbn. intros H. apply andb_prop in H as [-> H]. apply IH, H.
Qed.

Lemma forallb_rev {A : Type} (p : A -> bool) (l : list A) :
  forallb p (rev l) = forallb p l.
Proof.
  induction l as [| x l IH]; [reflexivity |].
  cbn [rev]. rewrite forallb_app, IH. cbn. rewrite andb_true_r. apply andb_comm.
Qed.

(** [strip_by] cuts a run of [p] characters off each end, and the rest has
    none at either end. *)
Lemma strip_by_split (p : ascii -> bool) (l : list ascii) :
  exists pre post,
    l = pre ++ Py.strip_by p l ++ post
    /\ forallb p pre = true /\ forallb p post = true.
Proof.
  unfold Py.strip_by.
  destruct (lstrip_by_split p l) as (pre & E & P).
  destruct (lstrip_by_split p (rev (Py.lstrip_by p l))) as (post & E' & P').
  exists pre, (rev post). split; [| split; [exact P |]].
  - rewrite E at 1. f_equal.
    rewrite <- (rev_involutive (Py.lstrip_by p l)) at 1.
    rewrite E' at 1. rewrite rev_app_distr. reflexivity.
  - rewrite forallb_rev. exact P'.
Qed.

Lemma blank_strip (s : string) : blank s = true -> Py.strip s = EmptyString.
Proof.
  unfold blank, Py.strip, Py.strip_by. intros B.
  rewrite (lstrip_by_all _ _ B). reflexivity.
Qed.

Lemma not_blank_strip (s : string) :
  blank s = false -> trimmed_to s (Py.strip s).
Proof.
  unfold blank, trimmed_to, Py.strip. intros B.
  destruct (strip_by_split Py.isspace (Py.chars s)) as (pre & post & E & P & Q).
  destruct (strip_by_trimmed Py.isspace (Py.chars s)) as [Hd Tl].
  exists (Py.str pre), (Py.str post).
  split; [| split; [| split]].
  - rewrite <- !str_app, <- E. symmetry. apply str_chars.
  - unfold blank. rewrite chars_str. exact P.
  - unfold blank. rewrite chars_str. exact Q.
  - unfold no_space_at_ends. rewrite chars_str.
    destruct (Py.strip_by Py.isspace (Py.chars s)) as [| a t] eqn:S.
    + exfalso. rewrite E in B. cbn [app] in B.
      rewrite forallb_app, P, Q in B. discriminate B.
    + rewrite (Hd a t eq_refl).
      destruct (rev (a :: t)) as [| b t'] eqn:R.
      * apply (f_equal (@length ascii)) in R. rewrite length_rev in R.
        discriminate R.
      * rewrite (Tl b t' eq_refl). reflexivity.
Qed.

Lemma no_space_at_ends_truthy (s : string) :
  no_space_at_ends s = true -> Py.truthy s = true.
Proof. destruct s; [discriminate | reflexivity]. Qed.

(** C1. Both conversions are total functions of the input string whose one
    fallible step, the tokenizer call, is matched on both outcomes.  When
    the tokenizer raises, [html_to_blocknote] returns no block if the
    tag-stripped text is made of whitespace only, and otherwise one
    paragraph block whose single unstyled run is that text without the
    whitespace at its two ends; [html_to_markdown] returns the
    tag-stripped text unchanged, blanks included.  When the tokenizer
    returns, the two results are built from the handler state.  For
    ["<p>text"] the tokenizer delivers a start tag and the text, and either
    way the result carries the text ["text"].  Samples on which the
    tokenizer raises: markup that leaves two blanks, and markup that leaves
    text between blanks. *)
Theorem conversions_survive_malformed_markup :
  forall (uuid : nat -> string) (feed : string -> FeedResult)
         (html : string) (n : nat),
    (forall evs, feed html = Raised evs ->
       let text := Re.sub re_tag EmptyString html in
       (blank text = true -> fst (html_to_blocknote uuid feed html n) = [])
       /\ (blank text = false ->
           exists i t,
             fst (html_to_blocknote uuid feed html n) = [fallback_block i t]
             /\ trimmed_to text t)
       /\ (exists i n',
             html_to_blocknote uuid feed html n =
               (if Py.truthy (Py.strip text)
                then [fallback_block i (Py.strip text)]
                else [], n'))
       /\ html_to_markdown feed html = text)
    /\ (forall evs, feed html = Fed evs -> Py.truthy html = true ->
          (exists c n',
             HTMLToBlockNoteConverter.get_blocknote_json uuid
               (fst (HTMLToBlockNoteConverter.handle_all uuid evs
                       HTMLToBlockNoteConverter.new_converter n))
               (snd (HTMLToBlockNoteConverter.handle_all uuid evs
                       HTMLToBlockNoteConverter.new_converter n)) = (c, n')
             /\ html_to_blocknote uuid feed html n =
                  (List.filter has_content (HTMLToBlockNoteConverter.blocks c), n'))
          /\ html_to_markdown feed html =
               Re.sub re_newlines3 (nl +:+ nl)
                 (HTMLToMarkdownConverter.get_markdown
                    (HTMLToMarkdownConverter.handle_all evs
                       HTMLToMarkdownConverter.new_converter)))
    /\ (forall replace_charrefs,
          HTMLParser.feed replace_charrefs "<p>text"
            = Fed [StartTag "p" []; Data "text"]
          /\ html_to_blocknote uuid (HTMLParser.feed replace_charrefs) "<p>text" n
               = ([paragraph (uuid n) [text_run "text" []]], S n)
          /\ html_to_markdown (HTMLParser.feed replace_charrefs) "<p>text" = "text")
    /\ (feed "<p>text" = Fed [StartTag "p" []; Data "text"] ->
        html_to_blocknote uuid feed "<p>text" n
          = ([paragraph (uuid n) [text_run "text" []]], S n)
        /\ html_to_markdown feed "<p>text" = "text")
    /\ (forall evs, feed "<p>text" = Raised evs ->
          (exists i n',
             html_to_blocknote uuid feed "<p>text" n = ([fallback_block i "text"], n'))
          /\ html_to_markdown feed "<p>text" = "text")
    /\ (forall replace_charrefs,
          HTMLParser.feed replace_charrefs " <![x]> " = Raised [Data " "]
          /\ html_to_blocknote uuid (HTMLParser.feed replace_charrefs) " <![x]> " n
             = ([], n)
          /\ html_to_markdown (HTMLParser.feed replace_charrefs) " <![x]> " = "  ")
    /\ (forall replace_charrefs,
          HTMLParser.feed replace_charrefs "<p> a b </p><![x]>"
            = Raised [StartTag "p" []; Data " a b "; EndTag "p"]
          /\ html_to_blocknote uuid (HTMLParser.feed replace_charrefs)
                               "<p> a b </p><![x]>" n
             = ([fallback_block (uuid (S n)) "a b"], S (S n))
          /\ html_to_markdown (HTMLParser.feed replace_charrefs)
                              "<p> a b </p><![x]>" = " a b ").
Proof.
  intros uuid feed html n.
  split; [| split; [| split; [| split; [| split; [| split]]]]].
  - intros evs Hfeed text.
    destruct (html_to_blocknote_raised uuid feed html n evs Hfeed)
      as (i & n' & E).
    fold text in E.
    split; [| split; [| split]].
    + intros B. rewrite E, (blank_strip text B). reflexivity.
    + intros B. pose proof (not_blank_strip text B) as T.
      exists i, (Py.strip text). split; [| exact T].
      rewrite E.
      destruct T as (_ & _ & _ & _ & _ & T).
      rewrite (no_space_at_ends_truthy _ T). reflexivity.
    + exists i, n'. exact E.
    + eapply html_to_markdown_raised; eassumption.
  - intros evs Hfeed Hhtml. split.
    + unfold html_to_blocknote. rewrite Hhtml, Hfeed. simpl.
      destruct (HTMLToBlockNoteConverter.handle_all uuid evs _ n) as [c1 n1]. simpl.
      destruct (HTMLToBlockNoteConverter.get_blocknote_json uuid c1 n1) as [c2 n2].
      exists c2, n2. split; reflexivity.
    + unfold html_to_markdown. rewrite Hhtml, Hfeed. reflexivity.
  - intros replace_charrefs. repeat split; vm_compute; reflexivity.
  - intros Hfeed. unfold html_to_blocknote, html_to_markdown. rewrite Hfeed.
    split; vm_compute; reflexivity.
  - intros evs Hfeed. split.
    + destruct (html_to_blocknote_raised uuid feed "<p>text" n evs Hfeed)
        as (i & n' & E).
      exists i, n'. exact E.
    + rewrite (html_to_markdown_raised feed "<p>text" evs Hfeed). reflexivity.
  - intros replace_charrefs. repeat split; vm_compute; reflexivity.
  - intros replace_charrefs. repeat split; vm_compute; reflexivity.
Qed.

(** An input on which the tokenizer raises and whose tag-stripped text is
    two blanks: no block, and the blanks as Markdown. *)
Lemma conversions_survive_malformed_markup_witness :
  HTMLParser.feed (fun s => s) " <![x]> " = Raised [Data " "]
  /\ blank (Re.sub re_tag EmptyString " <![x]> ") = true
  /\ fst (html_to_blocknote Py.str_of_nat (HTMLParser.feed (fun s => s))
                            " <![x]> " 0) = []
  /\ html_to_markdown (HTMLParser.feed (fun s => s)) " <![x]> " = "  ".
Proof.
  split; [vm_compute; reflexivity |].
  split; [vm_compute; reflexivity |].
  pose proof (proj1 (conversions_survive_malformed_markup
                       Py.str_of_nat (HTMLParser.feed (fun s => s)) " <![x]> " 0)
                    [Data " "] eq_refl) as H.
  cbv zeta in H. destruct H as (B & _ & _ & M).
  split; [exact (B eq_refl) | exact M].
Defined.

(** Text with an ampersand: text that no tag follows is delivered when
    whitespace or a semicolon comes after its last ampersand, and is kept
    in the buffer of the tokenizer otherwise. *)
Lemma trailing_ampersand_is_held_back (replace_charrefs : string -> string) :
  HTMLParser.feed replace_charrefs "Tom & Jerry"
  = Fed [Data (replace_charrefs "Tom & Jerry")]
  /\ HTMLParser.feed replace_charrefs "a b &c" = Fed []
  /\ HTMLParser.feed replace_charrefs "<p>a &amp</p>"
     = Fed [StartTag "p" []; Data (replace_charrefs "a &amp"); EndTag "p"].
Proof. repeat split; vm_compute; reflexivity. Qed.

(** ** List items of the Markdown emitter *)

Section ListItems.

Import HTMLToMarkdownConverter.

Lemma plain_items_flat (texts : list string) :
  forallb flat_body (List.map (fun t => [Data t]) texts) = true.
Proof. induction texts as [| t ts IH]; [reflexivity | exact IH]. Qed.

Lemma plain_items_bodies (texts : list string) :
  plain_items texts = flat_map list_item (List.map (fun t => [Data t]) texts).
Proof.
  unfold plain_items. induction texts as [| t ts IH]; [reflexivity |].
  cbn [flat_map List.map]. rewrite IH. reflexivity.
Qed.

(** Plain items while the list type is not [ul]: numbered on from the
    counter. *)
Lemma plain_items_numbered (texts : list string) :
  forall c,
    is_value (list_type c) "ul" = false ->
    let c' := handle_all (plain_items texts) c in
    result c' = result c ++ numbered (S (list_item_count c)) texts
    /\ list_type c' = list_type c
    /\ list_item_count c' = list_item_count c + length texts.
Proof.
  induction texts as [| t ts IH]; intros c Hul.
  - cbn. rewrite app_nil_r. repeat split; lia.
  - unfold plain_items. cbn [flat_map]. fold (plain_items ts).
    cbv zeta. rewrite md_handle_list_item, starttag_li, Hul.
    match goal with
    | |- context [handle_all (plain_items ts) ?s] => set (c1 := s)
    end.
    assert (Hul1 : is_value (list_type c1) "ul" = false) by exact Hul.
    destruct (IH c1 Hul1) as (R & T & N). cbv zeta in R, T, N.
    rewrite R, T, N. subst c1. cbn.
    rewrite <- !app_assoc. cbn.
    replace (list_item_count c + 1) with (S (list_item_count c)) by lia.
    repeat split; lia.
Qed.

(** Plain items while the list type is [ul]: a hyphen each, and the counter
    stays. *)
Lemma plain_items_bulleted (texts : list string) :
  forall c,
    list_type c = Some "ul" ->
    let c' := handle_all (plain_items texts) c in
    result c' = result c ++ bulleted texts
    /\ list_type c' = Some "ul"
    /\ list_item_count c' = list_item_count c.
Proof.
  induction texts as [| t ts IH]; intros c Hul.
  - cbn. rewrite app_nil_r. auto.
  - unfold plain_items. cbn [flat_map]. fold (plain_items ts).
    cbv zeta. rewrite md_handle_list_item, starttag_li, Hul.
    cbn [is_value String.eqb Ascii.eqb Bool.eqb].
    match goal with
    | |- context [handle_all (plain_items ts) ?s] => set (c1 := s)
    end.
    assert (Hul1 : list_type c1 = Some "ul") by exact Hul.
    destruct (IH c1 Hul1) as (R & T & N). cbv zeta in R, T, N.
    rewrite R, T, N. subst c1. cbn.
    rewrite <- !app_assoc. cbn. auto.
Qed.

End ListItems.

(** C7. The Markdown emitter keeps one list type and one counter, no
    stack of open lists: [<ol>] sets the type and puts the
    counter to 0, [<ul>] sets the type and leaves the counter, [</ul>] and
    [</ol>] emit one newline and clear the type.  An [<li>] read while the
    type is [ul] emits ["- "]; any other [<li>] adds one to the counter and
    emits the new value followed by a dot and a space.  Hence, in a list
    whose items hold no list tag, the items of [<ul>] get ["- "] and the
    items of [<ol>] are numbered 1, 2, ...: after [k] such items the next
    is numbered [k + 1], and a list of plain-text items is emitted item by
    item, with one more newline for the list end.  For the two-item sample
    the buffer is ["1. a\n2. b\n\n"] and the function returns it trimmed,
    which is the trimmed ["1. a\n2. b\n"]. *)
Theorem markdown_flat_list_items :
  (forall attrs c,
     HTMLToMarkdownConverter.list_item_count
       (HTMLToMarkdownConverter.handle_starttag "ol" attrs c) = 0
     /\ HTMLToMarkdownConverter.list_type
          (HTMLToMarkdownConverter.handle_starttag "ol" attrs c) = Some "ol")
  /\ (forall attrs c,
        HTMLToMarkdownConverter.list_item_count
          (HTMLToMarkdownConverter.handle_starttag "ul" attrs c)
        = HTMLToMarkdownConverter.list_item_count c
        /\ HTMLToMarkdownConverter.list_type
             (HTMLToMarkdownConverter.handle_starttag "ul" attrs c) = Some "ul")
  /\ (forall tag c,
        tag = "ul" \/ tag = "ol" ->
        HTMLToMarkdownConverter.result (HTMLToMarkdownConverter.handle_endtag tag c)
          = HTMLToMarkdownConverter.result c ++ [nl]
        /\ HTMLToMarkdownConverter.list_type
             (HTMLToMarkdownConverter.handle_endtag tag c) = None
        /\ HTMLToMarkdownConverter.list_item_count
             (HTMLToMarkdownConverter.handle_endtag tag c)
           = HTMLToMarkdownConverter.list_item_count c)
  /\ (forall attrs c,
        HTMLToMarkdownConverter.list_type c = Some "ul" ->
        HTMLToMarkdownConverter.handle_starttag "li" attrs c
          = HTMLToMarkdownConverter.emit "- " c)
  /\ (forall attrs c,
        is_value (HTMLToMarkdownConverter.list_type c) "ul" = false ->
        HTMLToMarkdownConverter.result
          (HTMLToMarkdownConverter.handle_starttag "li" attrs c)
          = HTMLToMarkdownConverter.result c
              ++ [Py.str_of_nat (HTMLToMarkdownConverter.list_item_count c + 1)
                    +:+ ". "]
        /\ HTMLToMarkdownConverter.list_item_count
             (HTMLToMarkdownConverter.handle_starttag "li" attrs c)
           = HTMLToMarkdownConverter.list_item_count c + 1)
  /\ (forall attrs attrs' bodies c,
        forallb flat_body bodies = true ->
        let c' := HTMLToMarkdownConverter.handle_all
                    (StartTag "ol" attrs :: flat_map list_item bodies) c in
        HTMLToMarkdownConverter.result
          (HTMLToMarkdownConverter.handle_starttag "li" attrs' c')
          = HTMLToMarkdownConverter.result c'
              ++ [Py.str_of_nat (length bodies + 1) +:+ ". "])
  /\ (forall attrs attrs' bodies c,
        forallb flat_body bodies = true ->
        let c' := HTMLToMarkdownConverter.handle_all
                    (StartTag "ul" attrs :: flat_map list_item bodies) c in
        HTMLToMarkdownConverter.handle_starttag "li" attrs' c'
          = HTMLToMarkdownConverter.emit "- " c')
  /\ (forall attrs texts c,
        HTMLToMarkdownConverter.result
          (HTMLToMarkdownConverter.handle_all
             (StartTag "ol" attrs :: plain_items texts ++ [EndTag "ol"]) c)
        = HTMLToMarkdownConverter.result c ++ numbered 1 texts ++ [nl])
  /\ (forall attrs texts c,
        HTMLToMarkdownConverter.result
          (HTMLToMarkdownConverter.handle_all
             (StartTag "ul" attrs :: plain_items texts ++ [EndTag "ul"]) c)
        = HTMLToMarkdownConverter.result c ++ bulleted texts ++ [nl])
  /\ (forall replace_charrefs,
        HTMLParser.feed replace_charrefs "<ol><li>a</li><li>b</li></ol>"
        = Fed (StartTag "ol" [] :: plain_items ["a"; "b"] ++ [EndTag "ol"]))
  /\ (forall feed : string -> FeedResult,
        feed "<ol><li>a</li><li>b</li></ol>"
        = Fed (StartTag "ol" [] :: plain_items ["a"; "b"] ++ [EndTag "ol"]) ->
        html_to_markdown feed "<ol><li>a</li><li>b</li></ol>"
          = Py.strip ("1. a" +:+ nl +:+ "2. b" +:+ nl)
        /\ html_to_markdown feed "<ol><li>a</li><li>b</li></ol>"
           = "1. a" +:+ nl +:+ "2. b").
Proof.
  split; [| split; [| split; [| split; [| split; [| split; [| split;
    [| split; [| split; [| split]]]]]]]]].
  - intros attrs c. rewrite starttag_ol. split; reflexivity.
  - intros attrs c. rewrite starttag_ul. split; reflexivity.
  - intros tag c Htag. rewrite (endtag_list tag c Htag). repeat split.
  - intros attrs c Hul. rewrite starttag_li, Hul. reflexivity.
  - intros attrs c Hul. rewrite starttag_li, Hul. split; reflexivity.
  - intros attrs attrs' bodies c Hflat c'.
    assert (H : HTMLToMarkdownConverter.list_type c' = Some "ol"
                /\ HTMLToMarkdownConverter.list_item_count c' = length bodies).
    { subst c'. rewrite md_handle_all_cons.
      cbn [HTMLToMarkdownConverter.handle]. rewrite starttag_ol.
      match goal with
      | |- context [HTMLToMarkdownConverter.handle_all _ ?s] =>
          destruct (list_items_counted bodies s Hflat) as [T N]
      end.
      split; [exact T | rewrite (N eq_refl); reflexivity]. }
    destruct H as [T N]. rewrite starttag_li, T, N. reflexivity.
  - intros attrs attrs' bodies c Hflat c'.
    assert (T : HTMLToMarkdownConverter.list_type c' = Some "ul").
    { subst c'. rewrite md_handle_all_cons.
      cbn [HTMLToMarkdownConverter.handle]. rewrite starttag_ul.
      match goal with
      | |- context [HTMLToMarkdownConverter.handle_all _ ?s] =>
          destruct (list_items_counted bodies s Hflat) as [T _]
      end.
      exact T. }
    rewrite starttag_li, T. reflexivity.
  - intros attrs texts c.
    rewrite md_handle_all_cons, md_handle_all_app.
    cbn [HTMLToMarkdownConverter.handle]. rewrite starttag_ol.
    match goal with
    | |- context [HTMLToMarkdownConverter.handle_all (plain_items texts) ?s] =>
        destruct (plain_items_numbered texts s eq_refl) as (R & _ & _)
    end.
    cbv zeta in R.
    change (HTMLToMarkdownConverter.handle_all [EndTag "ol"] ?s)
      with (HTMLToMarkdownConverter.handle_endtag "ol" s).
    rewrite (endtag_list "ol" _ (or_intror eq_refl)).
    cbn [HTMLToMarkdownConverter.emit HTMLToMarkdownConverter.result].
    rewrite R. cbn [HTMLToMarkdownConverter.result
                      HTMLToMarkdownConverter.list_item_count].
    rewrite <- app_assoc. reflexivity.
  - intros attrs texts c.
    rewrite md_handle_all_cons, md_handle_all_app.
    cbn [HTMLToMarkdownConverter.handle]. rewrite starttag_ul.
    match goal with
    | |- context [HTMLToMarkdownConverter.handle_all (plain_items texts) ?s] =>
        destruct (plain_items_bulleted texts s eq_refl) as (R & _ & _)
    end.
    cbv zeta in R.
    change (HTMLToMarkdownConverter.handle_all [EndTag "ul"] ?s)
      with (HTMLToMarkdownConverter.handle_endtag "ul" s).
    rewrite (endtag_list "ul" _ (or_introl eq_refl)).
    cbn [HTMLToMarkdownConverter.emit HTMLToMarkdownConverter.result].
    rewrite R. cbn [HTMLToMarkdownConverter.result].
    rewrite <- app_assoc. reflexivity.
  - intros replace_charrefs. vm_compute. reflexivity.
  - intros feed Hfeed. unfold html_to_markdown. rewrite Hfeed.
    split; vm_compute; reflexivity.
Qed.

(** After [<ol>] and two items of plain text the next item is numbered 3. *)
Lemma markdown_flat_list_items_witness :
  HTMLToMarkdownConverter.result
    (HTMLToMarkdownConverter.handle_all
       (StartTag "ol" [] :: flat_map list_item [[Data "a"]; [Data "b"]]
          ++ [StartTag "li" []])
       HTMLToMarkdownConverter.new_converter)
  = ["1. "; "a"; nl; "2. "; "b"; nl; "3. "].
Proof.
  rewrite app_comm_cons, md_handle_all_app.
  change (HTMLToMarkdownConverter.handle_all [StartTag "li" []] ?c)
    with (HTMLToMarkdownConverter.handle_starttag "li" [] c).
  rewrite (proj1 (proj2 (proj2 (proj2 (proj2 (proj2 markdown_flat_list_items)))))
             [] [] [[Data "a"]; [Data "b"]]
             HTMLToMarkdownConverter.new_converter eq_refl).
  reflexivity.
Defined.

(** C7 does not extend to nested lists.  The item [c] below is an item
    of the unordered list, read after the ordered list inside the first
    item has ended: it is emitted as ["2. "], not as ["- "].
    The item [d] is the second item of the outer ordered list and is
    numbered 3, the counter running on from the inner list. *)
Lemma nested_list_items_are_renumbered :
  let html := "<ul><li>a<ol><li>b</li></ol></li><li>c</li></ul>" in
  let before_c :=
    [StartTag "ul" []; StartTag "li" []; Data "a"; StartTag "ol" [];
     StartTag "li" []; Data "b"; EndTag "li"; EndTag "ol"; EndTag "li"] in
  let seen := HTMLToMarkdownConverter.handle_all
                before_c HTMLToMarkdownConverter.new_converter in
  HTMLParser.feed (fun s => s) html
  = Fed (before_c ++ [StartTag "li" []; Data "c"; EndTag "li"; EndTag "ul"])
  /\ HTMLToMarkdownConverter.result
       (HTMLToMarkdownConverter.handle_starttag "li" [] seen)
     = HTMLToMarkdownConverter.result seen ++ ["2. "]
  /\ HTMLToMarkdownConverter.result
       (HTMLToMarkdownConverter.handle_starttag "li" [] seen)
     <> HTMLToMarkdownConverter.result seen ++ ["- "]
  /\ html_to_markdown (HTMLParser.feed (fun s => s)) html
     = "- a1. b" +:+ nl +:+ nl +:+ "2. c"
  /\ html_to_markdown (HTMLParser.feed (fun s => s))
       "<ol><li>a<ol><li>b</li><li>c</li></ol></li><li>d</li></ol>"
     = "1. a1. b" +:+ nl +:+ "2. c" +:+ nl +:+ nl +:+ "3. d".
Proof.
  cbv zeta. split; [vm_compute; reflexivity |].
  split; [vm_compute; reflexivity |].
  split; [vm_compute; discriminate |].
  split; vm_compute; reflexivity.
Qed.

(** ** The sort key and the exception of [int] *)

Lemma convert_result_some (part : string) (k : KeyPart) :
  convert_result part = Some k -> convert part = k.
Proof.
  unfold convert_result, convert, Py.int.
  destruct (Py.isdigit part).
  - destruct (String.length part <=? Py.max_str_digits); [| discriminate].
    cbn [option_map]. intros [= <-]. reflexivity.
  - intros [= <-]. reflexivity.
Qed.

Lemma all_results_convert (parts : list string) (ks : list KeyPart) :
  all_results (List.map convert_result parts) = Some ks ->
  List.map convert parts = ks.
Proof.
  revert ks. induction parts as [| part parts IH]; intros ks.
  - cbn. intros [= <-]. reflexivity.
  - cbn [List.map all_results].
    destruct (convert_result part) as [k |] eqn:C; [| discriminate].
    destruct (all_results (List.map convert_result parts)) as [ks' |];
      [| discriminate].
    intros [= <-]. rewrite (convert_result_some part k C), (IH ks' eq_refl).
    reflexivity.
Qed.

(** When the call returns, its result is the key. *)
Lemma natural_sort_key_result_some (text : string) (k : list KeyPart) :
  natural_sort_key_result text = Some k -> natural_sort_key text = k.
Proof. apply all_results_convert. Qed.

Lemma convert_result_lower (part : string) :
  convert_result (Py.lower part) = convert_result part.
Proof.
  unfold convert_result. rewrite isdigit_lower.
  destruct (Py.isdigit part) eqn:D.
  - rewrite (lower_digits part D). reflexivity.
  - rewrite lower_idem. reflexivity.
Qed.

Lemma natural_sort_key_result_lower (text : string) :
  natural_sort_key_result (Py.lower text) = natural_sort_key_result text.
Proof.
  unfold natural_sort_key_result. rewrite split_lower.
  induction (Re.split re_digits text) as [| part parts IH]; [reflexivity |].
  cbn [List.map List.filter]. rewrite truthy_lower.
  destruct (Py.truthy part); cbn [List.map all_results]; rewrite IH;
    [| reflexivity].
  rewrite convert_result_lower. reflexivity.
Qed.

Lemma convert_result_text (p : string) :
  digit_free p = true -> convert_result p = Some (KText (Py.lower p)).
Proof.
  intros F. unfold convert_result. rewrite (digit_free_not_isdigit p F).
  reflexivity.
Qed.

Lemma natural_sort_key_result_text (p : string) :
  digit_free p = true -> natural_sort_key_result p = Some (text_part p).
Proof.
  intros F. unfold natural_sort_key_result, text_part. rewrite (split_text p F).
  cbn [List.filter]. destruct (Py.truthy p); [| reflexivity].
  cbn [List.map all_results]. rewrite (convert_result_text p F). reflexivity.
Qed.

Lemma natural_sort_key_result_number (p d r : string) :
  digit_free p = true -> Py.isdigit d = true -> no_leading_digit r = true ->
  natural_sort_key_result (p +:+ d +:+ r)
  = if String.length d <=? Py.max_str_digits
    then option_map (fun k => text_part p ++ KNum (Py.int_of_digits d) :: k)
                    (natural_sort_key_result r)
    else None.
Proof.
  intros F D R. unfold natural_sort_key_result at 1. unfold text_part.
  rewrite (split_number p d r F D R). cbn [List.filter].
  assert (Td : Py.truthy d = true)
    by (unfold Py.isdigit in D; apply andb_prop in D as [T _]; exact T).
  rewrite Td.
  assert (Cd : convert_result d = option_map KNum (Py.int d))
    by (unfold convert_result; rewrite D; reflexivity).
  fold (natural_sort_key_result r).
  destruct (Py.truthy p); cbn [List.map all_results app];
    rewrite ?(convert_result_text p F), Cd; unfold Py.int;
    destruct (String.length d <=? Py.max_str_digits); cbn [option_map];
    try reflexivity;
    change (all_results
              (List.map convert_result
                 (List.filter Py.truthy (Re.split re_digits r))))
      with (natural_sort_key_result r);
    destruct (natural_sort_key_result r); reflexivity.
Qed.

(** ** Whole documents in the folder sort *)

Lemma set_order_same (i : nat) (d : Document2) :
  d2_order d = i -> set_order i d = d.
Proof. destruct d. cbn. intros ->. reflexivity. Qed.

Lemma map_set_order_same (i : nat) (l : list Document2) :
  Forall (fun d => d2_order d = i) l -> List.map (set_order i) l = l.
Proof.
  induction 1 as [| d l H _ IH]; [reflexivity |].
  cbn. rewrite (set_order_same i d H), IH. reflexivity.
Qed.

Lemma set_order_reassign (i j : nat) (l : list Document2) :
  List.map (set_order i) (reassign_order j l) = List.map (set_order i) l.
Proof.
  revert j. induction l as [| d l IH]; intros j; [reflexivity |].
  cbn [reassign_order List.map]. rewrite IH. reflexivity.
Qed.

Lemma reassign_order_titles_Forall (P : string -> Prop) (i : nat)
      (l : list Document2) :
  Forall (fun d => P (d2_title d)) l ->
  Forall (fun d => P (d2_title d)) (reassign_order i l).
Proof.
  intros H. revert i. induction H as [| d l Hd _ IH]; intros i; cbn;
    constructor; [exact Hd | apply IH].
Qed.

(** Renumbering keeps a list sorted by title. *)
Lemma reassign_order_sorted (R : string -> string -> Prop) (i : nat)
      (l : list Document2) :
  StronglySorted (fun a b => R (d2_title a) (d2_title b)) l ->
  StronglySorted (fun a b => R (d2_title a) (d2_title b)) (reassign_order i l).
Proof.
  intros H. revert i. induction H as [| d l _ IH Hd]; intros i; cbn.
  - constructor.
  - constructor; [apply IH |].
    apply (reassign_order_titles_Forall (R (d2_title d))), Hd.
Qed.

Section WholeDocuments.

Variable uuid : nat -> string.
Variable feed : string -> FeedResult.
Variable docs_by_id : gmap string Document.
Variable trash_doc_ids : gset string.

Lemma convert_document_order (doc : Document) (order n : nat) :
  d2_order (fst (convert_document uuid feed doc order n)) = order.
Proof.
  unfold convert_document.
  destruct (html_to_blocknote uuid feed _ n) as [bs n1]. reflexivity.
Qed.

(** The loop over [documentIds] yields the conversions of the surviving
    records, one for one and in order. *)
Lemma convert_documents_converted (doc_ids : list string) (n : nat) :
  Forall2 (converted_from uuid feed)
          (fst (convert_documents uuid feed doc_ids docs_by_id trash_doc_ids n))
          (surviving_docs docs_by_id trash_doc_ids doc_ids).
Proof.
  revert n. induction doc_ids as [| doc_id ids IH]; intros n; simpl.
  - constructor.
  - unfold eligible.
    destruct (mem doc_id trash_doc_ids); simpl; [apply IH |].
    destruct (docs_by_id !! doc_id) as [doc |]; simpl; [| apply IH].
    destruct (doc_truthy doc); simpl; [| apply IH].
    destruct (inactive (doc_status doc)); simpl; [apply IH |].
    assert (C : converted_from uuid feed
                  (fst (convert_document uuid feed doc 0 n)) doc)
      by (exists n; reflexivity).
    destruct (convert_document uuid feed doc 0 n) as [d n1].
    specialize (IH n1).
    destruct (convert_documents uuid feed ids docs_by_id trash_doc_ids n1)
      as [ds n2].
    simpl in *. constructor; assumption.
Qed.

Lemma convert_documents_unordered (doc_ids : list string) (n : nat) :
  Forall (fun d => d2_order d = 0)
         (fst (convert_documents uuid feed doc_ids docs_by_id trash_doc_ids n)).
Proof.
  pose proof (convert_documents_converted doc_ids n) as H.
  induction H as [| d doc ds docs (m & ->) _ IH]; constructor; [| exact IH].
  apply convert_document_order.
Qed.

(** The documents of an output folder, as whole records. *)
Lemma convert_folder_documents_sorted (folder : Folder) (order n : nat)
      (f2 : Folder2) (n' : nat) :
  convert_folder uuid feed folder docs_by_id trash_doc_ids order n
  = (Some f2, n') ->
  let by_title := fun d : Document2 => natural_sort_key (d2_title d) in
  let converted :=
    fst (convert_documents uuid feed (folder_documentIds folder)
                           docs_by_id trash_doc_ids n) in
  List.map (set_order 0) (f2_documents f2) = sorted by_title key_lt converted
  /\ StronglySorted (not_after by_title key_lt) (f2_documents f2)
  /\ List.map d2_order (f2_documents f2) = seq 0 (length converted).
Proof.
  intros E by_title converted.
  destruct (convert_folder_cases uuid feed docs_by_id trash_doc_ids folder order n)
    as [[_ E'] | [_ (f2' & n'' & E' & D & _)]]; rewrite E' in E;
    [discriminate |].
  injection E as <- <-. fold by_title converted in D. rewrite D.
  split; [| split].
  - rewrite set_order_reassign. apply map_set_order_same.
    apply (Permutation_Forall (Permutation_sym (sorted_perm by_title key_lt converted))).
    apply convert_documents_unordered.
  - apply (reassign_order_sorted
             (fun s t => key_lt (natural_sort_key t) (natural_sort_key s) = false)).
    apply (sorted_sorted by_title key_lt key_lt_asym key_ge_trans).
  - rewrite reassign_order_orders, sorted_length. reflexivity.
Qed.

End WholeDocuments.

(** ** The structured conversion with its exception *)

Lemma all_results_returns {A : Type} (l : list (option A)) :
  match all_results l with Some _ => true | None => false end
  = forallb (fun o => match o with Some _ => true | None => false end) l.
Proof.
  induction l as [| [x |] l IH]; [reflexivity | | reflexivity].
  cbn [all_results forallb]. rewrite <- IH.
  destruct (all_results l); reflexivity.
Qed.

Lemma forallb_of_map {A B : Type} (f : A -> B) (p : B -> bool) (l : list A) :
  forallb p (List.map f l) = forallb (fun x => p (f x)) l.
Proof. induction l as [| x l IH]; [reflexivity |]. cbn. rewrite IH. reflexivity. Qed.

Lemma forallb_perm {A : Type} (p : A -> bool) (l1 l2 : list A) :
  Permutation l1 l2 -> forallb p l1 = forallb p l2.
Proof.
  induction 1 as [| x l1 l2 _ IH | x y l | l1 l2 l3 _ IH1 _ IH2]; cbn.
  - reflexivity.
  - rewrite IH. reflexivity.
  - destruct (p x), (p y); reflexivity.
  - congruence.
Qed.

Section ConversionResult.

Variable uuid : nat -> string.
Variable feed : string -> FeedResult.
Variable docs_by_id : gmap string Document.
Variable trash_doc_ids : gset string.
Variable trash_folder_ids : gset string.

(** The keys the sort computes are those of the titles of the surviving
    records. *)
Lemma sort_keys_return (doc_ids : list string) (n : nat) :
  match all_results
          (List.map (fun d => natural_sort_key_result (d2_title d))
             (fst (convert_documents uuid feed doc_ids docs_by_id trash_doc_ids n)))
  with Some _ => true | None => false end
  = forallb (fun doc => key_returns (clean_title doc))
            (surviving_docs docs_by_id trash_doc_ids doc_ids).
Proof.
  rewrite all_results_returns.
  rewrite <- (map_map d2_title natural_sort_key_result).
  rewrite convert_documents_titles, map_map, forallb_of_map. reflexivity.
Qed.

(** [convert_folder] raises exactly when its sort does, and returns the
    folder of [convert_folder] otherwise. *)
Lemma convert_folder_result_cases (folder : Folder) (order n : nat) :
  convert_folder_result uuid feed folder docs_by_id trash_doc_ids order n
  = if sort_returns docs_by_id trash_doc_ids folder
    then Some (convert_folder uuid feed folder docs_by_id trash_doc_ids order n)
    else None.
Proof.
  unfold convert_folder_result, convert_folder, sort_returns.
  rewrite <- (sort_keys_return (folder_documentIds folder) n).
  destruct (convert_documents uuid feed (folder_documentIds folder)
                              docs_by_id trash_doc_ids n) as [ds n1].
  cbn [fst]. destruct ds as [| d ds]; [reflexivity |].
  destruct (all_results _); reflexivity.
Qed.

Lemma convert_folder_result_some (folder : Folder) (order n : nat)
      (r : option Folder2 * nat) :
  convert_folder_result uuid feed folder docs_by_id trash_doc_ids order n = Some r ->
  convert_folder uuid feed folder docs_by_id trash_doc_ids order n = r.
Proof.
  rewrite convert_folder_result_cases.
  destruct (sort_returns docs_by_id trash_doc_ids folder); [| discriminate].
  intros [= <-]. reflexivity.
Qed.

Lemma convert_folders_result_cases (fs : list Folder) (folder_order n : nat) :
  convert_folders_result uuid feed fs docs_by_id trash_doc_ids trash_folder_ids
                         folder_order n
  = if forallb (sort_returns docs_by_id trash_doc_ids)
               (List.filter (folder_kept trash_folder_ids) fs)
    then Some (convert_folders uuid feed fs docs_by_id trash_doc_ids
                               trash_folder_ids folder_order n)
    else None.
Proof.
  revert folder_order n.
  induction fs as [| folder fs IH]; intros folder_order n; [reflexivity |].
  cbn [convert_folders_result convert_folders List.filter].
  unfold folder_kept at 1. unfold not_trashed.
  destruct (mem (get (folder_id folder) EmptyString) trash_folder_ids);
    cbn [negb andb]; [apply IH |].
  destruct (inactive (folder_status folder)); cbn [negb]; [apply IH |].
  cbn [forallb]. rewrite convert_folder_result_cases.
  destruct (sort_returns docs_by_id trash_doc_ids folder); cbn [andb];
    [| reflexivity].
  destruct (convert_folder uuid feed folder docs_by_id trash_doc_ids
                           folder_order n) as [[f2 |] n1].
  - rewrite IH.
    destruct (forallb _ _); [| reflexivity].
    destruct (convert_folders uuid feed fs docs_by_id trash_doc_ids
                              trash_folder_ids (S folder_order) n1) as [cfs n2].
    reflexivity.
  - apply IH.
Qed.

End ConversionResult.

(** The structured conversion raises exactly when the sort of a folder
    that passes the folder filter does, and returns the project of
    [convert_schema1_to_schema2] otherwise. *)
Lemma convert_schema1_to_schema2_result_cases (uuid : nat -> string)
      (feed : string -> FeedResult) (data : Schema1) (n : nat) :
  convert_schema1_to_schema2_result uuid feed data n
  = if conversion_returns data
    then Some (convert_schema1_to_schema2 uuid feed data n)
    else None.
Proof.
  unfold convert_schema1_to_schema2_result, convert_schema1_to_schema2,
    conversion_returns.
  rewrite convert_folders_result_cases.
  assert (P : forallb (sort_returns (documentsById data)
                         (set_of (trash_documentIds (trash data))))
                (List.filter (folder_kept (set_of (trash_folderIds (trash data))))
                             (sort_folders (folders data)))
              = forallb (sort_returns (documentsById data)
                           (set_of (trash_documentIds (trash data))))
                  (List.filter (folder_kept (set_of (trash_folderIds (trash data))))
                               (folders data))).
  { apply forallb_perm. unfold sort_folders.
    rewrite (filter_sorted _ _ Z_ltb_asym Z_ge_trans). apply sorted_perm. }
  rewrite P. clear P. destruct (forallb _ _); [| reflexivity].
  destruct (convert_folders uuid feed _ _ _ _ 0 n) as [cfs n1]. reflexivity.
Qed.

(** C6. Structured target: when [convert_folder] returns a folder, its
    documents are the conversions of the surviving records, as whole
    records (title, content and word count together), put in the order of
    the stable sort by [natural_sort_key] of the title: with the [order]
    field put aside they are a permutation of the converted documents,
    they are sorted for the key, and the [order] fields count 0, 1, 2, ...
    along the list.  The call raises instead ([ValueError] of [int]) exactly
    when a title to be sorted has a run of more than 4300 digits, and the
    whole conversion with it.  The key puts a text segment before a
    number, compares numbers by value and text in lower case, so that
    titles that differ only in letter case have the same key; sample:
    Chapter 1, Chapter 2, Chapter 10.  Archive target: the entries of a
    folder are its directory entry followed by one file per surviving
    document in the order of [documentIds]. *)
Theorem documents_in_natural_order :
  forall (uuid : nat -> string) (feed : string -> FeedResult)
         (data : Schema1) (n : nat),
    let docs_by_id := documentsById data in
    let trash_doc_ids := set_of (trash_documentIds (trash data)) in
    let trash_folder_ids := set_of (trash_folderIds (trash data)) in
    let by_title := fun d : Document2 => natural_sort_key (d2_title d) in
    (forall folder order m f2 m',
       convert_folder_result uuid feed folder docs_by_id trash_doc_ids order m
         = Some (Some f2, m') ->
       let survivors :=
         surviving_docs docs_by_id trash_doc_ids (folder_documentIds folder) in
       let converted :=
         fst (convert_documents uuid feed (folder_documentIds folder)
                                docs_by_id trash_doc_ids m) in
       Forall2 (converted_from uuid feed) converted survivors
       /\ List.map (set_order 0) (f2_documents f2)
          = sorted by_title key_lt converted
       /\ Permutation (List.map (set_order 0) (f2_documents f2)) converted
       /\ StronglySorted (not_after by_title key_lt) (f2_documents f2)
       /\ List.map d2_order (f2_documents f2) = seq 0 (length survivors))
    /\ (forall folder order m,
          convert_folder_result uuid feed folder docs_by_id trash_doc_ids order m
            = None
          <-> exists doc,
                In doc (surviving_docs docs_by_id trash_doc_ids
                                       (folder_documentIds folder))
                /\ natural_sort_key_result (clean_title doc) = None)
    /\ (forall p n',
          convert_schema1_to_schema2_result uuid feed data n = Some (p, n') ->
          Forall (fun f2 =>
                    StronglySorted (not_after by_title key_lt) (f2_documents f2)
                    /\ List.map d2_order (f2_documents f2)
                       = seq 0 (length (f2_documents f2)))
                 (p_folders p))
    /\ (convert_schema1_to_schema2_result uuid feed data n = None
        <-> conversion_returns data = false)
    /\ sorted natural_sort_key key_lt ["Chapter 10"; "Chapter 2"; "Chapter 1"]
       = ["Chapter 1"; "Chapter 2"; "Chapter 10"]
    /\ (forall s k, key_lt [KText s] [KNum k] = true
                    /\ key_lt [KNum k] [KText s] = false)
    /\ (forall j k, key_lt [KNum j] [KNum k] = (j <? k)%N)
    /\ natural_sort_key_result "CHAPTER 10 Part B"
       = Some [KText "chapter "; KNum 10; KText " part b"]
    /\ (forall title,
          natural_sort_key_result (Py.lower title) = natural_sort_key_result title)
    /\ (forall title k,
          natural_sort_key_result title = Some k -> natural_sort_key title = k)
    /\ fst (convert_schema1_to_zip feed data)
       = flat_map (fun f => if folder_kept trash_folder_ids f
                            then folder_entries feed docs_by_id trash_doc_ids f
                            else [])
                  (sort_folders (folders data)).
Proof.
  intros uuid feed data n docs_by_id trash_doc_ids trash_folder_ids by_title.
  split; [| split; [| split; [| split; [| split; [| split; [| split;
    [| split; [| split; [| split]]]]]]]]].
  - intros folder order m f2 m' E survivors converted.
    apply convert_folder_result_some in E.
    destruct (convert_folder_documents_sorted uuid feed docs_by_id trash_doc_ids
                folder order m f2 m' E) as (S & SS & O).
    fold by_title converted in S, SS, O.
    split; [apply convert_documents_converted |].
    split; [exact S |].
    split; [rewrite S; apply sorted_perm |].
    split; [exact SS |].
    rewrite O. unfold converted, survivors.
    rewrite convert_documents_length. reflexivity.
  - intros folder order m. rewrite convert_folder_result_cases.
    unfold sort_returns, key_returns.
    set (docs := surviving_docs docs_by_id trash_doc_ids
                                (folder_documentIds folder)).
    destruct (forallb _ docs) eqn:A.
    + split; [discriminate |]. intros (doc & I & N).
      rewrite forallb_forall in A. specialize (A doc I).
      rewrite N in A. discriminate A.
    + split; [intros _ | reflexivity].
      apply not_true_iff_false in A. rewrite forallb_forall in A.
      induction docs as [| doc docs IH].
      * exfalso. apply A. intros x [].
      * destruct (natural_sort_key_result (clean_title doc)) eqn:N.
        -- destruct IH as (doc' & I & N').
           ++ intros H. apply A. intros x [<- | I]; [rewrite N; reflexivity |].
              apply H, I.
           ++ exists doc'. split; [right; exact I | exact N'].
        -- exists doc. split; [left; reflexivity | exact N].
  - intros p n' E. rewrite convert_schema1_to_schema2_result_cases in E.
    destruct (conversion_returns data); [| discriminate].
    assert (Ep : p = fst (convert_schema1_to_schema2 uuid feed data n))
      by (injection E as E; rewrite E; reflexivity).
    subst p. clear E. unfold convert_schema1_to_schema2.
    pose proof (convert_folders_Forall uuid feed docs_by_id trash_doc_ids
                  trash_folder_ids
                  (fun f2 =>
                     StronglySorted (not_after by_title key_lt) (f2_documents f2)
                     /\ List.map d2_order (f2_documents f2)
                        = seq 0 (length (f2_documents f2)))
                  (sort_folders (folders data)) 0 n) as F.
    fold docs_by_id trash_doc_ids trash_folder_ids.
    destruct (convert_folders uuid feed _ docs_by_id trash_doc_ids
                              trash_folder_ids 0 n) as [cfs n1].
    cbn [fst p_folders] in *. apply F.
    intros folder order m f2 m' E.
    destruct (convert_folder_documents_sorted uuid feed docs_by_id trash_doc_ids
                folder order m f2 m' E) as (_ & SS & O).
    split; [exact SS |].
    rewrite O. rewrite <- (length_map d2_order (f2_documents f2)), O, length_seq.
    reflexivity.
  - rewrite convert_schema1_to_schema2_result_cases.
    destruct (conversion_returns data); split; (discriminate || reflexivity).
  - vm_compute. reflexivity.
  - intros s k. split; reflexivity.
  - intros j k. unfold key_lt, N.ltb. simpl.
    destruct (j ?= k)%N; reflexivity.
  - vm_compute. reflexivity.
  - exact natural_sort_key_result_lower.
  - exact natural_sort_key_result_some.
  - apply zip_entries.
Qed.

(** A folder with three chapters listed in the order 10, 2, 1, of three,
    two and one word: each title keeps its word count.  With a chapter
    whose number has 4301 digits the call raises. *)
Lemma documents_in_natural_order_witness :
  let doc t c := {| doc_id := None; doc_title := Some t; doc_content := Some c;
                    doc_status := None; doc_summary := None |} in
  let folder ids := {| folder_id := Some "f1"; folder_title := Some "Book";
                       folder_sort := None; folder_status := None;
                       folder_documentIds := ids |} in
  let data := {| s1_title := None;
                 documentsById :=
                   {["a" := doc "Chapter 10" "<p>one two three</p>";
                     "b" := doc "chapter 2.md" "<p>one two</p>";
                     "c" := doc "Chapter 1" "<p>one</p>";
                     "z" := doc ("Chapter " +:+ Py.repeat_char "9" 4301)
                                "<p>one</p>"]};
                 folders := [folder ["a"; "b"; "c"]];
                 trash := {| trash_documentIds := []; trash_folderIds := [] |} |} in
  match convert_folder_result Py.str_of_nat (HTMLParser.feed (fun s => s))
                              (folder ["a"; "b"; "c"])
                              (documentsById data) (set_of []) 0 0 with
  | Some (Some f2, _) =>
      List.map (fun d => (d2_title d, d2_word_count d))
               (List.map (set_order 0) (f2_documents f2))
      = [("Chapter 1", 1); ("chapter 2", 2); ("Chapter 10", 3)]
      /\ List.map d2_order (f2_documents f2) = [0; 1; 2]
  | _ => False
  end
  /\ convert_folder_result Py.str_of_nat (HTMLParser.feed (fun s => s))
                           (folder ["a"; "z"])
                           (documentsById data) (set_of []) 0 0 = None.
Proof.
  intros doc folder data. split.
  - destruct (convert_folder_result Py.str_of_nat (HTMLParser.feed (fun s => s))
                (folder ["a"; "b"; "c"]) (documentsById data) (set_of []) 0 0)
      as [[[f2 |] m'] |] eqn:E.
    + destruct (proj1 (documents_in_natural_order Py.str_of_nat
                         (HTMLParser.feed (fun s => s)) data 0)
                      (folder ["a"; "b"; "c"]) 0 0 f2 m' E)
        as (_ & S & _ & _ & O).
      split.
      * rewrite S. vm_compute. reflexivity.
      * rewrite O. vm_compute. reflexivity.
    + vm_compute in E. discriminate E.
    + vm_compute in E. discriminate E.
  - apply (proj2 (proj1 (proj2 (documents_in_natural_order Py.str_of_nat
                                  (HTMLParser.feed (fun s => s)) data 0))
                        (folder ["a"; "z"]) 0 0)).
    exists (doc ("Chapter " +:+ Py.repeat_char "9" 4301) "<p>one</p>").
    split; [vm_compute; right; left; reflexivity | vm_compute; reflexivity].
Defined.

(** X15. Structured target: within a folder that [convert_folder] returns,
    documents whose titles have the same sort key (titles that differ in
    letter case or in leading zeros of a number, or are the same) keep the
    order of [documentIds], as whole records: the documents with a given
    key, their [order] field put aside, are the converted surviving
    records with that key in the order of the ids. *)
Theorem equal_keys_keep_document_order :
  forall (uuid : nat -> string) (feed : string -> FeedResult)
         (docs_by_id : gmap string Document) (trash_doc_ids : gset string)
         (folder : Folder) (order n : nat) (f2 : Folder2) (n' : nat)
         (k : list KeyPart),
    convert_folder_result uuid feed folder docs_by_id trash_doc_ids order n
    = Some (Some f2, n') ->
    let converted :=
      fst (convert_documents uuid feed (folder_documentIds folder)
                             docs_by_id trash_doc_ids n) in
    Forall2 (converted_from uuid feed) converted
            (surviving_docs docs_by_id trash_doc_ids (folder_documentIds folder))
    /\ with_key k (List.map (set_order 0) (f2_documents f2))
       = with_key k converted.
Proof.
  intros uuid feed docs_by_id trash_doc_ids folder order n f2 n' k E converted.
  apply convert_folder_result_some in E.
  split; [apply convert_documents_converted |].
  destruct (convert_folder_documents_sorted uuid feed docs_by_id trash_doc_ids
              folder order n f2 n' E) as (S & _ & _).
  fold converted in S. rewrite S. unfold with_key.
  apply (sorted_stable (fun d : Document2 => natural_sort_key (d2_title d)) key_lt
           key_lt_asym key_ge_trans).
  intros x y Hx Hy.
  rewrite (same_key_eq k _ Hx), (same_key_eq k _ Hy). apply key_lt_irrefl.
Qed.

(** Three documents with the key of [chapter 1], of one, two and three
    words, listed behind a second chapter. *)
Lemma equal_keys_keep_document_order_witness :
  let doc t c := {| doc_id := None; doc_title := Some t; doc_content := Some c;
                    doc_status := None; doc_summary := None |} in
  let folder := {| folder_id := Some "f1"; folder_title := Some "Book";
                   folder_sort := None; folder_status := None;
                   folder_documentIds := ["a"; "b"; "c"; "d"] |} in
  let docs : gmap string Document :=
    {["a" := doc "Chapter 2" "<p>w</p>"; "b" := doc "chapter 01" "<p>x</p>";
      "c" := doc "CHAPTER 1" "<p>y y</p>";
      "d" := doc "Chapter 001.md" "<p>z z z</p>"]} in
  match convert_folder_result Py.str_of_nat (HTMLParser.feed (fun s => s)) folder
                              docs (set_of []) 0 0 with
  | Some (Some f2, _) =>
      List.map (fun d => (d2_title d, d2_word_count d))
               (with_key [KText "chapter "; KNum 1]
                         (List.map (set_order 0) (f2_documents f2)))
      = [("chapter 01", 1); ("CHAPTER 1", 2); ("Chapter 001", 3)]
  | _ => False
  end.
Proof.
  intros doc folder docs.
  destruct (convert_folder_result Py.str_of_nat (HTMLParser.feed (fun s => s))
                                  folder docs (set_of []) 0 0)
    as [[[f2 |] m'] |] eqn:E.
  - rewrite (proj2 (equal_keys_keep_document_order
                      Py.str_of_nat (HTMLParser.feed (fun s => s)) docs (set_of [])
                      folder 0 0 f2 m' [KText "chapter "; KNum 1] E)).
    vm_compute. reflexivity.
  - vm_compute in E. discriminate E.
  - vm_compute in E. discriminate E.
Defined.

(** X17. The call [natural_sort_key(title)] (ASCII text), piece by piece.
    A text without digits gives one text part in lower case (none when
    empty).  Text, then one run of digits, then a rest that does not start
    with a digit: when the run has more than 4300 digits the call raises
    [ValueError]; otherwise it gives the text part, the number, and the key
    of the rest, and raises when the call on the rest does.  Whenever the
    call returns, its result is [natural_sort_key]. *)
Theorem sort_key_of_text_and_numbers :
  (forall p, digit_free p = true -> natural_sort_key_result p = Some (text_part p))
  /\ (forall p d r,
        digit_free p = true -> Py.isdigit d = true ->
        no_leading_digit r = true ->
        natural_sort_key_result (p +:+ d +:+ r)
        = if String.length d <=? Py.max_str_digits
          then option_map (fun k => text_part p ++ KNum (Py.int_of_digits d) :: k)
                          (natural_sort_key_result r)
          else None)
  /\ (forall p d r,
        digit_free p = true -> Py.isdigit d = true ->
        no_leading_digit r = true ->
        4300 < String.length d ->
        natural_sort_key_result (p +:+ d +:+ r) = None)
  /\ (forall text k,
        natural_sort_key_result text = Some k -> natural_sort_key text = k).
Proof.
  split; [exact natural_sort_key_result_text |].
  split; [exact natural_sort_key_result_number |].
  split; [| exact natural_sort_key_result_some].
  intros p d r F D R L.
  rewrite (natural_sort_key_result_number p d r F D R).
  assert (G : (String.length d <=? Py.max_str_digits) = false)
    by (apply Nat.leb_gt; exact L).
  rewrite G. reflexivity.
Qed.

Lemma sort_key_of_text_and_numbers_witness :
  natural_sort_key_result ("Part " +:+ "007" +:+ ": Bond")
  = Some [KText "part "; KNum 7; KText ": bond"].
Proof.
  rewrite (proj1 (proj2 sort_key_of_text_and_numbers) "Part " "007" ": Bond"
                 eq_refl eq_refl eq_refl).
  vm_compute. reflexivity.
Defined.

(** X18. Natural order: of two titles that start with the same text
    without digits, followed by a number, the one with the smaller number
    sorts first, whatever follows the numbers, provided the key function
    returns on both titles (it raises on a run of more than 4300
    digits). *)
Theorem numbers_sort_by_value :
  forall (p d1 d2 r1 r2 : string) (k1 k2 : list KeyPart),
    digit_free p = true ->
    Py.isdigit d1 = true -> Py.isdigit d2 = true ->
    no_leading_digit r1 = true -> no_leading_digit r2 = true ->
    (Py.int_of_digits d1 < Py.int_of_digits d2)%N ->
    natural_sort_key_result (p +:+ d1 +:+ r1) = Some k1 ->
    natural_sort_key_result (p +:+ d2 +:+ r2) = Some k2 ->
    key_lt k1 k2 = true /\ key_lt k2 k1 = false.
Proof.
  intros p d1 d2 r1 r2 k1 k2 F D1 D2 R1 R2 L K1 K2.
  apply natural_sort_key_result_some in K1, K2. subst k1 k2.
  rewrite (natural_sort_key_number p d1 r1 F D1 R1).
  rewrite (natural_sort_key_number p d2 r2 F D2 R2).
  assert (Lt : key_lt (text_part p ++ KNum (Py.int_of_digits d1)
                                   :: natural_sort_key r1)
                      (text_part p ++ KNum (Py.int_of_digits d2)
                                   :: natural_sort_key r2) = true).
  { unfold key_lt. rewrite key_compare_prefix. cbn [key_compare part_compare].
    apply N.compare_lt_iff in L. rewrite L. reflexivity. }
  split; [exact Lt | apply key_lt_asym, Lt].
Qed.

Lemma numbers_sort_by_value_witness :
  key_lt [KText "chapter "; KNum 9; KText " - end"] [KText "chapter "; KNum 10]
  = true
  /\ key_lt [KText "chapter "; KNum 10] [KText "chapter "; KNum 9; KText " - end"]
     = false.
Proof.
  exact (numbers_sort_by_value "Chapter " "9" "10" " - End" EmptyString
           [KText "chapter "; KNum 9; KText " - end"] [KText "chapter "; KNum 10]
           eq_refl eq_refl eq_refl eq_refl eq_refl eq_refl eq_refl eq_refl).
Defined.

(** X19. Natural order: a zero written before a number of fewer than 4300
    digits does not change what [natural_sort_key] gives, so titles that
    differ only in such leading zeros tie (and keep their input order).
    Before a number of exactly 4300 digits the zero makes the call raise
    [ValueError], where without the zero it returns whenever the call on
    the rest of the title does. *)
Theorem leading_zeros_do_not_count :
  forall p d r : string,
    digit_free p = true -> Py.isdigit d = true ->
    no_leading_digit r = true ->
    (String.length d < Py.max_str_digits ->
     natural_sort_key_result (p +:+ String "0" d +:+ r)
     = natural_sort_key_result (p +:+ d +:+ r))
    /\ (String.length d = Py.max_str_digits ->
        natural_sort_key_result (p +:+ String "0" d +:+ r) = None
        /\ natural_sort_key_result (p +:+ d +:+ r)
           = option_map (fun k => text_part p ++ KNum (Py.int_of_digits d) :: k)
                        (natural_sort_key_result r)).
Proof.
  intros p d r F D R.
  rewrite (natural_sort_key_result_number p (String "0" d) r F (isdigit_zero d D) R).
  rewrite (natural_sort_key_result_number p d r F D R).
  rewrite int_of_digits_zero. cbn [String.length].
  split.
  - intros L.
    assert (L1 : (S (String.length d) <=? Py.max_str_digits) = true)
      by (apply Nat.leb_le; exact L).
    assert (L2 : (String.length d <=? Py.max_str_digits) = true)
      by (apply Nat.leb_le, Nat.lt_le_incl; exact L).
    rewrite L1, L2. reflexivity.
  - intros L. rewrite L.
    assert (L1 : (S Py.max_str_digits <=? Py.max_str_digits) = false)
      by (apply Nat.leb_gt, Nat.lt_succ_diag_r).
    rewrite L1, Nat.leb_refl. split; reflexivity.
Qed.

(** A chapter number written with and without a zero; and the number made
    of 4300 nines, on which the zero makes [int] raise. *)
Lemma leading_zeros_do_not_count_witness :
  natural_sort_key_result ("Chapter " +:+ String "0" "7" +:+ ".md")
  = natural_sort_key_result ("Chapter " +:+ "7" +:+ ".md")
  /\ natural_sort_key_result
       ("Chapter " +:+ String "0" (Py.repeat_char "9" 4300) +:+ ".md") = None
  /\ natural_sort_key_result
       ("Chapter " +:+ Py.repeat_char "9" 4300 +:+ ".md")
     = Some [KText "chapter ";
             KNum (Py.int_of_digits (Py.repeat_char "9" 4300)); KText ".md"].
Proof.
  split.
  - apply (proj1 (leading_zeros_do_not_count "Chapter " "7" ".md"
                    eq_refl eq_refl eq_refl)).
    apply Nat.ltb_lt. vm_compute. reflexivity.
  - assert (D : Py.isdigit (Py.repeat_char "9" 4300) = true)
      by (vm_compute; reflexivity).
    assert (L : String.length (Py.repeat_char "9" 4300) = Py.max_str_digits)
      by (vm_compute; reflexivity).
    destruct (proj2 (leading_zeros_do_not_count
                       "Chapter " (Py.repeat_char "9" 4300) ".md"
                       eq_refl D eq_refl) L) as [Z N].
    split; [exact Z |]. rewrite N. reflexivity.
Defined.

(** ** The keys of the output record *)

(** C8. The output record always has the key [number_of_chapters]: the dict literal writes its ten keys on every
    path.  The key holds the total number of documents in the output
    folders when that number is positive, and [None] (the JSON [null])
    when it is zero.  The total is the number of surviving document
    references of the folders that pass the folder filter. *)
Theorem number_of_chapters_is_always_written :
  forall (uuid : nat -> string) (feed : string -> FeedResult)
         (data : Schema1) (n : nat),
    let p := fst (convert_schema1_to_schema2 uuid feed data n) in
    let total :=
      list_sum (List.map (fun f => length (f2_documents f)) (p_folders p)) in
    List.map fst (project_dict p)
    = ["title"; "author"; "author_pen_name"; "description"; "genre";
       "number_of_chapters"; "story_hook"; "story_pitch"; "status"; "folders"]
    /\ dict_get "number_of_chapters" (project_dict p)
       = Some (if 0 <? total then JInt total else JNull)
    /\ number_of_chapters p = (if 0 <? total then Some total else None)
    /\ (forall k, number_of_chapters p = Some k <-> k = total /\ 0 < total)
    /\ (number_of_chapters p = None <-> total = 0)
    /\ total
       = list_sum
           (List.map
              (fun f => length (surviving_docs (documentsById data)
                                  (set_of (trash_documentIds (trash data)))
                                  (folder_documentIds f)))
              (List.filter (folder_kept (set_of (trash_folderIds (trash data))))
                           (folders data))).
Proof.
  intros uuid feed data n p total.
  assert (Hn : number_of_chapters p = (if 0 <? total then Some total else None)).
  { subst total p. unfold convert_schema1_to_schema2.
    destruct (convert_folders uuid feed _ _ _ _ 0 n) as [cfs n1]. reflexivity. }
  split; [reflexivity |].
  split; [| split; [exact Hn | split; [| split]]].
  - change (dict_get "number_of_chapters" (project_dict p))
      with (Some (json_of_option JInt (number_of_chapters p))).
    rewrite Hn. destruct (0 <? total); reflexivity.
  - intros k. rewrite Hn. destruct (Nat.ltb_spec 0 total) as [L | L].
    + split; [intros [= <-]; auto | intros [-> _]; reflexivity].
    + split; [discriminate | intros [_ L']; lia].
  - rewrite Hn. destruct (Nat.ltb_spec 0 total) as [L | L].
    + split; [discriminate | lia].
    + split; [lia | reflexivity].
  - subst total p. unfold convert_schema1_to_schema2.
    pose proof (convert_folders_total uuid feed (documentsById data)
                  (set_of (trash_documentIds (trash data)))
                  (set_of (trash_folderIds (trash data)))
                  (sort_folders (folders data)) 0 n) as T.
    destruct (convert_folders uuid feed _ _ _ _ 0 n) as [cfs n1].
    cbn [fst p_folders] in *. rewrite T.
    apply list_sum_perm, Permutation_map.
    unfold sort_folders.
    rewrite (filter_sorted _ _ Z_ltb_asym Z_ge_trans).
    apply sorted_perm.
Qed.

(** C8: the key is not absent when the total is zero.  On a project
    without a surviving document the key [number_of_chapters] is in the
    output record, holding [None], like the keys [author] and [genre].  The
    project below has one folder whose only document is in the trash. *)
Lemma number_of_chapters_null_is_not_absent :
  let doc := {| doc_id := Some "d1"; doc_title := Some "Chapter 1";
                doc_content := Some "<p>text</p>"; doc_status := None;
                doc_summary := None |} in
  let folder := {| folder_id := Some "f1"; folder_title := Some "Book";
                   folder_sort := None; folder_status := None;
                   folder_documentIds := ["d1"] |} in
  let data := {| s1_title := Some "My Book";
                 documentsById := {["d1" := doc]};
                 folders := [folder];
                 trash := {| trash_documentIds := ["d1"];
                             trash_folderIds := [] |} |} in
  let p := fst (convert_schema1_to_schema2 Py.str_of_nat
                  (HTMLParser.feed (fun s => s)) data 0) in
  list_sum (List.map (fun f => length (f2_documents f)) (p_folders p)) = 0
  /\ dict_get "number_of_chapters" (project_dict p) = Some JNull
  /\ dict_get "number_of_chapters" (project_dict p) <> None
  /\ In "number_of_chapters" (List.map fst (project_dict p))
  /\ project_dict p
     = [("title", JStr "My_Book"); ("author", JNull);
        ("author_pen_name", JNull); ("description", JNull); ("genre", JNull);
        ("number_of_chapters", JNull); ("story_hook", JNull);
        ("story_pitch", JNull); ("status", JStr "draft"); ("folders", JList [])].
Proof.
  cbv zeta. split; [vm_compute; reflexivity |].
  split; [vm_compute; reflexivity |].
  split; [vm_compute; discriminate |].
  split; [vm_compute; tauto |].
  vm_compute. reflexivity.
Qed.
